(* ===== verification/_CoqProject ===== *)
-Q . S2P
Prelude.v
PyVal.v
PyInt.v
FloatRepr.v
PyStr.v
Clock.v
ClockOrder.v
Store.v
Trace.v
Wf.v
Phase1.v
Velocity.v
Phase2.v
Health.v
Cli.v
Typed.v
Lifecycle.v
HealthTyped.v
Files.v
Replay.v
Output.v
