(* ===== verification/Prelude.v ===== *)
(** * A verification development of proactive-tasks (task manager scripts)

    The program is two Python command-line scripts that operate on one
    JSON store of goals and tasks ([data/tasks.json]):
    - [src/scripts/task_manager_phase1.py]: progress, blocking, time
      logging, recurring tasks and velocity (no write-ahead log);
    - [src/scripts/task_manager_phase2.py]: progress and time logging with a
      write-ahead log (WAL), blocking, the health check that repairs broken
      records, the working buffer, its flush and the session snapshot.
    Each invocation of a script is one command: it loads the store, looks the
    task up, mutates the in-memory dictionaries in place, saves the whole
    store and prints a result, or prints an error and exits with status 1.
    The scripts share nothing but the files: a phase 2 health check may
    leave a task that phase 1 then reads.

    Layout of the library (in dependency order, as in _CoqProject):
    - [Prelude] (this file): Python exceptions [exn], the fallible result
      type [outcome] with its bind [let?], the state-and-exception monad
      [M S A] with its bind [let*], their laws, the tactics ([mstep],
      [simpl_lookup]) and the hint databases [pytask], [pytask_rw].
    - [PyVal]: the JSON values a task dictionary holds ([val]: None, bool,
      int as [Z], float as Rocq's primitive IEEE-754 binary64, str, list,
      dict) and the Python builtins the scripts apply to them: [d.get],
      [d[k]], [k in d], truthiness, [==], [<]/[>], [+], [-], [*], true
      division [/], [round(x, n)] and [int(x)].  CPython's int/int division
      and float rounding are correctly rounded, and are modelled so with
      exact integer arithmetic; an int too large for a float raises
      OverflowError.
    - [PyInt]: [int(s)] of an argument string (whitespace, sign, digits
      and underscores, ValueError otherwise).
    - [FloatRepr]: [repr()] of a float, CPython's shortest decimal that
      reads back as the same binary64, found by exact integer arithmetic,
      in the fixed or exponent notation of [format_float_short].
    - [PyStr]: text as UTF-8 bytes; [str()], [repr()] and [json.dumps] of
      a value (with [ensure_ascii] escapes); [str.split] on one character;
      the universal-newline translation of a text-mode read.
    - [Clock]: [datetime.now(timezone.utc)] as microseconds since the epoch,
      [isoformat()], [isoformat() + "Z"] ([iso_z]), [strftime("%Y-%m-%d")],
      [timedelta] addition and [str.split("T")[0]].
    - [ClockOrder]: the order of the timestamp strings.  The calendar
      conversion [civil_from_days] is increasing over all the integers
      (decomposed into 400-year eras, whose 400 year boundaries are
      checked by evaluation), the dates of Python's datetime range have
      four-digit years, and so comparing [isoformat()] strings, as check 5
      of the health check does, compares the instants.
    - [Store]: the file system (tasks.json, its backup, and the text of
      the WAL files, the working buffer, the session snapshot and the daily
      memory files), the
      clock and the uuid source as a [world] record threaded through the
      monad, with the ordered [w_trace] of writes and prints; [load_data]
      of both scripts ([load_data1], [load_data2]), [save_data],
      [find_task_by_id], [find_goal_by_id], [generate_id]; a Hoare logic
      [triple Inv m Q] over runs and its generator [vcg]; [eval_simpl],
      which runs a handler symbolically on a task whose keys are known.
    - [Trace]: a logic [ttriple] of the events a run appends, and the
      WAL-first order [wal_before_save] of a sequence of events.
    - [Wf]: the store invariant [data_wf] (progress an int in 0..100, a
      completed task stamped, a blocked task with a reason string), its
      Hoare logic [wtriple] and the editing rules.
    - [Phase1]: every command of task_manager_phase1.py but show_velocity
      ([mark_progress], [mark_blocked], [unblock_task], [log_time],
      [create_recurring], [next_recurring]), their runs and theorems.
    - [Velocity]: [show_velocity] of task_manager_phase1.py.
    - [Phase2]: [log_to_wal], [append_to_buffer], [update_session_state],
      [flush_working_buffer] and the commands [mark_progress2],
      [log_time2], [mark_blocked2] of task_manager_phase2.py, with the text
      each writes: a WAL line [json.dumps(wal_entry) + "\n"], a buffer
      entry, the SESSION-STATE.md template, the daily section.
    - [Health]: [health_check] of task_manager_phase2.py, one definition
      per check ([check_orphaned], [check_progress], [check_completed_at],
      [check_anomaly], [check_future]) composed by [check_task], and the
      counts of its WAL entry.
    - [Cli]: the phase 1 dispatcher [run1] on the argument strings, the
      phase 2 [__main__] block [main2] on [sys.argv] ([parse2] then
      [run2]), and the relation [reach1] of the worlds sequences of phase
      1 commands reach.
    - [Typed]: the field types of the data model as a schema
      ([task_schema], [task_typed]), one invocation of either script
      ([invoke]) and the worlds any sequence of them reaches ([reach]).
      [Wf]'s Hoare rules are stated for any per-task predicate
      ([data_ok P]); [data_wf] and [data_typed] are two instances.
    - [Lifecycle]: [eventually], the worlds from which some sequence of
      invocations reaches a property, and the completion of any task.
    - [HealthTyped]: the exceptions the health check can raise on a
      well-typed store.
    - [Files]: invariants of the text files kept by every invocation of
      either script (Section [FileInv], one proof for any invariant every
      effect keeps), the WAL as JSON Lines, the buffer as entries, and
      the flush.
    - [Replay]: what a WAL record says of the save that follows it: the
      predicate [recorded] on the events of a run, and the per-command
      lemmas that phase 2 runs satisfy it.
    - [Output]: the text every [print] of either script writes:
      [json_indent] ([json.dumps(..., indent=2)], after CPython's
      [_make_iterencode]), the error and warning lines on stderr
      ([render_message]), the result objects ([result_val],
      [render_output]) with the health report's f-strings and the
      [:.1f] of the anomaly ratio ([fixed1], exact rounding half to
      even), and the two streams of a run ([stdout_text],
      [stderr_text]); checked byte for byte against CPython on samples.

    What the theorems show.
    - Durability order ([Phase2], [Health]): every phase 2 task command,
      whatever its outcome, writes the WAL before it saves tasks.json
      ([wal_precedes_save]); the health check saves its fixes before its
      WAL entry ([health_check_wal_after_save]).
    - Invariants: sequences of phase 1 commands keep [data_wf]
      ([reach1_data_wf], by rule induction on [reach1] from one Hoare
      triple per handler); a health check that returns leaves every
      completed task with progress 100 and a stamp ([health_check_repairs]);
      the per-date counts of show_velocity are distinct and add up
      ([count_by_day_spec]).
    - Idempotence of the health check ([health_check_idempotent], spec
      section 8): a second run finds nothing to fix, provided every read of
      its clock is later than every read of the first run; and the double
      fix when the clock reads one instant twice
      ([check_task_same_instant]).
    - Timestamps ([ClockOrder]): [isoformat] compares as time
      ([isoformat_compare_time]); the date part of a stamp is its
      [strftime("%Y-%m-%d")] ([iso_z_before_T]); the sort of the velocity
      histogram is the unique strictly sorted arrangement
      ([sort_items_spec]).
    - Behaviour of each handler on every branch: the exact stores saved by
      mark_progress, log_time (additivity), next_recurring (rollover and
      rejection), mark_blocked, unblock_task and phase 2 mark_progress; the
      recovery of phase 1 load_data from every file readable as text, and
      its UnicodeDecodeError on a file that is not UTF-8
      ([load_data1_recovers]); the exceptions (exit 1, ZeroDivisionError
      of the health check on a zero estimate); phase 2
      mark_progress on a store without goals saves its change and then
      raises KeyError ([mark_progress2_saved_then_keyerror]).
    - Types and composition ([Typed]): any interleaving of invocations of
      the two scripts keeps the field types of every task
      ([reach_typed]), while phase 2 breaks the range invariant of phase
      1 (it saves any progress); on a well-typed store without a zero
      estimate the health check only raises OverflowError
      ([health_check_typed_outcome]).
    - Liveness ([Lifecycle]): every task the lookup finds can still be
      completed, by three phase 1 commands ([task_can_complete]).
    - Bounds ([Health]): the health check reports at most five
      issues and four fixes per task, and no more fixes than issues
      ([health_check_counts]).
    - Files ([Files]): along any interleaving of invocations every WAL
      file is one [json.dumps] record per line ([wal_json_lines]; json.dumps
      writes printable ASCII only, [PyStr.json_dumps_printable]), the
      buffer a sequence of entries ([reach_buffer_entries]), and a flush,
      which reads the buffer in text mode, of one-line entries without a
      carriage return reports one line more than it moved
      ([flush_lines_flushed]).
    - Refinement of the WAL ([Replay]): every phase 2 task command, from
      any world and whatever its outcome, saves tasks.json only right
      after a WAL record whose fields the saved task carries
      ([wal_records_saves]).
    - Printed text ([Output]): a phase 1 command that returns has printed
      exactly one result object starting with ["success": true] (or the
      help text), and one that raises has printed nothing on stdout
      ([run1_stdout]); phase 2 does the same except that a run without a
      command prints its usage on stdout before exit 1 and a flush without
      a buffer prints nothing ([run2_stdout]); on stderr a phase 1 command
      prints only the load warnings and at most one error object, as the
      last event of a run that raises ([run1_stderr]).
    - The theorems about spec divergences state what the code does; the
      manifest's findings relate them to the spec.

    Bounds and fuel.  Every loop of the scripts runs over a finite list
    and is a structural [Fixpoint].  Fuel appears only in [FloatRepr],
    the model of CPython's C code: the decimal exponent is searched from
    its estimate in at most 8 steps, and the digits up to 17 significant
    digits, which suffice for binary64; the sample values agree with
    CPython's output.  Integers are
    Python ints, unbounded ([Z]); floats are binary64 with overflow to an
    exception where CPython raises one.  No clock property is assumed in
    general: where a theorem mentions times it names the clock reads by
    index.  The order theorems of [ClockOrder] hold on Python's datetime
    range ([dt_min] to [dt_max], years 1 to 9999), and the idempotence
    of the health check assumes its reads lie there and that the second
    run reads later instants than the first.

    Modelling choices.
    - A task or goal is a [gmap string val]: key absent and key bound to
      [None] are different, as in the Python dictionaries, and every key a
      task carries (also keys this program never names) is kept by
      [task.copy()].  The in-place mutation of the dictionary found by
      [find_task_by_id] is an update of the task list at the index of the
      first task whose ["id"] equals the argument.
    - Every call of [datetime.now()] reads the next value of a clock
      sequence [w_clock] of the world, in the order Python evaluates them;
      [uuid4().hex[:8]] reads the next value of [w_uuid].
    - Errors are Python exceptions: [sys.exit(1)] after an error message,
      and the uncaught KeyError/TypeError/ZeroDivisionError/... that stop
      the script.  A stopped script performs no later write.

    Not modelled.
    - The key order of a printed task: a task is a [gmap], which does
      not keep the insertion order of its keys, so [Output] takes the
      items of a task dictionary as a parameter ([items]); tasks.json is
      kept as its decoded value.  JSON parsing is abstracted: a file
      holds a decoded value, text that does not parse (with the decoder's
      message) or bytes that are not UTF-8.  A decoded store holds a
      list of task dictionaries: a tasks.json whose ["tasks"] is another
      JSON value (which the scripts never write) is not represented.
      I/O errors (IOError, the warning of line 48 of
      phase 1) are not modelled.
    - [repr()] of a str escapes the non-printable characters up to U+00FF
      as CPython does; those above (separators and format characters of
      the Unicode database) are kept as they are.
    - argparse: the phase 1 dispatcher takes the namespace of argument
      strings argparse returns, and its help text is a parameter of
      [Output].  [int()] is modelled on ASCII text; the
      Unicode spaces and digits it also accepts are not.
    - Concurrent invocations: each run is one sequential step of the world.
 *)

From stdpp Require Export base gmap strings list.
From Stdlib Require Export ZArith Lia.

Declare Scope py_scope.
Delimit Scope py_scope with py.

(** ** Python exceptions *)

Inductive exn : Type :=
| SystemExit (code : Z)          (** [sys.exit(code)] *)
| KeyError (key : string)        (** [d[key]] on a missing key *)
| TypeError                      (** an operator applied to values of the wrong types *)
| AttributeError                 (** e.g. [.split] on a value that is not a str *)
| ZeroDivisionError
| OverflowError                  (** int too large to convert to float *)
| ValueError                     (** e.g. int() of a nan *)
| JSONDecodeError
| UnicodeDecodeError.            (** reading a text file that is not UTF-8 *)

(** ** Pure fallible computations *)

Inductive outcome (A : Type) : Type :=
| Ret (a : A)
| Exc (e : exn).
Arguments Ret {A} a.
Arguments Exc {A} e.

Definition obind {A B} (o : outcome A) (k : A -> outcome B) : outcome B :=
  match o with Ret a => k a | Exc e => Exc e end.

Notation "'let?' x ':=' o 'in' k" := (obind o (fun x => k))
  (at level 10, x name, o at level 100, k at level 200) : py_scope.

(** ** The state and exception monad of a script run *)

Definition M (S A : Type) : Type := S -> outcome A * S.

Definition mret {S A} (a : A) : M S A := fun s => (Ret a, s).

Definition mbind {S A B} (m : M S A) (k : A -> M S B) : M S B :=
  fun s => match m s with
           | (Ret a, s') => k a s'
           | (Exc e, s') => (Exc e, s')
           end.

Definition raise {S A} (e : exn) : M S A := fun s => (Exc e, s).
Definition mget {S} : M S S := fun s => (Ret s, s).
Definition mmodify {S} (f : S -> S) : M S unit := fun s => (Ret tt, f s).
Definition lift {S A} (o : outcome A) : M S A := fun s => (o, s).

Notation "'let*' x ':=' m 'in' k" := (mbind m (fun x => k))
  (at level 10, x name, m at level 100, k at level 200) : py_scope.
Notation "'let*' ' p ':=' m 'in' k" := (mbind m (fun p => k))
  (at level 10, p pattern, m at level 100, k at level 200) : py_scope.
Notation "m ;; k" := (mbind m (fun _ => k))
  (at level 100, right associativity) : py_scope.

Open Scope py_scope.

(** Running [m] from [s]: the outcome and the final state. *)
Definition run {S A} (m : M S A) (s : S) : outcome A * S := m s.
Definition final {S A} (m : M S A) (s : S) : S := snd (m s).
Definition result {S A} (m : M S A) (s : S) : outcome A := fst (m s).

(** ** Monad laws *)

Lemma mbind_ret_l {S A B} (a : A) (k : A -> M S B) s :
  mbind (mret a) k s = k a s.
Proof. reflexivity. Qed.

Lemma mbind_ret_r {S A} (m : M S A) s : mbind m mret s = m s.
Proof. unfold mbind, mret. by destruct (m s) as [[] ?]. Qed.

Lemma mbind_assoc {S A B C} (m : M S A) (k : A -> M S B) (h : B -> M S C) s :
  mbind (mbind m k) h s = mbind m (fun a => mbind (k a) h) s.
Proof. unfold mbind. by destruct (m s) as [[] ?]. Qed.

Lemma mbind_raise {S A B} e (k : A -> M S B) s :
  mbind (raise e) k s = (Exc e, s).
Proof. reflexivity. Qed.

Lemma mbind_lift_ret {S A B} (a : A) (k : A -> M S B) s :
  mbind (lift (Ret a)) k s = k a s.
Proof. reflexivity. Qed.

Lemma mbind_lift_exc {S A B} e (k : A -> M S B) s :
  mbind (lift (Exc e)) k s = (Exc e, s).
Proof. reflexivity. Qed.

Lemma mbind_ret_step {S A B} (m : M S A) (k : A -> M S B) s a s' :
  m s = (Ret a, s') -> mbind m k s = k a s'.
Proof. intros H. unfold mbind. by rewrite H. Qed.

Lemma mbind_exc_step {S A B} (m : M S A) (k : A -> M S B) s e s' :
  m s = (Exc e, s') -> mbind m k s = (Exc e, s').
Proof. intros H. unfold mbind. by rewrite H. Qed.

Lemma mbind_Ret_inv {S A B} (m : M S A) (k : A -> M S B) s b s'' :
  mbind m k s = (Ret b, s'') -> exists a s', m s = (Ret a, s') /\ k a s' = (Ret b, s'').
Proof. unfold mbind. destruct (m s) as [[a|e] s']; [eauto|discriminate]. Qed.

Lemma obind_ret {A B} (a : A) (k : A -> outcome B) : obind (Ret a) k = k a.
Proof. reflexivity. Qed.

Create HintDb pytask discriminated.
Create Rewrite HintDb pytask_rw.
#[export] Hint Rewrite @mbind_ret_l @mbind_raise @mbind_lift_ret @obind_ret : pytask_rw.

(** ** Shared tactics *)

(** Unfold one monadic step whose first action is known. *)
Ltac mstep H := first [ erewrite (mbind_ret_step _ _ _ _ _ H)
                      | erewrite (mbind_exc_step _ _ _ _ _ H) ].

(** Step over the conversion [lift o] of an argument whose outcome [H : o = Ret _]
    is known. *)
Ltac int_step H := rewrite H, mbind_lift_ret; cbv beta.

(** Invert equalities between constructors of [outcome] and pairs. *)
Ltac inv_outcome :=
  repeat match goal with
  | H : Ret _ = Ret _ |- _ => injection H as H
  | H : Exc _ = Exc _ |- _ => injection H as H
  | H : Ret _ = Exc _ |- _ => discriminate H
  | H : Exc _ = Ret _ |- _ => discriminate H
  | H : (_, _) = (_, _) |- _ => injection H as H
  end; subst.

(** ** Strings *)

(** [String.append] does not unfold by [simpl] under stdpp; its two
    equations, and the monoid laws. *)
Lemma sapp_nil (b : string) : "" +:+ b = b.
Proof. reflexivity. Qed.
Lemma sapp_cons x (a b : string) : String x a +:+ b = String x (a +:+ b).
Proof. reflexivity. Qed.

Lemma sapp_assoc (a b c : string) : (a +:+ b) +:+ c = a +:+ (b +:+ c).
Proof. induction a as [|x a IH]; [done|]. by rewrite !sapp_cons, IH. Qed.

Lemma sapp_nil_r (a : string) : a +:+ "" = a.
Proof. induction a as [|x a IH]; [done|]. by rewrite sapp_cons, IH. Qed.

(** ** Generic list lemmas shared by the components *)

Lemma Forall_insert_iff {A} (P : A -> Prop) (l : list A) i x :
  i < length l -> Forall P (<[i:=x]> l) <-> P x /\ (forall j y, j <> i -> l !! j = Some y -> P y).
Proof.
  intros Hi. rewrite !Forall_lookup. split.
  - intros H. split.
    + apply (H i). by rewrite list_lookup_insert_eq.
    + intros j y Hj Hy. apply (H j). by rewrite list_lookup_insert_ne.
  - intros [Hx H] j y Hy. destruct (decide (i = j)) as [->|Hne].
    + rewrite list_lookup_insert_eq in Hy by done. by simplify_eq.
    + rewrite list_lookup_insert_ne in Hy by done. eauto.
Qed.

Lemma Forall_insert_lookup {A} (P : A -> Prop) (l : list A) i x :
  Forall P l -> P x -> Forall P (<[i:=x]> l).
Proof. intros Hl Hx. by apply Forall_insert. Qed.

#[export] Hint Resolve Forall_insert_lookup : pytask.

(** Compute lookups in a map built by inserts and deletes of literal keys;
    a key variable is told apart from the literals by the hypotheses. *)
Ltac simpl_lookup :=
  repeat match goal with
  | |- context [@lookup _ _ _ _ ?i (@insert _ _ _ _ ?i ?x ?m)] =>
      rewrite (lookup_insert_eq m i x)
  | |- context [@lookup _ _ _ _ ?j (@insert _ _ _ _ ?i ?x ?m)] =>
      rewrite (lookup_insert_ne m i j x) by (discriminate || set_solver)
  | |- context [@lookup _ _ _ _ ?i (@delete _ _ _ ?i ?m)] =>
      rewrite (lookup_delete_eq m i)
  | |- context [@lookup _ _ _ _ ?j (@delete _ _ _ ?i ?m)] =>
      rewrite (lookup_delete_ne m i j) by (discriminate || set_solver)
  end.

Lemma forallb_Forall_iff {A} (f : A -> bool) (l : list A) :
  forallb f l = true <-> Forall (fun x => f x = true) l.
Proof. rewrite forallb_forall, Forall_forall. setoid_rewrite list_elem_of_In. done. Qed.
