(* ===== verification/PyVal.v ===== *)
(** * Python values of a decoded JSON task store, and the builtins on them

    [val] is what [json.load] produces inside a task or goal dictionary;
    [obj] is a dictionary.  The operators are Python's: [truthy] is
    [bool(v)], [py_eq] is [==], [py_cmp] underlies [<] and [>], [py_add],
    [py_sub], [py_mul] and [py_truediv] are [+], [-], [*] and [/],
    [py_round] is [round(v, n)].  A bool is an int for arithmetic, as in
    Python.  Floats are Rocq's primitive binary64; an int meets a float
    through the correctly rounded conversion [float_of_Z], and comparisons
    between an int and a float are exact, as in CPython.  Comparison and
    arithmetic of lists and dicts (which the scripts never perform on
    well-formed stores) raise [TypeError] here. *)

From S2P Require Import Prelude.
From Stdlib Require Import PrimFloat SpecFloat FloatOps.

Open Scope Z_scope.

#[local] Set Warnings "-register-all".
Inductive val : Type :=
| VNone
| VBool (b : bool)
| VInt (z : Z)
| VFloat (f : float)
| VStr (s : string)
| VList (l : list val)
| VDict (kv : list (string * val)).

(** A decoded JSON object.  *)
Abbreviation obj := (gmap string val).

(** [d.get(k, default)] *)
Definition get (d : obj) (k : string) (default : val) : val :=
  match d !! k with Some v => v | None => default end.

(** [d[k]] *)
Definition getitem (d : obj) (k : string) : outcome val :=
  match d !! k with Some v => Ret v | None => Exc (KeyError k) end.

(** [k in d] *)
Definition contains (d : obj) (k : string) : bool := bool_decide (is_Some (d !! k)).

(** ** Truthiness: [bool(v)] *)

Definition truthy (v : val) : bool :=
  match v with
  | VNone => false
  | VBool b => b
  | VInt z => negb (z =? 0)
  | VFloat f => negb (PrimFloat.eqb f 0%float)
  | VStr s => negb (String.eqb s "")
  | VList l => negb (bool_decide (l = []))
  | VDict kv => negb (bool_decide (kv = []))
  end.

(** ** Numbers *)

Inductive num := NInt (z : Z) | NFloat (f : float).

Definition as_num (v : val) : option num :=
  match v with
  | VBool b => Some (NInt (if b then 1 else 0))
  | VInt z => Some (NInt z)
  | VFloat f => Some (NFloat f)
  | _ => None
  end.

Definition prec : Z := 53.
Definition emax : Z := 1024.

(** [float(z)]: the nearest binary64, ties to even; OverflowError when the
    magnitude rounds beyond the largest finite float. *)
Definition float_of_Z (z : Z) : outcome float :=
  let f := SF2Prim (binary_normalize prec emax z 0 false) in
  if is_infinity f then Exc OverflowError else Ret f.

(** [a / b] on ints: CPython rounds the exact quotient once.  The quotient
    is computed with at least 56 significant bits plus a sticky bit, so that
    the final rounding by [binary_normalize] is the rounding of the exact
    value. *)
Definition int_truediv (a b : Z) : outcome float :=
  if b =? 0 then Exc ZeroDivisionError
  else if a =? 0 then
    Ret (if b <? 0 then (-0)%float else 0%float)
  else
    let neg := xorb (a <? 0) (b <? 0) in
    let s := Z.max 0 (Z.log2 (Z.abs b) - Z.log2 (Z.abs a) + 56) in
    let n := Z.abs a * 2 ^ s in
    let q := n / Z.abs b in
    let r := n mod Z.abs b in
    let m := 2 * q + (if r =? 0 then 0 else 1) in
    let f := SF2Prim (binary_normalize prec emax (if neg then - m else m) (- s - 1) false) in
    if is_infinity f then Exc OverflowError else Ret f.

(** The exact value of a finite float as [m * 2 ^ e]. *)
Definition float_dyadic (f : float) : option (Z * Z) :=
  match Prim2SF f with
  | S754_zero _ => Some (0, 0)
  | S754_finite s m e => Some (if s then Z.neg m else Z.pos m, e)
  | _ => None
  end.

(** Exact comparison of [a] with [m * 2 ^ e]. *)
Definition cmp_dyadic (a m e : Z) : comparison :=
  if 0 <=? e then Z.compare a (m * 2 ^ e) else Z.compare (a * 2 ^ (- e)) m.

(** Exact comparison of an int with a float; [None] when the float is nan. *)
Definition cmp_int_float (z : Z) (f : float) : option comparison :=
  match Prim2SF f with
  | S754_zero _ => Some (Z.compare z 0)
  | S754_infinity s => Some (if s then Gt else Lt)
  | S754_nan => None
  | S754_finite s m e => Some (cmp_dyadic z (if s then Z.neg m else Z.pos m) e)
  end.

Definition cmp_float (f g : float) : option comparison :=
  match PrimFloat.compare f g with
  | FEq => Some Eq | FLt => Some Lt | FGt => Some Gt | FNotComparable => None
  end.

Definition cmp_num (x y : num) : option comparison :=
  match x, y with
  | NInt a, NInt b => Some (Z.compare a b)
  | NInt a, NFloat g => cmp_int_float a g
  | NFloat f, NInt b => CompOpp <$> cmp_int_float b f
  | NFloat f, NFloat g => cmp_float f g
  end.

(** ** [==] *)

Fixpoint py_eq (a b : val) {struct a} : bool :=
  match a, b with
  | VNone, VNone => true
  | VStr s, VStr t => String.eqb s t
  | VList l1, VList l2 =>
      (fix go (l1 l2 : list val) : bool :=
         match l1, l2 with
         | [], [] => true
         | x :: xs, y :: ys => py_eq x y && go xs ys
         | _, _ => false
         end) l1 l2
  | VDict d1, VDict d2 =>
      Nat.eqb (length d1) (length d2) &&
      (fix go (d : list (string * val)) : bool :=
         match d with
         | [] => true
         | (k, v) :: r =>
             match list_find (fun kw => kw.1 = k) d2 with
             | Some (_, (_, w)) => py_eq v w && go r
             | None => false
             end
         end) d1
  | _, _ =>
      match as_num a, as_num b with
      | Some x, Some y => bool_decide (cmp_num x y = Some Eq)
      | _, _ => false
      end
  end.

(** [v == s] for a str literal [s]: only a str can equal a str. *)
Definition eq_str (v : val) (s : string) : bool :=
  match v with VStr t => String.eqb t s | _ => false end.

(** ** [<] and [>] *)

(** [None] is "unordered" (a nan operand): both [<] and [>] are False. *)
Definition py_cmp (a b : val) : outcome (option comparison) :=
  match a, b with
  | VStr s, VStr t => Ret (Some (String.compare s t))
  | _, _ =>
      match as_num a, as_num b with
      | Some x, Some y => Ret (cmp_num x y)
      | _, _ => Exc TypeError
      end
  end.

Definition py_lt (a b : val) : outcome bool :=
  let? c := py_cmp a b in Ret (bool_decide (c = Some Lt)).

Definition py_gt (a b : val) : outcome bool :=
  let? c := py_cmp a b in Ret (bool_decide (c = Some Gt)).

(** ** Arithmetic *)

Definition to_float (x : num) : outcome float :=
  match x with NInt z => float_of_Z z | NFloat f => Ret f end.

(** A binary float operation after the int operand is converted. *)
Definition float_binop (op : float -> float -> float) (x y : num) : outcome val :=
  let? f := to_float x in let? g := to_float y in Ret (VFloat (op f g)).

Definition py_add (a b : val) : outcome val :=
  match a, b with
  | VStr s, VStr t => Ret (VStr (s +:+ t))
  | VList l, VList m => Ret (VList (l ++ m))
  | _, _ =>
      match as_num a, as_num b with
      | Some (NInt x), Some (NInt y) => Ret (VInt (x + y))
      | Some x, Some y => float_binop PrimFloat.add x y
      | _, _ => Exc TypeError
      end
  end.

Definition py_sub (a b : val) : outcome val :=
  match as_num a, as_num b with
  | Some (NInt x), Some (NInt y) => Ret (VInt (x - y))
  | Some x, Some y => float_binop PrimFloat.sub x y
  | _, _ => Exc TypeError
  end.

Fixpoint str_repeat (n : nat) (s : string) : string :=
  match n with O => "" | S n' => s +:+ str_repeat n' s end.

Definition py_mul (a b : val) : outcome val :=
  match a, b with
  | VStr s, _ =>
      match as_num b with
      | Some (NInt n) => Ret (VStr (str_repeat (Z.to_nat n) s))
      | _ => Exc TypeError
      end
  | _, VStr s =>
      match as_num a with
      | Some (NInt n) => Ret (VStr (str_repeat (Z.to_nat n) s))
      | _ => Exc TypeError
      end
  | _, _ =>
      match as_num a, as_num b with
      | Some (NInt x), Some (NInt y) => Ret (VInt (x * y))
      | Some x, Some y => float_binop PrimFloat.mul x y
      | _, _ => Exc TypeError
      end
  end.

(** [y == 0]: an int zero, or a float zero of either sign. *)
Definition num_is_zero (x : num) : bool :=
  match x with
  | NInt z => z =? 0
  | NFloat f => match Prim2SF f with S754_zero _ => true | _ => false end
  end.

(** [a / b]: ZeroDivisionError on a zero divisor, int by int, or float. *)
Definition py_truediv (a b : val) : outcome val :=
  match as_num a, as_num b with
  | Some x, Some y =>
      if num_is_zero y then Exc ZeroDivisionError else
      match x, y with
      | NInt p, NInt q => let? f := int_truediv p q in Ret (VFloat f)
      | _, _ => float_binop PrimFloat.div x y
      end
  | _, _ => Exc TypeError
  end.

(** [round(x, n)] for [n >= 0]: an int is returned unchanged; a finite float
    is rounded half to even at [n] decimal places on its exact binary value,
    and the decimal result is converted back to the nearest float. *)
Definition round_half_even (num den : Z) : Z :=
  let q := num / den in
  let r := num mod den in
  match Z.compare (2 * r) den with
  | Lt => q
  | Gt => q + 1
  | Eq => if Z.even q then q else q + 1
  end.

Definition round_float (f : float) (n : nat) : outcome float :=
  match float_dyadic f with
  | None => Ret f
  | Some (m, e) =>
      if 0 <=? e then Ret f
      else
        let k := round_half_even (m * 10 ^ Z.of_nat n) (2 ^ (- e)) in
        if k =? 0 then Ret (if get_sign f then (-0)%float else 0%float)
        else int_truediv k (10 ^ Z.of_nat n)
  end.

Definition py_round (v : val) (n : nat) : outcome val :=
  match v with
  | VInt z => Ret (VInt z)
  | VBool b => Ret (VInt (if b then 1 else 0))
  | VFloat f => let? g := round_float f n in Ret (VFloat g)
  | _ => Exc TypeError
  end.

(** [int(x)] of a number: a float is truncated toward zero; [int(inf)]
    raises OverflowError and [int(nan)] ValueError. *)
Definition py_int_num (v : val) : outcome Z :=
  match v with
  | VInt z => Ret z
  | VBool b => Ret (if b then 1 else 0)
  | VFloat f =>
      match Prim2SF f with
      | S754_zero _ => Ret 0
      | S754_finite s m e =>
          let mz := if s then Z.neg m else Z.pos m in
          Ret (if 0 <=? e then mz * 2 ^ e else Z.quot mz (2 ^ (- e)))
      | S754_infinity _ => Exc OverflowError
      | S754_nan => Exc ValueError
      end
  | _ => Exc TypeError
  end.

(** ** [get] on an updated object *)

Lemma get_insert_eq (d : obj) k v def : get (<[k := v]> d) k def = v.
Proof. unfold get. by rewrite lookup_insert_eq. Qed.

Lemma get_insert_ne (d : obj) k k' v def : k <> k' -> get (<[k := v]> d) k' def = get d k' def.
Proof. intros Hk. unfold get. by rewrite lookup_insert_ne. Qed.


Lemma contains_Some (d : obj) k v : d !! k = Some v -> contains d k = true.
Proof. intros H. unfold contains. rewrite H. by apply bool_decide_eq_true_2. Qed.

Lemma contains_None (d : obj) k : d !! k = None -> contains d k = false.
Proof. intros H. unfold contains. rewrite H. apply bool_decide_eq_false_2. by intros [? ?]. Qed.

#[export] Hint Rewrite get_insert_eq : pytask_rw.

(** Rewrite [get] through updates of the object at literal keys. *)
Ltac simpl_get :=
  repeat match goal with
  | |- context [get (<[?k := ?v]> ?d) ?k ?def] => rewrite (get_insert_eq d k v def)
  | |- context [get (<[?k := ?v]> ?d) ?k' ?def] =>
      rewrite (get_insert_ne d k k' v def) by discriminate
  | H : context [get (<[?k := ?v]> ?d) ?k ?def] |- _ => rewrite (get_insert_eq d k v def) in H
  | H : context [get (<[?k := ?v]> ?d) ?k' ?def] |- _ =>
      rewrite (get_insert_ne d k k' v def) in H by discriminate
  end.
