(* ===== verification/PyInt.v ===== *)
(** * [int(s)] of a command-line string

    Both scripts convert command-line arguments with [int()]: phase 1 in
    its handlers, after the task lookup ([int(args.progress)],
    [int(args.minutes)], [int(args.estimate)]), phase 2 in its [__main__]
    block ([int(sys.argv[3])]).  CPython's [int(s)] in base 10 strips
    surrounding whitespace, takes an optional sign, then decimal digits in
    which single underscores may separate two digits; anything else raises
    ValueError.  Strings are byte strings here: the ASCII whitespace of
    [str.isspace()] and the ASCII digits are modelled, the other Unicode
    spaces and decimal digits [int()] also accepts are not.  The printing
    [str(z)] of an int is stdpp's [pretty] on [Z] (an optional ["-"] and
    the decimal digits without leading zeros). *)

From stdpp Require Import pretty.
From Stdlib Require Import Ascii.
From S2P Require Import Prelude.

Open Scope Z_scope.

(** [c.isspace()] on the ASCII range: tab, newline, vertical tab, form
    feed, carriage return, the separators 0x1c to 0x1f, and space. *)
Definition is_space (c : ascii) : bool := (
  let n := nat_of_ascii c in ((9 <=? n) && (n <=? 13)) || ((28 <=? n) && (n <=? 32)))%nat.

(** The value of a decimal digit. *)
Definition digit_val (c : ascii) : option Z :=
  let n := Z.of_nat (nat_of_ascii c) in
  if (48 <=? n) && (n <=? 57) then Some (n - 48) else None.

Fixpoint drop_space (l : list ascii) : list ascii :=
  match l with
  | c :: r => if is_space c then drop_space r else l
  | [] => []
  end.

(** [s.strip()] *)
Definition strip (l : list ascii) : list ascii := rev (drop_space (rev (drop_space l))).

(** The digits after the first one: a digit extends the number, an
    underscore must be followed by a digit. *)
Fixpoint parse_digits (acc : Z) (l : list ascii) : option Z :=
  match l with
  | [] => Some acc
  | c :: r =>
      match digit_val c with
      | Some d => parse_digits (acc * 10 + d) r
      | None =>
          if Ascii.eqb c "_" then
            match r with
            | c' :: _ => if digit_val c' then parse_digits acc r else None
            | [] => None
            end
          else None
      end
  end.

(** A number starts with a digit. *)
Definition parse_body (l : list ascii) : option Z :=
  match l with
  | c :: r => match digit_val c with Some d => parse_digits d r | None => None end
  | [] => None
  end.

Definition parse_int (l : list ascii) : option Z :=
  match l with
  | c :: r =>
      if Ascii.eqb c "-" then Z.opp <$> parse_body r
      else if Ascii.eqb c "+" then parse_body r
      else parse_body l
  | [] => None
  end.

(** [int(s)] *)
Definition py_int (s : string) : outcome Z :=
  match parse_int (strip (String.list_ascii_of_string s)) with
  | Some z => Ret z
  | None => Exc ValueError
  end.

(** ** The characters of the decimal text [str()] prints *)

Definition is_digit (c : ascii) : bool := if digit_val c then true else false.

Lemma is_digit_char x : is_digit (pretty_N_char x) = true.
Proof. unfold pretty_N_char. by repeat case_match. Qed.

Lemma pretty_N_go_digits x s :
  Forall (fun c => is_digit c = true) (String.list_ascii_of_string s) ->
  Forall (fun c => is_digit c = true) (String.list_ascii_of_string (pretty_N_go x s)).
Proof.
  revert s. induction (N.lt_wf_0 x) as [x _ IH]; intros s Hs.
  destruct (decide (x = 0)%N) as [->|Hx]; [by rewrite pretty_N_go_0|].
  rewrite pretty_N_go_step by lia. apply IH; [apply N.div_lt; lia|].
  constructor; [apply is_digit_char|done].
Qed.
