(* ===== verification/FloatRepr.v ===== *)
(** * [repr(x)] of a float, as CPython prints it

    [str(x)] and [repr(x)] of a Python float, which f-strings and
    [json.dumps] use, print the shortest decimal that reads back as the
    same binary64 (David Gay's [dtoa] in mode 0, CPython's
    [float_repr_style = 'short']), in fixed notation when its decimal
    point position [decpt] lies in -3..16, in exponent notation
    otherwise, with [".0"] added to an integral fixed-notation value
    ([format_float_short] of Python/pystrtod.c, format code ['r']).

    The shortest decimal is found by exact integer arithmetic: the finite
    float [x = m * 2 ^ e] is read back from every real of its rounding
    interval (half an ulp on each side, a quarter below a power of two,
    the end points included when [m] is even, as round-half-even
    decides); for [p = 1, 2, ...] significant digits the two decimals
    [k * 10 ^ q] and [(k + 1) * 10 ^ q] around [x] are tried, and the
    first [p] with one of them in the interval gives the digits, the
    nearer of the two when both are (the even one on a tie).  17 digits
    always suffice for binary64; the search stops there.  The decimal
    exponent is found from its estimate [(log2 m + e) * log10 2] in at
    most 8 steps; the samples compare the whole conversion with CPython's
    output. *)

From stdpp Require Import pretty.
From S2P Require Import Prelude.
From Stdlib Require Import PrimFloat SpecFloat FloatOps Ascii.

Open Scope Z_scope.

(** [k * 10 ^ q] compared with [a * 2 ^ f], exactly. *)
Definition cmp_dec_bin (k q a f : Z) : comparison :=
  Z.compare (k * 10 ^ Z.max 0 q * 2 ^ Z.max 0 (- f)) (a * 2 ^ Z.max 0 f * 10 ^ Z.max 0 (- q)).

(** [k * 10 ^ q] reads back as [m * 2 ^ e] (a positive finite binary64):
    it lies between [(4m - l) * 2 ^ (e - 2)] and [(4m + 2) * 2 ^ (e - 2)],
    where [l] is 1 just above a power of two (the gap below is half the
    gap above) and 2 otherwise. *)
Definition reads_back (m e k q : Z) : bool :=
  let l := if (m =? 2 ^ 52) && (-1074 <? e) then 1 else 2 in
  let c_lo := cmp_dec_bin k q (4 * m - l) (e - 2) in
  let c_hi := cmp_dec_bin k q (4 * m + 2) (e - 2) in
  if Z.even m
  then negb (bool_decide (c_lo = Lt)) && negb (bool_decide (c_hi = Gt))
  else bool_decide (c_lo = Gt) && bool_decide (c_hi = Lt).

(** [floor (m * 2 ^ e / 10 ^ q)] *)
Definition floor_scaled (m e q : Z) : Z :=
  (m * 2 ^ Z.max 0 e * 10 ^ Z.max 0 (- q)) / (2 ^ Z.max 0 (- e) * 10 ^ Z.max 0 q).

(** The decimal exponent [E] of [x = m * 2 ^ e]: [10 ^ E <= x < 10 ^ (E + 1)],
    found from an estimate by steps of one. *)
Fixpoint fix_exp (fuel : nat) (m e E : Z) : Z :=
  match fuel with
  | O => E
  | S n =>
      match cmp_dec_bin 1 E m e with
      | Gt => fix_exp n m e (E - 1)
      | _ => match cmp_dec_bin 1 (E + 1) m e with
             | Gt => E
             | _ => fix_exp n m e (E + 1)
             end
      end
  end.

Definition dec_exp (m e : Z) : Z := fix_exp 8 m e ((Z.log2 m + e) * 30103 / 100000).

(** Of [k * 10 ^ q] and [(k + 1) * 10 ^ q], the one that reads back as
    [x], the nearer if both do, the even one on a tie. *)
Definition pick (m e k q : Z) : option Z :=
  let v_lo := reads_back m e k q in
  let v_hi := reads_back m e (k + 1) q in
  if v_lo && v_hi then
    match cmp_dec_bin (2 * k + 1) q m (e + 1) with
    | Lt => Some (k + 1)
    | Gt => Some k
    | Eq => Some (if Z.even k then k else k + 1)
    end
  else if v_lo then Some k else if v_hi then Some (k + 1) else None.

(** [x] correctly rounded to [k * 10 ^ q], half to even. *)
Definition nearest (m e k q : Z) : Z :=
  match cmp_dec_bin (2 * k + 1) q m (e + 1) with
  | Lt => k + 1
  | Gt => k
  | Eq => if Z.even k then k else k + 1
  end.

(** The digits with [p], [p + 1], ... significant digits, up to 17. *)
Fixpoint search (fuel : nat) (p m e E : Z) : Z * Z :=
  let q := E - p + 1 in
  let k := floor_scaled m e q in
  match pick m e k q with
  | Some k' => (k', q)
  | None => match fuel with O => (nearest m e k q, q) | S n => search n (p + 1) m e E end
  end.

(** Drop the trailing zeros of [k * 10 ^ q]. *)
Fixpoint strip_zeros (fuel : nat) (k q : Z) : Z * Z :=
  match fuel with
  | O => (k, q)
  | S n => if (k mod 10 =? 0) && negb (k =? 0) then strip_zeros n (k / 10) (q + 1) else (k, q)
  end.

(** The shortest digits [k] and exponent [q] of [m * 2 ^ e]. *)
Definition shortest (m e : Z) : Z * Z :=
  let '(k, q) := search 16 1 m e (dec_exp m e) in strip_zeros 20 k q.

Fixpoint zeros (n : nat) : string :=
  match n with O => "" | S n => String "0" (zeros n) end.

(** [%+.02d] of an exponent *)
Definition exp_text (x : Z) : string :=
  (if x <? 0 then "-" else "+") +:+ (if Z.abs x <? 10 then "0" else "") +:+ pretty (Z.abs x).

(** [format_float_short] for format code ['r'] with [Py_DTSF_ADD_DOT_0]:
    the digits [ds] of [0.ds * 10 ^ decpt]. *)
Definition format_r (neg : bool) (ds : string) (decpt : Z) : string :=
  let n := Z.of_nat (String.length ds) in
  let body :=
    if (decpt <=? -4) || (16 <? decpt) then
      match ds with
      | String d r => String d (if String.eqb r "" then "" else "." +:+ r)
      | EmptyString => ""
      end +:+ "e" +:+ exp_text (decpt - 1)
    else if decpt <=? 0 then "0." +:+ zeros (Z.to_nat (- decpt)) +:+ ds
    else if decpt <? n then
      String.substring 0 (Z.to_nat decpt) ds +:+ "." +:+ String.substring (Z.to_nat decpt) (Z.to_nat (n - decpt)) ds
    else ds +:+ zeros (Z.to_nat (decpt - n)) +:+ ".0" in
  (if neg then "-" else "") +:+ body.

(** [repr(x)] *)
Definition float_repr (f : float) : string :=
  match Prim2SF f with
  | S754_zero s => if s then "-0.0" else "0.0"
  | S754_infinity s => if s then "-inf" else "inf"
  | S754_nan => "nan"
  | S754_finite s m e =>
      let '(k, q) := shortest (Z.pos m) e in
      let ds := pretty k in
      format_r s ds (Z.of_nat (String.length ds) + q)
  end.

(** ** CPython's output on sample values *)

Example float_repr_samples :
  map float_repr [0.1; 1/3; 2/3; 1e16; 1e15; 0.0001; 0.00001; 123.456; 1e23; 5e-324;
                  1.7976931348623157e308; 9007199254740993; 2.5; -1.5; 100; 0.3]%float =
  ["0.1"; "0.3333333333333333"; "0.6666666666666666"; "1e+16"; "1000000000000000.0";
   "0.0001"; "1e-05"; "123.456"; "1e+23"; "5e-324"; "1.7976931348623157e+308";
   "9007199254740992.0"; "2.5"; "-1.5"; "100.0"; "0.3"].
Proof. vm_compute. reflexivity. Qed.

Example float_repr_samples_2 :
  map float_repr [1152921504606846976; 1e22; 0.1 + 0.2; 1; 1e-7; 123456789; 9999999999999998;
                  4.35; 0.5; 2.2250738585072014e-308; 1e100; 1/0; -1/0; -0]%float =
  ["1.152921504606847e+18"; "1e+22"; "0.30000000000000004"; "1.0"; "1e-07"; "123456789.0";
   "9999999999999998.0"; "4.35"; "0.5"; "2.2250738585072014e-308"; "1e+100"; "inf"; "-inf"; "-0.0"].
Proof. vm_compute. reflexivity. Qed.
