(* ===== verification/PyStr.v ===== *)
(** * Python values as text: [str()], [repr()] and [json.dumps]

    A Python str is kept as its UTF-8 bytes (a Rocq [string]): the
    scripts read tasks.json and write their files as UTF-8, and an
    f-string is the concatenation of the UTF-8 of its parts.  Where
    Python looks at characters, the bytes are decoded ([utf8_decode]);
    a byte that does not start a valid sequence becomes the lone
    surrogate U+DC80..U+DCFF, as the [surrogateescape] handler Python
    decodes [sys.argv] with does.

    - [py_repr] is [repr()]: [None], [True]/[False], the decimal int,
      [FloatRepr.float_repr], the quoted and escaped str, and the
      bracketed lists and dicts; [py_str] is [str()], which leaves a str
      as it is.  CPython escapes the non-printable characters of a str in
      [repr()]: the ASCII ones, the Latin-1 controls, no-break space and
      soft hyphen, and the lone surrogates are escaped here as CPython
      does; the other non-printable characters of Unicode (separators and
      format characters beyond U+00FF) need the Unicode database and are
      kept as they are.
    - [json_dumps] is [json.dumps(v)] with its defaults ([ensure_ascii],
      [allow_nan], separators [", "] and [": "], no indent), the encoder
      of Lib/json/encoder.py and Modules/_json.c.

    The theorems: [json.dumps] writes printable ASCII only, so the text
    holds no line break; a text made of lines without breaks, each ended
    by one, splits on ["\n"] back into those lines and a last [""]. *)

From stdpp Require Import pretty.
From S2P Require Import Prelude PyVal PyInt FloatRepr.
From Stdlib Require Import Ascii PrimFloat SpecFloat FloatOps.

Open Scope Z_scope.

(** ** Characters *)

Definition byte (c : ascii) : Z := Z.of_nat (nat_of_ascii c).
Definition chr (n : Z) : ascii := ascii_of_nat (Z.to_nat n).
Definition char (n : Z) : string := String (chr n) "".

Definition dquote : string := char 34.
Definition squote : string := char 39.
Definition bslash : string := char 92.

(** The number of ["\n"] in a text. *)
Fixpoint newlines (s : string) : nat :=
  match s with
  | EmptyString => 0
  | String c r => (if Ascii.eqb c (Ascii.ascii_of_nat 10) then 1 else 0) + newlines r
  end.

(** The number of ["\r"] in a text. *)
Fixpoint carriage_returns (s : string) : nat :=
  match s with
  | EmptyString => 0
  | String c r => (if Ascii.eqb c (Ascii.ascii_of_nat 13) then 1 else 0) + carriage_returns r
  end.

(** What [f.read()] of a file opened in text mode returns for its text
    (universal newlines, [newline=None]): ["\r\n"] and a lone ["\r"] each
    become ["\n"]. *)
Fixpoint universal_newlines (s : string) : string :=
  match s with
  | EmptyString => EmptyString
  | String c r =>
      if Ascii.eqb c (Ascii.ascii_of_nat 13) then
        match r with
        | String d r' =>
            if Ascii.eqb d (Ascii.ascii_of_nat 10) then String (Ascii.ascii_of_nat 10) (universal_newlines r')
            else String (Ascii.ascii_of_nat 10) (universal_newlines r)
        | EmptyString => String (Ascii.ascii_of_nat 10) EmptyString
        end
      else String c (universal_newlines r)
  end.

(** [s.split(c)] for a one-character separator: the pieces between the
    separators, [[""]] for the empty text. *)
Fixpoint split_on (c : ascii) (s : string) : list string :=
  match s with
  | EmptyString => [""]
  | String x r =>
      if Ascii.eqb x c then "" :: split_on c r
      else match split_on c r with
           | [] => [String x ""]
           | y :: ys => String x y :: ys
           end
  end.

(** [sep.join(l)] *)
Fixpoint join (sep : string) (l : list string) : string :=
  match l with
  | [] => ""
  | [x] => x
  | x :: r => x +:+ sep +:+ join sep r
  end.

(** Lower-case hexadecimal, [w] digits. *)
Fixpoint hex (w : nat) (n : Z) : string :=
  match w with
  | O => ""
  | S w' =>
      let d := n mod 16 in
      hex w' (n / 16) +:+ char (if d <? 10 then 48 + d else 87 + d)
  end.

(** ** UTF-8 *)

Definition in_range (lo hi : Z) (c : ascii) : bool := (lo <=? byte c) && (byte c <=? hi).
Definition cont (c : ascii) : bool := in_range 128 191 c.

(** The code points of the bytes: one to four bytes per code point, the
    overlong forms, the surrogates and the code points beyond U+10FFFF
    refused as Python's decoder refuses them; a byte that starts no valid
    sequence is the lone surrogate [0xDC00 + b]. *)
Fixpoint utf8_decode (l : list ascii) : list Z :=
  match l with
  | [] => []
  | c :: r =>
      let b := byte c in
      if b <? 128 then b :: utf8_decode r
      else match r with
      | c1 :: r1 =>
          if in_range 194 223 c && cont c1 then (b - 192) * 64 + (byte c1 - 128) :: utf8_decode r1
          else match r1 with
          | c2 :: r2 =>
              let ok1 := if b =? 224 then in_range 160 191 c1
                         else if b =? 237 then in_range 128 159 c1 else cont c1 in
              if in_range 224 239 c && ok1 && cont c2 then
                (b - 224) * 4096 + (byte c1 - 128) * 64 + (byte c2 - 128) :: utf8_decode r2
              else match r2 with
              | c3 :: r3 =>
                  let ok1' := if b =? 240 then in_range 144 191 c1
                              else if b =? 244 then in_range 128 143 c1 else cont c1 in
                  if in_range 240 244 c && ok1' && cont c2 && cont c3 then
                    (b - 240) * 262144 + (byte c1 - 128) * 4096 + (byte c2 - 128) * 64 +
                      (byte c3 - 128) :: utf8_decode r3
                  else (56320 + b) :: utf8_decode r
              | [] => (56320 + b) :: utf8_decode r
              end
          | [] => (56320 + b) :: utf8_decode r
          end
      | [] => (56320 + b) :: utf8_decode r
      end
  end.

(** The UTF-8 bytes of a code point (a lone surrogate [0xDC80..0xDCFF]
    back to its byte, as [surrogateescape] encodes it). *)
Definition utf8_encode_one (c : Z) : string :=
  if c <? 128 then char c
  else if c <? 2048 then char (192 + c / 64) +:+ char (128 + c mod 64)
  else if (56448 <=? c) && (c <=? 56575) then char (c - 56320)
  else if c <? 65536 then char (224 + c / 4096) +:+ char (128 + c / 64 mod 64) +:+ char (128 + c mod 64)
  else char (240 + c / 262144) +:+ char (128 + c / 4096 mod 64) +:+ char (128 + c / 64 mod 64) +:+
       char (128 + c mod 64).

Definition code_points (s : string) : list Z := utf8_decode (String.list_ascii_of_string s).

(** ** [repr()] *)

(** One character of [repr(s)] quoted with [q]. *)
Definition repr_char (q : Z) (c : Z) : string :=
  if (c =? q) || (c =? 92) then bslash +:+ char c
  else if c =? 9 then bslash +:+ "t"
  else if c =? 10 then bslash +:+ "n"
  else if c =? 13 then bslash +:+ "r"
  else if (c <? 32) || (c =? 127) || ((128 <=? c) && (c <=? 160)) || (c =? 173) then
    bslash +:+ "x" +:+ hex 2 c
  else if (55296 <=? c) && (c <=? 57343) then bslash +:+ "u" +:+ hex 4 c
  else utf8_encode_one c.

(** [repr(s)]: single quotes, double quotes when the text has a single
    quote and no double quote. *)
Definition str_repr (s : string) : string :=
  let cs := code_points s in
  let q := if bool_decide (39 ∈ cs) && negb (bool_decide (34 ∈ cs)) then 34 else 39 in
  char q +:+ String.concat "" (map (repr_char q) cs) +:+ char q.

Fixpoint py_repr (v : val) : string :=
  match v with
  | VNone => "None"
  | VBool b => if b then "True" else "False"
  | VInt z => pretty z
  | VFloat f => float_repr f
  | VStr s => str_repr s
  | VList l => "[" +:+ join ", " (map py_repr l) +:+ "]"
  | VDict kv => "{" +:+ join ", " (map (fun '(k, x) => str_repr k +:+ ": " +:+ py_repr x) kv) +:+ "}"
  end.

(** [str(v)], the [{v}] of an f-string. *)
Definition py_str (v : val) : string := match v with VStr s => s | _ => py_repr v end.

(** ** [json.dumps] *)

Definition json_char (c : Z) : string :=
  if c =? 34 then bslash +:+ dquote
  else if c =? 92 then bslash +:+ bslash
  else if c =? 8 then bslash +:+ "b"
  else if c =? 12 then bslash +:+ "f"
  else if c =? 10 then bslash +:+ "n"
  else if c =? 13 then bslash +:+ "r"
  else if c =? 9 then bslash +:+ "t"
  else if (32 <=? c) && (c <=? 126) then char c
  else if c <? 65536 then bslash +:+ "u" +:+ hex 4 c
  else let c' := c - 65536 in
       bslash +:+ "u" +:+ hex 4 (55296 + c' / 1024) +:+ bslash +:+ "u" +:+ hex 4 (56320 + c' mod 1024).

Definition json_str (s : string) : string :=
  dquote +:+ String.concat "" (map json_char (code_points s)) +:+ dquote.

(** [float.__repr__], with the JavaScript names of the non-finite values. *)
Definition json_float (f : float) : string :=
  match Prim2SF f with
  | S754_nan => "NaN"
  | S754_infinity s => if s then "-Infinity" else "Infinity"
  | _ => float_repr f
  end.

Fixpoint json_dumps (v : val) : string :=
  match v with
  | VNone => "null"
  | VBool b => if b then "true" else "false"
  | VInt z => pretty z
  | VFloat f => json_float f
  | VStr s => json_str s
  | VList l => "[" +:+ join ", " (map json_dumps l) +:+ "]"
  | VDict kv => "{" +:+ join ", " (map (fun '(k, x) => json_str k +:+ ": " +:+ json_dumps x) kv) +:+ "}"
  end.

(** ** CPython's output on sample values *)

Example py_repr_samples :
  map py_repr [VStr "it's"; VStr "a\b"; VStr ("x" +:+ char 10); VList [VInt 1; VNone; VBool true];
               VDict [("k", VFloat 0.5%float)]; VStr (char 195 +:+ char 169); VStr (char 255)] =
  [dquote +:+ "it's" +:+ dquote; "'a" +:+ bslash +:+ bslash +:+ "b'"; "'x" +:+ bslash +:+ "n'";
   "[1, None, True]"; "{'k': 0.5}"; "'" +:+ char 195 +:+ char 169 +:+ "'"; "'" +:+ bslash +:+ "udcff'"].
Proof. vm_compute. reflexivity. Qed.

Example json_dumps_samples :
  map json_dumps [VStr ("say " +:+ dquote +:+ "hi" +:+ dquote); VStr (char 195 +:+ char 169);
                  VStr (char 240 +:+ char 159 +:+ char 152 +:+ char 128); VStr (char 9 +:+ char 127);
                  VDict [("a", VList [VInt (-3); VFloat 1e16%float; VNone]); ("b", VBool false)]] =
  [dquote +:+ "say " +:+ bslash +:+ dquote +:+ "hi" +:+ bslash +:+ dquote +:+ dquote;
   dquote +:+ bslash +:+ "u00e9" +:+ dquote;
   dquote +:+ bslash +:+ "ud83d" +:+ bslash +:+ "ude00" +:+ dquote;
   dquote +:+ bslash +:+ "t" +:+ bslash +:+ "u007f" +:+ dquote;
   "{" +:+ dquote +:+ "a" +:+ dquote +:+ ": [-3, 1e+16, null], " +:+ dquote +:+ "b" +:+ dquote +:+ ": false}"].
Proof. vm_compute. reflexivity. Qed.

(** ** Line breaks and [split] *)

Definition is_nl (c : ascii) : bool := Ascii.eqb c (Ascii.ascii_of_nat 10).

Lemma newlines_app a b : newlines (a +:+ b) = (newlines a + newlines b)%nat.
Proof.
  induction a as [|x a IH]; [done|]. change (String x a +:+ b) with (String x (a +:+ b)).
  cbn [newlines]. rewrite IH. lia.
Qed.

Lemma carriage_returns_app a b : carriage_returns (a +:+ b) = (carriage_returns a + carriage_returns b)%nat.
Proof.
  induction a as [|x a IH]; [done|]. change (String x a +:+ b) with (String x (a +:+ b)).
  cbn [carriage_returns]. rewrite IH. lia.
Qed.

(** A text without ["\r"] is read back as it was written. *)
Lemma universal_newlines_id s : carriage_returns s = 0%nat -> universal_newlines s = s.
Proof.
  induction s as [|x s IH]; [done|]. cbn [carriage_returns universal_newlines].
  destruct (Ascii.eqb x _); [lia|]. intros H. by rewrite IH.
Qed.

Lemma split_on_length c s :
  length (split_on c s) = S (length (List.filter (fun x => Ascii.eqb x c) (String.list_ascii_of_string s))).
Proof.
  induction s as [|x s IH]; [done|]. cbn [split_on String.list_ascii_of_string List.filter].
  destruct (Ascii.eqb x c); simpl; [by rewrite IH|].
  destruct (split_on c s) as [|y ys]; simpl in *; lia.
Qed.

Lemma newlines_filter s :
  newlines s = length (List.filter (fun x => Ascii.eqb x (Ascii.ascii_of_nat 10)) (String.list_ascii_of_string s)).
Proof. induction s as [|x s IH]; [done|]. simpl. destruct (Ascii.eqb x _); simpl; lia. Qed.

(** [len(s.split('\n'))] is one more than the line breaks of [s]. *)
Lemma split_nl_length s : length (split_on (Ascii.ascii_of_nat 10) s) = S (newlines s).
Proof. by rewrite split_on_length, newlines_filter. Qed.

(** Splitting a line without a break, its break, and the rest. *)
Lemma split_on_line c a rest :
  Forall (fun x => Ascii.eqb x c = false) (String.list_ascii_of_string a) ->
  split_on c (a +:+ String c rest) = a :: split_on c rest.
Proof.
  induction a as [|x a IH]; intros H.
  - simpl. by rewrite Ascii.eqb_refl.
  - change (String x a +:+ String c rest) with (String x (a +:+ String c rest)).
    inversion H as [|? ? Hx Ha]; subst. cbn [split_on]. rewrite Hx, (IH Ha). done.
Qed.

(** ** The bytes of the texts *)

(** Every byte of [s] satisfies [P]. *)
Definition all_bytes (P : ascii -> Prop) (s : string) : Prop := Forall P (String.list_ascii_of_string s).

Section AllBytes.
Context (P : ascii -> Prop).

Lemma list_ascii_app a b :
  String.list_ascii_of_string (a +:+ b) = String.list_ascii_of_string a ++ String.list_ascii_of_string b.
Proof. induction a as [|x a IH]; [done|]. change (String x a +:+ b) with (String x (a +:+ b)). simpl. by rewrite IH. Qed.

Lemma all_bytes_app a b : all_bytes P a -> all_bytes P b -> all_bytes P (a +:+ b).
Proof. unfold all_bytes. rewrite list_ascii_app. apply Forall_app_2. Qed.

Lemma all_bytes_empty : all_bytes P "".
Proof. constructor. Qed.

Lemma all_bytes_concat l : Forall (all_bytes P) l -> all_bytes P (String.concat "" l).
Proof.
  induction 1 as [|x l Hx _ IH]; [constructor|]. destruct l as [|y l]; [exact Hx|].
  change (String.concat "" (x :: y :: l)) with (x +:+ "" +:+ String.concat "" (y :: l)).
  by apply all_bytes_app.
Qed.

Lemma all_bytes_join sep l : all_bytes P sep -> Forall (all_bytes P) l -> all_bytes P (join sep l).
Proof.
  intros Hs. induction 1 as [|x l Hx _ IH]; [constructor|]. destruct l as [|y l]; [exact Hx|].
  change (join sep (x :: y :: l)) with (x +:+ sep +:+ join sep (y :: l)).
  by repeat apply all_bytes_app.
Qed.

Lemma all_bytes_substring n m s : all_bytes P s -> all_bytes P (String.substring n m s).
Proof.
  revert n m. induction s as [|x s IH]; intros [|n] [|m] H; simpl; try constructor;
    inversion H; subst; try constructor; try done; by apply IH.
Qed.

Lemma all_bytes_weaken (Q : ascii -> Prop) s : (forall c, P c -> Q c) -> all_bytes P s -> all_bytes Q s.
Proof. intros HPQ H. exact (Forall_impl _ _ _ H HPQ). Qed.

End AllBytes.

#[export] Hint Resolve all_bytes_app all_bytes_empty all_bytes_concat all_bytes_join all_bytes_substring : pystr.

Definition printable (c : ascii) : Prop := 32 <= byte c <= 126.
Definition not_nl (c : ascii) : Prop := is_nl c = false.

Lemma byte_range c : 0 <= byte c <= 255.
Proof. unfold byte. pose proof (nat_ascii_bounded c). lia. Qed.

Lemma byte_chr n : 0 <= n <= 255 -> byte (chr n) = n.
Proof. intros Hn. unfold byte, chr. rewrite nat_ascii_embedding by lia. lia. Qed.

Lemma printable_not_nl c : printable c -> not_nl c.
Proof.
  unfold printable, not_nl, is_nl. intros H. apply Ascii.eqb_neq. intros ->.
  change (byte (ascii_of_nat 10)) with 10 in H. lia.
Qed.

(** A text without a byte 10 has no line break. *)
Lemma no_nl_newlines s : all_bytes not_nl s -> newlines s = 0%nat.
Proof. induction s as [|x s IH]; [done|]. intros H. inversion H as [|? ? Hx Hs]; subst. simpl. unfold not_nl, is_nl in Hx. rewrite Hx. by apply IH. Qed.

Lemma char_bytes (P : ascii -> Prop) n : P (chr n) -> all_bytes P (char n).
Proof. intros H. by repeat constructor. Qed.

Lemma printable_char n : 32 <= n <= 126 -> all_bytes printable (char n).
Proof. intros Hn. apply char_bytes. unfold printable. rewrite byte_chr by lia. lia. Qed.

(** A literal: check it byte by byte. *)
Definition printableb (s : string) : bool :=
  forallb (fun c => (32 <=? byte c) && (byte c <=? 126)) (String.list_ascii_of_string s).

Lemma printableb_ok s : printableb s = true -> all_bytes printable s.
Proof.
  unfold printableb, all_bytes. rewrite forallb_forall, Forall_forall. intros H c Hc.
  specialize (H c (proj1 (list_elem_of_In _ _) Hc)). apply andb_true_iff in H as [?%Z.leb_le ?%Z.leb_le]. unfold printable. lia.
Qed.

Ltac printable_lit := apply printableb_ok; reflexivity.

(** ** The text of numbers *)

(** A byte a number's text may hold: printable, neither a space nor a
    quote nor a backslash, so JSON and the layout leave it as it is. *)
Definition plain (c : ascii) : Prop := 33 <= byte c <= 126 /\ byte c <> 34 /\ byte c <> 92.

Definition plainb (s : string) : bool :=
  forallb (fun c => (33 <=? byte c) && (byte c <=? 126) && negb (byte c =? 34) && negb (byte c =? 92))
          (String.list_ascii_of_string s).

Lemma plainb_ok s : plainb s = true -> all_bytes plain s.
Proof.
  unfold plainb, all_bytes. rewrite forallb_forall, Forall_forall. intros H c Hc.
  specialize (H c (proj1 (list_elem_of_In _ _) Hc)). unfold plain.
  repeat match goal with H : _ && _ = true |- _ => apply andb_true_iff in H as [? ?] end.
  repeat match goal with H : negb _ = true |- _ => apply negb_true_iff, Z.eqb_neq in H end.
  repeat match goal with H : (_ <=? _) = true |- _ => apply Z.leb_le in H end. lia.
Qed.

Ltac plain_lit := apply plainb_ok; reflexivity.

Lemma plain_printable c : plain c -> printable c.
Proof. unfold plain, printable. lia. Qed.

Lemma plain_char n : 33 <= n <= 126 -> n <> 34 -> n <> 92 -> all_bytes plain (char n).
Proof. intros ???. apply char_bytes. unfold plain. rewrite byte_chr by lia. lia. Qed.

Lemma digit_plain c : is_digit c = true -> plain c.
Proof.
  unfold is_digit, digit_val, plain, byte. destruct (_ && _) eqn:E; [|done].
  apply andb_true_iff in E as [?%Z.leb_le ?%Z.leb_le]. lia.
Qed.

Lemma plain_pretty_N (x : N) : all_bytes plain (pretty x).
Proof.
  unfold pretty, pretty_N. case_decide; [plain_lit|].
  eapply all_bytes_weaken; [apply digit_plain|]. apply pretty_N_go_digits. constructor.
Qed.

Lemma plain_pretty (z : Z) : all_bytes plain (pretty z).
Proof.
  destruct z as [|p|p]; [plain_lit| apply (plain_pretty_N (Npos p)) |].
  change (pretty (Z.neg p)) with ("-" +:+ pretty (Npos p)).
  apply all_bytes_app; [plain_lit | apply plain_pretty_N].
Qed.

Lemma plain_hex w n : all_bytes plain (hex w n).
Proof.
  revert n. induction w as [|w IH]; intros n; [constructor|]. cbn [hex].
  apply all_bytes_app; [apply IH|].
  pose proof (Z.mod_pos_bound n 16 ltac:(lia)).
  destruct (_ <? 10) eqn:E; [apply Z.ltb_lt in E | apply Z.ltb_ge in E]; apply plain_char; lia.
Qed.

Lemma plain_zeros n : all_bytes plain (zeros n).
Proof. induction n as [|n IH]; [constructor|]. constructor; [|exact IH]. unfold plain. change (byte "0") with 48. lia. Qed.

#[export] Hint Resolve plain_pretty plain_hex plain_zeros : pystr.

Lemma plain_format_r neg ds decpt : all_bytes plain ds -> all_bytes plain (format_r neg ds decpt).
Proof.
  intros Hds. unfold format_r, exp_text.
  apply all_bytes_app; [destruct neg; plain_lit|].
  repeat match goal with |- context [if ?b then _ else _] => destruct b end;
    repeat apply all_bytes_app; try plain_lit; auto with pystr.
  all: destruct ds as [|d r]; [constructor|]; inversion Hds as [|? ? Hd Hr]; subst.
  all: constructor; [exact Hd|]; destruct (String.eqb r ""); [constructor|].
  all: apply all_bytes_app; [plain_lit|exact Hr].
Qed.

Lemma plain_float_repr f : all_bytes plain (float_repr f).
Proof.
  unfold float_repr. destruct (Prim2SF f) as [[]|[]| |s m e]; try plain_lit.
  destruct (shortest _ _) as [k q]. apply plain_format_r, plain_pretty.
Qed.

Lemma plain_json_float f : all_bytes plain (json_float f).
Proof. unfold json_float. destruct (Prim2SF f) as [| [] | |]; try plain_lit; apply plain_float_repr. Qed.

(** ** [json.dumps] writes printable ASCII *)

Lemma printable_pretty (z : Z) : all_bytes printable (pretty z).
Proof. exact (all_bytes_weaken _ _ _ plain_printable (plain_pretty z)). Qed.
Lemma printable_hex w n : all_bytes printable (hex w n).
Proof. exact (all_bytes_weaken _ _ _ plain_printable (plain_hex w n)). Qed.
Lemma printable_float_repr f : all_bytes printable (float_repr f).
Proof. exact (all_bytes_weaken _ _ _ plain_printable (plain_float_repr f)). Qed.
Lemma printable_json_float f : all_bytes printable (json_float f).
Proof. exact (all_bytes_weaken _ _ _ plain_printable (plain_json_float f)). Qed.

Lemma printable_json_char c : all_bytes printable (json_char c).
Proof.
  unfold json_char.
  repeat match goal with |- all_bytes _ (if ?b then _ else _) => let E := fresh in destruct b eqn:E end;
    repeat first [apply printable_hex | apply all_bytes_app]; try printable_lit.
  match goal with H : (32 <=? c) && (c <=? 126) = true |- _ =>
    apply andb_true_iff in H as [?%Z.leb_le ?%Z.leb_le] end.
  apply printable_char. lia.
Qed.

Lemma printable_json_str s : all_bytes printable (json_str s).
Proof.
  unfold json_str. repeat apply all_bytes_app; try printable_lit.
  apply all_bytes_concat, Forall_forall. intros x Hx. apply list_elem_of_In, in_map_iff in Hx as (c & <- & _).
  apply printable_json_char.
Qed.

#[export] Hint Resolve printable_float_repr printable_json_str printable_json_float : pystr.

(** [json.dumps] writes only printable ASCII, line breaks of strings
    included as [\n]. *)
Lemma json_dumps_printable : forall v, all_bytes printable (json_dumps v).
Proof.
  fix IH 1. intros [| b | z | f | s | l | kv]; cbn [json_dumps].
  - printable_lit.
  - destruct b; printable_lit.
  - apply printable_pretty.
  - apply printable_json_float.
  - apply printable_json_str.
  - repeat apply all_bytes_app; try printable_lit. apply all_bytes_join; [printable_lit|].
    induction l as [|x l IHl]; constructor; [apply IH | exact IHl].
  - repeat apply all_bytes_app; try printable_lit. apply all_bytes_join; [printable_lit|].
    induction kv as [|[k x] kv IHkv]; constructor; [|exact IHkv].
    apply all_bytes_app; [apply printable_json_str|]. apply all_bytes_app; [printable_lit | apply IH].
Qed.

(** ** Texts made of lines *)

(** The text of the lines [l], written one after the other. *)
Definition cat (l : list string) : string := foldr String.append "" l.

Lemma cat_app l1 l2 : cat (l1 ++ l2) = cat l1 +:+ cat l2.
Proof. induction l1 as [|x l1 IH]; [done|]. simpl. by rewrite IH, sapp_assoc. Qed.

Lemma cat_snoc l x : cat (l ++ [x]) = cat l +:+ x.
Proof. by rewrite cat_app; simpl; rewrite sapp_nil_r. Qed.

(** A line and its break. *)
Definition line (a : string) : string := a +:+ String (Ascii.ascii_of_nat 10) "".

(** Lines without breaks, each ended by ["\n"], split on ["\n"] into
    themselves and the empty text after the last break. *)
Lemma split_cat_lines ls :
  Forall (all_bytes not_nl) ls ->
  split_on (Ascii.ascii_of_nat 10) (cat (map line ls)) = ls ++ [""].
Proof.
  induction 1 as [|a ls Ha _ IH]; [done|].
  change (cat (map line (a :: ls))) with (line a +:+ cat (map line ls)). unfold line at 1.
  rewrite sapp_assoc. change (String _ "" +:+ ?r) with (String (Ascii.ascii_of_nat 10) r).
  rewrite split_on_line; [by rewrite IH|]. exact Ha.
Qed.

Lemma newlines_cat l : newlines (cat l) = sum_list_with newlines l.
Proof. induction l as [|a l IH]; [done|]. change (cat (a :: l)) with (a +:+ cat l). by rewrite newlines_app, IH. Qed.

Lemma newlines_cat_lines ls :
  newlines (cat (map line ls)) = (length ls + sum_list_with newlines ls)%nat.
Proof.
  induction ls as [|a ls IH]; [done|].
  change (cat (map line (a :: ls))) with (line a +:+ cat (map line ls)). unfold line at 1.
  rewrite newlines_app, newlines_app, IH. simpl. lia.
Qed.

Lemma json_dumps_not_nl v : all_bytes not_nl (json_dumps v).
Proof. apply (all_bytes_weaken printable); [apply printable_not_nl | apply json_dumps_printable]. Qed.
