(* ===== verification/Clock.v ===== *)
(** * Timestamps: [datetime.now(timezone.utc)] and its text forms

    A UTC datetime is an integer number of microseconds since
    1970-01-01T00:00:00+00:00.  [isoformat] is [datetime.isoformat()] of an
    aware UTC datetime ("YYYY-MM-DDTHH:MM:SS[.ffffff]+00:00", the fraction
    omitted when the microseconds are zero), [ymd] is
    [strftime("%Y-%m-%d")], and [add_days] is [+ timedelta(days=n)].  The
    calendar conversion is the proleptic Gregorian one of Python's datetime,
    computed by the days-to-civil algorithm on floor division.  Years are
    printed on four digits, which is Python's [isoformat] for every year and
    glibc's [%Y] for the years 1000 to 9999. *)

From S2P Require Import Prelude.
From Stdlib Require Import Ascii.

Open Scope Z_scope.

Definition datetime := Z.

Definition usec_per_sec : Z := 1000000.
Definition usec_per_day : Z := 86400 * usec_per_sec.

(** [timedelta(days=n)] added to a datetime. *)
Definition add_days (t : datetime) (n : Z) : datetime := t + n * usec_per_day.

(** The civil date (year, month, day) of a day number counted from
    1970-01-01. *)
Definition civil_from_days (z : Z) : Z * Z * Z :=
  let z := z + 719468 in
  let era := z / 146097 in
  let doe := z mod 146097 in
  let yoe := (doe - doe / 1460 + doe / 36524 - doe / 146096) / 365 in
  let doy := doe - (365 * yoe + yoe / 4 - yoe / 100) in
  let mp := (5 * doy + 2) / 153 in
  let d := doy - (153 * mp + 2) / 5 + 1 in
  let m := if mp <? 10 then mp + 3 else mp - 9 in
  let y := yoe + era * 400 in
  (if m <=? 2 then y + 1 else y, m, d).

(** The [w] low decimal digits of [n >= 0], zero padded ([%0wd]). *)
Definition digit (d : Z) : ascii := ascii_of_nat (48 + Z.to_nat d).

Fixpoint pad_dec (w : nat) (n : Z) : string :=
  match w with
  | O => ""
  | S w' => pad_dec w' (n / 10) +:+ String (digit (n mod 10)) ""
  end.

Definition date_part (t : datetime) : string :=
  let '(y, m, d) := civil_from_days (t / usec_per_day) in
  pad_dec 4 y +:+ "-" +:+ pad_dec 2 m +:+ "-" +:+ pad_dec 2 d.

(** [strftime("%Y-%m-%d")] *)
Definition ymd (t : datetime) : string := date_part t.

(** [isoformat()] of an aware UTC datetime. *)
Definition isoformat (t : datetime) : string :=
  let r := t mod usec_per_day in
  let secs := r / usec_per_sec in
  let us := r mod usec_per_sec in
  date_part t +:+ "T" +:+
  pad_dec 2 (secs / 3600) +:+ ":" +:+ pad_dec 2 (secs / 60 mod 60) +:+ ":" +:+
  pad_dec 2 (secs mod 60) +:+
  (if us =? 0 then "" else "." +:+ pad_dec 6 us) +:+ "+00:00".

(** The stored form the scripts write: [isoformat() + "Z"]. *)
Definition iso_z (t : datetime) : string := isoformat t +:+ "Z".

(** ** Basic facts *)

Lemma add_days_0 t : add_days t 0 = t.
Proof. unfold add_days. lia. Qed.

Lemma add_days_mono t n : 0 < n -> t < add_days t n.
Proof. unfold add_days, usec_per_day, usec_per_sec. lia. Qed.
