(* ===== verification/ClockOrder.v ===== *)
(** * The string order of timestamps

    The scripts compare timestamps as strings (check 5 of the health check:
    [completed_at > datetime.now(timezone.utc).isoformat()]).  This file
    shows that for the datetimes Python can represent (years 1 to 9999)
    the string order of [isoformat] is the order of time, whatever text
    follows each string, and that the stored form [isoformat() + "Z"] of an
    instant is greater than its plain [isoformat()].  It also holds the
    [split("T")[0]] of show_velocity ([before_T]) and shows that it takes
    the date of a stored stamp. *)

From S2P Require Import Prelude Clock.
From Stdlib Require Import Ascii.

Open Scope Z_scope.

(** ** Strings *)

Lemma slength_app (a b : string) : String.length (a +:+ b) = (String.length a + String.length b)%nat.
Proof. induction a as [|x a IH]; [done|]. rewrite sapp_cons. simpl. by rewrite IH. Qed.

(** Lexicographic combination of two comparisons. *)
Definition lex_then (c k : comparison) : comparison := match c with Eq => k | _ => c end.

(** Comparing two strings whose first parts have the same length. *)
Lemma compare_app (a a' b b' : string) :
  String.length a = String.length a' ->
  String.compare (a +:+ b) (a' +:+ b') = lex_then (String.compare a a') (String.compare b b').
Proof.
  revert a'. induction a as [|x a IH]; intros [|x' a'] Hl; rewrite ?sapp_nil, ?sapp_cons;
    simpl in *; try done.
  destruct (Ascii.compare x x'); [|done|done]. apply IH. lia.
Qed.

Lemma string_compare_refl (a : string) : String.compare a a = Eq.
Proof.
  induction a as [|x a IH]; [done|]. simpl. unfold Ascii.compare. by rewrite N.compare_refl.
Qed.

Lemma compare_app_same (a b b' : string) :
  String.compare (a +:+ b) (a +:+ b') = String.compare b b'.
Proof. rewrite compare_app by done. by rewrite string_compare_refl. Qed.

(** A string followed by more text is greater than the string alone. *)
Lemma compare_app_prefix (a b : string) : b <> "" -> String.compare (a +:+ b) a = Gt.
Proof.
  intros Hb. induction a as [|x a IH].
  - by destruct b.
  - rewrite sapp_cons. simpl. unfold Ascii.compare. by rewrite N.compare_refl.
Qed.

(** Once two strings differ before the end of the first, what follows
    either does not matter. *)
Lemma compare_lt_app (a a' b b' : string) :
  String.length a = String.length a' -> String.compare a a' = Lt ->
  String.compare (a +:+ b) (a' +:+ b') = Lt.
Proof. intros Hl H. by rewrite compare_app, H. Qed.

Lemma compare_trans_lt (a b c : string) :
  String.compare a b <> Gt -> String.compare b c = Lt -> String.compare a c = Lt.
Proof.
  revert b c. induction a as [|x a IH]; intros [|y b] [|z c] Hab Hbc; simpl in *; try done.
  unfold Ascii.compare in *.
  destruct (N.compare_spec (N_of_ascii x) (N_of_ascii y)) as [Exy|Lxy|Gxy];
  destruct (N.compare_spec (N_of_ascii y) (N_of_ascii z)) as [Eyz|Lyz|Gyz]; try done.
  - rewrite Exy, Eyz, N.compare_refl. by apply (IH b).
  - by rewrite Exy, (proj2 (N.compare_lt_iff _ _) Lyz).
  - by rewrite <- Eyz, (proj2 (N.compare_lt_iff _ _) Lxy).
  - by rewrite (proj2 (N.compare_lt_iff (N_of_ascii x) (N_of_ascii z)) ltac:(lia)).
Qed.

(** ** Fixed-width decimals *)

Lemma digit_N d : 0 <= d <= 9 -> N_of_ascii (digit d) = N.of_nat (48 + Z.to_nat d).
Proof.
  intros Hd. unfold digit.
  pose proof (nat_ascii_embedding (48 + Z.to_nat d) ltac:(lia)) as H.
  unfold nat_of_ascii in H. apply (f_equal N.of_nat) in H. by rewrite N2Nat.id in H.
Qed.

Lemma digit_compare d d' :
  0 <= d <= 9 -> 0 <= d' <= 9 -> Ascii.compare (digit d) (digit d') = Z.compare d d'.
Proof.
  intros Hd Hd'. unfold Ascii.compare. rewrite !digit_N by done.
  rewrite <- Nat2N.inj_compare.
  destruct (Z.compare_spec d d'); [apply Nat.compare_eq_iff | apply Nat.compare_lt_iff
                                  | apply Nat.compare_gt_iff]; lia.
Qed.

Lemma pad_dec_length w n : String.length (pad_dec w n) = w.
Proof.
  revert n. induction w as [|w IH]; intros n; simpl; [done|].
  rewrite slength_app, IH. simpl. lia.
Qed.

Lemma Z_compare_digits B a b a' b' :
  0 <= b < B -> 0 <= b' < B ->
  Z.compare (a * B + b) (a' * B + b') = lex_then (Z.compare a a') (Z.compare b b').
Proof.
  intros Hb Hb'. unfold lex_then.
  destruct (Z.compare_spec a a'); [subst; destruct (Z.compare_spec b b') |..];
    first [apply Z.compare_eq_iff | apply Z.compare_lt_iff | apply Z.compare_gt_iff]; nia.
Qed.

Lemma Z_compare_lex B n n' :
  0 < B -> Z.compare n n' = lex_then (Z.compare (n / B) (n' / B)) (Z.compare (n mod B) (n' mod B)).
Proof.
  intros HB. rewrite <- (Z_compare_digits B) by (apply Z.mod_pos_bound; lia).
  by rewrite (Z.mul_comm (n / B)), (Z.mul_comm (n' / B)), <- !Z.div_mod by lia.
Qed.

Lemma string_compare_single (x y : ascii) :
  String.compare (String x "") (String y "") = Ascii.compare x y.
Proof. simpl. by destruct (Ascii.compare x y). Qed.

(** [%0wd] of numbers below [10 ^ w] is ordered as the numbers. *)
Lemma pad_dec_compare w n n' :
  0 <= n < 10 ^ Z.of_nat w -> 0 <= n' < 10 ^ Z.of_nat w ->
  String.compare (pad_dec w n) (pad_dec w n') = Z.compare n n'.
Proof.
  revert n n'. induction w as [|w IH]; intros n n' Hn Hn'.
  - simpl in *. replace n with 0 by lia. replace n' with 0 by lia. done.
  - rewrite Nat2Z.inj_succ, Z.pow_succ_r in Hn, Hn' by lia. cbn [pad_dec].
    rewrite compare_app by (by rewrite !pad_dec_length).
    rewrite IH by (split; [apply Z.div_pos | apply Z.div_lt_upper_bound]; lia).
    rewrite (Z_compare_lex 10 n n') by lia. unfold lex_then.
    destruct (Z.compare (n / 10) (n' / 10)); [|done|done].
    pose proof (Z.mod_pos_bound n 10 ltac:(lia)). pose proof (Z.mod_pos_bound n' 10 ltac:(lia)).
    by rewrite string_compare_single, digit_compare by lia.
Qed.

(** ** The civil calendar of [civil_from_days]

    Inside a 400-year era of 146097 days, counted from March 1st, the
    algorithm computes the year of the era [yoe], the day of that year
    [doy] (a year runs from March to February), the month index [mp]
    (0 for March) and the day of the month. *)

Definition era_num (doe : Z) : Z := doe - doe / 1460 + doe / 36524 - doe / 146096.
Definition yoe_of (doe : Z) : Z := era_num doe / 365.
(** The first day of year [y] of the era, and of the next era for [y = 400]. *)
Definition ystart (y : Z) : Z := if y =? 400 then 146097 else 365 * y + y / 4 - y / 100.

(** [p i] for the [n] integers from [z]. *)
Fixpoint all_from (n : nat) (z : Z) (p : Z -> bool) : bool :=
  match n with O => true | S k => p z && all_from k (z + 1) p end.

Lemma all_from_spec n z p i :
  all_from n z p = true -> z <= i < z + Z.of_nat n -> p i = true.
Proof.
  revert z. induction n as [|n IH]; intros z H Hi; simpl in *; [lia|].
  apply andb_prop in H as [H1 H2].
  destruct (Z.eq_dec i z) as [->|]; [done|]. apply (IH (z + 1)); [done|lia].
Qed.

Ltac div_facts a b :=
  pose proof (Z.div_mod a b ltac:(lia)); pose proof (Z.mod_pos_bound a b ltac:(lia)).

Lemma era_num_mono a b : 0 <= a <= b /\ b <= 146096 -> era_num a <= era_num b.
Proof.
  intros H. unfold era_num.
  div_facts a 1460; div_facts b 1460; div_facts a 36524; div_facts b 36524;
  div_facts a 146096; div_facts b 146096. lia.
Qed.

Lemma yoe_mono a b : 0 <= a <= b /\ b <= 146096 -> yoe_of a <= yoe_of b.
Proof. intros H. apply Z.div_le_mono; [lia|]. by apply era_num_mono. Qed.

Lemma yoe_range doe : 0 <= doe <= 146096 -> 0 <= yoe_of doe <= 399.
Proof.
  intros H. pose proof (yoe_mono 0 doe ltac:(lia)). pose proof (yoe_mono doe 146096 ltac:(lia)).
  change (yoe_of 0) with 0 in *. change (yoe_of 146096) with 399 in *. lia.
Qed.

(** The 400 years of an era, checked one by one: the first and the last
    day of each year lie in that year, and no year is longer than 366 days. *)
Lemma era_years y :
  0 <= y < 400 ->
  yoe_of (ystart y) = y /\ yoe_of (ystart (y + 1) - 1) = y /\ ystart (y + 1) - ystart y <= 366.
Proof.
  intros Hy.
  assert (Hc : all_from 400 0 (fun y => (yoe_of (ystart y) =? y) && (yoe_of (ystart (y + 1) - 1) =? y)
                                          && (ystart (y + 1) - ystart y <=? 366)) = true)
    by (vm_compute; reflexivity).
  pose proof (all_from_spec _ _ _ y Hc ltac:(lia)) as H.
  apply andb_prop in H as [H H3]. apply andb_prop in H as [H1 H2]. lia.
Qed.

Lemma ystart_0 : ystart 0 = 0.
Proof. reflexivity. Qed.

Lemma ystart_range y : 0 <= y < 400 -> 0 <= ystart y <= 146096.
Proof.
  intros Hy. unfold ystart. destruct (Z.eqb_spec y 400); [lia|].
  div_facts y 4; div_facts y 100. lia.
Qed.

(** The year of the era found by the algorithm is the one whose days
    contain [doe]. *)
Lemma yoe_spec doe :
  0 <= doe < 146097 -> ystart (yoe_of doe) <= doe /\ doe - ystart (yoe_of doe) <= 365.
Proof.
  intros Hd. pose proof (yoe_range doe ltac:(lia)) as Hy. remember (yoe_of doe) as y eqn:Ey.
  split.
  - destruct (Z.le_gt_cases (ystart y) doe) as [|Hlt]; [done|].
    destruct (Z.eq_dec y 0) as [E|Hne]; [rewrite E, ystart_0 in Hlt; lia|].
    destruct (era_years (y - 1) ltac:(lia)) as (_ & H2 & _).
    replace (y - 1 + 1) with y in H2 by lia.
    pose proof (ystart_range (y - 1) ltac:(lia)).
    pose proof (yoe_mono doe (ystart y - 1)) as Hm.
    assert (ystart y <= 146097) by (unfold ystart; destruct (Z.eqb_spec y 400); div_facts y 4; div_facts y 100; lia).
    specialize (Hm ltac:(lia)). lia.
  - destruct (era_years y ltac:(lia)) as (H1 & _ & H3).
    destruct (Z.le_gt_cases (ystart (y + 1)) doe) as [Hge|]; [|lia].
    destruct (Z.eq_dec y 399) as [E|Hne]; [subst y; rewrite E in Hge; change (ystart (399 + 1)) with 146097 in Hge; lia|].
    destruct (era_years (y + 1) ltac:(lia)) as (H1' & _ & _).
    pose proof (ystart_range (y + 1) ltac:(lia)).
    pose proof (yoe_mono (ystart (y + 1)) doe ltac:(lia)). lia.
Qed.

(** The month index (0 for March) and the day of the month of the day
    [doy] of a March-based year. *)
Definition march_md (doy : Z) : Z * Z :=
  let mp := (5 * doy + 2) / 153 in (mp, doy - (153 * mp + 2) / 5 + 1).

(** The date inside an era: the year counted from the era's start (January
    and February belong to the next one), the month and the day. *)
Definition era_date (doe : Z) : Z * Z * Z :=
  let yoe := yoe_of doe in
  let doy := doe - (365 * yoe + yoe / 4 - yoe / 100) in
  let '(mp, d) := march_md doy in
  let m := if mp <? 10 then mp + 3 else mp - 9 in
  (if m <=? 2 then yoe + 1 else yoe, m, d).

(** A date as one number, ordered as the dates when month and day are
    below 100. *)
Definition date_key (ymd : Z * Z * Z) : Z := let '(y, m, d) := ymd in (y * 100 + m) * 100 + d.

Lemma civil_from_days_era z :
  civil_from_days z = let '(y, m, d) := era_date ((z + 719468) mod 146097) in
                      (y + (z + 719468) / 146097 * 400, m, d).
Proof.
  unfold civil_from_days, era_date, march_md, yoe_of, era_num. cbv zeta.
  destruct (_ <? 10); destruct (_ <=? 2); f_equal; f_equal; ring.
Qed.

Lemma march_md_bounds doy :
  0 <= doy <= 365 -> 0 <= (march_md doy).1 <= 11 /\ 1 <= (march_md doy).2 <= 31.
Proof.
  intros H. unfold march_md; simpl.
  div_facts (5 * doy + 2) 153; div_facts (153 * ((5 * doy + 2) / 153) + 2) 5. lia.
Qed.

Lemma march_md_mono doy doy' :
  doy < doy' ->
  (march_md doy).1 <= (march_md doy').1 /\
  ((march_md doy).1 = (march_md doy').1 -> (march_md doy).2 < (march_md doy').2).
Proof.
  intros H. unfold march_md; simpl.
  div_facts (5 * doy + 2) 153; div_facts (5 * doy' + 2) 153. split; [lia|].
  intros ->. lia.
Qed.

(** The year, day of year, month index and day of an in-era date, with
    their bounds. *)
Lemma era_date_parts doe :
  0 <= doe < 146097 ->
  let yoe := yoe_of doe in
  let doy := doe - (365 * yoe + yoe / 4 - yoe / 100) in
  0 <= yoe <= 399 /\ 0 <= doy <= 365 /\
  era_date doe = (if (march_md doy).1 <? 10 then yoe else yoe + 1,
                  if (march_md doy).1 <? 10 then (march_md doy).1 + 3 else (march_md doy).1 - 9,
                  (march_md doy).2).
Proof.
  intros Hd. cbv zeta. pose proof (yoe_spec doe Hd) as Hs. pose proof (yoe_range doe ltac:(lia)).
  unfold ystart in Hs. rewrite (proj2 (Z.eqb_neq _ 400)) in Hs by lia.
  pose proof (march_md_bounds (doe - (365 * yoe_of doe + yoe_of doe / 4 - yoe_of doe / 100))
                ltac:(lia)).
  split; [done|]. split; [lia|].
  unfold era_date. destruct (march_md _) as [mp d]. simpl in *.
  destruct (Z.ltb_spec mp 10); [rewrite (proj2 (Z.leb_gt (mp + 3) 2)) by lia
                               | rewrite (proj2 (Z.leb_le (mp - 9) 2)) by lia]; done.
Qed.

Lemma era_date_bounds doe :
  0 <= doe < 146097 ->
  let '(y, m, d) := era_date doe in 0 <= y <= 400 /\ 1 <= m <= 12 /\ 1 <= d <= 31.
Proof.
  intros Hd. destruct (era_date_parts doe Hd) as (Hy & Hdoy & ->).
  pose proof (march_md_bounds _ Hdoy). destruct (march_md _) as [mp d]. simpl in *.
  destruct (Z.ltb_spec mp 10); lia.
Qed.

(** Inside an era, a later day has a later date. *)
Lemma era_key_mono doe doe' :
  0 <= doe < doe' /\ doe' < 146097 -> date_key (era_date doe) < date_key (era_date doe').
Proof.
  intros H.
  destruct (era_date_parts doe ltac:(lia)) as (Hy & Hdoy & ->).
  destruct (era_date_parts doe' ltac:(lia)) as (Hy' & Hdoy' & ->).
  pose proof (yoe_mono doe doe' ltac:(lia)) as Hm.
  set (Y := yoe_of doe) in *. set (Y' := yoe_of doe') in *.
  set (doy := doe - _) in *. set (doy' := doe' - _) in *.
  assert (Hlex : Y < Y' \/ Y = Y' /\ doy < doy').
  { destruct (Z.eq_dec Y Y') as [E|]; [right|lia]. split; [done|].
    subst doy doy'. rewrite <- E. lia. }
  pose proof (march_md_bounds doy Hdoy). pose proof (march_md_bounds doy' Hdoy').
  destruct (march_md doy) as [mp d] eqn:E1, (march_md doy') as [mp' d'] eqn:E2. simpl in *.
  assert (Hmd : Y = Y' -> mp <= mp' /\ (mp = mp' -> d < d')).
  { intros. pose proof (march_md_mono doy doy' ltac:(lia)) as Hmono. by rewrite E1, E2 in Hmono. }
  unfold date_key.
  destruct (Z.ltb_spec mp 10), (Z.ltb_spec mp' 10); lia.
Qed.

Lemma era_date_first : era_date 0 = (0, 3, 1).
Proof. by vm_compute. Qed.
Lemma era_date_last : era_date 146096 = (400, 2, 29).
Proof. by vm_compute. Qed.

Lemma era_key_range doe :
  0 <= doe < 146097 -> 301 <= date_key (era_date doe) <= 4000229.
Proof.
  intros Hd.
  destruct (Z.eq_dec doe 0) as [->|]; [by rewrite era_date_first|].
  destruct (Z.eq_dec doe 146096) as [->|]; [by rewrite era_date_last|].
  pose proof (era_key_mono 0 doe ltac:(lia)). pose proof (era_key_mono doe 146096 ltac:(lia)).
  rewrite era_date_first in *. rewrite era_date_last in *. simpl in *. lia.
Qed.

(** [civil_from_days] is increasing: a later day has a later date, over
    all the integers (the eras repeat every 146097 days). *)
Lemma civil_key_mono z z' :
  z < z' -> date_key (civil_from_days z) < date_key (civil_from_days z').
Proof.
  intros Hz. rewrite !civil_from_days_era.
  div_facts (z + 719468) 146097; div_facts (z' + 719468) 146097.
  pose proof (era_key_range ((z + 719468) mod 146097) ltac:(lia)).
  pose proof (era_key_range ((z' + 719468) mod 146097) ltac:(lia)).
  destruct (Z.eq_dec ((z + 719468) / 146097) ((z' + 719468) / 146097)) as [E|Ne].
  - pose proof (era_key_mono ((z + 719468) mod 146097) ((z' + 719468) mod 146097) ltac:(lia)).
    rewrite <- E. destruct (era_date _) as [[y m] d], (era_date _) as [[y' m'] d']. simpl in *. lia.
  - destruct (era_date _) as [[y m] d], (era_date _) as [[y' m'] d']. simpl in *. lia.
Qed.

Lemma civil_bounds z :
  let '(y, m, d) := civil_from_days z in 1 <= m <= 12 /\ 1 <= d <= 31.
Proof.
  rewrite civil_from_days_era.
  pose proof (era_date_bounds ((z + 719468) mod 146097)
                (Z.mod_pos_bound (z + 719468) 146097 ltac:(lia))) as H.
  destruct (era_date _) as [[y m] d]. lia.
Qed.

(** ** The order of [isoformat] *)

(** The datetimes Python represents: 0001-01-01T00:00:00 up to the end of
    9999-12-31 ([datetime.min] and [datetime.max]). *)
Definition dt_min : datetime := -719162 * usec_per_day.
Definition dt_max : datetime := 2932897 * usec_per_day.

Lemma civil_first_day : civil_from_days (-719162) = (1, 1, 1).
Proof. by vm_compute. Qed.
Lemma civil_last_day : civil_from_days 2932896 = (9999, 12, 31).
Proof. by vm_compute. Qed.

Lemma civil_key_le z z' : z <= z' -> date_key (civil_from_days z) <= date_key (civil_from_days z').
Proof.
  intros H. destruct (Z.eq_dec z z') as [->|]; [lia|].
  pose proof (civil_key_mono z z' ltac:(lia)). lia.
Qed.

(** The date of a representable datetime has a four-digit year. *)
Lemma date_in_range t :
  dt_min <= t < dt_max ->
  let '(y, m, d) := civil_from_days (t / usec_per_day) in
  1 <= y <= 9999 /\ 1 <= m <= 12 /\ 1 <= d <= 31.
Proof.
  unfold dt_min, dt_max. intros Ht.
  assert (Hd : -719162 <= t / usec_per_day <= 2932896).
  { split; [apply Z.div_le_lower_bound | apply Z.lt_succ_r, Z.div_lt_upper_bound];
      unfold usec_per_day, usec_per_sec in *; lia. }
  pose proof (civil_key_le _ _ (proj1 Hd)) as H1. pose proof (civil_key_le _ _ (proj2 Hd)) as H2.
  pose proof (civil_bounds (t / usec_per_day)) as Hb.
  rewrite civil_first_day in H1. rewrite civil_last_day in H2.
  destruct (civil_from_days _) as [[y m] d]. simpl in *. lia.
Qed.

(** [%0wd] followed by text, compared. *)
Lemma compare_pad_app w n n' b b' :
  0 <= n < 10 ^ Z.of_nat w -> 0 <= n' < 10 ^ Z.of_nat w ->
  String.compare (pad_dec w n +:+ b) (pad_dec w n' +:+ b') =
    lex_then (Z.compare n n') (String.compare b b').
Proof.
  intros Hn Hn'. rewrite compare_app by (by rewrite !pad_dec_length).
  by rewrite pad_dec_compare.
Qed.

Lemma date_part_compare t t' b b' :
  dt_min <= t < dt_max -> dt_min <= t' < dt_max ->
  String.compare (date_part t +:+ b) (date_part t' +:+ b') =
    lex_then (Z.compare (date_key (civil_from_days (t / usec_per_day)))
                        (date_key (civil_from_days (t' / usec_per_day))))
             (String.compare b b').
Proof.
  intros Ht Ht'. pose proof (date_in_range t Ht). pose proof (date_in_range t' Ht').
  unfold date_part, date_key.
  destruct (civil_from_days (t / _)) as [[y m] d], (civil_from_days (t' / _)) as [[y' m'] d'].
  rewrite !sapp_assoc.
  rewrite !compare_pad_app, !compare_app_same, !compare_pad_app, !compare_app_same, !compare_pad_app
    by (simpl; lia).
  rewrite !Z_compare_digits by lia. by destruct (Z.compare y y'), (Z.compare m m'), (Z.compare d d').
Qed.

Lemma lex_then_assoc a b c : lex_then (lex_then a b) c = lex_then a (lex_then b c).
Proof. by destruct a. Qed.

(** Seconds of the day as hours, minutes and seconds. *)
Lemma secs_compare n n' :
  0 <= n -> 0 <= n' ->
  Z.compare n n' = lex_then (Z.compare (n / 3600) (n' / 3600))
                     (lex_then (Z.compare (n / 60 mod 60) (n' / 60 mod 60))
                               (Z.compare (n mod 60) (n' mod 60))).
Proof.
  intros Hn Hn'. rewrite (Z_compare_lex 60 n n'), (Z_compare_lex 60 (n / 60) (n' / 60)) by lia.
  by rewrite !Z.div_div, lex_then_assoc by lia.
Qed.

(** The fraction: none for a whole second, ["." + %06d] otherwise; ["+"]
    sorts before ["."], so a whole second sorts first. *)
Lemma frac_lt us us' b b' :
  0 <= us < us' -> us' < 1000000 ->
  String.compare ((if us =? 0 then "" else "." +:+ pad_dec 6 us) +:+ ("+00:00" +:+ b))
                 ((if us' =? 0 then "" else "." +:+ pad_dec 6 us') +:+ ("+00:00" +:+ b')) = Lt.
Proof.
  intros H H'. rewrite (proj2 (Z.eqb_neq us' 0)) by lia.
  destruct (Z.eqb_spec us 0); [reflexivity|].
  rewrite !sapp_assoc, compare_app_same, compare_pad_app by (simpl; lia).
  by rewrite (proj2 (Z.compare_lt_iff us us')) by lia.
Qed.

Definition day_of (t : datetime) : Z := t / usec_per_day.
Definition secs_of (t : datetime) : Z := t mod usec_per_day / usec_per_sec.
Definition usecs_of (t : datetime) : Z := t mod usec_per_day mod usec_per_sec.

(** [isoformat() + s] compared: date, then time of day to the second,
    then the fraction. *)
Lemma isoformat_compare t t' s s' :
  dt_min <= t < dt_max -> dt_min <= t' < dt_max ->
  String.compare (isoformat t +:+ s) (isoformat t' +:+ s') =
    lex_then (Z.compare (date_key (civil_from_days (day_of t))) (date_key (civil_from_days (day_of t'))))
      (lex_then (Z.compare (secs_of t) (secs_of t'))
        (String.compare
           ((if usecs_of t =? 0 then "" else "." +:+ pad_dec 6 (usecs_of t)) +:+ ("+00:00" +:+ s))
           ((if usecs_of t' =? 0 then "" else "." +:+ pad_dec 6 (usecs_of t')) +:+ ("+00:00" +:+ s')))).
Proof.
  intros Ht Ht'. unfold isoformat, day_of, secs_of, usecs_of. cbv zeta.
  rewrite !sapp_assoc, date_part_compare by done. f_equal.
  assert (Hs : forall u, let n := u mod usec_per_day / usec_per_sec in
            0 <= n < 86400 /\ 0 <= n / 3600 < 10 ^ 2 /\ 0 <= n / 60 mod 60 < 10 ^ 2 /\
            0 <= n mod 60 < 10 ^ 2).
  { intros u n. assert (0 <= n < 86400).
    { subst n. pose proof (Z.mod_pos_bound u usec_per_day ltac:(unfold usec_per_day, usec_per_sec; lia)).
      unfold usec_per_day, usec_per_sec in *.
      split; [apply Z.div_pos | apply Z.div_lt_upper_bound]; lia. }
    div_facts n 3600; div_facts n 60; div_facts (n / 60) 60. simpl. lia. }
  destruct (Hs t) as (? & ? & ? & ?), (Hs t') as (? & ? & ? & ?).
  rewrite compare_app_same, !compare_pad_app, !compare_app_same, !compare_pad_app,
    !compare_app_same, !compare_pad_app by done.
  rewrite (secs_compare (t mod _ / _)) by lia. by rewrite !lex_then_assoc.
Qed.

(** The string order of [isoformat() + s] is the order of time, whatever
    the texts [s] and [s'] that follow. *)
Theorem isoformat_lt t t' s s' :
  dt_min <= t -> t < t' -> t' < dt_max ->
  String.compare (isoformat t +:+ s) (isoformat t' +:+ s') = Lt.
Proof.
  intros Hmin Hlt Hmax. rewrite isoformat_compare by lia.
  assert (Hpos : 0 < usec_per_day) by (unfold usec_per_day, usec_per_sec; lia).
  assert (day_of t <= day_of t') by (apply Z.div_le_mono; lia).
  destruct (Z.lt_ge_cases (day_of t) (day_of t')) as [Hd|Hd].
  { by rewrite (proj2 (Z.compare_lt_iff _ _) (civil_key_mono _ _ Hd)). }
  replace (day_of t') with (day_of t) by lia. rewrite Z.compare_refl. cbn [lex_then].
  unfold day_of, secs_of, usecs_of in *.
  div_facts t usec_per_day; div_facts t' usec_per_day.
  assert (Hr : t mod usec_per_day < t' mod usec_per_day) by nia.
  set (r := t mod usec_per_day) in *. set (r' := t' mod usec_per_day) in *.
  assert (Hus : 0 < usec_per_sec) by (unfold usec_per_sec; lia).
  div_facts r usec_per_sec; div_facts r' usec_per_sec.
  destruct (Z.lt_ge_cases (r / usec_per_sec) (r' / usec_per_sec)) as [Hs|Hs].
  { by rewrite (proj2 (Z.compare_lt_iff _ _) Hs). }
  assert (r / usec_per_sec = r' / usec_per_sec) as ->
    by (pose proof (Z.div_le_mono r r' usec_per_sec Hus ltac:(lia)); lia).
  rewrite Z.compare_refl. cbn [lex_then].
  apply frac_lt; unfold usec_per_sec in *; nia.
Qed.

(** The stored form of an instant, [isoformat() + "Z"], is greater than its
    [isoformat()]. *)
Lemma iso_z_gt t : String.compare (iso_z t) (isoformat t) = Gt.
Proof. by apply compare_app_prefix. Qed.

(** A string not greater than [isoformat()] of an instant is below
    [isoformat()] of every later instant, and so is the stored form
    [isoformat() + "Z"] of that instant. *)
Lemma below_isoformat_lt c t t' :
  String.compare c (isoformat t) <> Gt -> dt_min <= t -> t < t' -> t' < dt_max ->
  String.compare c (isoformat t') = Lt.
Proof.
  intros Hc H1 H2 H3. apply (compare_trans_lt c (isoformat t)); [done|].
  pose proof (isoformat_lt t t' "" "" H1 H2 H3) as H. by rewrite !sapp_nil_r in H.
Qed.

Lemma iso_z_lt t t' :
  dt_min <= t -> t < t' -> t' < dt_max -> String.compare (iso_z t) (isoformat t') = Lt.
Proof.
  intros H1 H2 H3. pose proof (isoformat_lt t t' "Z" "" H1 H2 H3) as H.
  by rewrite sapp_nil_r in H.
Qed.

(** ** The date part of a stamp *)

(** [s.split("T")[0]]: the text before the first ["T"]. *)
Fixpoint before_T (s : string) : string :=
  match s with
  | EmptyString => EmptyString
  | String c r => if Ascii.eqb c "T"%char then EmptyString else String c (before_T r)
  end.

Lemma digit_not_T d : 0 <= d <= 9 -> Ascii.eqb (digit d) "T"%char = false.
Proof.
  intros Hd. apply Ascii.eqb_neq. intros H. apply (f_equal N_of_ascii) in H.
  rewrite digit_N in H by done. change (N_of_ascii "T") with 84%N in H. lia.
Qed.

Lemma before_T_pad_dec w n b : before_T (pad_dec w n +:+ b) = pad_dec w n +:+ before_T b.
Proof.
  revert n b. induction w as [|w IH]; intros n b; [done|]. cbn [pad_dec].
  rewrite !sapp_assoc, IH, sapp_cons, sapp_nil. cbn [before_T].
  rewrite digit_not_T by (pose proof (Z.mod_pos_bound n 10 ltac:(lia)); lia). by rewrite sapp_cons.
Qed.

Lemma before_T_char c b :
  Ascii.eqb c "T"%char = false -> before_T (String c "" +:+ b) = String c "" +:+ before_T b.
Proof. intros H. change (String c "" +:+ b) with (String c b). cbn [before_T]. by rewrite H. Qed.

Lemma before_T_T b : before_T ("T" +:+ b) = "".
Proof. reflexivity. Qed.

(** C25: [s.split("T")[0]] of a stamp [isoformat() + "Z"] is
    [strftime("%Y-%m-%d")] of the same instant: the date show_velocity
    counts a completion under (phase 1 line 274) is the UTC date of the
    instant mark_progress stamped (line 82), the date of that day's
    memory and WAL files. *)
Theorem iso_z_before_T t : before_T (iso_z t) = ymd t.
Proof.
  unfold iso_z, isoformat, ymd, date_part. cbv zeta.
  destruct (civil_from_days _) as [[y m] d]. rewrite !sapp_assoc.
  rewrite before_T_pad_dec, before_T_char, before_T_pad_dec, before_T_char, before_T_pad_dec
    by reflexivity.
  by rewrite before_T_T, sapp_nil_r.
Qed.

(** C24: on the datetimes Python represents, comparing [isoformat()]
    strings is comparing the instants: the string comparison of check 5
    of the health check (phase 2 line 358) orders times correctly. *)
Theorem isoformat_compare_time t t' :
  dt_min <= t < dt_max -> dt_min <= t' < dt_max ->
  String.compare (isoformat t) (isoformat t') = Z.compare t t'.
Proof.
  intros Ht Ht'. pose proof (isoformat_lt t t' "" "") as H1. pose proof (isoformat_lt t' t "" "") as H2.
  rewrite !sapp_nil_r in H1, H2.
  destruct (Z.compare_spec t t') as [->|Hlt|Hgt].
  - apply string_compare_refl.
  - apply H1; lia.
  - rewrite String.compare_antisym, H2 by lia. done.
Qed.

Lemma isoformat_compare_time_witness :
  (dt_min <= 1700000000000000 < dt_max /\ dt_min <= 1700000000000001 < dt_max) /\
  String.compare (isoformat 1700000000000000) (isoformat 1700000000000001) = Lt.
Proof.
  assert (H : dt_min <= 1700000000000000 < dt_max /\ dt_min <= 1700000000000001 < dt_max)
    by (unfold dt_min, dt_max, usec_per_day, usec_per_sec; lia).
  split; [done|]. destruct H as [H1 H2]. by rewrite (isoformat_compare_time _ _ H1 H2).
Defined.
