(* ===== verification/Store.v ===== *)
(** * The store, the file system and the shared helpers of both scripts

    [store] is the decoded content of data/tasks.json: its ["goals"] list
    (absent in a file that lacks the key), its ["tasks"] list and its other
    top-level keys.  [world] is everything a script run reads or writes:
    tasks.json and tasks.json.bak, the WAL files memory/WAL-<date>.log, the
    working buffer memory/working-buffer.md, SESSION-STATE.md, the daily
    files memory/<date>.md, the clock, the uuid source, and the ordered
    [trace] of the writes and prints of the run.  The helpers are
    [load_data] (phase 1 with its recovery, phase 2 without), [save_data],
    [find_task_by_id], [find_goal_by_id], [generate_id] and the clock read
    [now]. *)

From S2P Require Import Prelude PyVal Clock.

Open Scope Z_scope.

Record store := mkStore {
  goals : option (list obj);      (** [data["goals"]], [None] if the key is absent *)
  tasks : list obj;               (** [data["tasks"]] *)
  extra : obj                     (** the other top-level keys, saved back unchanged *)
}.

Definition empty_store : store := mkStore (Some []) [] ∅.

Definition set_tasks (s : store) (ts : list obj) : store := mkStore (goals s) ts (extra s).

(** What [json.load] makes of tasks.json.  A store's ["tasks"] holds a list
    of objects. *)
Inductive json_doc :=
| DStore (s : store)          (** an object with a "tasks" key *)
| DNoTasks                    (** an object without a "tasks" key *)
| DNotDict.                   (** valid JSON that is not an object *)

Inductive blob :=
| Parsed (d : json_doc)
| Unparseable (err : string)   (** json.load raises JSONDecodeError; [err] is [str(e)] *)
| Undecodable.                 (** not UTF-8: the text-mode read raises UnicodeDecodeError *)

(** ** What the scripts write and print *)

(** The data interpolated into a buffer line or a session-state action. *)
Inductive detail :=
| DProgress (task_id : string) (old : val) (new : Z)
| DTimeLog (task_id : string) (minutes : Z) (total : val)
| DBlocked (task_id : string) (reason : string).

(** One WAL line: [{"timestamp", "event_type", "content"}]. *)
Record wal_entry := mkWal { we_timestamp : string; we_type : string; we_content : list (string * val) }.

(** One working-buffer line: ["- {event_type} ({timestamp}): {details}"]. *)
Record buffer_line := mkLine { bl_type : string; bl_time : string; bl_detail : detail }.

(** The velocity note of the session snapshot and of phase 2 [log_time]. *)
Inductive velnote := VelNone | VelFaster (pct : Z) | VelSlower (pct : Z) | VelOnPace.

(** SESSION-STATE.md: the fields its template interpolates. *)
Record snapshot := mkSnap { sn_time : string; sn_task : obj; sn_goal : obj;
                            sn_action : detail; sn_velocity : velnote }.

(** The entries of the health-check report. *)
Inductive issue :=
| IssOrphaned (task_id : val)
| IssImpossible (task_id progress : val)
| IssNoCompletedAt (task_id : val)
| IssTimeAnomaly (task_id actual estimate ratio : val)
| IssBadDate (task_id completed_at : val).

Inductive repair :=
| FixRecurring (task_id : val)
| FixProgress (task_id : val)
| FixCompletedAt (task_id : val)
| FixDate (task_id : val).

(** The result objects printed on stdout. *)
Inductive output :=
| OutTask (t : obj)
| OutTimeLog1 (t : obj) (minutes : Z) (total : val) (variance : option val)
| OutNext (completed next : obj)
| OutVelocity (goal_id : string) (completed remaining days : nat) (velocity estimate : val)
              (by_day : list (string * nat))
| OutProgress2 (t : obj) (old : val) (new : Z)
| OutTimeLog2 (t : obj) (minutes : Z) (total estimate : val) (vel : velnote)
| OutBlocked2 (t : obj) (old_status : val) (reason : string)
| OutHealth (issues : list issue) (fixes : list repair)
| OutFlush (file : string) (lines : nat)
| OutHelp                                   (** phase 1 [parser.print_help()] *)
| OutUsage.                                 (** phase 2 usage lines, no command given *)

(** The messages printed on stderr. *)
Inductive message :=
| MsgTaskNotFound (task_id : string)
| MsgGoalNotFound (goal_id : string)
| MsgProgressRange
| MsgNotRecurring
| MsgIncomplete (progress : val)
| MsgSchemaInvalid
| MsgCorrupted (err : string)
| MsgUsage (command : string)               (** phase 2 usage line of a command *)
| MsgUnknownCommand (command : string).

Inductive event :=
| EvSave (s : store)                         (** save_data: tasks.json overwritten *)
| EvBackup                                   (** tasks.json copied to tasks.json.bak *)
| EvWal (file : string) (e : wal_entry)      (** one line appended to a WAL file *)
| EvBuffer (l : buffer_line)                 (** one line appended to the buffer *)
| EvSession (sn : snapshot)                  (** SESSION-STATE.md overwritten *)
| EvDaily (file : string) (section : string)  (** a section appended to a daily file *)
| EvBufferClear                              (** the buffer emptied *)
| EvStdout (o : output)
| EvStderr (m : message).

Record world := mkWorld {
  w_data : option blob;                        (** data/tasks.json *)
  w_backup : option blob;                      (** data/tasks.json.bak *)
  w_wal : gmap string string;                  (** the text of memory/WAL-<date>.log *)
  w_buffer : option string;                    (** the text of memory/working-buffer.md *)
  w_session : option string;                   (** the text of SESSION-STATE.md *)
  w_daily : gmap string string;                (** the text of memory/<date>.md *)
  w_clock : nat -> datetime;                   (** successive datetime.now() values *)
  w_tick : nat;                                (** clock reads so far *)
  w_uuid : nat -> string;                      (** successive uuid4().hex[:8] values *)
  w_uuid_next : nat;
  w_trace : list event                         (** writes and prints, in order *)
}.

Abbreviation PM := (M world).

(** ** Primitive effects *)

Definition log_event (e : event) (w : world) : world :=
  mkWorld (w_data w) (w_backup w) (w_wal w) (w_buffer w) (w_session w) (w_daily w)
          (w_clock w) (w_tick w) (w_uuid w) (w_uuid_next w) (w_trace w ++ [e]).

Definition emit (e : event) : PM unit := mmodify (log_event e).

(** [datetime.now(timezone.utc)] *)
Definition now : PM datetime :=
  fun w => (Ret (w_clock w (w_tick w)),
            mkWorld (w_data w) (w_backup w) (w_wal w) (w_buffer w) (w_session w) (w_daily w)
                    (w_clock w) (S (w_tick w)) (w_uuid w) (w_uuid_next w) (w_trace w)).

(** [print(json.dumps({"success": False, "error": ...}), file=sys.stderr); sys.exit(1)] *)
Definition fail_with {A} (m : message) : PM A := emit (EvStderr m) ;; raise (SystemExit 1).

(** [save_data(data)]: tasks.json replaced by the whole store. *)
Definition save_data (s : store) : PM unit :=
  fun w => (Ret tt,
            mkWorld (Some (Parsed (DStore s))) (w_backup w) (w_wal w) (w_buffer w) (w_session w)
                    (w_daily w) (w_clock w) (w_tick w) (w_uuid w) (w_uuid_next w)
                    (w_trace w ++ [EvSave s])).

(** [shutil.copy(DATA_FILE, "tasks.json.bak")] *)
Definition backup : PM unit :=
  fun w => (Ret tt,
            mkWorld (w_data w) (w_data w) (w_wal w) (w_buffer w) (w_session w) (w_daily w)
                    (w_clock w) (w_tick w) (w_uuid w) (w_uuid_next w) (w_trace w ++ [EvBackup])).

(** [generate_id(prefix)] = [f"{prefix}_{uuid.uuid4().hex[:8]}"] *)
Definition generate_id (prefix : string) : PM string :=
  fun w => (Ret (prefix +:+ "_" +:+ w_uuid w (w_uuid_next w)),
            mkWorld (w_data w) (w_backup w) (w_wal w) (w_buffer w) (w_session w) (w_daily w)
                    (w_clock w) (w_tick w) (w_uuid w) (S (w_uuid_next w)) (w_trace w)).

(** ** Loading *)

(** Phase 1 [load_data]: a missing file is the empty store; a file that is
    not an object with "tasks" is reported and replaced by the empty store;
    an unparseable file is reported, copied to the backup, and replaced by
    the empty store; a file that is not UTF-8 raises UnicodeDecodeError from
    the read, which neither [except] clause catches. *)
Definition load_data1 : PM store :=
  let* w := mget in
  match w_data w with
  | None => mret empty_store
  | Some (Parsed (DStore s)) => mret s
  | Some (Parsed _) => emit (EvStderr MsgSchemaInvalid) ;; mret empty_store
  | Some (Unparseable e) => emit (EvStderr (MsgCorrupted e)) ;; backup ;; mret empty_store
  | Some Undecodable => raise UnicodeDecodeError
  end.

(** Phase 2 [load_data] returns [json.load(f)] unchecked; every phase 2
    command reads [data["tasks"]] right after it, before any other effect,
    so a file without "tasks" stops the script there (KeyError), and one
    that is not an object too (TypeError). *)
Definition load_data2 : PM store :=
  let* w := mget in
  match w_data w with
  | None => mret empty_store
  | Some (Parsed (DStore s)) => mret s
  | Some (Parsed DNoTasks) => raise (KeyError "tasks")
  | Some (Parsed DNotDict) => raise TypeError
  | Some (Unparseable _) => raise JSONDecodeError
  | Some Undecodable => raise UnicodeDecodeError
  end.

(** ** Lookups *)

(** [for task in data["tasks"]: if task["id"] == task_id: return task]:
    the index and the task found first. *)
Fixpoint find_from (i : nat) (ts : list obj) (task_id : string) : outcome (option (nat * obj)) :=
  match ts with
  | [] => Ret None
  | t :: r =>
      let? v := getitem t "id" in
      if eq_str v task_id then Ret (Some (i, t)) else find_from (S i) r task_id
  end.

Definition find_task_by_id (s : store) (task_id : string) : outcome (option (nat * obj)) :=
  find_from 0 (tasks s) task_id.

(** [data["goals"]] *)
Definition goals_of (s : store) : outcome (list obj) :=
  match goals s with Some gs => Ret gs | None => Exc (KeyError "goals") end.

(** [for goal in data["goals"]: if goal["id"] == goal_id: return goal] *)
Fixpoint find_goal_in (gs : list obj) (goal_id : val) : outcome (option obj) :=
  match gs with
  | [] => Ret None
  | g :: r =>
      let? v := getitem g "id" in
      if py_eq v goal_id then Ret (Some g) else find_goal_in r goal_id
  end.

Definition find_goal_by_id (s : store) (goal_id : val) : outcome (option obj) :=
  let? gs := goals_of s in find_goal_in gs goal_id.

(** ** Editing tasks in place *)

(** [task[k] = v] on the dictionary being edited. *)
Abbreviation setk k v t := (<[k := v]> t) (only parsing).

(** [data["tasks"]] with the task at index [i] replaced by its edited copy:
    the effect of mutating the dictionary [find_task_by_id] returned. *)
Definition put_task (s : store) (i : nat) (t : obj) : store :=
  set_tasks s (<[i := t]> (tasks s)).

(** [data["tasks"].append(t)] *)
Definition append_task (s : store) (t : obj) : store :=
  set_tasks s (tasks s ++ [t]).

(** [task = find_task_by_id(data, task_id); if not task: ... sys.exit(1)] *)
Definition lookup_task (data : store) (task_id : string) : PM (nat * obj) :=
  let* found := lift (find_task_by_id data task_id) in
  match found with
  | Some it => mret it
  | None => fail_with (MsgTaskNotFound task_id)
  end.

(** [task["status"] == s], evaluated only when [guard] holds ([and]
    short-circuits); [task["status"]] raises KeyError on a task without
    status. *)
Definition status_is (guard : bool) (task : obj) (s : string) : PM bool :=
  if guard then let* st := lift (getitem task "status") in mret (eq_str st s)
  else mret false.

(** ** Running the helpers *)

Section Helpers.
Context (w : world).

Lemma load_data1_store s :
  w_data w = Some (Parsed (DStore s)) -> load_data1 w = (Ret s, w).
Proof. intros Hd. unfold load_data1, mbind, mget. simpl. by rewrite Hd. Qed.

Lemma load_data2_store s :
  w_data w = Some (Parsed (DStore s)) -> load_data2 w = (Ret s, w).
Proof. intros Hd. unfold load_data2, mbind, mget. simpl. by rewrite Hd. Qed.

Lemma load_data2_same w' :
  w_data w' = w_data w -> load_data2 w' = (fst (load_data2 w), w').
Proof. intros Hd. unfold load_data2, mbind, mget. simpl. rewrite Hd. by repeat case_match. Qed.

Lemma fail_with_run {A} m :
  (fail_with (A:=A) m) w = (Exc (SystemExit 1), log_event (EvStderr m) w).
Proof. reflexivity. Qed.

End Helpers.

(** ** Running the lookup *)

Lemma lookup_task_found w s id i t :
  find_task_by_id s id = Ret (Some (i, t)) -> lookup_task s id w = (Ret (i, t), w).
Proof. intros H. unfold lookup_task, mbind, lift. by rewrite H. Qed.

Lemma lookup_task_missing {A} w s id (k : nat * obj -> PM A) :
  find_task_by_id s id = Ret None ->
  mbind (lookup_task s id) k w = (Exc (SystemExit 1), log_event (EvStderr (MsgTaskNotFound id)) w).
Proof. intros H. unfold lookup_task, mbind, lift. by rewrite H. Qed.

(** ** The lookup finds the first task with the id *)

Lemma find_from_Some i0 ts id i t :
  find_from i0 ts id = Ret (Some (i, t)) ->
  (i0 <= i)%nat /\ ts !! (i - i0)%nat = Some t /\ t !! "id" = Some (VStr id).
Proof.
  revert i0. induction ts as [|t0 ts IH]; intros i0 H; simpl in H; [discriminate|].
  unfold getitem in H. destruct (t0 !! "id") as [v|] eqn:Hv; simpl in H; [|discriminate].
  destruct (eq_str v id) eqn:He.
  - inv_outcome. rewrite Nat.sub_diag. simpl. split; [lia|split; [done|]].
    destruct v; try discriminate. apply String.eqb_eq in He. by subst.
  - apply IH in H as (Hle & Hl & Hid). split; [lia|].
    replace (i - i0)%nat with (S (i - S i0)) by lia. done.
Qed.

Lemma find_task_by_id_Some s id i t :
  find_task_by_id s id = Ret (Some (i, t)) ->
  tasks s !! i = Some t /\ t !! "id" = Some (VStr id).
Proof.
  unfold find_task_by_id. intros H. apply find_from_Some in H as (_ & Hl & Hid).
  rewrite Nat.sub_0_r in Hl. done.
Qed.

Lemma find_task_by_id_lt s id i t :
  find_task_by_id s id = Ret (Some (i, t)) -> (i < length (tasks s))%nat.
Proof. intros H. apply find_task_by_id_Some in H as [Hl _]. by eapply lookup_lt_Some. Qed.

#[export] Hint Resolve find_task_by_id_lt : pytask.

(** Editing the found task, its id kept, leaves it the one found. *)
Lemma find_from_insert i0 ts id i t t' :
  find_from i0 ts id = Ret (Some (i, t)) -> t' !! "id" = t !! "id" ->
  find_from i0 (<[(i - i0)%nat := t']> ts) id = Ret (Some (i, t')).
Proof.
  revert i0. induction ts as [|t0 ts IH]; intros i0 H Hid; simpl in H; [discriminate|].
  unfold getitem in H. destruct (t0 !! "id") as [v|] eqn:Hv; simpl in H; [|discriminate].
  destruct (eq_str v id) eqn:He.
  - inv_outcome. rewrite Nat.sub_diag. simpl. unfold getitem. rewrite Hid, Hv. simpl. by rewrite He.
  - pose proof (find_from_Some _ _ _ _ _ H) as [Hle _].
    replace (i - i0)%nat with (S (i - S i0)) by lia. simpl. unfold getitem. rewrite Hv. simpl.
    rewrite He. by apply IH.
Qed.

Lemma find_task_by_id_put s id i t t' :
  find_task_by_id s id = Ret (Some (i, t)) -> t' !! "id" = t !! "id" ->
  find_task_by_id (put_task s i t') id = Ret (Some (i, t')).
Proof.
  unfold find_task_by_id, put_task, set_tasks. simpl. intros H Hid.
  pose proof (find_from_insert 0 _ _ _ _ _ H Hid) as H'. by rewrite Nat.sub_0_r in H'.
Qed.


(** ** Effects of the primitive actions on a world *)

(** The world after one clock read. *)
Definition tick (w : world) : world :=
  mkWorld (w_data w) (w_backup w) (w_wal w) (w_buffer w) (w_session w) (w_daily w)
          (w_clock w) (S (w_tick w)) (w_uuid w) (w_uuid_next w) (w_trace w).

Lemma now_run w : now w = (Ret (w_clock w (w_tick w)), tick w).
Proof. reflexivity. Qed.

Lemma tick_data w : w_data (tick w) = w_data w.
Proof. reflexivity. Qed.

Lemma log_event_data e w : w_data (log_event e w) = w_data w.
Proof. reflexivity. Qed.

Lemma save_data_data s w : w_data (snd (save_data s w)) = Some (Parsed (DStore s)).
Proof. reflexivity. Qed.

#[export] Hint Rewrite now_run tick_data log_event_data save_data_data : pytask_rw.

(** [ticks w w']: [w'] is [w] after some clock reads and nothing else. *)
Definition ticks (w w' : world) : Prop := exists n, w' = Nat.iter n tick w.

Lemma ticks_refl w : ticks w w.
Proof. by exists 0%nat. Qed.

Lemma ticks_tick w w' : ticks w w' -> ticks w (tick w').
Proof. intros [n ->]. by exists (S n). Qed.

Lemma ticks_trans w1 w2 w3 : ticks w1 w2 -> ticks w2 w3 -> ticks w1 w3.
Proof. intros [n ->] [m ->]. exists (m + n)%nat. by rewrite Nat.iter_add. Qed.

Lemma ticks_fields w w' :
  ticks w w' ->
  w_clock w' = w_clock w /\ (w_tick w <= w_tick w')%nat /\ w_data w' = w_data w /\
  w_trace w' = w_trace w.
Proof.
  intros [n ->]. induction n as [|n IH]; simpl; [done|].
  destruct IH as (? & ? & ? & ?). repeat split; simpl; auto with lia.
Qed.

#[export] Hint Resolve ticks_refl ticks_tick : pytask.

(** Reduce the monad and the world operations, and nothing else: the maps
    and strings of the task stay folded. *)
Ltac wred :=
  cbv beta iota zeta delta [mbind mret mget mmodify lift raise run final result fst snd
    now tick save_data emit log_event backup generate_id fail_with];
  cbn [w_data w_backup w_wal w_buffer w_session w_daily w_clock w_tick w_uuid w_uuid_next w_trace].

(** Evaluate a handler on a task whose relevant keys are known from the
    hypotheses: the lookups through updates, the known lookups and string
    tests, the boolean connectives, the integer arithmetic, the monad. *)
Ltac eval_simpl :=
  repeat first [ progress simpl_lookup; idtac
               | idtac; match goal with H : ?m !! ?k = _ |- context [?m !! ?k] => rewrite H end
               | idtac; match goal with H : eq_str ?v ?s = _ |- context [eq_str ?v ?s] => rewrite H end
               | idtac; match goal with H : String.eqb ?a ?b = _ |- context [String.eqb ?a ?b] => rewrite H end
               | idtac; match goal with |- context [contains ?d ?k] =>
                   first [ rewrite (contains_Some d k _) by (simpl_lookup; first [eassumption | reflexivity])
                         | rewrite (contains_None d k) by (simpl_lookup; assumption) ] end
               | idtac; match goal with |- context [bool_decide ?P] =>
                   first [ rewrite (bool_decide_eq_true_2 P) by (done || congruence)
                         | rewrite (bool_decide_eq_false_2 P) by (done || congruence) ] end
               | progress cbn [andb negb orb eq_str truthy obind py_add py_sub as_num py_lt py_gt py_cmp cmp_num]
               | progress unfold getitem, get
               | progress wred ].

(** Split a run on every test and every outcome it meets, keeping the
    equation of each case. *)
Ltac case_run :=
  repeat first [ progress wred
               | match goal with |- context [match ?o with Ret _ => _ | Exc _ => _ end] =>
                   let E := fresh "E" in destruct o eqn:E end
               | match goal with |- context [match ?o with Some _ => _ | None => _ end] =>
                   let E := fresh "E" in destruct o eqn:E end
               | match goal with |- context [if ?b then _ else _] =>
                   let E := fresh "E" in destruct b eqn:E end ].

(** ** A Hoare logic for script runs

    [triple m Q]: from any world satisfying the invariant [Inv], [m] either
    returns a value satisfying [Q] in a world satisfying [Inv], or raises
    in a world satisfying [Inv].  The invariant is a parameter; it only has
    to survive the effects that do not write tasks.json. *)

Section Triple.
Context (Inv : world -> Prop).
Hypothesis Inv_tick : forall w, Inv w -> Inv (tick w).
Hypothesis Inv_log : forall e w, Inv w -> Inv (log_event e w).
Hypothesis Inv_backup : forall w, Inv w -> Inv (snd (backup w)).
Hypothesis Inv_uuid : forall p w, Inv w -> Inv (snd (generate_id p w)).

Definition triple {A} (m : PM A) (Q : A -> Prop) : Prop :=
  forall w, Inv w ->
    match m w with
    | (Ret a, w') => Q a /\ Inv w'
    | (Exc _, w') => Inv w'
    end.

Lemma triple_ret {A} (a : A) (Q : A -> Prop) : Q a -> triple (mret a) Q.
Proof. intros HQ w Hw. by split. Qed.

Lemma triple_bind {A B} (m : PM A) (k : A -> PM B) (R : A -> Prop) (Q : B -> Prop) :
  triple m R -> (forall a, R a -> triple (k a) Q) -> triple (mbind m k) Q.
Proof.
  intros Hm Hk w Hw. specialize (Hm w Hw). unfold mbind.
  destruct (m w) as [[a|e] w']; [|done]. destruct Hm as [HR Hw']. by apply Hk.
Qed.

Lemma triple_raise {A} e (Q : A -> Prop) : triple (raise e) Q.
Proof. by intros w Hw. Qed.

Lemma triple_lift {A} (o : outcome A) : triple (lift o) (fun a => o = Ret a).
Proof. intros w Hw. unfold lift. by destruct o. Qed.

Lemma triple_mget_const {A} (f : world -> PM A) (Q : A -> Prop) :
  (forall w0, Inv w0 -> triple (f w0) Q) -> triple (mbind mget f) Q.
Proof. intros H w Hw. by apply H. Qed.

Lemma triple_now : triple now (fun _ => True).
Proof. intros w Hw. split; [done|]. by apply Inv_tick. Qed.

Lemma triple_emit e : triple (emit e) (fun _ => True).
Proof. intros w Hw. split; [done|]. by apply Inv_log. Qed.

Lemma triple_backup : triple backup (fun _ => True).
Proof. intros w Hw. split; [done|]. by apply (Inv_backup w). Qed.

Lemma triple_generate_id p : triple (generate_id p) (fun _ => True).
Proof. intros w Hw. split; [done|]. by apply (Inv_uuid p w). Qed.

Lemma triple_fail_with {A} m (Q : A -> Prop) : triple (fail_with m) Q.
Proof. intros w Hw. by apply Inv_log. Qed.

Lemma triple_weaken {A} (m : PM A) (Q Q' : A -> Prop) :
  triple m Q -> (forall a, Q a -> Q' a) -> triple m Q'.
Proof.
  intros Hm HQ w Hw. specialize (Hm w Hw). destruct (m w) as [[a|e] w']; [|done].
  destruct Hm. split; auto.
Qed.

Lemma triple_final {A} (m : PM A) (Q : A -> Prop) w : triple m Q -> Inv w -> Inv (final m w).
Proof. intros Hm Hw. specialize (Hm w Hw). unfold final. destruct (m w) as [[a|e] w']; [apply Hm | exact Hm]. Qed.

End Triple.

#[export] Hint Resolve triple_now triple_emit triple_backup triple_generate_id
  triple_fail_with triple_raise : pytask.

(** [data_is d]: tasks.json holds [d]; the effects that do not save keep it. *)
Definition data_is (d : option blob) (w : world) : Prop := w_data w = d.

Lemma data_is_tick d w : data_is d w -> data_is d (tick w).
Proof. done. Qed.
Lemma data_is_log d e w : data_is d w -> data_is d (log_event e w).
Proof. done. Qed.
Lemma data_is_backup d w : data_is d w -> data_is d (snd (backup w)).
Proof. done. Qed.
Lemma data_is_uuid d p w : data_is d w -> data_is d (snd (generate_id p w)).
Proof. done. Qed.

#[export] Hint Resolve data_is_tick data_is_log data_is_backup data_is_uuid : pytask.

(** Generate the verification conditions of a straight-line handler. *)
Ltac vcg :=
  repeat match goal with
  | |- triple _ (let _ := _ in _) _ => cbv zeta
  | |- triple _ (mbind mget _) _ => apply triple_mget_const; intros ? ?
  | |- triple _ (mbind _ _) _ =>
      eapply triple_bind; [solve [eauto with pytask | apply triple_lift] | intros ? ?; cbv beta in *]
  | |- triple _ (mret _) _ => apply triple_ret
  | |- triple _ (if ?b then _ else _) _ => destruct b eqn:?
  | |- triple _ (match ?o with _ => _ end) _ => destruct o eqn:?
  | |- triple _ (let '(_, _) := ?p in _) _ => destruct p eqn:?
  | |- triple _ _ _ => solve [eauto with pytask]
  end.

(** Phase 2 [load_data] does not change the world. *)
Lemma load_data2_run w : (exists s, load_data2 w = (Ret s, w)) \/ (exists e, load_data2 w = (Exc e, w)).
Proof. unfold load_data2, mbind, mget. destruct (w_data w) as [[[]| |]|]; simpl; eauto. Qed.

(** The store phase 1 recovers from what tasks.json holds. *)
Definition recovered (d : option blob) : store :=
  match d with Some (Parsed (DStore s)) => s | _ => empty_store end.

(** C15: phase 1 [load_data] (lines 24-49) recovers from every tasks.json
    that can be read as text: it returns the store of the file, or the empty
    store when the file is missing, is not an object with "tasks" (with a
    warning) or cannot be parsed (with a warning, after copying the file to
    tasks.json.bak); it never writes tasks.json, and it writes the backup
    exactly in the last case.  A file that is not UTF-8 makes the read
    raise UnicodeDecodeError, which neither [except] clause catches: the
    script stops with nothing written (spec §4.1 recovers from a malformed
    encoding too). *)
Theorem load_data1_recovers w :
  match w_data w with
  | Some Undecodable => load_data1 w = (Exc UnicodeDecodeError, w)
  | d =>
    exists w', load_data1 w = (Ret (recovered d), w') /\
      w_data w' = d /\
      w_backup w' = match d with Some (Unparseable _) => d | _ => w_backup w end /\
      w_trace w' = w_trace w ++
        match d with
        | Some (Parsed (DStore _)) | None | Some Undecodable => []
        | Some (Parsed _) => [EvStderr MsgSchemaInvalid]
        | Some (Unparseable e) => [EvStderr (MsgCorrupted e); EvBackup]
        end
  end.
Proof.
  unfold load_data1. destruct (w_data w) as [[[s| |]|e|]|] eqn:Hd; wred; rewrite Hd; wred;
    try reflexivity;
    eexists; (split; [reflexivity|]); cbn; rewrite ?Hd; repeat split; by rewrite ?app_nil_r, <- ?app_assoc.
Qed.
