(* ===== verification/Trace.v ===== *)
(** * Properties of the order of writes in a run

    A script run only appends to the trace of writes and prints.  The
    durability discipline of the write-ahead log is a property of the order
    of those events: [wal_before_save] holds of a sequence of events when
    every save of tasks.json is preceded by a WAL append.  [ttriple P Q m]
    says: when the events appended so far satisfy [P], the events appended
    after [m] (whether it returns or raises) satisfy [Q].  The rules below
    cover the primitive effects of [Store]. *)

From S2P Require Import Prelude PyVal Clock Store.

(** ** Event classes and the WAL-first order *)

Definition is_save (e : event) : bool := match e with EvSave _ => true | _ => false end.
Definition is_wal (e : event) : bool := match e with EvWal _ _ => true | _ => false end.

(** [wal_first seen tr]: every save in [tr] comes after a WAL append, the
    flag [seen] telling whether one was appended before [tr]. *)
Fixpoint wal_first (seen : bool) (tr : list event) : bool :=
  match tr with
  | [] => true
  | e :: r =>
      if is_save e then seen && wal_first seen r
      else wal_first (seen || is_wal e) r
  end.

Definition wal_before_save (tr : list event) : bool := wal_first false tr.

Definition has_wal (tr : list event) : bool := existsb is_wal tr.
Definition has_save (tr : list event) : bool := existsb is_save tr.

Lemma wal_first_app seen l1 l2 :
  wal_first seen (l1 ++ l2) = wal_first seen l1 && wal_first (seen || has_wal l1) l2.
Proof.
  revert seen. induction l1 as [|e l1 IH]; intros seen; simpl.
  - by rewrite orb_false_r.
  - destruct (is_save e) eqn:Hs; simpl.
    + destruct seen; simpl; [|done]. rewrite IH. by destruct e.
    + rewrite IH. by rewrite orb_assoc.
Qed.

Lemma wal_first_true_any l : wal_first true l = true.
Proof. induction l as [|e l IH]; simpl; [done|]. by destruct (is_save e). Qed.

(** ** A logic of appended events *)

Section TraceLogic.
Context (tr0 : list event).

(** The events appended to [tr0] satisfy [P]. *)
Definition extends (P : list event -> Prop) (w : world) : Prop :=
  exists new, w_trace w = tr0 ++ new /\ P new.

(** From appended events satisfying [P], [m] returns with appended events
    satisfying [Q], or raises with appended events satisfying [E]. *)
Definition ttriple {A} (P Q E : list event -> Prop) (m : PM A) : Prop :=
  forall w, extends P w ->
    match m w with
    | (Ret _, w') => extends Q w'
    | (Exc _, w') => extends E w'
    end.

Lemma ttriple_bind {A B} P R Q E (m : PM A) (k : A -> PM B) :
  ttriple P R E m -> (forall a, ttriple R Q E (k a)) -> ttriple P Q E (mbind m k).
Proof.
  intros Hm Hk w Hw. specialize (Hm w Hw). unfold mbind.
  destruct (m w) as [[a|e] w'] eqn:E'; [by apply Hk | done].
Qed.

Definition returns {A} (m : PM A) : Prop := forall w, exists a, fst (m w) = Ret a.

(** An effect that always returns and appends the events [es]. *)
Lemma ttriple_appends {A} P Q E (m : PM A) (es : list event) :
  returns m -> (forall w, w_trace (snd (m w)) = w_trace w ++ es) ->
  (forall l, P l -> Q (l ++ es)) -> ttriple P Q E m.
Proof.
  intros Hr Hm HPQ w (new & Ht & HP). destruct (Hr w) as [a Ha].
  destruct (m w) as [o w'] eqn:Em. simpl in Ha; subst o.
  exists (new ++ es). split; [|by apply HPQ].
  specialize (Hm w). rewrite Em in Hm. simpl in Hm. rewrite Hm, Ht. by rewrite app_assoc.
Qed.

(** An effect that may raise and appends nothing. *)
Lemma ttriple_silent {A} P E (m : PM A) :
  (forall w, w_trace (snd (m w)) = w_trace w) -> (forall l, P l -> E l) -> ttriple P P E m.
Proof.
  intros Hm HPE w (new & Ht & HP). specialize (Hm w).
  destruct (m w) as [[a|e] w']; simpl in Hm; exists new; rewrite Hm; auto.
Qed.

Lemma ttriple_ret {A} P E (a : A) : ttriple P P E (mret a).
Proof. apply (ttriple_appends _ _ _ _ []); [by exists a | intros; by rewrite app_nil_r | intros; by rewrite app_nil_r]. Qed.
Lemma ttriple_now P E : ttriple P P E now.
Proof. apply (ttriple_appends _ _ _ _ []); [by eexists | intros; by rewrite app_nil_r | intros; by rewrite app_nil_r]. Qed.
Lemma ttriple_generate_id P E p : ttriple P P E (generate_id p).
Proof. apply (ttriple_appends _ _ _ _ []); [by eexists | intros; by rewrite app_nil_r | intros; by rewrite app_nil_r]. Qed.
Lemma ttriple_raise {A} P E e : (forall l, P l -> E l) -> ttriple P P E (raise (A:=A) e).
Proof. apply ttriple_silent. done. Qed.
Lemma ttriple_lift {A} P E (o : outcome A) : (forall l, P l -> E l) -> ttriple P P E (lift o).
Proof. apply ttriple_silent. done. Qed.
Lemma ttriple_emit P Q E e : (forall l, P l -> Q (l ++ [e])) -> ttriple P Q E (emit e).
Proof. apply ttriple_appends; [by eexists | done]. Qed.
Lemma ttriple_save P Q E s : (forall l, P l -> Q (l ++ [EvSave s])) -> ttriple P Q E (save_data s).
Proof. apply ttriple_appends; [by eexists | done]. Qed.
Lemma ttriple_backup P Q E : (forall l, P l -> Q (l ++ [EvBackup])) -> ttriple P Q E backup.
Proof. apply ttriple_appends; [by eexists | done]. Qed.

Lemma ttriple_mget {A} P Q E (f : world -> PM A) : (forall w0, ttriple P Q E (f w0)) -> ttriple P Q E (mbind mget f).
Proof. intros H w Hw. by apply H. Qed.

Lemma ttriple_post {A} P Q Q' E (m : PM A) :
  ttriple P Q E m -> (forall l, Q l -> Q' l) -> ttriple P Q' E m.
Proof.
  intros Hm HQ w Hw. specialize (Hm w Hw).
  destruct (m w) as [[a|e] w']; [|done]. destruct Hm as (new & ? & ?). exists new. auto.
Qed.

(** The appended events of the final world of a run. *)
Lemma ttriple_final {A} P Q (m : PM A) w :
  ttriple P Q Q m -> extends P w -> extends Q (final m w).
Proof. intros Hm Hw. specialize (Hm w Hw). unfold final. by destruct (m w) as [[]]. Qed.

End TraceLogic.

(** ** The two phases of a WAL-first handler *)

(** Before the WAL append: no save yet, or every save after a WAL line. *)
Definition walfirst (l : list event) : Prop := wal_before_save l = true.
(** After the WAL append: any event may follow. *)
Definition walled (l : list event) : Prop := wal_before_save l = true /\ has_wal l = true.

Lemma walfirst_nonsave l e : is_save e = false -> walfirst l -> walfirst (l ++ [e]).
Proof.
  unfold walfirst, wal_before_save. intros He Hl. rewrite wal_first_app, Hl. simpl. rewrite He.
  done.
Qed.

Lemma walled_any l e : walled l -> walled (l ++ [e]).
Proof.
  unfold walled, wal_before_save. intros [Hl Hw]. rewrite wal_first_app, Hl, Hw. simpl.
  split; [by destruct (is_save e)|]. unfold has_wal. rewrite existsb_app, orb_true_iff. by left.
Qed.

Lemma walfirst_wal l e : is_wal e = true -> walfirst l -> walled (l ++ [e]).
Proof.
  unfold walled, walfirst, wal_before_save. intros He Hl. rewrite wal_first_app, Hl. simpl.
  destruct e; try discriminate. split; [done|]. unfold has_wal. rewrite existsb_app. simpl. by rewrite orb_true_r.
Qed.

Lemma walled_walfirst l : walled l -> walfirst l.
Proof. by intros []. Qed.

#[export] Hint Resolve walfirst_nonsave walled_any walled_walfirst : pytask.
