(* ===== verification/Wf.v ===== *)
(** * The store invariant and its preservation rules

    [task_wf] is the part of the data-model invariant of a task that the
    commands maintain: a present ["progress"] is an int in 0..100, a
    completed task has a non-empty ["completed_at"] string, a blocked task
    has a ["blocked_reason"] string.  [store_wf] asks it of every task,
    [data_wf] of the store in tasks.json.  The rules of the Hoare logic of
    [Store] for loading, looking up and saving are stated once for any
    per-task predicate ([data_ok P]); [data_wf] is its instance at
    [task_wf], and the editing rules are those of [task_wf]. *)

From S2P Require Import Prelude PyVal Clock Store.

Open Scope Z_scope.

Definition status_of (t : obj) : val := get t "status" VNone.

Definition is_str (v : val) : bool := match v with VStr _ => true | _ => false end.
Definition is_nonempty_str (v : val) : bool :=
  match v with VStr s => negb (String.eqb s "") | _ => false end.

Definition progress_ok (t : obj) : bool :=
  match t !! "progress" with
  | None => true
  | Some (VInt p) => (0 <=? p) && (p <=? 100)
  | Some _ => false
  end.

Definition completed_ok (t : obj) : bool :=
  negb (eq_str (status_of t) "completed") || is_nonempty_str (get t "completed_at" VNone).

Definition blocked_ok (t : obj) : bool :=
  negb (eq_str (status_of t) "blocked") || is_str (get t "blocked_reason" VNone).

Definition task_wf (t : obj) : bool := progress_ok t && completed_ok t && blocked_ok t.

(** ** Invariants of the tasks of tasks.json

    A per-task predicate [P] asked of every task of the store in
    tasks.json.  The effects that do not save keep it; loading, looking a
    task up and saving a store of good tasks are its rules.  [store_wf]
    and [data_wf] are the instance at [task_wf]; [Typed] uses it with the
    field types of the data model. *)

Section TaskInv.
Context (P : obj -> bool).

Definition store_ok (s : store) : bool := forallb P (tasks s).

Definition data_ok (w : world) : Prop :=
  match w_data w with Some (Parsed (DStore s)) => store_ok s = true | _ => True end.

Lemma data_ok_tick w : data_ok w -> data_ok (tick w).
Proof. done. Qed.
Lemma data_ok_log e w : data_ok w -> data_ok (log_event e w).
Proof. done. Qed.
Lemma data_ok_backup w : data_ok w -> data_ok (snd (backup w)).
Proof. done. Qed.
Lemma data_ok_uuid p w : data_ok w -> data_ok (snd (generate_id p w)).
Proof. done. Qed.

Lemma otriple_now : triple data_ok now (fun _ => True).
Proof. apply triple_now, data_ok_tick. Qed.
Lemma otriple_emit e : triple data_ok (emit e) (fun _ => True).
Proof. apply triple_emit, data_ok_log. Qed.
Lemma otriple_backup : triple data_ok backup (fun _ => True).
Proof. apply triple_backup, data_ok_backup. Qed.
Lemma otriple_generate_id p : triple data_ok (generate_id p) (fun _ => True).
Proof. apply triple_generate_id, data_ok_uuid. Qed.
Lemma otriple_fail_with {A} m (Q : A -> Prop) : triple data_ok (fail_with m) Q.
Proof. apply triple_fail_with, data_ok_log. Qed.

Lemma otriple_save s : store_ok s = true -> triple data_ok (save_data s) (fun _ => True).
Proof. intros Hs w _. by split. Qed.

(** A computation that leaves tasks.json alone keeps the invariant. *)
Lemma otriple_data_only {A} (m : PM A) :
  (forall w, w_data (snd (m w)) = w_data w) -> triple data_ok m (fun _ => True).
Proof.
  intros H w Hw. specialize (H w). unfold data_ok in *.
  destruct (m w) as [[a|e] w'] eqn:E; simpl in H; rewrite H; [split|]; done.
Qed.

Lemma store_ok_empty : store_ok empty_store = true.
Proof. reflexivity. Qed.

Lemma otriple_load1 : triple data_ok load_data1 (fun s => store_ok s = true).
Proof.
  apply triple_mget_const. intros w0 Hw0.
  destruct (w_data w0) as [[[s| |]| |]|] eqn:Hd.
  - apply triple_ret. unfold data_ok in Hw0. by rewrite Hd in Hw0.
  - eapply triple_bind; [apply otriple_emit|]. intros. by apply triple_ret.
  - eapply triple_bind; [apply otriple_emit|]. intros. by apply triple_ret.
  - eapply triple_bind; [apply otriple_emit|]. intros.
    eapply triple_bind; [apply otriple_backup|]. intros. by apply triple_ret.
  - by apply triple_raise.
  - by apply triple_ret.
Qed.

Lemma otriple_load2 : triple data_ok load_data2 (fun s => store_ok s = true).
Proof.
  apply triple_mget_const. intros w0 Hw0.
  destruct (w_data w0) as [[[s| |]| |]|] eqn:Hd; try apply triple_raise; apply triple_ret.
  - unfold data_ok in Hw0. by rewrite Hd in Hw0.
  - done.
Qed.

Lemma otriple_lookup_task data id :
  triple data_ok (lookup_task data id) (fun '(i, t) => tasks data !! i = Some t).
Proof.
  unfold lookup_task. eapply triple_bind; [apply triple_lift|]. intros found Hf.
  destruct found as [[i t]|]; [|apply otriple_fail_with].
  apply triple_ret. by apply find_task_by_id_Some in Hf as [? _].
Qed.

Lemma otriple_status_is g t s : triple data_ok (status_is g t s) (fun _ => True).
Proof.
  unfold status_is. destruct g; [|by apply triple_ret].
  eapply triple_bind; [apply triple_lift|]. intros. by apply triple_ret.
Qed.

Lemma store_ok_lookup s i t : store_ok s = true -> tasks s !! i = Some t -> P t = true.
Proof. unfold store_ok. rewrite forallb_Forall_iff. intros Hs Hl. exact (Forall_lookup_1 (fun x => P x = true) _ _ _ Hs Hl). Qed.

Lemma store_ok_put s i t : store_ok s = true -> P t = true -> store_ok (put_task s i t) = true.
Proof. unfold store_ok, put_task, set_tasks. simpl. rewrite !forallb_Forall_iff. intros. by apply Forall_insert. Qed.

Lemma store_ok_append s t : store_ok s = true -> P t = true -> store_ok (append_task s t) = true.
Proof.
  unfold store_ok, append_task, set_tasks. simpl. intros Hs Ht.
  rewrite forallb_app. simpl. by rewrite Hs, Ht.
Qed.

Lemma store_ok_set_tasks s ts : forallb P ts = true -> store_ok (set_tasks s ts) = true.
Proof. done. Qed.

End TaskInv.

#[export] Hint Resolve otriple_now otriple_emit otriple_backup otriple_generate_id
  otriple_fail_with otriple_load1 otriple_load2 otriple_lookup_task otriple_status_is : pytask.
#[export] Hint Resolve store_ok_put store_ok_append store_ok_lookup : pytask.

Abbreviation store_wf := (store_ok task_wf).
Abbreviation data_wf := (data_ok task_wf).
Abbreviation wtriple := (triple data_wf).

(** ** Editing one task *)

Lemma iso_z_nonempty x : is_nonempty_str (VStr (iso_z x)) = true.
Proof. unfold iso_z. simpl. by destruct (isoformat x). Qed.

Ltac wf_unfold := unfold task_wf, progress_ok, completed_ok, blocked_ok, status_of, get in *.

(** Keys the invariant does not read. *)
Lemma task_wf_set_other k v t :
  k ∉ ["progress"; "status"; "completed_at"; "blocked_reason"] ->
  task_wf (<[k := v]> t) = task_wf t.
Proof. intros Hk. wf_unfold. by simpl_lookup. Qed.

Lemma task_wf_delete_other k t :
  k ∉ ["progress"; "status"; "completed_at"; "blocked_reason"] ->
  task_wf (delete k t) = task_wf t.
Proof. intros Hk. wf_unfold. by simpl_lookup. Qed.

Lemma task_wf_set_progress p t :
  0 <= p <= 100 -> task_wf t = true -> task_wf (<["progress" := VInt p]> t) = true.
Proof.
  intros Hp Ht. wf_unfold. simpl_lookup.
  apply andb_true_iff in Ht as [[_ ?]%andb_true_iff ?]. rewrite !andb_true_iff. split; [split|]; [lia|done|done].
Qed.

(** A status that is neither "completed" nor "blocked". *)
Lemma task_wf_set_status s t :
  s <> "completed" -> s <> "blocked" -> task_wf t = true ->
  task_wf (<["status" := VStr s]> t) = true.
Proof.
  intros H1 H2 Ht. wf_unfold. simpl_lookup. simpl.
  apply andb_true_iff in Ht as [[-> _]%andb_true_iff _].
  apply String.eqb_neq in H1, H2. by rewrite H1, H2.
Qed.

Lemma task_wf_complete x t :
  task_wf t = true ->
  task_wf (<["completed_at" := VStr (iso_z x)]> (<["status" := VStr "completed"]> t)) = true.
Proof.
  intros Ht. wf_unfold. simpl_lookup. simpl.
  apply andb_true_iff in Ht as [[-> _]%andb_true_iff _]. simpl. by destruct (isoformat x).
Qed.

Lemma task_wf_block r t :
  task_wf t = true ->
  task_wf (<["blocked_reason" := VStr r]> (<["status" := VStr "blocked"]> t)) = true.
Proof. intros Ht. wf_unfold. simpl_lookup. simpl. by apply andb_true_iff in Ht as [[-> _]%andb_true_iff _]. Qed.

(** The reason of a task that is not blocked is not read. *)
Lemma task_wf_set_reason v t :
  eq_str (status_of t) "blocked" = false -> task_wf (<["blocked_reason" := v]> t) = task_wf t.
Proof.
  unfold status_of, get. intros Hb. wf_unfold. simpl_lookup.
  destruct (t !! "status"); simpl in *; by rewrite ?Hb, ?orb_true_r.
Qed.

(** A pending task with a valid progress. *)
Lemma task_wf_pending t :
  t !! "status" = Some (VStr "pending") -> progress_ok t = true -> task_wf t = true.
Proof. intros Hs Hp. wf_unfold. rewrite Hs. simpl. by rewrite Hp. Qed.

Lemma task_wf_singleton_other k v :
  k ∉ ["progress"; "status"; "completed_at"; "blocked_reason"] -> task_wf {[k := v]} = true.
Proof.
  intros Hk. wf_unfold.
  rewrite !lookup_singleton_ne by (intros ->; set_solver). reflexivity.
Qed.

#[export] Hint Resolve task_wf_set_progress task_wf_set_status task_wf_complete task_wf_block
  task_wf_pending : pytask.

(** Prove [task_wf] of a task edited by a handler from [task_wf] of the
    task it was found as. *)
Ltac wf_tac :=
  repeat first [ rewrite task_wf_set_other by set_solver
               | rewrite task_wf_delete_other by set_solver
               | apply task_wf_complete
               | apply task_wf_block
               | (apply task_wf_set_progress; [lia|])
               | (apply task_wf_set_status; [discriminate|discriminate|])
               | (rewrite task_wf_set_reason by (unfold status_of, get; simpl_lookup; reflexivity))
               | (eapply store_ok_lookup; eassumption)
               | (apply task_wf_singleton_other; set_solver)
               | match goal with |- context [if ?b then _ else _] => destruct b end
               | match goal with |- context [match ?o with Some _ => _ | None => _ end] => destruct o end ].

(** The [save_data] step of a handler that edits the task at a found index
    or appends a task. *)
Ltac save_step :=
  eapply triple_bind;
  [ apply otriple_save;
    repeat first [ apply store_ok_put | apply store_ok_append | assumption | wf_tac ]
  | intros ? ?; vcg ].
