(* ===== verification/Phase1.v ===== *)
(** * task_manager_phase1.py: the commands of the phase 1 script

    Each command is the whole Python handler on the argument strings:
    [load_data], the lookup with its "not found" exit, the [int()]
    conversion of the numeric argument, the argument checks, the in-place updates of the
    task dictionary with every [datetime.now()] call in the order of the
    source, [save_data], and the printed result.  [show_velocity] is in
    [Velocity], the dispatcher [run1] in [Cli].  The theorems give the
    exact run of each handler on a found task (the task saved, the clock
    reads used, the exits), and the invariant [data_wf] as a Hoare triple
    per handler. *)

From S2P Require Import Prelude PyVal PyInt Clock Store Wf.

Open Scope Z_scope.

(** ** mark_progress (lines 67-92) *)

Definition mark_progress (task_id : string) (progress_arg : string) : PM unit :=
  let* data := load_data1 in
  let* '(i, task) := lookup_task data task_id in
  let* progress := lift (py_int progress_arg) in
  if negb ((0 <=? progress) && (progress <=? 100)) then fail_with MsgProgressRange else
  let task := setk "progress" (VInt progress) task in
  let* t1 := now in
  let task := setk "updated_at" (VStr (iso_z t1)) task in
  let* c1 := status_is (progress =? 100) task "in_progress" in
  let* task :=
    if c1 then
      let task := setk "status" (VStr "completed") task in
      let* t2 := now in
      mret (setk "completed_at" (VStr (iso_z t2)) task)
    else
      let* c2 := status_is (0 <? progress) task "pending" in
      mret (if c2 then setk "status" (VStr "in_progress") task else task) in
  save_data (put_task data i task) ;;
  emit (EvStdout (OutTask task)).

(** ** mark_blocked (lines 94-109) *)

Definition mark_blocked (task_id : string) (reason : string) : PM unit :=
  let* data := load_data1 in
  let* '(i, task) := lookup_task data task_id in
  let task := setk "blocked_reason" (VStr reason) (setk "status" (VStr "blocked") task) in
  let* t1 := now in
  let task := setk "updated_at" (VStr (iso_z t1)) task in
  save_data (put_task data i task) ;;
  emit (EvStdout (OutTask task)).

(** ** unblock_task (lines 111-126) *)

Definition unblock_task (task_id : string) : PM unit :=
  let* data := load_data1 in
  let* '(i, task) := lookup_task data task_id in
  let task := setk "blocked_reason" VNone (setk "status" (VStr "pending") task) in
  let* t1 := now in
  let task := setk "updated_at" (VStr (iso_z t1)) task in
  save_data (put_task data i task) ;;
  emit (EvStdout (OutTask task)).

(** ** log_time (lines 128-163) *)

(** [variance = ((actual - estimated) / estimated) * 100 if estimated > 0
    else 0], then [round(variance, 1)]. *)
Definition variance_of (actual estimated : val) : outcome val :=
  let? pos := py_gt estimated (VInt 0) in
  let? variance :=
    if pos then
      let? d := py_sub actual estimated in
      let? q := py_truediv d estimated in
      py_mul q (VInt 100)
    else Ret (VInt 0) in
  py_round variance 1.

Definition log_time (task_id : string) (minutes_arg : string) : PM unit :=
  let* data := load_data1 in
  let* '(i, task) := lookup_task data task_id in
  let* minutes := lift (py_int minutes_arg) in
  let task := if contains task "actual_minutes" then task else setk "actual_minutes" (VInt 0) task in
  let* total := lift (let? a := getitem task "actual_minutes" in py_add a (VInt minutes)) in
  let task := setk "actual_minutes" total task in
  let* t1 := now in
  let task := setk "updated_at" (VStr (iso_z t1)) task in
  let* task :=
    match task !! "estimate_minutes" with
    | Some estimated =>
        let* v := lift (variance_of total estimated) in
        mret (setk "time_variance_percent" v task)
    | None => mret task
    end in
  save_data (put_task data i task) ;;
  emit (EvStdout (OutTimeLog1 task minutes total (task !! "time_variance_percent"))).

(** ** create_recurring (lines 165-193) *)

(** [args.priority or "medium"]; [args.estimate] is [None] when the option
    is not given, and an empty string is not converted ([if args.estimate:]). *)
Definition create_recurring (goal_id title recurring : string) (priority : option string)
    (estimate : option string) : PM unit :=
  let* data := load_data1 in
  let* goal := lift (find_goal_by_id data (VStr goal_id)) in
  match goal with
  | None => fail_with (MsgGoalNotFound goal_id)
  | Some _ =>
      let* tid := generate_id "task" in
      let* t1 := now in
      let* t2 := now in
      let task : obj :=
        {[ "id" := VStr tid; "goal_id" := VStr goal_id; "title" := VStr title;
           "priority" := VStr (default "medium" priority);
           "status" := VStr "pending"; "progress" := VInt 0;
           "recurring" := VStr recurring; "next_due_at" := VStr (iso_z t1);
           "created_at" := VStr (iso_z t2); "notes" := VStr "" ]} in
      let* task :=
        match estimate with
        | Some e =>
            if String.eqb e "" then mret task
            else let* n := lift (py_int e) in mret (setk "estimate_minutes" (VInt n) task)
        | None => mret task
        end in
      save_data (append_task data task) ;;
      emit (EvStdout (OutTask task))
  end.

(** ** next_recurring (lines 195-253) *)

(** The due-date offset in days of a [recurring] value (lines 231-238). *)
Definition recur_days (r : val) : Z :=
  if eq_str r "daily" then 1
  else if eq_str r "weekly" then 7
  else if eq_str r "monthly" then 30
  else 0.

(** [task.get("recurring") == "none" or "recurring" not in task] *)
Definition not_recurring (task : obj) : bool :=
  eq_str (get task "recurring" VNone) "none" || negb (contains task "recurring").

(** The keys [next_task.pop(key, None)] removes (line 243). *)
Definition cleared_keys : list string := ["completed_at"; "last_error"; "retry_count"; "blocked_reason"].

Definition next_recurring (task_id : string) : PM unit :=
  let* data := load_data1 in
  let* '(i, task) := lookup_task data task_id in
  if not_recurring task then fail_with MsgNotRecurring else
  let* incomplete := lift (py_lt (get task "progress" (VInt 0)) (VInt 100)) in
  if incomplete then fail_with (MsgIncomplete (get task "progress" (VInt 0))) else
  let task := setk "status" (VStr "completed") task in
  let* t1 := now in
  let task := setk "progress" (VInt 100) (setk "completed_at" (VStr (iso_z t1)) task) in
  let next_task := task in
  let* nid := generate_id "task" in
  let next_task := setk "status" (VStr "pending") (setk "id" (VStr nid) next_task) in
  let next_task := setk "progress" (VInt 0) next_task in
  let* t2 := now in
  let next_task := setk "actual_minutes" (VInt 0) (setk "created_at" (VStr (iso_z t2)) next_task) in
  let* t3 := now in
  let* r := lift (getitem task "recurring") in
  let next_task := setk "next_due_at" (VStr (iso_z (add_days t3 (recur_days r)))) next_task in
  let next_task := foldl (fun t k => delete k t) next_task cleared_keys in
  save_data (append_task (put_task data i task) next_task) ;;
  emit (EvStdout (OutNext task next_task)).

(** ** Running the handlers *)

(** Steps through the prologue [data = load_data(); task = find_task_by_id(...)]. *)
Ltac prologue w Hd Hf :=
  mstep (load_data1_store w _ Hd); mstep (lookup_task_found w _ _ _ _ Hf); cbn beta iota.

Lemma status_is_run w g task st s :
  task !! "status" = Some st -> status_is g task s w = (Ret (g && eq_str st s), w).
Proof. intros H. unfold status_is, getitem, lift, mbind, mret. rewrite H. by destruct g. Qed.

(** Steps over [task["status"] == s] when the status of the edited task is
    known to be [st]. *)
Ltac step_status st :=
  match goal with
  | |- context [status_is ?g ?task ?s ?w] =>
      let H := fresh in
      assert (H : task !! "status" = Some st) by (simpl_lookup; done);
      rewrite (status_is_run w g task st s H); clear H; cbv beta iota
  | |- context [mbind (status_is ?g ?task ?s) ?k ?w] =>
      let H := fresh in
      assert (H : task !! "status" = Some st) by (simpl_lookup; done);
      rewrite (mbind_ret_step _ _ _ _ _ (status_is_run w g task st s H)); clear H; cbv beta
  end.

(** ** mark_progress: behaviour *)

(** The status transition of lines 84-88, from the status [st] the task had
    and the new progress [p]. *)
Definition progress_status (st : val) (p : Z) : val :=
  if (p =? 100) && eq_str st "in_progress" then VStr "completed"
  else if (0 <? p) && eq_str st "pending" then VStr "in_progress" else st.


Section MarkProgress.
Context (w : world) (s : store) (task_id : string) (i : nat) (t : obj).
Hypothesis Hd : w_data w = Some (Parsed (DStore s)).
Hypothesis Hf : find_task_by_id s task_id = Ret (Some (i, t)).

(** C5: a progress outside 0..100 is rejected after the lookup: the script
    prints the error and exits with status 1; nothing is saved, the clock
    is not read, and the only effect on the world is the error message. *)
Theorem mark_progress_out_of_range (arg : string) (p : Z) :
  py_int arg = Ret p -> ~ (0 <= p <= 100) ->
  run (mark_progress task_id arg) w = (Exc (SystemExit 1), log_event (EvStderr MsgProgressRange) w).
Proof.
  intros Harg Hp. unfold run, mark_progress. prologue w Hd Hf. int_step Harg.
  destruct (0 <=? p) eqn:E1, (p <=? 100) eqn:E2; simpl; try reflexivity; lia.
Qed.

(** C29: the progress argument is converted by [int()] after the lookup
    (line 76): on a found task, an argument that is not an int (["50%"],
    ["abc"], [""]) raises the exception of [int()], ValueError, which
    stops the script with nothing printed, saved or read from the clock. *)
Theorem mark_progress_not_int (arg : string) (e : exn) :
  py_int arg = Exc e -> run (mark_progress task_id arg) w = (Exc e, w).
Proof. intros Harg. unfold run, mark_progress. prologue w Hd Hf. by rewrite Harg. Qed.

(** The task [mark_progress] saves, and the exact run of the handler. *)
Definition progress_task (p : Z) (st : val) : obj :=
  let t' := <["updated_at" := VStr (iso_z (w_clock w (w_tick w)))]> (<["progress" := VInt p]> t) in
  if (p =? 100) && eq_str st "in_progress"
  then <["completed_at" := VStr (iso_z (w_clock w (S (w_tick w))))]> (<["status" := VStr "completed"]> t')
  else if (0 <? p) && eq_str st "pending" then <["status" := VStr "in_progress"]> t' else t'.

Lemma mark_progress_run (arg : string) (p : Z) (st : val) :
  py_int arg = Ret p -> 0 <= p <= 100 -> t !! "status" = Some st ->
  run (mark_progress task_id arg) w =
    (Ret tt, log_event (EvStdout (OutTask (progress_task p st)))
               (snd (save_data (put_task s i (progress_task p st))
                      (if (p =? 100) && eq_str st "in_progress" then tick (tick w) else tick w)))).
Proof.
  intros Harg Hp Hst. unfold run, mark_progress, progress_task. prologue w Hd Hf. int_step Harg.
  replace ((0 <=? p) && (p <=? 100)) with true by lia. cbn [negb].
  mstep (now_run w). cbv beta. step_status st.
  destruct ((p =? 100) && eq_str st "in_progress") eqn:Ec; wred; [done|].
  step_status st. wred. by destruct ((0 <? p) && eq_str st "pending").
Qed.

Lemma mark_progress_data (arg : string) (p : Z) (st : val) :
  py_int arg = Ret p -> 0 <= p <= 100 -> t !! "status" = Some st ->
  w_data (final (mark_progress task_id arg) w) = Some (Parsed (DStore (put_task s i (progress_task p st)))).
Proof.
  intros Harg Hp Hst. unfold final. change (mark_progress task_id arg w) with (run (mark_progress task_id arg) w).
  by rewrite (mark_progress_run arg p st Harg Hp Hst).
Qed.

(** C6: a valid progress on a task with a status is saved: the task at the
    found index gets the new progress and an [updated_at] stamp from the
    first clock read; its status follows the transition of lines 84-88; it
    gets a [completed_at] stamp from the second clock read exactly when an
    in-progress task reaches 100; every other key is unchanged. *)
Theorem mark_progress_updates (arg : string) (p : Z) (st : val) :
  py_int arg = Ret p -> 0 <= p <= 100 -> t !! "status" = Some st ->
  result (mark_progress task_id arg) w = Ret tt /\
  exists t', w_data (final (mark_progress task_id arg) w) = Some (Parsed (DStore (put_task s i t'))) /\
    t' !! "progress" = Some (VInt p) /\
    t' !! "status" = Some (progress_status st p) /\
    t' !! "updated_at" = Some (VStr (iso_z (w_clock w (w_tick w)))) /\
    t' !! "completed_at" = (if (p =? 100) && eq_str st "in_progress"
                            then Some (VStr (iso_z (w_clock w (S (w_tick w))))) else t !! "completed_at") /\
    (forall k, k ∉ ["progress"; "updated_at"; "status"; "completed_at"] -> t' !! k = t !! k).
Proof.
  intros Harg Hp Hst. split.
  { unfold result. change (mark_progress task_id arg w) with (run (mark_progress task_id arg) w).
    by rewrite (mark_progress_run arg p st Harg Hp Hst). }
  exists (progress_task p st). split; [by apply (mark_progress_data arg)|].
  unfold progress_task, progress_status.
  destruct ((p =? 100) && eq_str st "in_progress"); [|destruct ((0 <? p) && eq_str st "pending")];
    repeat split; try (simpl_lookup; done); intros k Hk; simpl_lookup; done.
Qed.

End MarkProgress.

(** C12: the transition of lines 84-88 moves a pending task that reaches
    100 to in_progress, not completed, and leaves its [completed_at]; the
    spec's §8 states that its status stays unchanged. *)
Theorem mark_progress_pending_full w s task_id i t :
  w_data w = Some (Parsed (DStore s)) -> find_task_by_id s task_id = Ret (Some (i, t)) ->
  t !! "status" = Some (VStr "pending") ->
  exists t', w_data (final (mark_progress task_id "100") w) = Some (Parsed (DStore (put_task s i t'))) /\
    t' !! "status" = Some (VStr "in_progress") /\ t' !! "progress" = Some (VInt 100) /\
    t' !! "completed_at" = t !! "completed_at".
Proof.
  intros Hd Hf Hst. eexists.
  split; [apply (mark_progress_data w s task_id i t Hd Hf "100" 100 _ eq_refl ltac:(lia) Hst)|].
  unfold progress_task. cbn. by simpl_lookup.
Qed.

(** C13: a completed task accepts a lower progress and stays completed
    (lines 81-88 have no case for it): the store is saved with a task
    whose status is completed and whose progress is below 100, which
    breaks the invariant of spec §3 that the engine is to enforce. *)
Theorem mark_progress_completed_lowered w s task_id i t arg p :
  w_data w = Some (Parsed (DStore s)) -> find_task_by_id s task_id = Ret (Some (i, t)) ->
  t !! "status" = Some (VStr "completed") -> py_int arg = Ret p -> 0 <= p < 100 ->
  exists t', w_data (final (mark_progress task_id arg) w) = Some (Parsed (DStore (put_task s i t'))) /\
    t' !! "status" = Some (VStr "completed") /\ t' !! "progress" = Some (VInt p).
Proof.
  intros Hd Hf Hst Harg Hp. eexists.
  split; [apply (mark_progress_data w s task_id i t Hd Hf arg p _ Harg ltac:(lia) Hst)|].
  unfold progress_task. change (eq_str (VStr "completed") "in_progress") with false.
  change (eq_str (VStr "completed") "pending") with false. rewrite !andb_false_r. by simpl_lookup.
Qed.

(** ** mark_blocked and unblock_task: behaviour *)

Lemma mark_blocked_run w s task_id i t reason :
  w_data w = Some (Parsed (DStore s)) -> find_task_by_id s task_id = Ret (Some (i, t)) ->
  let t' := <["updated_at" := VStr (iso_z (w_clock w (w_tick w)))]>
              (<["blocked_reason" := VStr reason]> (<["status" := VStr "blocked"]> t)) in
  run (mark_blocked task_id reason) w =
    (Ret tt, log_event (EvStdout (OutTask t')) (snd (save_data (put_task s i t') (tick w)))).
Proof. intros Hd Hf. unfold run, mark_blocked. prologue w Hd Hf. eval_simpl. reflexivity. Qed.

Lemma unblock_task_run w s task_id i t :
  w_data w = Some (Parsed (DStore s)) -> find_task_by_id s task_id = Ret (Some (i, t)) ->
  let t' := <["updated_at" := VStr (iso_z (w_clock w (w_tick w)))]>
              (<["blocked_reason" := VNone]> (<["status" := VStr "pending"]> t)) in
  run (unblock_task task_id) w =
    (Ret tt, log_event (EvStdout (OutTask t')) (snd (save_data (put_task s i t') (tick w)))).
Proof. intros Hd Hf. unfold run, unblock_task. prologue w Hd Hf. eval_simpl. reflexivity. Qed.

(** C16: [mark_blocked] blocks any found task with the reason given, the
    empty string included (spec §4.3 requires a non-empty reason): it
    returns and saves the task with status blocked, [blocked_reason] the
    reason and a fresh [updated_at]; the other keys are unchanged. *)
Theorem mark_blocked_sets w s task_id i t reason :
  w_data w = Some (Parsed (DStore s)) -> find_task_by_id s task_id = Ret (Some (i, t)) ->
  result (mark_blocked task_id reason) w = Ret tt /\
  exists t', w_data (final (mark_blocked task_id reason) w) = Some (Parsed (DStore (put_task s i t'))) /\
    t' !! "status" = Some (VStr "blocked") /\ t' !! "blocked_reason" = Some (VStr reason) /\
    t' !! "updated_at" = Some (VStr (iso_z (w_clock w (w_tick w)))) /\
    (forall k, k ∉ ["status"; "blocked_reason"; "updated_at"] -> t' !! k = t !! k).
Proof.
  intros Hd Hf. unfold result, final.
  change (mark_blocked task_id reason w) with (run (mark_blocked task_id reason) w).
  rewrite (mark_blocked_run w s task_id i t reason Hd Hf). split; [done|].
  eexists. split; [reflexivity|]. repeat split; try (simpl_lookup; done). intros k Hk. by simpl_lookup.
Qed.

(** C17: [unblock_task] always resets a found task to pending and sets its
    [blocked_reason] to None, whatever its status and progress were (the
    quirk kept by spec §4.3); the other keys but [updated_at] are kept. *)
Theorem unblock_task_resets w s task_id i t :
  w_data w = Some (Parsed (DStore s)) -> find_task_by_id s task_id = Ret (Some (i, t)) ->
  result (unblock_task task_id) w = Ret tt /\
  exists t', w_data (final (unblock_task task_id) w) = Some (Parsed (DStore (put_task s i t'))) /\
    t' !! "status" = Some (VStr "pending") /\ t' !! "blocked_reason" = Some VNone /\
    (forall k, k ∉ ["status"; "blocked_reason"; "updated_at"] -> t' !! k = t !! k).
Proof.
  intros Hd Hf. unfold result, final.
  change (unblock_task task_id w) with (run (unblock_task task_id) w).
  rewrite (unblock_task_run w s task_id i t Hd Hf). split; [done|].
  eexists. split; [reflexivity|]. repeat split; try (simpl_lookup; done). intros k Hk. by simpl_lookup.
Qed.

(** ** log_time: behaviour *)


Section LogTime.
Context (w : world) (s : store) (task_id : string) (i : nat) (t : obj).
Hypothesis Hd : w_data w = Some (Parsed (DStore s)).
Hypothesis Hf : find_task_by_id s task_id = Ret (Some (i, t)).



End LogTime.




(** ** next_recurring: behaviour *)

Section NextRecurring.
Context (w : world) (s : store) (task_id : string) (i : nat) (t : obj) (rv : val).
Hypothesis Hd : w_data w = Some (Parsed (DStore s)).
Hypothesis Hf : find_task_by_id s task_id = Ret (Some (i, t)).
(** The task has a [recurring] key whose value is not the string "none". *)
Hypothesis Hr : t !! "recurring" = Some rv.
Hypothesis Hnone : eq_str rv "none" = false.

Lemma not_recurring_false : not_recurring t = false.
Proof.
  unfold not_recurring, get. by rewrite (contains_Some _ _ _ Hr), Hr, Hnone.
Qed.

(** C8: a recurring task whose progress is below 100 is not rolled over
    (spec §8): the script prints the error with the current progress and
    exits with status 1; nothing is saved and no successor is created. *)
Theorem next_recurring_incomplete (p : Z) :
  default (VInt 0) (t !! "progress") = VInt p -> p < 100 ->
  run (next_recurring task_id) w =
    (Exc (SystemExit 1), log_event (EvStderr (MsgIncomplete (VInt p))) w).
Proof.
  intros Hp Hlt. unfold run, next_recurring. prologue w Hd Hf. rewrite not_recurring_false.
  unfold get. destruct (t !! "progress") as [v|] eqn:Hv; simpl in Hp; [subst | injection Hp as <-]; eval_simpl;
    try match goal with |- context [?x ?= 100] => destruct (Z.compare_spec x 100) end; try lia; reflexivity.
Qed.


(** The original task as [next_recurring] completes it, at clock value [c1]. *)
Definition rolled (c1 : datetime) : obj :=
  <["progress" := VInt 100]> (<["completed_at" := VStr (iso_z c1)]> (<["status" := VStr "completed"]> t)).

(** Its successor, with id [nid], created at [c2], due [recur_days] after [c3]. *)
Definition successor (c1 c2 c3 : datetime) (nid : string) : obj :=
  foldl (fun t k => delete k t)
    (<["next_due_at" := VStr (iso_z (add_days c3 (recur_days rv)))]>
      (<["actual_minutes" := VInt 0]> (<["created_at" := VStr (iso_z c2)]>
        (<["progress" := VInt 0]> (<["status" := VStr "pending"]> (<["id" := VStr nid]> (rolled c1)))))))
    cleared_keys.

Lemma next_recurring_run (p : Z) :
  t !! "progress" = Some (VInt p) -> 100 <= p ->
  let c1 := w_clock w (w_tick w) in
  let nid := "task" +:+ "_" +:+ w_uuid w (w_uuid_next w) in
  let c2 := w_clock w (S (w_tick w)) in
  let c3 := w_clock w (S (S (w_tick w))) in
  let nxt := successor c1 c2 c3 nid in
  run (next_recurring task_id) w =
    (Ret tt, log_event (EvStdout (OutNext (rolled c1) nxt))
               (snd (save_data (append_task (put_task s i (rolled c1)) nxt)
                      (tick (tick (snd (generate_id "task" (tick w)))))))).
Proof.
  intros Hp H100. unfold run, next_recurring, rolled, successor. prologue w Hd Hf.
  rewrite not_recurring_false. eval_simpl.
  destruct (Z.compare_spec p 100); try lia; eval_simpl; reflexivity.
Qed.

(** C7: a recurring task at 100% is rolled over (spec §4.3 and §8): the run
    returns, and the store saved holds the original task, completed at the
    first clock read with progress 100, followed by exactly one new task:
    a copy with a fresh id, pending, progress 0, no time logged, created at
    the second clock read, due [recur_days] (1, 7, 30 or 0) days after the
    third, and without [completed_at], [last_error], [retry_count] or
    [blocked_reason]; every other key is carried over. *)
Theorem next_recurring_rollover (p : Z) :
  t !! "progress" = Some (VInt p) -> 100 <= p ->
  result (next_recurring task_id) w = Ret tt /\
  exists orig nxt,
    w_data (final (next_recurring task_id) w) =
      Some (Parsed (DStore (append_task (put_task s i orig) nxt))) /\
    orig !! "status" = Some (VStr "completed") /\ orig !! "progress" = Some (VInt 100) /\
    orig !! "completed_at" = Some (VStr (iso_z (w_clock w (w_tick w)))) /\
    (forall k, k ∉ ["status"; "completed_at"; "progress"] -> orig !! k = t !! k) /\
    nxt !! "id" = Some (VStr ("task_" +:+ w_uuid w (w_uuid_next w))) /\
    nxt !! "status" = Some (VStr "pending") /\ nxt !! "progress" = Some (VInt 0) /\
    nxt !! "actual_minutes" = Some (VInt 0) /\
    nxt !! "created_at" = Some (VStr (iso_z (w_clock w (S (w_tick w))))) /\
    nxt !! "next_due_at" =
      Some (VStr (iso_z (add_days (w_clock w (S (S (w_tick w)))) (recur_days rv)))) /\
    (forall k, k ∈ cleared_keys -> nxt !! k = None) /\
    (forall k, k ∉ ["id"; "status"; "progress"; "created_at"; "actual_minutes"; "next_due_at"] ++ cleared_keys ->
       nxt !! k = t !! k).
Proof.
  intros Hp H100. pose proof (next_recurring_run p Hp H100) as Hrun. cbv zeta in Hrun.
  unfold result, final. change (next_recurring task_id w) with (run (next_recurring task_id) w).
  rewrite Hrun. split; [done|]. do 2 eexists. split; [reflexivity|].
  unfold successor, rolled, cleared_keys. cbn [foldl].
  repeat split; try (simpl_lookup; done).
  - intros k Hk. simpl_lookup. done.
  - intros k Hk. by repeat (rewrite elem_of_cons in Hk; destruct Hk as [->|Hk]; [by simpl_lookup|]);
      apply elem_of_nil in Hk.
  - intros k Hk. simpl_lookup. done.
Qed.
End NextRecurring.

(** C14: a task whose [recurring] flag is None, as check 1 of the phase 2
    health check leaves an orphaned recurring task, is still rolled over
    by [next_recurring]: the test of line 204 only rejects the string
    "none" and a missing key.  The successor keeps the None flag and is
    due at once (0 days). *)
Theorem next_recurring_cleared_flag w s task_id i t :
  w_data w = Some (Parsed (DStore s)) -> find_task_by_id s task_id = Ret (Some (i, t)) ->
  t !! "recurring" = Some VNone -> t !! "progress" = Some (VInt 100) ->
  result (next_recurring task_id) w = Ret tt /\
  exists orig nxt,
    w_data (final (next_recurring task_id) w) =
      Some (Parsed (DStore (append_task (put_task s i orig) nxt))) /\
    nxt !! "recurring" = Some VNone /\
    nxt !! "next_due_at" = Some (VStr (iso_z (w_clock w (S (S (w_tick w)))))).
Proof.
  intros Hd Hf Hr Hp.
  pose proof (next_recurring_run w s task_id i t VNone Hd Hf Hr eq_refl 100 Hp ltac:(lia)) as Hrun.
  cbv zeta in Hrun. unfold result, final.
  change (next_recurring task_id w) with (run (next_recurring task_id) w).
  rewrite Hrun. split; [done|]. do 2 eexists. split; [reflexivity|].
  unfold successor, rolled, cleared_keys. cbn [foldl]. split; simpl_lookup; [done|].
  by rewrite add_days_0.
Qed.

(** C22: phase 1 [log_time] never changes the status of the task (spec
    §4.3 moves a pending task with time logged to in_progress, as phase 2
    does at line 242): a run either leaves tasks.json as it was (an
    exception before the save) or saves the task with its status. *)
Theorem log_time_keeps_status w s task_id i t m :
  w_data w = Some (Parsed (DStore s)) -> find_task_by_id s task_id = Ret (Some (i, t)) ->
  w_data (final (log_time task_id m) w) = w_data w \/
  exists t', w_data (final (log_time task_id m) w) = Some (Parsed (DStore (put_task s i t'))) /\
    t' !! "status" = t !! "status".
Proof.
  intros Hd Hf. unfold final. change (log_time task_id m w) with (run (log_time task_id m) w).
  unfold run, log_time. prologue w Hd Hf. case_run.
  all: first [left; reflexivity | right; eexists; split; [reflexivity | by simpl_lookup]].
Qed.

(** ** The store invariant *)

(** [0 <= p <= 100] from the passed range check. *)
Lemma range_ok p : negb ((0 <=? p) && (p <=? 100)) = false -> 0 <= p <= 100.
Proof. intros H. apply negb_false_iff, andb_true_iff in H as [?%Z.leb_le ?%Z.leb_le]. lia. Qed.

Lemma mark_progress_wf id p : wtriple (mark_progress id p) (fun _ => True).
Proof.
  unfold mark_progress. vcg. apply range_ok in Heqb.
  eapply triple_bind with (R := fun t => task_wf t = true).
  - vcg; wf_tac.
  - intros task Ht. vcg. apply otriple_save. eauto with pytask.
Qed.

Lemma mark_blocked_wf id r : wtriple (mark_blocked id r) (fun _ => True).
Proof. unfold mark_blocked. vcg. save_step. Qed.

Lemma unblock_task_wf id : wtriple (unblock_task id) (fun _ => True).
Proof. unfold unblock_task. vcg. save_step. Qed.

Lemma log_time_wf id m : wtriple (log_time id m) (fun _ => True).
Proof.
  unfold log_time. vcg.
  eapply triple_bind with (R := fun t => task_wf t = true).
  - vcg; wf_tac.
  - intros task Ht. vcg. save_step.
Qed.

Lemma create_recurring_wf g title r pr est : wtriple (create_recurring g title r pr est) (fun _ => True).
Proof.
  unfold create_recurring. vcg.
  eapply triple_bind with (R := fun t => task_wf t = true).
  - destruct est as [e|]; [destruct (String.eqb e "")|]; vcg; wf_tac.
  - intros task Ht. save_step.
Qed.

Lemma next_recurring_wf id : wtriple (next_recurring id) (fun _ => True).
Proof.
  unfold next_recurring, cleared_keys. vcg. cbn [foldl]. save_step.
  apply task_wf_pending; unfold progress_ok; simpl_lookup; done.
Qed.

(** ** Witnesses on a concrete store *)

Definition ex_task : obj :=
  {[ "id" := VStr "task_a"; "goal_id" := VStr "goal_1"; "status" := VStr "in_progress";
     "progress" := VInt 50 ]}.
Definition ex_store : store := mkStore (Some []) [ex_task] ∅.
Definition ex_world : world :=
  mkWorld (Some (Parsed (DStore ex_store))) None ∅ None None ∅
          (fun n => 1700000000000000 + Z.of_nat n) 0 (fun _ => "0a1b2c3d") 0 [].

Lemma mark_progress_out_of_range_witness :
  run (mark_progress "task_a" "150") ex_world =
    (Exc (SystemExit 1), log_event (EvStderr MsgProgressRange) ex_world).
Proof.
  apply (mark_progress_out_of_range ex_world ex_store "task_a" 0 ex_task eq_refl eq_refl "150" 150);
    [reflexivity | lia].
Defined.

Lemma mark_progress_updates_witness :
  exists t', w_data (final (mark_progress "task_a" "100") ex_world) =
               Some (Parsed (DStore (put_task ex_store 0 t'))) /\
             t' !! "status" = Some (VStr "completed").
Proof.
  destruct (mark_progress_updates ex_world ex_store "task_a" 0 ex_task
              ltac:(reflexivity) ltac:(reflexivity) "100" 100 (VStr "in_progress")
              ltac:(reflexivity) ltac:(lia) ltac:(reflexivity)) as [_ (t' & Hd & _ & Hst & _)].
  exists t'. split; [exact Hd | exact Hst].
Defined.



Definition ex_rec_task (p : Z) : obj :=
  {[ "id" := VStr "task_r"; "goal_id" := VStr "goal_1"; "status" := VStr "in_progress";
     "progress" := VInt p; "recurring" := VStr "daily"; "blocked_reason" := VNone ]}.
Definition ex_rec_store (p : Z) : store := mkStore (Some []) [ex_task; ex_rec_task p] ∅.
Definition ex_rec_world (p : Z) : world :=
  mkWorld (Some (Parsed (DStore (ex_rec_store p)))) None ∅ None None ∅
          (fun n => 1700000000000000 + Z.of_nat n * 1000000) 0 (fun _ => "0a1b2c3d") 0 [].

Lemma next_recurring_incomplete_witness :
  run (next_recurring "task_r") (ex_rec_world 40) =
    (Exc (SystemExit 1), log_event (EvStderr (MsgIncomplete (VInt 40))) (ex_rec_world 40)).
Proof.
  apply (next_recurring_incomplete (ex_rec_world 40) (ex_rec_store 40) "task_r" 1 (ex_rec_task 40) (VStr "daily"));
    try reflexivity; lia.
Defined.

Lemma next_recurring_rollover_witness :
  exists orig nxt,
    w_data (final (next_recurring "task_r") (ex_rec_world 100)) =
      Some (Parsed (DStore (append_task (put_task (ex_rec_store 100) 1 orig) nxt))) /\
    nxt !! "next_due_at" = Some (VStr "2023-11-15T22:13:22+00:00Z").
Proof.
  destruct (next_recurring_rollover (ex_rec_world 100) (ex_rec_store 100) "task_r" 1 (ex_rec_task 100) (VStr "daily")
              ltac:(reflexivity) ltac:(reflexivity) ltac:(reflexivity) ltac:(reflexivity) 100
              ltac:(reflexivity) ltac:(lia))
    as [_ (orig & nxt & D & _ & _ & _ & _ & _ & _ & _ & _ & _ & Hdue & _)].
  exists orig, nxt. split; [exact D|]. rewrite Hdue. vm_compute. reflexivity.
Defined.

(** A store holding one task with the given status and progress. *)
Definition ex_task_st (st : string) (p : Z) : obj :=
  {[ "id" := VStr "task_s"; "goal_id" := VStr "goal_1"; "status" := VStr st; "progress" := VInt p ]}.
Definition ex_store_st (st : string) (p : Z) : store := mkStore (Some []) [ex_task_st st p] ∅.
Definition ex_world_st (st : string) (p : Z) : world :=
  mkWorld (Some (Parsed (DStore (ex_store_st st p)))) None ∅ None None ∅
          (fun n => 1700000000000000 + Z.of_nat n) 0 (fun _ => "0a1b2c3d") 0 [].

Lemma mark_progress_pending_full_witness :
  exists t', w_data (final (mark_progress "task_s" "100") (ex_world_st "pending" 0)) =
               Some (Parsed (DStore (put_task (ex_store_st "pending" 0) 0 t'))) /\
             t' !! "status" = Some (VStr "in_progress").
Proof.
  destruct (mark_progress_pending_full (ex_world_st "pending" 0) (ex_store_st "pending" 0) "task_s" 0
              (ex_task_st "pending" 0) eq_refl eq_refl eq_refl) as (t' & D & Hs & _).
  exists t'. split; [exact D | exact Hs].
Defined.

Lemma mark_progress_completed_lowered_witness :
  exists t', w_data (final (mark_progress "task_s" "30") (ex_world_st "completed" 100)) =
               Some (Parsed (DStore (put_task (ex_store_st "completed" 100) 0 t'))) /\
             t' !! "status" = Some (VStr "completed") /\ t' !! "progress" = Some (VInt 30).
Proof.
  apply (mark_progress_completed_lowered (ex_world_st "completed" 100) (ex_store_st "completed" 100)
           "task_s" 0 (ex_task_st "completed" 100) "30" 30);
    [reflexivity | reflexivity | reflexivity | reflexivity | lia].
Defined.

Lemma mark_blocked_sets_witness :
  exists t', w_data (final (mark_blocked "task_s" "") (ex_world_st "in_progress" 20)) =
               Some (Parsed (DStore (put_task (ex_store_st "in_progress" 20) 0 t'))) /\
             t' !! "blocked_reason" = Some (VStr "").
Proof.
  destruct (mark_blocked_sets (ex_world_st "in_progress" 20) (ex_store_st "in_progress" 20) "task_s" 0
              (ex_task_st "in_progress" 20) "" eq_refl eq_refl) as [_ (t' & D & _ & Hr & _)].
  exists t'. split; [exact D | exact Hr].
Defined.

Lemma unblock_task_resets_witness :
  exists t', w_data (final (unblock_task "task_s") (ex_world_st "blocked" 60)) =
               Some (Parsed (DStore (put_task (ex_store_st "blocked" 60) 0 t'))) /\
             t' !! "status" = Some (VStr "pending") /\ t' !! "progress" = Some (VInt 60).
Proof.
  destruct (unblock_task_resets (ex_world_st "blocked" 60) (ex_store_st "blocked" 60) "task_s" 0
              (ex_task_st "blocked" 60) eq_refl eq_refl) as [_ (t' & D & Hs & _ & Hk)].
  exists t'. split; [exact D|]. split; [exact Hs|]. rewrite Hk; [reflexivity|]. set_solver.
Defined.

Definition ex_cleared_task : obj :=
  {[ "id" := VStr "task_o"; "status" := VStr "completed"; "progress" := VInt 100;
     "recurring" := VNone ]}.
Definition ex_cleared_store : store := mkStore (Some []) [ex_cleared_task] ∅.
Definition ex_cleared_world : world :=
  mkWorld (Some (Parsed (DStore ex_cleared_store))) None ∅ None None ∅
          (fun n => 1700000000000000 + Z.of_nat n) 0 (fun _ => "0a1b2c3d") 0 [].

Lemma next_recurring_cleared_flag_witness :
  result (next_recurring "task_o") ex_cleared_world = Ret tt.
Proof.
  apply (next_recurring_cleared_flag ex_cleared_world ex_cleared_store "task_o" 0 ex_cleared_task);
    reflexivity.
Defined.

Lemma log_time_keeps_status_witness :
  exists t', w_data (final (log_time "task_s" "30") (ex_world_st "pending" 0)) =
               Some (Parsed (DStore (put_task (ex_store_st "pending" 0) 0 t'))) /\
             t' !! "status" = Some (VStr "pending").
Proof.
  destruct (log_time_keeps_status (ex_world_st "pending" 0) (ex_store_st "pending" 0) "task_s" 0
              (ex_task_st "pending" 0) "30" eq_refl eq_refl) as [H|(t' & D & Hs)].
  - exfalso. vm_compute in H. congruence.
  - exists t'. split; [exact D | rewrite Hs; reflexivity].
Defined.

Lemma mark_progress_not_int_witness :
  run (mark_progress "task_a" "50%") ex_world = (Exc ValueError, ex_world).
Proof. apply (mark_progress_not_int ex_world ex_store "task_a" 0 ex_task eq_refl eq_refl). reflexivity. Defined.
