(* ===== verification/Velocity.v ===== *)
(** * show_velocity of task_manager_phase1.py (lines 255-294)

    The report reads the store and writes nothing.  It selects the tasks
    of the goal that are completed and those that are not, counts the
    completed ones per date (the part of [completed_at] before "T"),
    divides, rounds, and prints the histogram sorted by date.  The count
    per date is a Python dict in insertion order, an association list
    here; [sorted(by_day.items())] is an insertion sort on the dates, shown
    to return the unique strictly sorted arrangement of the histogram. *)

From Stdlib Require Import PrimFloat SpecFloat FloatOps.
From stdpp Require Import sorting.
From S2P Require Import Prelude PyVal Clock ClockOrder Store.

Open Scope Z_scope.

(** ** Model *)

(** [t["goal_id"] == goal_id and t["status"] == "completed"] when [done],
    [... and t["status"] != "completed"] otherwise; a task without
    "goal_id" raises KeyError, "status" is only read for the goal's
    tasks. *)
Definition goal_task_is (goal_id : string) (done : bool) (t : obj) : outcome bool :=
  let? g := getitem t "goal_id" in
  if eq_str g goal_id then
    let? st := getitem t "status" in
    Ret (if done then eq_str st "completed" else negb (eq_str st "completed"))
  else Ret false.

(** A list comprehension [[t for t in ts if p(t)]] whose test may raise. *)
Fixpoint filter_o (p : obj -> outcome bool) (ts : list obj) : outcome (list obj) :=
  match ts with
  | [] => Ret []
  | t :: r => let? b := p t in let? r' := filter_o p r in Ret (if b then t :: r' else r')
  end.

(** [by_day[d] += 1] on a [defaultdict(int)]: a new date is added last. *)
Fixpoint bump (d : string) (m : list (string * nat)) : list (string * nat) :=
  match m with
  | [] => [(d, 1%nat)]
  | (k, n) :: r => if String.eqb k d then (k, S n) :: r else (k, n) :: bump d r
  end.

(** [for task in completed: if "completed_at" in task:
       by_day[task["completed_at"].split("T")[0]] += 1]
    A [completed_at] that is not a str has no [split]: AttributeError. *)
Fixpoint count_by_day_from (m : list (string * nat)) (ts : list obj) : outcome (list (string * nat)) :=
  match ts with
  | [] => Ret m
  | t :: r =>
      match t !! "completed_at" with
      | None => count_by_day_from m r
      | Some (VStr c) => count_by_day_from (bump (before_T c) m) r
      | Some _ => Exc AttributeError
      end
  end.

Definition count_by_day (ts : list obj) : outcome (list (string * nat)) := count_by_day_from [] ts.

(** [sorted(by_day.items())]: the dates are distinct keys. *)
Fixpoint insert_item (x : string * nat) (l : list (string * nat)) : list (string * nat) :=
  match l with
  | [] => [x]
  | y :: r => if String.leb x.1 y.1 then x :: l else y :: insert_item x r
  end.

Definition sort_items (l : list (string * nat)) : list (string * nat) := foldr insert_item [] l.

(** [velocity = len(completed) / len(by_day) if by_day else 0] (line 282) *)
Definition velocity_of (completed days : nat) : outcome val :=
  if Nat.eqb days 0 then Ret (VInt 0)
  else py_truediv (VInt (Z.of_nat completed)) (VInt (Z.of_nat days)).

(** [days_to_completion = len(remaining) / velocity if velocity > 0 else 0]
    (line 283) *)
Definition days_to_completion (remaining : nat) (velocity : val) : outcome val :=
  let? pos := py_gt velocity (VInt 0) in
  if pos then py_truediv (VInt (Z.of_nat remaining)) velocity else Ret (VInt 0).

Definition show_velocity (goal_id : string) : PM unit :=
  let* data := load_data1 in
  let* goal := lift (find_goal_by_id data (VStr goal_id)) in
  match goal with
  | None => fail_with (MsgGoalNotFound goal_id)
  | Some _ =>
      let* completed := lift (filter_o (goal_task_is goal_id true) (tasks data)) in
      let* by_day := lift (count_by_day completed) in
      let* remaining := lift (filter_o (goal_task_is goal_id false) (tasks data)) in
      let* velocity := lift (velocity_of (length completed) (length by_day)) in
      let* days := lift (days_to_completion (length remaining) velocity) in
      let* v2 := lift (py_round velocity 2) in
      let* d1 := lift (py_round days 1) in
      emit (EvStdout (OutVelocity goal_id (length completed) (length remaining) (length by_day)
                                  v2 d1 (sort_items by_day)))
  end.

(** ** The count per date *)

Lemma bump_sum d m : sum_list (map snd (bump d m)) = S (sum_list (map snd m)).
Proof.
  induction m as [|[k n] m IH]; simpl; [done|].
  destruct (String.eqb k d); simpl; [done|]. rewrite IH. lia.
Qed.

Lemma bump_keys d m k : k ∈ map fst (bump d m) <-> k = d \/ k ∈ map fst m.
Proof.
  induction m as [|[k' n] m IH]; simpl.
  - rewrite elem_of_cons, elem_of_nil. tauto.
  - destruct (String.eqb_spec k' d) as [->|]; simpl; rewrite !elem_of_cons; [tauto|].
    rewrite IH. tauto.
Qed.

Lemma bump_nodup d m : NoDup (map fst m) -> NoDup (map fst (bump d m)).
Proof.
  induction m as [|[k n] m IH]; simpl; intros Hm; [constructor; [set_solver | constructor]|].
  apply NoDup_cons in Hm as [Hk Hm].
  destruct (String.eqb_spec k d) as [->|Hne]; simpl; constructor; auto.
  rewrite bump_keys. intros [->|]; contradiction.
Qed.

(** The dates of [by_day] are distinct, they are the dates of the tasks
    that have a [completed_at], and the counts add up to the number of
    those tasks. *)
Lemma count_by_day_from_spec m0 ts m :
  count_by_day_from m0 ts = Ret m -> NoDup (map fst m0) ->
  NoDup (map fst m) /\
  sum_list (map snd m) = (sum_list (map snd m0) + length (List.filter (fun t => contains t "completed_at") ts))%nat /\
  (forall d, d ∈ map fst m <-> d ∈ map fst m0 \/
     exists t c, t ∈ ts /\ t !! "completed_at" = Some (VStr c) /\ before_T c = d).
Proof.
  revert m0. induction ts as [|t ts IH]; intros m0 H Hnd; simpl in H.
  - inv_outcome. simpl. split; [done|]. split; [lia|]. intros d. set_solver.
  - destruct (t !! "completed_at") as [[]|] eqn:Hc; try discriminate;
      simpl; [rewrite (contains_Some _ _ _ Hc) | rewrite (contains_None _ _ Hc)]; simpl.
    + apply IH in H as (Hnd' & Hs & Hk); [|by apply bump_nodup].
      rewrite bump_sum in Hs. split; [done|]. split; [lia|].
      intros d. rewrite Hk, bump_keys. split.
      * intros [[->|]|(t' & c & ? & ? & ?)]; [right; exists t, s; set_solver | by left | right; exists t', c; set_solver].
      * intros [|(t' & c & [->|]%elem_of_cons & ? & ?)]; [by left; right | | by right; exists t', c].
        left; left. congruence.
    + apply IH in H as (Hnd' & Hs & Hk); [|done]. split; [done|]. split; [lia|].
      intros d. rewrite Hk. split.
      * intros [|(t' & c & ? & ? & ?)]; [by left | right; exists t', c; set_solver].
      * intros [|(t' & c & [->|]%elem_of_cons & ? & ?)]; [by left | congruence | right; by exists t', c].
Qed.

(** ** The divisions of lines 282-283 *)

Lemma int_truediv_nonzero a b : b <> 0 -> int_truediv a b <> Exc ZeroDivisionError.
Proof.
  intros Hb. unfold int_truediv. rewrite (proj2 (Z.eqb_neq b 0) Hb).
  destruct (a =? 0); [done|]. by destruct (is_infinity _).
Qed.

(** A value greater than 0 is not a zero divisor. *)
Lemma py_gt_zero_nonzero v x : py_gt v (VInt 0) = Ret true -> as_num v = Some x -> num_is_zero x = false.
Proof.
  unfold py_gt, py_cmp. intros H Hx. rewrite Hx in H.
  destruct v as [|b|z|f| | |]; simpl in Hx; try discriminate; injection Hx as <-;
    simpl in H; injection H as H; apply bool_decide_eq_true_1 in H; simpl.
  - by destruct b.
  - apply Z.eqb_neq. intros ->. discriminate.
  - unfold cmp_int_float in H. by destruct (Prim2SF f).
Qed.

Lemma float_binop_nonzero op x y : float_binop op x y <> Exc ZeroDivisionError.
Proof.
  unfold float_binop, to_float. destruct x as [z|]; [|destruct y as [z'|]].
  - unfold float_of_Z. destruct (is_infinity _); [done|]. simpl.
    destruct y as [z'|]; [|done]. unfold float_of_Z. by destruct (is_infinity _).
  - simpl. unfold float_of_Z. by destruct (is_infinity _).
  - done.
Qed.

Lemma py_gt_exc v e : py_gt v (VInt 0) = Exc e -> e = TypeError.
Proof. unfold py_gt, py_cmp. destruct v; simpl; congruence. Qed.

(** The guards of lines 282-283 protect their divisions: computing the
    velocity never raises ZeroDivisionError (the count of dates is tested
    first), and neither does the days-to-completion division, whatever the
    velocity value is, since a value greater than 0 is never a zero
    divisor, and a value that cannot be compared raises TypeError. *)
Theorem velocity_no_zero_division c d r v :
  velocity_of c d <> Exc ZeroDivisionError /\ days_to_completion r v <> Exc ZeroDivisionError.
Proof.
  split.
  - unfold velocity_of. destruct (Nat.eqb_spec d 0); [done|].
    unfold py_truediv. simpl. rewrite (proj2 (Z.eqb_neq _ 0)) by lia.
    pose proof (int_truediv_nonzero (Z.of_nat c) (Z.of_nat d) ltac:(lia)).
    destruct (int_truediv _ _); simpl; congruence.
  - unfold days_to_completion. destruct (py_gt v (VInt 0)) as [[]|e] eqn:Hg; simpl.
    + unfold py_truediv. destruct (as_num v) as [x|] eqn:Hx; [|done]. simpl.
      pose proof (py_gt_zero_nonzero v x Hg Hx) as Hz. rewrite Hz.
      destruct x as [z|f]; [|apply float_binop_nonzero].
      apply Z.eqb_neq in Hz. pose proof (int_truediv_nonzero (Z.of_nat r) z Hz).
      destruct (int_truediv _ _); simpl; congruence.
    + done.
    + apply py_gt_exc in Hg. congruence.
Qed.

(** ** The report *)

(** C19: the per-date count of lines 270-275: when it succeeds, its dates
    are distinct, they are exactly the date parts of the [completed_at]
    strings of the tasks, and the counts add up to the number of tasks
    that have a [completed_at]. *)
Theorem count_by_day_spec ts m :
  count_by_day ts = Ret m ->
  NoDup (map fst m) /\
  sum_list (map snd m) = length (List.filter (fun t => contains t "completed_at") ts) /\
  (forall d, d ∈ map fst m <->
     exists t c, t ∈ ts /\ t !! "completed_at" = Some (VStr c) /\ before_T c = d).
Proof.
  intros H. apply count_by_day_from_spec in H as (Hnd & Hs & Hk); [|constructor].
  split; [done|]. split; [done|]. intros d. rewrite Hk. set_solver.
Qed.

(** ** The sort of the histogram *)

Definition key_le (x y : string * nat) : Prop := String.leb x.1 y.1 = true.
Definition key_lt (x y : string * nat) : Prop := String.compare x.1 y.1 = Lt.

Lemma leb_compare a b : String.leb a b = true <-> String.compare a b <> Gt.
Proof. unfold String.leb. destruct (String.compare a b); intuition congruence. Qed.

#[local] Instance key_le_trans : Transitive key_le.
Proof.
  intros x y z. unfold key_le. rewrite !leb_compare. intros H1 H2.
  destruct (String.compare y.1 z.1) eqn:E; [|by rewrite (compare_trans_lt _ _ _ H1 E)|done].
  by apply String.compare_eq_iff in E as <-.
Qed.

Lemma key_le_not x y : String.leb x.1 y.1 = false -> key_le y x.
Proof.
  unfold key_le. intros H. destruct (String.leb_total x.1 y.1); [congruence|done].
Qed.

Lemma insert_item_perm x l : insert_item x l ≡ₚ x :: l.
Proof.
  induction l as [|y l IH]; simpl; [done|].
  destruct (String.leb _ _); [done|]. rewrite IH. by constructor.
Qed.

Lemma sort_items_perm l : sort_items l ≡ₚ l.
Proof. induction l as [|x l IH]; simpl; [done|]. by rewrite insert_item_perm, IH. Qed.

Lemma insert_item_hd y x l : HdRel key_le y l -> key_le y x -> HdRel key_le y (insert_item x l).
Proof.
  intros Hl Hx. destruct l as [|z l]; simpl; [by constructor|].
  destruct (String.leb _ _); constructor; [done|]. by inversion Hl.
Qed.

Lemma insert_item_sorted x l : Sorted key_le l -> Sorted key_le (insert_item x l).
Proof.
  induction l as [|y l IH]; intros Hs; simpl; [by repeat constructor|].
  apply Sorted_inv in Hs as [Hs Hy].
  destruct (String.leb x.1 y.1) eqn:E; constructor; try by constructor.
  - by apply IH.
  - apply insert_item_hd; [done|]. by apply key_le_not.
Qed.

Lemma sort_items_sorted l : StronglySorted key_le (sort_items l).
Proof.
  apply Sorted_StronglySorted; [apply _|].
  induction l as [|x l IH]; simpl; [constructor|]. by apply insert_item_sorted.
Qed.

(** Sorted by date with distinct dates is sorted strictly. *)
Lemma StronglySorted_key_lt l :
  NoDup (map fst l) -> StronglySorted key_le l -> StronglySorted key_lt l.
Proof.
  intros Hnd Hs. induction Hs as [|x l Hs IH Hx]; constructor.
  - apply IH. by apply NoDup_cons in Hnd as [_ ?].
  - apply NoDup_cons in Hnd as [Hnot _]. rewrite Forall_forall in Hx |- *.
    intros y Hy. specialize (Hx y Hy). unfold key_le, key_lt in *. rewrite leb_compare in Hx.
    destruct (String.compare x.1 y.1) eqn:E; [|done|done].
    apply String.compare_eq_iff in E. destruct Hnot. rewrite E. by apply list_elem_of_fmap_2.
Qed.

(** C26: [sorted(by_day.items())] (line 293) is implemented by the
    insertion sort [sort_items]: on items with distinct dates, as the
    histogram has (C19), its result is a permutation of the items, in
    strictly increasing date order, and it is the only such arrangement. *)
Theorem sort_items_spec l :
  NoDup (map fst l) ->
  (sort_items l ≡ₚ l) /\ StronglySorted key_lt (sort_items l) /\
  (forall l', (l' ≡ₚ l) -> StronglySorted key_lt l' -> l' = sort_items l).
Proof.
  intros Hnd. pose proof (sort_items_perm l) as Hp.
  assert (Hs : StronglySorted key_lt (sort_items l)).
  { apply StronglySorted_key_lt; [|apply sort_items_sorted]. by rewrite Hp. }
  split; [done|]. split; [done|]. intros l' Hl' Hs'.
  apply (StronglySorted_unique_strong key_lt); [|done|done|by rewrite Hl', Hp].
  unfold key_lt. intros x y _ _ H1 H2. rewrite String.compare_antisym, H2 in H1. discriminate.
Qed.

(** The velocity example of spec §8, for every store: when the goal is
    found and its tasks split into 4 completed ones, over 2 distinct
    dates, and 2 others, the report prints a velocity of 2.0 and an
    estimate of 1.0 days, and nothing else happens. *)
Theorem show_velocity_example w s g gl cs rs m :
  w_data w = Some (Parsed (DStore s)) -> find_goal_by_id s (VStr g) = Ret (Some gl) ->
  filter_o (goal_task_is g true) (tasks s) = Ret cs -> count_by_day cs = Ret m ->
  filter_o (goal_task_is g false) (tasks s) = Ret rs ->
  length cs = 4%nat -> length m = 2%nat -> length rs = 2%nat ->
  run (show_velocity g) w =
    (Ret tt, log_event (EvStdout (OutVelocity g 4 2 2 (VFloat 2%float) (VFloat 1%float) (sort_items m))) w).
Proof.
  intros Hd Hg Hc Hm Hr Hcs Hms Hrs. unfold run, show_velocity.
  mstep (load_data1_store w s Hd). wred. rewrite Hg. wred. rewrite Hc. wred. rewrite Hm. wred.
  rewrite Hr. wred. rewrite Hcs, Hms, Hrs. reflexivity.
Qed.

(** ** Witnesses: the store of the spec's example *)

Definition ex_vtask (id st : string) (c : option string) : obj :=
  match c with
  | Some c => {[ "id" := VStr id; "goal_id" := VStr "goal_v"; "status" := VStr st; "completed_at" := VStr c ]}
  | None => {[ "id" := VStr id; "goal_id" := VStr "goal_v"; "status" := VStr st ]}
  end.
Definition ex_vgoal : obj := {[ "id" := VStr "goal_v"; "title" := VStr "Ship" ]}.
Definition ex_vdone : list obj :=
  [ex_vtask "a" "completed" (Some "2024-01-02T10:00:00+00:00Z");
   ex_vtask "b" "completed" (Some "2024-01-01T10:00:00+00:00Z");
   ex_vtask "c" "completed" (Some "2024-01-02T11:00:00+00:00Z");
   ex_vtask "d" "completed" (Some "2024-01-01T12:00:00+00:00Z")].
Definition ex_vrest : list obj := [ex_vtask "e" "pending" None; ex_vtask "f" "in_progress" None].
Definition ex_vstore : store := mkStore (Some [ex_vgoal]) (ex_vdone ++ ex_vrest) ∅.
Definition ex_vworld : world :=
  mkWorld (Some (Parsed (DStore ex_vstore))) None ∅ None None ∅ (fun _ => 0) 0 (fun _ => "0a1b2c3d") 0 [].

Lemma count_by_day_spec_witness :
  count_by_day ex_vdone = Ret [("2024-01-02", 2%nat); ("2024-01-01", 2%nat)] /\
  NoDup (map fst [("2024-01-02", 2%nat); ("2024-01-01", 2%nat)]).
Proof.
  split; [reflexivity|].
  apply (count_by_day_spec ex_vdone [("2024-01-02", 2%nat); ("2024-01-01", 2%nat)]). reflexivity.
Defined.

Lemma show_velocity_example_witness :
  run (show_velocity "goal_v") ex_vworld =
    (Ret tt, log_event (EvStdout (OutVelocity "goal_v" 4 2 2 (VFloat 2%float) (VFloat 1%float)
                                   [("2024-01-01", 2%nat); ("2024-01-02", 2%nat)])) ex_vworld).
Proof.
  apply (show_velocity_example ex_vworld ex_vstore "goal_v" ex_vgoal ex_vdone ex_vrest
           [("2024-01-02", 2%nat); ("2024-01-01", 2%nat)]); reflexivity.
Defined.

Definition ex_items : list (string * nat) := [("2024-01-02", 1%nat); ("2024-01-01", 3%nat)].

Lemma sort_items_spec_witness :
  NoDup (map fst ex_items) /\ StronglySorted key_lt (sort_items ex_items).
Proof.
  assert (H : NoDup (map fst ex_items)) by (apply (bool_decide_unpack _); vm_compute; reflexivity).
  split; [done|]. exact (proj1 (proj2 (sort_items_spec ex_items H))).
Defined.
