(* ===== verification/Phase2.v ===== *)
(** * task_manager_phase2.py: the write-ahead log and the phase 2 commands

    [log_to_wal] appends one entry to the WAL file of the day, [append_to_buffer]
    one line to the working buffer, [update_session_state] overwrites the
    session snapshot.  The commands [mark_progress2], [log_time2] and
    [mark_blocked2] write the WAL entry before they edit the task and save
    the store ("WAL FIRST"), then write the snapshot when the task's goal is
    found, then the buffer line, then print.  Every [datetime.now()] of the
    source is a clock read here, in the order Python evaluates them.
    [flush_working_buffer] moves the buffer to the daily file.  The
    theorems: the WAL-first order of the three commands, and what phase 2
    [mark_progress] saves. *)

From stdpp Require Import pretty.
From S2P Require Import Prelude PyVal PyStr Clock Store Trace Wf.

Open Scope Z_scope.

(** ** The write-ahead log (lines 58-82) *)

Definition wal_file (today : string) : string := "WAL-" +:+ today +:+ ".log".

(** [json.dumps(wal_entry)] of the dictionary of lines 73-77. *)
Definition wal_record (e : wal_entry) : string :=
  json_dumps (VDict [("timestamp", VStr (we_timestamp e)); ("event_type", VStr (we_type e));
                     ("content", VDict (we_content e))]).

Definition wal_line (e : wal_entry) : string := wal_record e +:+ String (Ascii.ascii_of_nat 10) "".

(** [open(wal_file, 'a').write(json.dumps(wal_entry) + "\n")] *)
Definition append_wal (file : string) (e : wal_entry) : PM unit :=
  fun w => (Ret tt,
            mkWorld (w_data w) (w_backup w)
                    (<[file := default "" (w_wal w !! file) +:+ wal_line e]> (w_wal w))
                    (w_buffer w) (w_session w) (w_daily w) (w_clock w) (w_tick w)
                    (w_uuid w) (w_uuid_next w) (w_trace w ++ [EvWal file e])).

Definition log_to_wal (event_type : string) (content : list (string * val)) : PM unit :=
  let* t1 := now in
  let* t2 := now in
  append_wal (wal_file (ymd t2)) (mkWal (isoformat t1) event_type content).

(** ** The working buffer (lines 85-100) *)

(** The [details] f-strings of lines 200, 253 and 309; [→] is U+2192,
    three bytes in UTF-8. *)
Definition arrow : string := String (Ascii.ascii_of_nat 226) (String (Ascii.ascii_of_nat 134)
                               (String (Ascii.ascii_of_nat 146) "")).

Definition detail_text (d : detail) : string :=
  match d with
  | DProgress id old p => id +:+ ": " +:+ py_str old +:+ "% " +:+ arrow +:+ " " +:+ pretty p +:+ "%"
  | DTimeLog id m total => id +:+ ": +" +:+ pretty m +:+ " min (total: " +:+ py_str total +:+ " min)"
  | DBlocked id reason => id +:+ ": " +:+ reason
  end.

(** [entry = f"- {event_type} ({timestamp}): {details}\n"] *)
Definition buffer_line_text (l : buffer_line) : string :=
  "- " +:+ bl_type l +:+ " (" +:+ bl_time l +:+ "): " +:+ detail_text (bl_detail l) +:+
  String (Ascii.ascii_of_nat 10) "".

Definition append_buffer_line (l : buffer_line) : PM unit :=
  fun w => (Ret tt,
            mkWorld (w_data w) (w_backup w) (w_wal w)
                    (Some (default "" (w_buffer w) +:+ buffer_line_text l))
                    (w_session w) (w_daily w) (w_clock w) (w_tick w)
                    (w_uuid w) (w_uuid_next w) (w_trace w ++ [EvBuffer l])).

Definition append_to_buffer (event_type : string) (details : detail) : PM unit :=
  let* t := now in
  append_buffer_line (mkLine event_type (isoformat t) details).

(** ** The session snapshot (lines 103-155) *)

(** The velocity note of lines 116-124 (and 257-263, where [on_pace] is
    false and a ratio of exactly 1 gives no note). *)
Definition velocity_note (on_pace : bool) (actual estimate : val) : outcome velnote :=
  let? pos := py_gt estimate (VInt 0) in
  if negb pos then Ret VelNone else
  let? ratio := py_truediv actual estimate in
  let? lt1 := py_lt ratio (VInt 1) in
  if lt1 then
    let? d := py_sub (VInt 1) ratio in let? x := py_mul d (VInt 100) in
    let? n := py_int_num x in Ret (VelFaster n)
  else
    let? gt1 := py_gt ratio (VInt 1) in
    if gt1 then
      let? d := py_sub ratio (VInt 1) in let? x := py_mul d (VInt 100) in
      let? n := py_int_num x in Ret (VelSlower n)
    else Ret (if on_pace then VelOnPace else VelNone).

(** The velocity of lines 119-124 as text; the empty string is falsy. *)
Definition velocity_text (v : velnote) : string :=
  match v with
  | VelNone => ""
  | VelFaster n => pretty n +:+ "% faster than estimate"
  | VelSlower n => pretty n +:+ "% slower than estimate"
  | VelOnPace => "on pace with estimate"
  end.

(** The actions of lines 197, 250 and 306. *)
Definition action_text (d : detail) : string :=
  match d with
  | DProgress _ old p => "Progress marked: " +:+ py_str old +:+ "% " +:+ arrow +:+ " " +:+ pretty p +:+ "%"
  | DTimeLog _ m total => "Logged " +:+ pretty m +:+ " min (total: " +:+ py_str total +:+ " min)"
  | DBlocked _ reason => "BLOCKED: " +:+ reason
  end.

Definition nl : string := String (Ascii.ascii_of_nat 10) "".

(** The SESSION-STATE.md template of lines 126-151. *)
Definition session_text (sn : snapshot) : string :=
  let task := sn_task sn in
  let goal := sn_goal sn in
  let vel := velocity_text (sn_velocity sn) in
  let action := action_text (sn_action sn) in
  "# SESSION-STATE.md - Active Working Memory" +:+ nl +:+
  "Last updated: " +:+ sn_time sn +:+ nl +:+ nl +:+
  "## Current Task" +:+ nl +:+
  "- ID: " +:+ py_str (get task "id" (VStr "unknown")) +:+ nl +:+
  "- Title: " +:+ py_str (get task "title" (VStr "N/A")) +:+ nl +:+
  "- Status: " +:+ py_str (get task "status" (VStr "pending")) +:+ nl +:+
  "- Progress: " +:+ py_str (get task "progress" (VInt 0)) +:+ "%" +:+ nl +:+
  "- Estimated: " +:+ py_str (get task "estimate_minutes" (VInt 0)) +:+ " min" +:+ nl +:+
  "- Actual logged: " +:+ py_str (get task "actual_minutes" (VInt 0)) +:+ " min " +:+
    (if String.eqb vel "" then "" else "(" +:+ vel +:+ ")") +:+ nl +:+ nl +:+
  "## Goal Context" +:+ nl +:+
  "- ID: " +:+ py_str (get goal "id" (VStr "unknown")) +:+ nl +:+
  "- Title: " +:+ py_str (get goal "title" (VStr "N/A")) +:+ nl +:+
  "- Priority: " +:+ py_str (get goal "priority" (VStr "medium")) +:+ nl +:+ nl +:+
  "## Task Details" +:+ nl +:+
  "- Created: " +:+ py_str (get task "created_at" (VStr "N/A")) +:+ nl +:+
  "- Updated: " +:+ py_str (get task "updated_at" (VStr "N/A")) +:+ nl +:+
  "- Notes: " +:+ py_str (get task "notes" (VStr "None")) +:+ nl +:+ nl +:+
  "## Blockers" +:+ nl +:+
  "- " +:+ py_str (get task "blocked_reason" (VStr "None")) +:+ nl +:+ nl +:+
  "## Next Action" +:+ nl +:+
  (if String.eqb action "" then "Continue with current task or mark as complete" else action) +:+ nl.

(** [open(SESSION_STATE_FILE, 'w').write(content)] *)
Definition write_session (sn : snapshot) : PM unit :=
  fun w => (Ret tt,
            mkWorld (w_data w) (w_backup w) (w_wal w) (w_buffer w) (Some (session_text sn))
                    (w_daily w) (w_clock w) (w_tick w)
                    (w_uuid w) (w_uuid_next w) (w_trace w ++ [EvSession sn])).

Definition update_session_state (task goal : obj) (action : detail) : PM unit :=
  let* vel := lift (velocity_note true (get task "actual_minutes" (VInt 0))
                                       (get task "estimate_minutes" (VInt 0))) in
  let* t := now in
  write_session (mkSnap (isoformat t) task goal action vel).

(** [goal = find_goal_by_id(data, task.get("goal_id", "")); if goal:
    update_session_state(task, goal, action)] *)
Definition session_for (data : store) (task : obj) (action : detail) : PM unit :=
  let* goal := lift (find_goal_by_id data (get task "goal_id" (VStr ""))) in
  match goal with
  | Some g => update_session_state task g action
  | None => mret tt
  end.

(** [if notes: task["notes"] = task["notes"] + "\n" + notes if task.get("notes")
    else notes] *)
Definition append_notes (task : obj) (notes : string) : outcome obj :=
  if String.eqb notes "" then Ret task
  else if truthy (get task "notes" VNone) then
    let? old := getitem task "notes" in
    let? v := py_add old (VStr ("
" +:+ notes)) in
    Ret (<["notes" := v]> task)
  else Ret (<["notes" := VStr notes]> task).

(** ** mark_progress (lines 158-207) *)

Definition mark_progress2 (task_id : string) (progress : Z) (notes : string) : PM unit :=
  let* data := load_data2 in
  let* '(i, task) := lookup_task data task_id in
  let old_progress := get task "progress" (VInt 0) in
  let* tc := now in
  log_to_wal "PROGRESS_CHANGE"
    [("task_id", VStr task_id); ("old_progress", old_progress);
     ("new_progress", VInt progress); ("timestamp", VStr (isoformat tc))] ;;
  let task := setk "progress" (VInt progress) task in
  let* t1 := now in
  let task := setk "updated_at" (VStr (iso_z t1)) task in
  let* task := lift (append_notes task notes) in
  let task :=
    if (100 <=? progress) && negb (eq_str (get task "status" VNone) "completed")
    then setk "status" (VStr "in_progress") task
    else if (0 <? progress) && eq_str (get task "status" VNone) "pending"
    then setk "status" (VStr "in_progress") task
    else task in
  let data := put_task data i task in
  save_data data ;;
  session_for data task (DProgress task_id old_progress progress) ;;
  append_to_buffer "PROGRESS" (DProgress task_id old_progress progress) ;;
  emit (EvStdout (OutProgress2 task old_progress progress)).

(** ** log_time (lines 210-273) *)

Definition log_time2 (task_id : string) (minutes : Z) (notes : string) : PM unit :=
  let* data := load_data2 in
  let* '(i, task) := lookup_task data task_id in
  let old_actual := get task "actual_minutes" (VInt 0) in
  let* new_actual := lift (py_add old_actual (VInt minutes)) in
  let* tc := now in
  log_to_wal "TIME_LOG"
    [("task_id", VStr task_id); ("minutes_logged", VInt minutes); ("old_total", old_actual);
     ("new_total", new_actual); ("timestamp", VStr (isoformat tc))] ;;
  let task := setk "actual_minutes" new_actual task in
  let* t1 := now in
  let task := setk "updated_at" (VStr (iso_z t1)) task in
  let* task := lift (append_notes task notes) in
  let* start := lift (if eq_str (get task "status" VNone) "pending"
                      then py_gt new_actual (VInt 0) else Ret false) in
  let task := if start then setk "status" (VStr "in_progress") task else task in
  let data := put_task data i task in
  save_data data ;;
  session_for data task (DTimeLog task_id minutes new_actual) ;;
  append_to_buffer "TIME_LOG" (DTimeLog task_id minutes new_actual) ;;
  let estimate := get task "estimate_minutes" (VInt 0) in
  let* vel := lift (velocity_note false new_actual estimate) in
  emit (EvStdout (OutTimeLog2 task minutes new_actual estimate vel)).

(** ** mark_blocked (lines 276-317) *)

Definition mark_blocked2 (task_id reason : string) : PM unit :=
  let* data := load_data2 in
  let* '(i, task) := lookup_task data task_id in
  let old_status := get task "status" (VStr "pending") in
  let* tc := now in
  log_to_wal "STATUS_CHANGE"
    [("task_id", VStr task_id); ("old_status", old_status); ("new_status", VStr "blocked");
     ("reason", VStr reason); ("timestamp", VStr (isoformat tc))] ;;
  let task := setk "blocked_reason" (VStr reason) (setk "status" (VStr "blocked") task) in
  let* t1 := now in
  let task := setk "updated_at" (VStr (iso_z t1)) task in
  let data := put_task data i task in
  save_data data ;;
  session_for data task (DBlocked task_id reason) ;;
  append_to_buffer "BLOCKED" (DBlocked task_id reason) ;;
  emit (EvStdout (OutBlocked2 task old_status reason)).

(** ** flush_working_buffer (lines 384-412) *)

(** [section = f"\n## Task Updates\n{buffer_content}\n"] *)
Definition daily_section (content : string) : string :=
  nl +:+ "## Task Updates" +:+ nl +:+ content +:+ nl.

(** [open(daily_file, 'a').write(section)] *)
Definition append_daily (file text : string) : PM unit :=
  fun w => (Ret tt,
            mkWorld (w_data w) (w_backup w) (w_wal w) (w_buffer w) (w_session w)
                    (<[file := default "" (w_daily w !! file) +:+ text]> (w_daily w))
                    (w_clock w) (w_tick w) (w_uuid w) (w_uuid_next w) (w_trace w ++ [EvDaily file text])).

(** [WORKING_BUFFER_FILE.write_text("")] *)
Definition clear_buffer : PM unit :=
  fun w => (Ret tt,
            mkWorld (w_data w) (w_backup w) (w_wal w) (Some "") (w_session w) (w_daily w)
                    (w_clock w) (w_tick w) (w_uuid w) (w_uuid_next w) (w_trace w ++ [EvBufferClear])).

(** The buffer text is read in text mode (universal newlines), appended
    to the daily file as a section, emptied, and
    [len(buffer_content.split('\n'))] is reported. *)
Definition flush_working_buffer : PM unit :=
  let* w := mget in
  match w_buffer w with
  | None => mret tt
  | Some text =>
      let* t := now in
      let daily_file := ymd t +:+ ".md" in
      let content := universal_newlines text in
      append_daily daily_file (daily_section content) ;;
      clear_buffer ;;
      emit (EvStdout (OutFlush daily_file (length (split_on (Ascii.ascii_of_nat 10) content))))
  end.

(** ** The order of the writes *)

Create HintDb trace discriminated.

(** A property of appended events that any event but a save preserves. *)
Definition stable (P : list event -> Prop) : Prop :=
  forall l e, is_save e = false -> P l -> P (l ++ [e]).

Lemma stable_walfirst : stable walfirst.
Proof. intros l e. apply walfirst_nonsave. Qed.
Lemma stable_walled : stable walled.
Proof. intros l e _. apply walled_any. Qed.

Section Stable.
Context (tr0 : list event) (P E : list event -> Prop) (HP : stable P) (HPE : forall l, P l -> E l).

Lemma tt_emit e : is_save e = false -> ttriple tr0 P P E (emit e).
Proof. intros He. apply ttriple_emit. auto. Qed.
Lemma tt_append_wal f e : ttriple tr0 P P E (append_wal f e).
Proof. apply (ttriple_appends _ _ _ _ _ [EvWal f e]); [by eexists | reflexivity | auto]. Qed.
Lemma tt_append_line l : ttriple tr0 P P E (append_buffer_line l).
Proof. apply (ttriple_appends _ _ _ _ _ [EvBuffer l]); [by eexists | reflexivity | auto]. Qed.
Lemma tt_write_session sn : ttriple tr0 P P E (write_session sn).
Proof. apply (ttriple_appends _ _ _ _ _ [EvSession sn]); [by eexists | reflexivity | auto]. Qed.
Lemma tt_fail_with {A} m : ttriple tr0 P P E (fail_with (A:=A) m).
Proof. eapply ttriple_bind; [apply tt_emit; reflexivity | intros; by apply ttriple_raise]. Qed.

Lemma tt_load_data2 : ttriple tr0 P P E load_data2.
Proof.
  apply ttriple_mget. intros w0. destruct (w_data w0) as [[[]| |]|];
    first [apply ttriple_ret | by apply ttriple_raise].
Qed.

Lemma tt_lookup_task data id : ttriple tr0 P P E (lookup_task data id).
Proof.
  unfold lookup_task. eapply ttriple_bind; [by apply ttriple_lift | intros [[]|]].
  - apply ttriple_ret.
  - apply tt_fail_with.
Qed.

Lemma tt_log_to_wal ty c : ttriple tr0 P P E (log_to_wal ty c).
Proof.
  unfold log_to_wal. eapply ttriple_bind; [apply ttriple_now | intros].
  eapply ttriple_bind; [apply ttriple_now | intros; apply tt_append_wal].
Qed.

Lemma tt_append_to_buffer ty d : ttriple tr0 P P E (append_to_buffer ty d).
Proof. unfold append_to_buffer. eapply ttriple_bind; [apply ttriple_now | intros; apply tt_append_line]. Qed.

Lemma tt_session_for data t a : ttriple tr0 P P E (session_for data t a).
Proof.
  unfold session_for, update_session_state.
  eapply ttriple_bind; [by apply ttriple_lift | intros [g|]]; [|apply ttriple_ret].
  eapply ttriple_bind; [by apply ttriple_lift | intros].
  eapply ttriple_bind; [apply ttriple_now | intros; apply tt_write_session].
Qed.

End Stable.

Lemma tt_log_to_wal_walled tr0 E ty c : ttriple tr0 walfirst walled E (log_to_wal ty c).
Proof.
  unfold log_to_wal. eapply ttriple_bind; [apply ttriple_now | intros].
  eapply ttriple_bind; [apply ttriple_now | intros].
  apply (ttriple_appends _ _ _ _ _ [EvWal (wal_file (ymd a0)) (mkWal (isoformat a) ty c)]);
    [by eexists | reflexivity | intros l Hl; by apply walfirst_wal].
Qed.

Lemma tt_save_walled tr0 E s : ttriple tr0 walled walled E (save_data s).
Proof. apply ttriple_save. intros. by apply walled_any. Qed.

#[export] Hint Resolve tt_save_walled stable_walfirst stable_walled tt_emit tt_fail_with tt_load_data2
  tt_lookup_task tt_log_to_wal tt_append_to_buffer tt_session_for ttriple_now ttriple_lift
  ttriple_ret ttriple_raise walled_walfirst : trace.

(** Generate the trace conditions of a handler: the WAL append moves from
    [walfirst] to [walled]; every other step keeps the phase. *)
Ltac tvcg :=
  repeat match goal with
  | |- ttriple _ _ _ _ (mbind mget _) => apply ttriple_mget; intros ?
  | |- ttriple _ walfirst _ _ (mbind (log_to_wal _ _) _) =>
      eapply ttriple_bind with (R := walled); [apply tt_log_to_wal_walled | intros ?]
  | |- ttriple _ ?P _ _ (mbind _ _) =>
      eapply ttriple_bind with (R := P); [solve [eauto with trace] | intros ?]
  | |- ttriple _ _ _ _ (let _ := _ in _) => cbv zeta
  | |- ttriple _ _ _ _ (if ?b then _ else _) => destruct b
  | |- ttriple _ _ _ _ (match ?o with _ => _ end) => destruct o
  | |- ttriple _ _ _ _ _ => solve [eauto with trace]
  | |- ttriple _ walled walfirst _ _ =>
      eapply ttriple_post; [solve [eauto with trace] | apply walled_walfirst]
  end.

Lemma mark_progress2_trace tr0 id p notes : ttriple tr0 walfirst walfirst walfirst (mark_progress2 id p notes).
Proof.
  unfold mark_progress2. tvcg.
Qed.

Lemma log_time2_trace tr0 id m notes : ttriple tr0 walfirst walfirst walfirst (log_time2 id m notes).
Proof. unfold log_time2. tvcg. Qed.

Lemma mark_blocked2_trace tr0 id r : ttriple tr0 walfirst walfirst walfirst (mark_blocked2 id r).
Proof. unfold mark_blocked2. tvcg. Qed.

(** ** The WAL-first discipline *)

(** The task commands of task_manager_phase2.py (lines 423-447). *)
Inductive task_cmd2 :=
| CMarkProgress2 (task_id : string) (progress : Z) (notes : string)
| CLogTime2 (task_id : string) (minutes : Z) (notes : string)
| CMarkBlocked2 (task_id reason : string).

Definition run_task_cmd2 (c : task_cmd2) : PM unit :=
  match c with
  | CMarkProgress2 id p n => mark_progress2 id p n
  | CLogTime2 id m n => log_time2 id m n
  | CMarkBlocked2 id r => mark_blocked2 id r
  end.

Lemma task_cmd2_trace tr0 c : ttriple tr0 walfirst walfirst walfirst (run_task_cmd2 c).
Proof.
  destruct c; simpl; [apply mark_progress2_trace | apply log_time2_trace | apply mark_blocked2_trace].
Qed.

(** C1: every phase 2 task command, from any world and whatever its outcome
    (success, exit 1, or an exception part-way), appends to the trace a
    sequence of events in which every save of tasks.json comes after a
    write-ahead-log append. *)
Theorem wal_precedes_save (c : task_cmd2) (w : world) :
  exists new, w_trace (final (run_task_cmd2 c) w) = w_trace w ++ new /\ wal_before_save new = true.
Proof.
  apply (ttriple_final (w_trace w) walfirst walfirst); [apply task_cmd2_trace|].
  exists []. by rewrite app_nil_r.
Qed.

(** ** What the phase 2 commands save *)

Section KeepData.
Context (d : option blob).

Lemma dt_append_wal f e : triple (data_is d) (append_wal f e) (fun _ => True).
Proof. intros w Hw. by split. Qed.
Lemma dt_append_line l : triple (data_is d) (append_buffer_line l) (fun _ => True).
Proof. intros w Hw. by split. Qed.
Lemma dt_write_session sn : triple (data_is d) (write_session sn) (fun _ => True).
Proof. intros w Hw. by split. Qed.

#[local] Hint Resolve dt_append_wal dt_append_line dt_write_session : pytask.

Lemma dt_session_for data t a : triple (data_is d) (session_for data t a) (fun _ => True).
Proof. unfold session_for, update_session_state. vcg; trivial. Qed.
Lemma dt_append_to_buffer ty det : triple (data_is d) (append_to_buffer ty det) (fun _ => True).
Proof. unfold append_to_buffer. vcg; trivial. Qed.

End KeepData.

(** What follows the save of a phase 2 task command leaves tasks.json as
    it is, whether it returns or raises. *)
Lemma after_save_data data t a ty det e w :
  w_data (snd ((session_for data t a ;; append_to_buffer ty det ;; emit e) w)) = w_data w.
Proof.
  apply (triple_final (data_is (w_data w)) _ (fun _ => True)); [|done].
  eapply triple_bind; [apply dt_session_for | intros].
  eapply triple_bind; [apply dt_append_to_buffer | intros]. vcg; trivial.
Qed.

Lemma log_to_wal_run ty c w :
  log_to_wal ty c w =
    (Ret tt, snd (append_wal (wal_file (ymd (w_clock w (S (w_tick w))))) (mkWal (isoformat (w_clock w (w_tick w))) ty c)
                             (tick (tick w)))).
Proof. reflexivity. Qed.

Lemma save_data_run s w : save_data s w = (Ret tt, snd (save_data s w)).
Proof. reflexivity. Qed.

Lemma append_notes_empty t : append_notes t "" = Ret t.
Proof. reflexivity. Qed.

(** A run of phase 2 [mark_progress] on a found task, up to its save:
    the WAL entry, then tasks.json with the edited task. *)
Lemma mark_progress2_prefix w s task_id i t p :
  w_data w = Some (Parsed (DStore s)) -> find_task_by_id s task_id = Ret (Some (i, t)) ->
  let old := get t "progress" (VInt 0) in
  exists tk w1,
    mark_progress2 task_id p "" w =
      (session_for (put_task s i tk) tk (DProgress task_id old p) ;;
       append_to_buffer "PROGRESS" (DProgress task_id old p) ;;
       emit (EvStdout (OutProgress2 tk old p))) w1 /\
    w_data w1 = Some (Parsed (DStore (put_task s i tk))) /\
    (exists f e, w_trace w1 = w_trace w ++ [EvWal f e; EvSave (put_task s i tk)]) /\
    tk !! "progress" = Some (VInt p) /\ tk !! "blocked_reason" = t !! "blocked_reason" /\
    (100 <= p -> eq_str (get t "status" VNone) "completed" = false -> tk !! "status" = Some (VStr "in_progress")).
Proof.
  intros Hd Hf old. unfold mark_progress2.
  mstep (load_data2_store w s Hd). mstep (lookup_task_found w s task_id i t Hf). cbn beta iota.
  mstep (now_run w). cbv beta. erewrite (mbind_ret_step _ _ _ _ _ (log_to_wal_run _ _ _)).
  erewrite (mbind_ret_step _ _ _ _ _ (now_run _)). cbv beta.
  rewrite append_notes_empty, mbind_lift_ret. cbv zeta.
  erewrite (mbind_ret_step _ _ _ _ _ (save_data_run _ _)).
  match goal with |- context [put_task s i ?tk] => exists tk end.
  eexists. split; [reflexivity|]. split; [reflexivity|]. split.
  { do 2 eexists. cbn. by rewrite <- app_assoc. }
  split; [|split].
  - by repeat case_match; simpl_lookup.
  - by repeat case_match; simpl_lookup.
  - intros H100 Hst. simpl_get. rewrite Hst, (proj2 (Z.leb_le 100 p) H100). simpl. by simpl_lookup.
Qed.

(** C10: phase 2 [mark_progress] (lines 158-207) saves any progress the
    caller gives, outside 0..100 too (spec §4.3 and §8 require the range
    check), keeps the [blocked_reason], and sends a task that is not
    completed to in_progress once the progress reaches 100 (a blocked one
    too) instead of completing it. *)
Theorem mark_progress2_no_range_check w s task_id i t p :
  w_data w = Some (Parsed (DStore s)) -> find_task_by_id s task_id = Ret (Some (i, t)) ->
  exists t', w_data (final (mark_progress2 task_id p "") w) = Some (Parsed (DStore (put_task s i t'))) /\
    t' !! "progress" = Some (VInt p) /\ t' !! "blocked_reason" = t !! "blocked_reason" /\
    (100 <= p -> eq_str (get t "status" VNone) "completed" = false -> t' !! "status" = Some (VStr "in_progress")).
Proof.
  intros Hd Hf. destruct (mark_progress2_prefix w s task_id i t p Hd Hf) as (tk & w1 & E & D & _ & H).
  exists tk. unfold final. rewrite E, after_save_data, D. by split.
Qed.

(** C31: phase 2 [load_data] does not check the store (lines 28-33); on
    a store without "goals", [mark_progress] saves the edited task (line
    192) and only then raises KeyError in [find_goal_by_id] (line 52,
    called at line 195): the script fails with exit 1 although its change
    is in tasks.json, and neither the session snapshot nor the buffer line
    nor the result is written. *)
Theorem mark_progress2_saved_then_keyerror w s task_id i t p :
  w_data w = Some (Parsed (DStore s)) -> goals s = None -> find_task_by_id s task_id = Ret (Some (i, t)) ->
  result (mark_progress2 task_id p "") w = Exc (KeyError "goals") /\
  exists t' f e, w_data (final (mark_progress2 task_id p "") w) = Some (Parsed (DStore (put_task s i t'))) /\
    t' !! "progress" = Some (VInt p) /\
    w_trace (final (mark_progress2 task_id p "") w) = w_trace w ++ [EvWal f e; EvSave (put_task s i t')].
Proof.
  intros Hd Hg Hf.
  destruct (mark_progress2_prefix w s task_id i t p Hd Hf) as (tk & w1 & E & D & (f & e & Tr) & Hp & _).
  unfold result, final. rewrite E. unfold session_for, find_goal_by_id, goals_of.
  cbn [goals put_task set_tasks]. rewrite Hg. split; [reflexivity|].
  exists tk, f, e. cbn. by rewrite D, Tr.
Qed.

(** ** Witnesses *)

Definition ex2_task : obj :=
  {[ "id" := VStr "task_b"; "status" := VStr "blocked"; "progress" := VInt 10;
     "blocked_reason" := VStr "waiting" ]}.
Definition ex2_store : store := mkStore (Some []) [ex2_task] ∅.
Definition ex2_world : world :=
  mkWorld (Some (Parsed (DStore ex2_store))) None ∅ None None ∅
          (fun n => 1700000000000000 + Z.of_nat n) 0 (fun _ => "0a1b2c3d") 0 [].

Lemma mark_progress2_no_range_check_witness :
  exists t', w_data (final (mark_progress2 "task_b" 150 "") ex2_world) =
               Some (Parsed (DStore (put_task ex2_store 0 t'))) /\
             t' !! "status" = Some (VStr "in_progress") /\ t' !! "progress" = Some (VInt 150).
Proof.
  destruct (mark_progress2_no_range_check ex2_world ex2_store "task_b" 0 ex2_task 150 eq_refl eq_refl)
    as (t' & D & P & _ & Hs).
  exists t'. split; [exact D|]. split; [apply Hs; [lia | reflexivity] | exact P].
Defined.

Definition ex2_nogoals_store : store := mkStore None [ex2_task] ∅.

Lemma mark_progress2_saved_then_keyerror_witness :
  result (mark_progress2 "task_b" 40 "")
    (mkWorld (Some (Parsed (DStore ex2_nogoals_store))) None ∅ None None ∅
             (fun n => 1700000000000000 + Z.of_nat n) 0 (fun _ => "0a1b2c3d") 0 []) =
  Exc (KeyError "goals").
Proof. apply (mark_progress2_saved_then_keyerror _ ex2_nogoals_store "task_b" 0 ex2_task 40); reflexivity. Defined.
