(* ===== verification/Health.v ===== *)
(** * health_check of task_manager_phase2.py (lines 320-381)

    One pass over [data["tasks"]] applies five checks to each task, in the
    order of the source, and edits the task in place: an orphaned recurring
    flag is cleared, a completed task below 100% is set to 100, a completed
    task without [completed_at] is stamped, a time anomaly is only reported,
    and a [completed_at] string greater than the current [isoformat()] is
    re-stamped.  The store is saved when a fix was applied, then the counts
    are written to the WAL, then the report is printed.  An exception in a
    check (a comparison of unordered values, a division by a zero estimate)
    stops the script before anything is written.  Each check is one
    definition, with a lemma giving its run.  The theorems: the order of
    the save and the WAL entry, the repair postcondition, the
    ZeroDivisionError of a zero estimate, the idempotence of the check
    when the clock advances between runs, and the double fix of a task
    when it does not advance between checks 3 and 5, and the bounds of
    the counts its WAL entry records. *)

From S2P Require Import Prelude PyVal Clock ClockOrder Store Trace Wf Phase2.

Open Scope Z_scope.

(** Check 1 (lines 332-336): an orphaned recurring flag is cleared. *)
Definition check_orphaned (task_id : val) (task : obj) : obj * list issue * list repair :=
  if truthy (get task "recurring" VNone) && negb (truthy (get task "goal_id" VNone))
  then (<["recurring" := VNone]> task, [IssOrphaned task_id], [FixRecurring task_id])
  else (task, [], []).

(** Check 2 (lines 338-342): a completed task below 100% is set to 100. *)
Definition check_progress (task_id : val) (task : obj) : outcome (obj * list issue * list repair) :=
  let? c2 := if eq_str (get task "status" VNone) "completed"
             then py_lt (get task "progress" (VInt 100)) (VInt 100) else Ret false in
  Ret (if c2 then (<["progress" := VInt 100]> task,
                   [IssImpossible task_id (get task "progress" VNone)], [FixProgress task_id])
       else (task, [], [])).

(** Check 3 (lines 344-348): a completed task without [completed_at] is
    stamped. *)
Definition check_completed_at (task_id : val) (task : obj) : PM (obj * list issue * list repair) :=
  if eq_str (get task "status" VNone) "completed" && negb (truthy (get task "completed_at" VNone))
  then let* t := now in
       mret (<["completed_at" := VStr (iso_z t)]> task, [IssNoCompletedAt task_id],
             [FixCompletedAt task_id])
  else mret (task, [], []).

(** Check 4 (lines 350-353): a time anomaly, reported only. *)
Definition check_anomaly (task_id : val) (task : obj) : outcome (list issue) :=
  let? lim := py_mul (get task "estimate_minutes" (VInt 1)) (VInt 10) in
  let? c4 := py_gt (get task "actual_minutes" (VInt 0)) lim in
  if c4 then
    let? ratio := py_truediv (get task "actual_minutes" (VInt 0)) (get task "estimate_minutes" (VInt 1)) in
    Ret [IssTimeAnomaly task_id (get task "actual_minutes" VNone) (get task "estimate_minutes" VNone) ratio]
  else Ret [].

(** Check 5 (lines 355-361): a [completed_at] string greater than the
    current [isoformat()] is re-stamped, with a second clock read. *)
Definition check_future (task_id : val) (task : obj) : PM (obj * list issue * list repair) :=
  if eq_str (get task "status" VNone) "completed" then
    let completed_at := get task "completed_at" (VStr "") in
    let* t := now in
    let* c5 := lift (py_gt completed_at (VStr (isoformat t))) in
    if c5 then
      let* t' := now in
      mret (<["completed_at" := VStr (iso_z t')]> task, [IssBadDate task_id completed_at], [FixDate task_id])
    else mret (task, [], [])
  else mret (task, [], []).

(** The body of the loop (lines 329-361): the five checks in order on the
    same dictionary. *)
Definition check_task (task : obj) : PM (obj * list issue * list repair) :=
  let task_id := get task "id" (VStr "unknown") in
  let '(task, is1, fs1) := check_orphaned task_id task in
  let* '(task, is2, fs2) := lift (check_progress task_id task) in
  let* '(task, is3, fs3) := check_completed_at task_id task in
  let* is4 := lift (check_anomaly task_id task) in
  let* '(task, is5, fs5) := check_future task_id task in
  mret (task, is1 ++ is2 ++ is3 ++ is4 ++ is5, fs1 ++ fs2 ++ fs3 ++ fs5).

(** [for task in data["tasks"]: ...]: the edited tasks, the issues and the
    fixes, in the order of the tasks. *)
Fixpoint check_tasks (ts : list obj) : PM (list obj * list issue * list repair) :=
  match ts with
  | [] => mret ([], [], [])
  | t :: r =>
      let* '(t', is1, fs1) := check_task t in
      let* '(r', is2, fs2) := check_tasks r in
      mret (t' :: r', is1 ++ is2, fs1 ++ fs2)
  end.

Definition health_check : PM unit :=
  let* data := load_data2 in
  let* '(ts, issues, fixes) := check_tasks (tasks data) in
  let data := set_tasks data ts in
  (if bool_decide (fixes = []) then mret tt else save_data data) ;;
  let* tc := now in
  log_to_wal "HEALTH_CHECK"
    [("issues_found", VInt (Z.of_nat (length issues)));
     ("auto_fixes_applied", VInt (Z.of_nat (length fixes)));
     ("timestamp", VStr (isoformat tc))] ;;
  emit (EvStdout (OutHealth issues fixes)).

(** ** The checks write nothing *)

Definition no_events (l : list event) : Prop := l = [].

Lemma check_task_silent tr0 t : ttriple tr0 no_events no_events no_events (check_task t).
Proof.
  unfold check_task, check_orphaned, check_completed_at, check_future.
  repeat match goal with
  | |- ttriple _ _ _ _ (mbind _ _) => eapply ttriple_bind with (R := no_events); [|intros ?]
  | |- ttriple _ _ _ _ (let _ := _ in _) => cbv zeta
  | |- ttriple _ _ _ _ (if ?b then _ else _) => destruct b
  | |- ttriple _ _ _ _ (match ?o with _ => _ end) => destruct o as [[? ?] ?]
  | |- ttriple _ _ _ _ (mret _) => apply ttriple_ret
  | |- ttriple _ _ _ _ now => apply ttriple_now
  | |- ttriple _ _ _ _ (lift _) => by apply ttriple_lift
  end.
Qed.

Lemma check_tasks_silent tr0 ts : ttriple tr0 no_events no_events no_events (check_tasks ts).
Proof.
  induction ts as [|t ts IH]; simpl; [apply ttriple_ret|].
  eapply ttriple_bind; [apply check_task_silent | intros [[t' is1] fs1]].
  eapply ttriple_bind; [apply IH | intros [[r' is2] fs2]]. apply ttriple_ret.
Qed.

(** The trace is unchanged by the checks, whatever their outcome. *)
Lemma check_tasks_trace ts w : w_trace (snd (check_tasks ts w)) = w_trace w.
Proof.
  pose proof (check_tasks_silent (w_trace w) ts w) as H.
  specialize (H ltac:(exists []; by rewrite app_nil_r)).
  revert H. destruct (check_tasks ts w) as [[] w']; simpl;
    intros (new & Ht & Hn); unfold no_events in Hn; subst; by rewrite Ht, app_nil_r.
Qed.

(** ** The order of the writes: save, then WAL *)

Lemma health_check_trace w :
  result health_check w = Ret tt ->
  exists iss fs s' f e, w_trace (final health_check w) =
    w_trace w ++ (if bool_decide (fs = []) then [] else [EvSave s']) ++
      [EvWal f e; EvStdout (OutHealth iss fs)].
Proof.
  unfold result, final, health_check. intros Hr.
  destruct (load_data2_run w) as [[s Hl]|[e Hl]];
    [rewrite (mbind_ret_step _ _ _ _ _ Hl) in * | by rewrite (mbind_exc_step _ _ _ _ _ Hl) in Hr].
  pose proof (check_tasks_trace (tasks s) w) as Ht.
  destruct (check_tasks (tasks s) w) as [[[[ts iss] fs]|e] w1] eqn:Ec; simpl in Ht;
    [rewrite (mbind_ret_step _ _ _ _ _ Ec) in * | by rewrite (mbind_exc_step _ _ _ _ _ Ec) in Hr].
  cbv beta iota in *. unfold log_to_wal, append_wal in *.
  exists iss, fs, (set_tasks s ts).
  destruct (bool_decide (fs = [])); wred; do 2 eexists; rewrite Ht; by rewrite <- ?app_assoc.
Qed.

(** C2: the health check writes its WAL entry after saving the fixes
    (lines 364-372): when it returns normally, the events it appends keep
    the WAL-first order exactly when nothing was saved, i.e. the order the
    phase 2 commands keep is broken by every health check that applies a
    fix. *)
Theorem health_check_wal_after_save w :
  result health_check w = Ret tt ->
  exists new, w_trace (final health_check w) = w_trace w ++ new /\
              has_wal new = true /\
              (wal_before_save new = true <-> has_save new = false).
Proof.
  intros Hr. destruct (health_check_trace w Hr) as (iss & fs & s' & f & e & ->).
  eexists; split; [reflexivity|].
  by destruct (bool_decide (fs = [])).
Qed.

(** ** A zero estimate stops the health check *)

Lemma check_task_zero_estimate w t a :
  eq_str (get t "status" VNone) "completed" = false ->
  t !! "estimate_minutes" = Some (VInt 0) -> t !! "actual_minutes" = Some (VInt a) -> 0 < a ->
  check_task t w = (Exc ZeroDivisionError, w).
Proof.
  intros Hst He Ha Hpos.
  unfold check_task, check_orphaned, check_progress, check_completed_at, check_anomaly, check_future, get in *.
  destruct (t !! "status") as [st|] eqn:Hs; simpl in Hst;
    destruct (truthy _ && _); cbv beta iota zeta.
  all: eval_simpl; unfold py_mul, py_gt, py_cmp, py_truediv; simpl; rewrite ?Z.mul_0_l.
  all: destruct (Z.compare_spec a 0); try lia; reflexivity.
Qed.

(** C11: a task that is not completed, with [estimate_minutes] 0 and a
    positive [actual_minutes], makes check 4 divide by zero (line 352):
    when it is the first task, the health check raises ZeroDivisionError
    and the world is left exactly as it was: no fix saved, no WAL entry,
    no report. *)
Theorem health_check_zero_estimate w s t rest a :
  w_data w = Some (Parsed (DStore s)) -> tasks s = t :: rest ->
  eq_str (get t "status" VNone) "completed" = false ->
  t !! "estimate_minutes" = Some (VInt 0) -> t !! "actual_minutes" = Some (VInt a) -> 0 < a ->
  run health_check w = (Exc ZeroDivisionError, w).
Proof.
  intros Hd Hts Hst He Ha Hpos. unfold run, health_check.
  mstep (load_data2_store w s Hd). rewrite Hts. cbn [check_tasks].
  rewrite mbind_assoc. by mstep (check_task_zero_estimate w t a Hst He Ha Hpos).
Qed.

(** ** Witnesses *)

Definition ex_zero_task : obj :=
  {[ "id" := VStr "task_z"; "status" := VStr "pending"; "estimate_minutes" := VInt 0;
     "actual_minutes" := VInt 5 ]}.
Definition ex_zero_store : store := mkStore (Some []) [ex_zero_task] ∅.
Definition ex_zero_world : world :=
  mkWorld (Some (Parsed (DStore ex_zero_store))) None ∅ None None ∅
          (fun n => 1700000000000000 + Z.of_nat n) 0 (fun _ => "0a1b2c3d") 0 [].

Lemma health_check_zero_estimate_witness :
  run health_check ex_zero_world = (Exc ZeroDivisionError, ex_zero_world).
Proof.
  apply (health_check_zero_estimate ex_zero_world ex_zero_store ex_zero_task [] 5);
    try reflexivity; lia.
Defined.

Definition ex_done_task : obj :=
  {[ "id" := VStr "task_d"; "status" := VStr "completed"; "progress" := VInt 40;
     "completed_at" := VStr "2023-01-01T00:00:00+00:00Z" ]}.
Definition ex_fix_world : world :=
  mkWorld (Some (Parsed (DStore (mkStore (Some []) [ex_done_task] ∅)))) None ∅ None None ∅
          (fun n => 1700000000000000 + Z.of_nat n) 0 (fun _ => "0a1b2c3d") 0 [].

Lemma health_check_wal_after_save_witness :
  exists new, w_trace (final health_check ex_fix_world) = w_trace ex_fix_world ++ new /\
              has_wal new = true /\ (wal_before_save new = true <-> has_save new = false).
Proof. apply health_check_wal_after_save. vm_compute. reflexivity. Defined.


(** ** What a check leaves: the repair postcondition *)

(** A task the checks leave nothing to repair in: when it is completed its
    progress is not below 100 and its [completed_at] is set. *)
Definition repaired (t : obj) : Prop :=
  eq_str (get t "status" VNone) "completed" = true ->
  py_lt (get t "progress" (VInt 100)) (VInt 100) = Ret false /\
  truthy (get t "completed_at" VNone) = true.



Lemma truthy_iso_z x : truthy (VStr (iso_z x)) = true.
Proof. unfold iso_z. simpl. by destruct (isoformat x). Qed.

(** [edits k t t']: the check left [t] as it was or set its key [k]. *)
Definition edits (k : string) (t t' : obj) : Prop := t' = t \/ exists v, t' = <[k := v]> t.

Ltac edits_tac := unfold edits; first [left; reflexivity | right; eexists; reflexivity].

Lemma edits_get k t t' k' def : edits k t t' -> k <> k' -> get t' k' def = get t k' def.
Proof. intros [->|[v ->]] Hk; [done|]. by apply get_insert_ne. Qed.

Definition is_completed (t : obj) : bool := eq_str (get t "status" VNone) "completed".

(** No orphaned recurring flag: check 1 does not fire. *)
Definition orphan_free (t : obj) : Prop :=
  truthy (get t "recurring" VNone) && negb (truthy (get t "goal_id" VNone)) = false.

Lemma check_orphaned_spec id t :
  let '(t1, _, fs) := check_orphaned id t in
  edits "recurring" t t1 /\ orphan_free t1 /\ (fs = [] -> t1 = t).
Proof.
  unfold check_orphaned, orphan_free.
  destruct (truthy _ && _) eqn:E; (split; [edits_tac|]); simpl_get; [|done].
  split; [done|discriminate].
Qed.

Lemma check_progress_spec id t t2 iss fs :
  check_progress id t = Ret (t2, iss, fs) ->
  edits "progress" t t2 /\
  (is_completed t2 = true -> py_lt (get t2 "progress" (VInt 100)) (VInt 100) = Ret false) /\
  (fs = [] -> t2 = t).
Proof.
  unfold check_progress, is_completed.
  destruct (eq_str _ "completed") eqn:Es; simpl;
    [destruct (py_lt _ _) as [[]|] eqn:Ep; simpl; intros; inv_outcome | intros; inv_outcome].
  all: repeat split; try edits_tac; simpl_get; try congruence; done.
Qed.

Lemma check_completed_at_run id t w :
  check_completed_at id t w =
    if is_completed t && negb (truthy (get t "completed_at" VNone))
    then (Ret (<["completed_at" := VStr (iso_z (w_clock w (w_tick w)))]> t, [IssNoCompletedAt id],
               [FixCompletedAt id]), tick w)
    else (Ret (t, [], []), w).
Proof. unfold check_completed_at, is_completed. by destruct (_ && _). Qed.

Lemma check_completed_at_spec id t w t3 iss fs w' :
  check_completed_at id t w = (Ret (t3, iss, fs), w') ->
  edits "completed_at" t t3 /\ ticks w w' /\
  (is_completed t3 = true -> truthy (get t3 "completed_at" VNone) = true) /\ (fs = [] -> t3 = t).
Proof.
  rewrite check_completed_at_run. unfold is_completed.
  destruct (eq_str _ _ && _) eqn:E; intros; inv_outcome.
  all: repeat split; auto with pytask; try edits_tac.
  all: simpl_get; rewrite ?truthy_iso_z; try done.
  apply andb_false_iff in E as [E|E]; [congruence|]. intros _. by apply negb_false_iff in E.
Qed.

Lemma check_future_run id t w :
  check_future id t w =
    if is_completed t then
      match py_gt (get t "completed_at" (VStr "")) (VStr (isoformat (w_clock w (w_tick w)))) with
      | Ret true => (Ret (<["completed_at" := VStr (iso_z (w_clock w (S (w_tick w))))]> t,
                          [IssBadDate id (get t "completed_at" (VStr ""))], [FixDate id]), tick (tick w))
      | Ret false => (Ret (t, [], []), tick w)
      | Exc e => (Exc e, tick w)
      end
    else (Ret (t, [], []), w).
Proof.
  unfold check_future, is_completed. destruct (eq_str _ _); [|done]. wred.
  by destruct (py_gt _ _) as [[]|].
Qed.

(** The stamp check 5 leaves on a completed task: a string that was not
    greater than [isoformat()] of some read of the clock, or
    [isoformat() + "Z"] of some read. *)
Definition stamped_at (clk : nat -> datetime) (lo hi : nat) (t : obj) : Prop :=
  exists c j, get t "completed_at" (VStr "") = VStr c /\ (lo <= j < hi)%nat /\
    (String.compare c (isoformat (clk j)) <> Gt \/ c = iso_z (clk j)).

Lemma check_future_spec id t w t5 iss fs w' :
  check_future id t w = (Ret (t5, iss, fs), w') ->
  edits "completed_at" t t5 /\ ticks w w' /\ (fs = [] -> t5 = t) /\
  (truthy (get t "completed_at" VNone) = true -> truthy (get t5 "completed_at" VNone) = true) /\
  (is_completed t5 = true -> stamped_at (w_clock w) (w_tick w) (w_tick w') t5).
Proof.
  rewrite check_future_run. unfold is_completed.
  destruct (eq_str _ _) eqn:Es; [|intros; inv_outcome; repeat split; auto with pytask; first [edits_tac | congruence]].
  destruct (py_gt _ _) as [[]|] eqn:Eg; intros; inv_outcome.
  - repeat split; auto with pytask; try edits_tac; simpl_get; rewrite ?truthy_iso_z; try done.
    intros _. exists (iso_z (w_clock w (S (w_tick w)))), (S (w_tick w)).
    split; [by rewrite get_insert_eq|]. split; [cbn; lia|by right].
  - repeat split; auto with pytask; try edits_tac. intros _.
    unfold py_gt, py_cmp in Eg. destruct (get t5 "completed_at" (VStr "")) as [| | | |c| |] eqn:Ec;
      cbn -[isoformat String.compare] in Eg; try discriminate.
    exists c, (w_tick w). split; [done|]. split; [cbn; lia|]. left.
    injection Eg as Eg. intros Hc. rewrite Hc in Eg. by rewrite bool_decide_eq_true_2 in Eg.
Qed.

(** The runs of the five checks that make up a run of [check_task] that
    returned. *)
Lemma check_task_inv t w t' iss fs w' :
  check_task t w = (Ret (t', iss, fs), w') ->
  let id := get t "id" (VStr "unknown") in
  exists t1 is1 fs1 t2 is2 fs2 t3 is3 fs3 w3 is4 is5 fs5,
    check_orphaned id t = (t1, is1, fs1) /\ check_progress id t1 = Ret (t2, is2, fs2) /\
    check_completed_at id t2 w = (Ret (t3, is3, fs3), w3) /\ check_anomaly id t3 = Ret is4 /\
    check_future id t3 w3 = (Ret (t', is5, fs5), w') /\ fs = fs1 ++ fs2 ++ fs3 ++ fs5.
Proof.
  unfold check_task. cbv zeta. intros H.
  destruct (check_orphaned _ t) as [[t1 is1] fs1] eqn:E1.
  apply mbind_Ret_inv in H as ([[t2 is2] fs2] & w2 & H2 & H). unfold lift in H2. inv_outcome.
  apply mbind_Ret_inv in H as ([[t3 is3] fs3] & w3 & H3 & H).
  apply mbind_Ret_inv in H as (is4 & w4 & H4 & H). unfold lift in H4. inv_outcome.
  apply mbind_Ret_inv in H as ([[t5 is5] fs5] & w5 & H5 & H). unfold mret in H. inv_outcome.
  do 13 eexists. repeat split; eauto.
Qed.

(** A run of [check_task] only reads the clock. *)
Lemma check_task_ticks_triple w0 t : triple (ticks w0) (check_task t) (fun _ => True).
Proof.
  unfold check_task, check_orphaned, check_completed_at, check_future.
  repeat match goal with
  | |- triple _ (mbind _ _) _ => eapply triple_bind with (R := fun _ => True); [|intros ? _]
  | |- triple _ (let _ := _ in _) _ => cbv zeta
  | |- triple _ (if ?b then _ else _) _ => destruct b
  | |- triple _ (match ?o with _ => _ end) _ => destruct o as [[? ?] ?]
  | |- triple _ (mret _) _ => by apply triple_ret
  | |- triple _ now _ => apply (triple_now _ (ticks_tick w0))
  | |- triple _ (lift _) _ => eapply triple_weaken; [apply triple_lift | done]
  end.
Qed.

Lemma check_task_ticks t w : ticks w (snd (check_task t w)).
Proof.
  pose proof (check_task_ticks_triple w t w (ticks_refl w)) as H.
  by destruct (check_task t w) as [[] ?]; [apply H|].
Qed.

(** Rewrite the keys a check did not set. *)
Ltac edits_rw :=
  repeat match goal with
  | He : edits ?k ?t ?t' |- context [get ?t' ?k' ?def] =>
      rewrite (edits_get k t t' k' def He) by discriminate
  | He : edits ?k ?t ?t', H : context [get ?t' ?k' ?def] |- _ =>
      rewrite (edits_get k t t' k' def He) in H by discriminate
  end.

Lemma check_task_repaired d t :
  triple (data_is d) (check_task t) (fun '(t', _, fs) => repaired t' /\ (fs = [] -> t' = t)).
Proof.
  intros w Hw. pose proof (check_task_ticks t w) as Htk.
  destruct (check_task t w) as [[[[t' iss] fs]|e] w'] eqn:Ht; simpl in Htk;
    apply ticks_fields in Htk as (_ & _ & Hd & _); unfold data_is in *; [|congruence].
  split; [|congruence].
  apply check_task_inv in Ht as (t1 & is1 & fs1 & t2 & is2 & fs2 & t3 & is3 & fs3 & w3 & is4 & is5 & fs5 &
                                 E1 & E2 & E3 & E4 & E5 & ->).
  pose proof (check_orphaned_spec (get t "id" (VStr "unknown")) t) as H1. rewrite E1 in H1.
  destruct H1 as (Hr1 & _ & Hf1).
  apply check_progress_spec in E2 as (Hr2 & Hp2 & Hf2).
  apply check_completed_at_spec in E3 as (Hr3 & _ & Hc3 & Hf3).
  apply check_future_spec in E5 as (Hr5 & _ & Hf5 & Hc5 & _).
  split.
  - unfold repaired, is_completed in *. intros Hst. edits_rw. split; [by apply Hp2|].
    apply Hc5, Hc3. by edits_rw.
  - intros (-> & (-> & (-> & ->)%app_nil)%app_nil)%app_nil. by rewrite Hf5, Hf3, Hf2, Hf1.
Qed.

Lemma check_tasks_repaired d ts :
  triple (data_is d) (check_tasks ts)
    (fun '(ts', _, fs) => Forall repaired ts' /\ (fs = [] -> ts' = ts)).
Proof.
  induction ts as [|t ts IH]; simpl; [by apply triple_ret|].
  eapply triple_bind; [apply check_task_repaired | intros [[t' is1] fs1] [Ht Hf1]].
  eapply triple_bind; [apply IH | intros [[r' is2] fs2] [Hr Hf2]].
  apply triple_ret. split; [by constructor|].
  intros [-> ->]%app_nil. by rewrite Hf1, Hf2.
Qed.

(** C3: after a health check that returns normally, every task of
    tasks.json is repaired: a completed task has a progress that is not
    below 100 and a set [completed_at].  This holds whether fixes were
    saved or the store was already clean and left unwritten. *)
Theorem health_check_repairs w s' :
  result health_check w = Ret tt -> w_data (final health_check w) = Some (Parsed (DStore s')) ->
  Forall repaired (tasks s').
Proof.
  unfold result, final. destruct (health_check w) as [o w'] eqn:Hr. simpl. intros -> Hd'.
  unfold health_check in Hr.
  destruct (load_data2_run w) as [[s Hl]|[e Hl]];
    [rewrite (mbind_ret_step _ _ _ _ _ Hl) in Hr | by rewrite (mbind_exc_step _ _ _ _ _ Hl) in Hr].
  pose proof (check_tasks_repaired (w_data w) (tasks s) w eq_refl) as Hc.
  destruct (check_tasks (tasks s) w) as [[[[ts iss] fs]|e] w1] eqn:Ec;
    [rewrite (mbind_ret_step _ _ _ _ _ Ec) in Hr | by rewrite (mbind_exc_step _ _ _ _ _ Ec) in Hr].
  destruct Hc as [[Hts Hfs] Hw1]. unfold data_is in Hw1.
  cbv beta iota in Hr. unfold log_to_wal, append_wal in Hr.
  destruct (bool_decide (fs = [])) eqn:Hb; wred; injection Hr as <-; simpl in Hd'.
  - apply bool_decide_eq_true in Hb. rewrite Hfs in Hts by done.
    rewrite Hw1 in Hd'. rewrite (load_data2_store w s' Hd') in Hl. by simplify_eq.
  - by injection Hd' as <-.
Qed.

(** The store [ex_fix_world] holds after its health check. *)
Definition ex_fixed_store : store :=
  match w_data (final health_check ex_fix_world) with
  | Some (Parsed (DStore s)) => s
  | _ => empty_store
  end.

Lemma health_check_repairs_witness :
  w_data (final health_check ex_fix_world) = Some (Parsed (DStore ex_fixed_store)) /\
  Forall repaired (tasks ex_fixed_store).
Proof.
  split; [vm_compute; reflexivity|].
  apply (health_check_repairs ex_fix_world ex_fixed_store); vm_compute; reflexivity.
Defined.

(** ** A second health check finds nothing to fix *)

(** Check 4 does not raise on the task, whatever its id. *)
Definition anomaly_ok (t : obj) : Prop := forall id, exists iss, check_anomaly id t = Ret iss.

Lemma anomaly_ok_of id t iss : check_anomaly id t = Ret iss -> anomaly_ok t.
Proof.
  unfold anomaly_ok, check_anomaly. intros H id'.
  destruct (py_mul _ _) as [lim|]; [|discriminate]. simpl in *.
  destruct (py_gt _ lim) as [[]|]; simpl in *; [|by eexists|discriminate].
  destruct (py_truediv _ _); [by eexists|discriminate].
Qed.

Lemma anomaly_ok_edits k t t' :
  edits k t t' -> k <> "actual_minutes" -> k <> "estimate_minutes" -> anomaly_ok t -> anomaly_ok t'.
Proof.
  intros He Ha Hb H id. unfold check_anomaly.
  rewrite !(edits_get k t t' _ _ He) by done. apply H.
Qed.

(** What the first check leaves in a task: check 1 does not fire, check 4
    does not raise, and a completed task has a progress of 100 or more and
    a [completed_at] string below [isoformat()] of every clock read from
    tick [k] on. *)
Definition settled (clk : nat -> datetime) (k : nat) (t : obj) : Prop :=
  orphan_free t /\ anomaly_ok t /\
  (is_completed t = true -> repaired t /\
     exists c, get t "completed_at" (VStr "") = VStr c /\
       forall i, (k <= i)%nat -> String.compare c (isoformat (clk i)) = Lt).

(** The converse of [check_task_inv]: the five checks, composed. *)
Lemma check_task_run t w t1 is1 fs1 t2 is2 fs2 t3 is3 fs3 w3 is4 t5 is5 fs5 w5 :
  let id := get t "id" (VStr "unknown") in
  check_orphaned id t = (t1, is1, fs1) -> check_progress id t1 = Ret (t2, is2, fs2) ->
  check_completed_at id t2 w = (Ret (t3, is3, fs3), w3) -> check_anomaly id t3 = Ret is4 ->
  check_future id t3 w3 = (Ret (t5, is5, fs5), w5) ->
  check_task t w = (Ret (t5, is1 ++ is2 ++ is3 ++ is4 ++ is5, fs1 ++ fs2 ++ fs3 ++ fs5), w5).
Proof.
  intros id E1 E2 E3 E4 E5. unfold check_task. fold id. rewrite E1.
  unfold mbind at 1, lift at 1. rewrite E2. cbv beta iota.
  mstep E3. cbv beta iota. unfold mbind at 1, lift at 1. rewrite E4. cbv beta iota.
  by mstep E5.
Qed.

Lemma check_tasks_ticks ts w : ticks w (snd (check_tasks ts w)).
Proof.
  revert w. induction ts as [|t ts IH]; intros w; simpl; [apply ticks_refl|].
  pose proof (check_task_ticks t w) as H1. unfold mbind.
  destruct (check_task t w) as [[[[t' is1] fs1]|e] w1]; simpl in *; [|done].
  pose proof (IH w1) as H2. destruct (check_tasks ts w1) as [[[[r' is2] fs2]|e] w2]; simpl in *;
    eapply ticks_trans; eauto.
Qed.

Section Idempotence.
(** The clock: every read is a representable datetime, and every read
    from tick [k1] on is strictly later than every read before it. *)
Context (clk : nat -> datetime) (k1 : nat).
Hypothesis Hrange : forall i, dt_min <= clk i < dt_max.
Hypothesis Hsep : forall i j, (i < k1 <= j)%nat -> clk i < clk j.

Lemma stamped_settles lo hi t :
  (hi <= k1)%nat -> stamped_at clk lo hi t ->
  exists c, get t "completed_at" (VStr "") = VStr c /\
    forall i, (k1 <= i)%nat -> String.compare c (isoformat (clk i)) = Lt.
Proof.
  intros Hhi (c & j & Hc & Hj & Hcmp). exists c. split; [done|]. intros i Hi.
  pose proof (Hsep j i ltac:(lia)). pose proof (Hrange j). pose proof (Hrange i).
  destruct Hcmp as [Hcmp| ->]; [apply (below_isoformat_lt _ (clk j))|apply iso_z_lt]; lia || done.
Qed.

(** A task the first run checked, in a world whose tick is at most [k1],
    is settled for the reads from [k1] on. *)
Lemma check_task_settles t w t' iss fs w' :
  w_clock w = clk -> check_task t w = (Ret (t', iss, fs), w') -> (w_tick w' <= k1)%nat ->
  settled clk k1 t'.
Proof.
  intros Hclk Ht Hk.
  pose proof (check_task_repaired (w_data w) t w eq_refl) as Hrep. rewrite Ht in Hrep.
  destruct Hrep as [[Hrep _] _].
  apply check_task_inv in Ht as (t1 & is1 & fs1 & t2 & is2 & fs2 & t3 & is3 & fs3 & w3 & is4 & is5 & fs5 &
                                 E1 & E2 & E3 & E4 & E5 & _).
  pose proof (check_orphaned_spec (get t "id" (VStr "unknown")) t) as H1. rewrite E1 in H1.
  destruct H1 as (_ & Ho & _).
  apply check_progress_spec in E2 as (Hr2 & _ & _).
  apply check_completed_at_spec in E3 as (Hr3 & Htk3 & _ & _).
  apply check_future_spec in E5 as (Hr5 & _ & _ & _ & Hs5).
  apply ticks_fields in Htk3 as (Hc3 & _).
  split; [|split].
  - unfold orphan_free in *. by edits_rw.
  - apply (anomaly_ok_edits _ _ _ Hr5), (anomaly_ok_of _ _ _ E4); done.
  - intros Hcomp. split; [done|]. apply (stamped_settles (w_tick w3) (w_tick w')); [done|].
    rewrite <- Hclk, <- Hc3. by apply Hs5.
Qed.

(** A settled task, checked from a tick at least [k1], is left as it is
    and gives no fix. *)
Lemma check_task_settled_run t w :
  w_clock w = clk -> (k1 <= w_tick w)%nat -> settled clk k1 t ->
  exists iss w', check_task t w = (Ret (t, iss, []), w') /\ ticks w w'.
Proof.
  intros Hclk Hk (Ho & Ha & Hc). set (id := get t "id" (VStr "unknown")).
  destruct (Ha id) as (is4 & E4).
  assert (E1 : check_orphaned id t = (t, [], [])) by (unfold check_orphaned; by rewrite Ho).
  unfold is_completed in Hc. destruct (eq_str (get t "status" VNone) "completed") eqn:Ecomp.
  - destruct (Hc eq_refl) as ((Hp & Htr)%(fun H => H Ecomp) & c & Hcv & Hlt).
    assert (E2 : check_progress id t = Ret (t, [], [])) by (unfold check_progress; by rewrite Ecomp, Hp).
    assert (E3 : check_completed_at id t w = (Ret (t, [], []), w)).
    { rewrite check_completed_at_run. unfold is_completed. by rewrite Ecomp, Htr. }
    assert (E5 : check_future id t w = (Ret (t, [], []), tick w)).
    { rewrite check_future_run. unfold is_completed. rewrite Ecomp, Hcv.
      unfold py_gt, py_cmp. cbn -[isoformat String.compare].
      by rewrite Hclk, (Hlt (w_tick w) Hk). }
    do 2 eexists. split; [rewrite (check_task_run t w _ _ _ _ _ _ _ _ _ _ _ _ _ _ _ E1 E2 E3 E4 E5); reflexivity|].
    auto with pytask.
  - assert (E2 : check_progress id t = Ret (t, [], [])) by (unfold check_progress; by rewrite Ecomp).
    assert (E3 : check_completed_at id t w = (Ret (t, [], []), w)).
    { rewrite check_completed_at_run. unfold is_completed. by rewrite Ecomp. }
    assert (E5 : check_future id t w = (Ret (t, [], []), w)).
    { rewrite check_future_run. unfold is_completed. by rewrite Ecomp. }
    do 2 eexists. split; [rewrite (check_task_run t w _ _ _ _ _ _ _ _ _ _ _ _ _ _ _ E1 E2 E3 E4 E5); reflexivity|].
    auto with pytask.
Qed.

Lemma check_tasks_settles ts w ts' iss fs w' :
  w_clock w = clk -> check_tasks ts w = (Ret (ts', iss, fs), w') -> (w_tick w' <= k1)%nat ->
  Forall (settled clk k1) ts'.
Proof.
  revert w ts' iss fs. induction ts as [|t ts IH]; intros w ts' iss fs Hclk H Hk; simpl in H.
  { unfold mret in H. injection H as <- <- <- <-. constructor. }
  apply mbind_Ret_inv in H as ([[t' is1] fs1] & w1 & H1 & H).
  apply mbind_Ret_inv in H as ([[r' is2] fs2] & w2 & H2 & H). unfold mret in H.
  injection H as <- <- <- <-.
  pose proof (check_task_ticks t w) as Htk1. rewrite H1 in Htk1.
  pose proof (check_tasks_ticks ts w1) as Htk2. rewrite H2 in Htk2.
  apply ticks_fields in Htk1 as (Hc1 & _), Htk2 as (_ & Hk2 & _). simpl in *.
  constructor; [apply (check_task_settles t w t' is1 fs1 w1); auto with lia|].
  apply (IH w1 r' is2 fs2); congruence.
Qed.

Lemma check_tasks_settled_run ts w :
  w_clock w = clk -> (k1 <= w_tick w)%nat -> Forall (settled clk k1) ts ->
  exists iss w', check_tasks ts w = (Ret (ts, iss, []), w') /\ ticks w w'.
Proof.
  intros Hclk Hk Hs. revert w Hclk Hk. induction Hs as [|t ts Ht Hs IH]; intros w Hclk Hk.
  { exists [], w. split; [done|apply ticks_refl]. }
  destruct (check_task_settled_run t w Hclk Hk Ht) as (is1 & w1 & E1 & Htk1).
  pose proof (ticks_fields _ _ Htk1) as (Hc1 & Hk1 & _).
  destruct (IH w1 ltac:(congruence) ltac:(lia)) as (is2 & w2 & E2 & Htk2).
  exists (is1 ++ is2), w2. split; [|eapply ticks_trans; eauto].
  simpl. by mstep E1; mstep E2.
Qed.

End Idempotence.

(** The first run of the health check, split: the load, the checks, and
    the world it leaves. *)
Lemma health_check_split w :
  result health_check w = Ret tt ->
  exists s ts iss fs w1,
    load_data2 w = (Ret s, w) /\ check_tasks (tasks s) w = (Ret (ts, iss, fs), w1) /\
    (fs = [] -> ts = tasks s) /\
    w_clock (final health_check w) = w_clock w /\ (w_tick w1 <= w_tick (final health_check w))%nat /\
    w_data (final health_check w) =
      if bool_decide (fs = []) then w_data w else Some (Parsed (DStore (set_tasks s ts))).
Proof.
  unfold result, final. destruct (health_check w) as [o w'] eqn:Hr. simpl. intros ->.
  unfold health_check in Hr.
  destruct (load_data2_run w) as [[s Hl]|[e Hl]];
    [rewrite (mbind_ret_step _ _ _ _ _ Hl) in Hr | by rewrite (mbind_exc_step _ _ _ _ _ Hl) in Hr].
  pose proof (check_tasks_repaired (w_data w) (tasks s) w eq_refl) as Hc.
  pose proof (check_tasks_ticks (tasks s) w) as Htk.
  destruct (check_tasks (tasks s) w) as [[[[ts iss] fs]|e] w1] eqn:Ec;
    [rewrite (mbind_ret_step _ _ _ _ _ Ec) in Hr | by rewrite (mbind_exc_step _ _ _ _ _ Ec) in Hr].
  destruct Hc as [[_ Hfs] _]. apply ticks_fields in Htk as (Hc1 & Hk1 & Hd1 & _). simpl in *.
  exists s, ts, iss, fs, w1. do 3 (split; [done|]).
  cbv beta iota in Hr. unfold log_to_wal, append_wal in Hr.
  destruct (bool_decide (fs = [])); wred; injection Hr as <-; simpl; auto with lia.
Qed.

(** A run of the health check whose checks find nothing: no save, a WAL
    entry, and a report of no fixes. *)
Lemma health_check_clean w s iss w' :
  load_data2 w = (Ret s, w) -> check_tasks (tasks s) w = (Ret (tasks s, iss, []), w') -> ticks w w' ->
  result health_check w = Ret tt /\ w_data (final health_check w) = w_data w /\
  exists f e, w_trace (final health_check w) = w_trace w ++ [EvWal f e; EvStdout (OutHealth iss [])].
Proof.
  intros Hl Hc Htk. apply ticks_fields in Htk as (_ & _ & Hd & Htr).
  unfold result, final, health_check. mstep Hl. mstep Hc. cbv beta iota.
  rewrite bool_decide_eq_true_2 by done. unfold log_to_wal, append_wal. wred.
  split; [done|]. split; [done|]. do 2 eexists. rewrite Htr. by rewrite <- app_assoc.
Qed.

(** C23: the health check is idempotent (spec section 8: "running it
    twice in succession produces zero additional fixes on the second
    run").  When the first run returns normally, a second run on the world
    it leaves returns normally, saves nothing, and reports no fix, provided
    every clock read is a representable datetime and every read of the
    second run is strictly later than every read of the first.  The clock
    condition is needed: check 3 stamps [isoformat() + "Z"], which is
    greater than [isoformat()] of the same instant, so a second run that
    read the same instant would re-stamp it (check 5). *)
Theorem health_check_idempotent w :
  (forall i, dt_min <= w_clock w i < dt_max) ->
  (forall i j, (i < w_tick (final health_check w) <= j)%nat -> w_clock w i < w_clock w j) ->
  result health_check w = Ret tt ->
  result health_check (final health_check w) = Ret tt /\
  w_data (final health_check (final health_check w)) = w_data (final health_check w) /\
  exists iss f e, w_trace (final health_check (final health_check w)) =
                  w_trace (final health_check w) ++ [EvWal f e; EvStdout (OutHealth iss [])].
Proof.
  intros Hrange Hsep Hr.
  destruct (health_check_split w Hr) as (s & ts & iss & fs & w1 & Hl & Hc & Hfs & Hclk & Hk & Hd).
  set (wf := final health_check w) in *.
  pose proof (check_tasks_settles _ _ Hrange Hsep _ _ _ _ _ _ eq_refl Hc Hk) as Hset.
  assert (Hl2 : exists s2, load_data2 wf = (Ret s2, wf) /\ tasks s2 = ts).
  { destruct (bool_decide (fs = [])) eqn:Hb.
    - exists s. apply bool_decide_eq_true in Hb. rewrite (load_data2_same w wf Hd), Hl.
      split; [done|]. by rewrite Hfs.
    - exists (set_tasks s ts). split; [by apply load_data2_store|done]. }
  destruct Hl2 as (s2 & Hl2 & <-).
  destruct (check_tasks_settled_run (w_clock w) (w_tick wf) (tasks s2) wf Hclk ltac:(lia) Hset)
    as (iss2 & w2 & Hc2 & Htk2).
  destruct (health_check_clean wf s2 iss2 w2 Hl2 Hc2 Htk2) as (H1 & H2 & f & e & H3).
  eauto 6.
Qed.

(** C27: check 3 stamps [isoformat() + "Z"], and check 5 compares that
    stamp with [isoformat()] of its own, later, clock read (lines 347 and
    358).  When the two reads return the same instant (the clock did not
    advance between them), the stamp compares greater, so a completed
    task without [completed_at] is reported twice, as missing its stamp
    and as stamped in the future, and is stamped a second time. *)
Theorem check_task_same_instant t w :
  t !! "status" = Some (VStr "completed") -> t !! "progress" = Some (VInt 100) ->
  t !! "completed_at" = None -> t !! "recurring" = None ->
  t !! "actual_minutes" = None -> t !! "estimate_minutes" = None ->
  w_clock w (S (w_tick w)) = w_clock w (w_tick w) ->
  let id := get t "id" (VStr "unknown") in
  let stamp := VStr (iso_z (w_clock w (w_tick w))) in
  check_task t w =
    (Ret (<["completed_at" := VStr (iso_z (w_clock w (S (S (w_tick w)))))]>
            (<["completed_at" := stamp]> t),
          [IssNoCompletedAt id; IssBadDate id stamp], [FixCompletedAt id; FixDate id]),
     tick (tick (tick w))).
Proof.
  intros Hs Hp Hc Hr Ha He Hclk id stamp.
  set (t3 := <["completed_at" := stamp]> t).
  assert (E1 : check_orphaned id t = (t, [], [])) by (unfold check_orphaned, get; by rewrite Hr).
  assert (E2 : check_progress id t = Ret (t, [], [])) by (unfold check_progress, get; by rewrite Hs, Hp).
  assert (E3 : check_completed_at id t w = (Ret (t3, [IssNoCompletedAt id], [FixCompletedAt id]), tick w)).
  { rewrite check_completed_at_run. unfold is_completed, get. by rewrite Hs, Hc. }
  assert (E4 : check_anomaly id t3 = Ret []).
  { unfold check_anomaly, t3. simpl_get. unfold get. by rewrite Ha, He. }
  assert (E5 : check_future id t3 (tick w) =
    (Ret (<["completed_at" := VStr (iso_z (w_clock w (S (S (w_tick w)))))]> t3,
          [IssBadDate id stamp], [FixDate id]), tick (tick (tick w)))).
  { rewrite check_future_run. unfold is_completed, t3. simpl_get. unfold get at 1. rewrite Hs.
    cbn [w_clock w_tick tick]. rewrite Hclk. unfold py_gt, py_cmp, stamp. cbn -[iso_z isoformat String.compare].
    by rewrite iso_z_gt. }
  exact (check_task_run t w _ _ _ _ _ _ _ _ _ _ _ _ _ _ _ E1 E2 E3 E4 E5).
Qed.

(** A store with a completed task without a stamp, a completed task
    stamped in the future, and an orphaned recurring task; the clock
    advances one microsecond per read. *)
Definition ex_idem_store : store :=
  mkStore (Some [])
    [ {[ "id" := VStr "task_a"; "status" := VStr "completed"; "progress" := VInt 100 ]};
      {[ "id" := VStr "task_b"; "status" := VStr "completed"; "progress" := VInt 100;
         "completed_at" := VStr "9999-12-31T00:00:00+00:00Z" ]};
      {[ "id" := VStr "task_c"; "status" := VStr "pending"; "recurring" := VStr "daily" ]} ] ∅.
Definition ex_idem_world : world :=
  mkWorld (Some (Parsed (DStore ex_idem_store))) None ∅ None None ∅
          (fun n => 1700000000000000 + Z.of_nat (Nat.min n 1000)) 0 (fun _ => "0a1b2c3d") 0 [].

Lemma health_check_idempotent_witness :
  result health_check (final health_check ex_idem_world) = Ret tt /\
  w_data (final health_check (final health_check ex_idem_world)) =
    w_data (final health_check ex_idem_world) /\
  exists iss f e, w_trace (final health_check (final health_check ex_idem_world)) =
                  w_trace (final health_check ex_idem_world) ++ [EvWal f e; EvStdout (OutHealth iss [])].
Proof.
  apply health_check_idempotent.
  - intros i. cbn [w_clock ex_idem_world]. unfold dt_min, dt_max, usec_per_day, usec_per_sec. lia.
  - intros i j Hij. assert (Ht : w_tick (final health_check ex_idem_world) = 7%nat) by (vm_compute; reflexivity).
    rewrite Ht in Hij. cbn [w_clock ex_idem_world]. lia.
  - vm_compute. reflexivity.
Defined.

Definition ex_nostamp_task : obj :=
  {[ "id" := VStr "task_n"; "status" := VStr "completed"; "progress" := VInt 100 ]}.
Definition ex_stalled_world : world :=
  mkWorld None None ∅ None None ∅ (fun _ => 1700000000000000) 0 (fun _ => "0a1b2c3d") 0 [].

Lemma check_task_same_instant_witness :
  exists t' iss, check_task ex_nostamp_task ex_stalled_world =
    (Ret (t', iss, [FixCompletedAt (VStr "task_n"); FixDate (VStr "task_n")]),
     tick (tick (tick ex_stalled_world))).
Proof.
  do 2 eexists. apply (check_task_same_instant ex_nostamp_task ex_stalled_world); reflexivity.
Defined.

(** ** The counts of the WAL entry

    Each check reports at most one issue per task, and every check but the
    time anomaly (check 4) applies a fix exactly when it reports one. *)


(** A check reported at most one issue and applied a fix with it. *)
Definition one_fix (iss : list issue) (fs : list repair) : Prop :=
  length fs = length iss /\ (length iss <= 1)%nat.

Lemma check_orphaned_one id t t1 iss fs : check_orphaned id t = (t1, iss, fs) -> one_fix iss fs.
Proof. unfold check_orphaned, one_fix. destruct (_ && _); intros [= _ <- <-]; simpl; lia. Qed.

Lemma check_progress_one id t t2 iss fs : check_progress id t = Ret (t2, iss, fs) -> one_fix iss fs.
Proof. unfold check_progress, obind, one_fix. intros H. repeat case_match; simplify_eq/=; lia. Qed.

Lemma check_completed_at_one id t w t3 iss fs w' :
  check_completed_at id t w = (Ret (t3, iss, fs), w') -> one_fix iss fs.
Proof. rewrite check_completed_at_run. unfold one_fix. destruct (_ && _); intros; simplify_eq/=; lia. Qed.

Lemma check_anomaly_one id t iss : check_anomaly id t = Ret iss -> (length iss <= 1)%nat.
Proof. unfold check_anomaly, obind. intros H. repeat case_match; simplify_eq/=; lia. Qed.

Lemma check_future_one id t w t5 iss fs w' :
  check_future id t w = (Ret (t5, iss, fs), w') -> one_fix iss fs.
Proof.
  rewrite check_future_run. unfold one_fix. destruct (is_completed t); [|intros; simplify_eq/=; lia].
  destruct (py_gt _ _) as [[]|]; intros; simplify_eq/=; lia.
Qed.

(** One task: at most five issues and four fixes, and no more fixes than
    issues. *)
Lemma check_task_counts t w t' iss fs w' :
  check_task t w = (Ret (t', iss, fs), w') ->
  (length fs <= length iss <= 5)%nat /\ (length fs <= 4)%nat.
Proof.
  intros H. pose proof H as H'.
  apply check_task_inv in H' as (t1 & is1 & fs1 & t2 & is2 & fs2 & t3 & is3 & fs3 & w3 & is4 &
                                 is5 & fs5 & E1 & E2 & E3 & E4 & E5 & _).
  rewrite (check_task_run t w _ _ _ _ _ _ _ _ _ _ _ _ _ _ _ E1 E2 E3 E4 E5) in H. simplify_eq.
  apply check_orphaned_one in E1 as [? ?]. apply check_progress_one in E2 as [? ?].
  apply check_completed_at_one in E3 as [? ?]. apply check_anomaly_one in E4.
  apply check_future_one in E5 as [? ?].
  rewrite !length_app. lia.
Qed.

Lemma check_tasks_counts ts w ts' iss fs w' :
  check_tasks ts w = (Ret (ts', iss, fs), w') ->
  (length fs <= length iss <= 5 * length ts)%nat /\ (length fs <= 4 * length ts)%nat.
Proof.
  revert w ts' iss fs w'. induction ts as [|t ts IH]; intros w ts' iss fs w' H; cbn [check_tasks] in H.
  - unfold mret in H. simplify_eq/=. lia.
  - apply mbind_Ret_inv in H as ([[t1 is1] fs1] & w1 & H1 & H).
    apply mbind_Ret_inv in H as ([[r' is2] fs2] & w2 & H2 & H). unfold mret in H. simplify_eq/=.
    apply check_task_counts in H1. apply IH in H2. rewrite !length_app. lia.
Qed.

(** C34: the counts the health check writes to the WAL and prints are
    bounded by the tasks of the store: when it returns, its WAL entry
    records [issues_found] and [auto_fixes_applied] for the issue and fix
    lists of the printed report, with no more fixes than issues, at most
    five issues and at most four fixes per task. *)
Theorem health_check_counts w s :
  w_data w = Some (Parsed (DStore s)) -> result health_check w = Ret tt ->
  exists iss fs f ts1 ts2,
    last (w_trace (final health_check w)) = Some (EvStdout (OutHealth iss fs)) /\
    EvWal f (mkWal ts1 "HEALTH_CHECK"
               [("issues_found", VInt (Z.of_nat (length iss)));
                ("auto_fixes_applied", VInt (Z.of_nat (length fs)));
                ("timestamp", VStr ts2)]) ∈ w_trace (final health_check w) /\
    (length fs <= length iss <= 5 * length (tasks s))%nat /\ (length fs <= 4 * length (tasks s))%nat.
Proof.
  unfold result, final, health_check. intros Hd Hr.
  rewrite (mbind_ret_step _ _ _ _ _ (load_data2_store w s Hd)) in *.
  destruct (check_tasks (tasks s) w) as [[[[ts iss] fs]|e] w1] eqn:Ec;
    [rewrite (mbind_ret_step _ _ _ _ _ Ec) in * | by rewrite (mbind_exc_step _ _ _ _ _ Ec) in Hr].
  apply check_tasks_counts in Ec. cbv beta iota in *. unfold log_to_wal, append_wal in *.
  exists iss, fs. do 3 eexists. split; [|split; [|exact Ec]].
  - destruct (bool_decide (fs = [])); wred; by rewrite last_snoc.
  - destruct (bool_decide (fs = [])); wred; apply list_elem_of_In; rewrite ?in_app_iff; simpl; eauto 10.
Qed.

(** ** Witness *)

Lemma health_check_counts_witness :
  exists iss fs f ts1 ts2,
    last (w_trace (final health_check ex_fix_world)) = Some (EvStdout (OutHealth iss fs)) /\
    EvWal f (mkWal ts1 "HEALTH_CHECK"
               [("issues_found", VInt (Z.of_nat (length iss)));
                ("auto_fixes_applied", VInt (Z.of_nat (length fs)));
                ("timestamp", VStr ts2)]) ∈ w_trace (final health_check ex_fix_world) /\
    (length fs <= length iss <= 5 * 1)%nat /\ (length fs <= 4 * 1)%nat.
Proof.
  apply (health_check_counts ex_fix_world (mkStore (Some []) [ex_done_task] ∅)); [reflexivity|].
  vm_compute. reflexivity.
Defined.
