(* ===== verification/Cli.v ===== *)
(** * The command dispatchers, and the store invariant over runs

    [run1] is the [if args.command == ...] chain of task_manager_phase1.py
    (lines 338-354) on the namespace argparse returns (the argument
    strings; the handlers convert them with [int()]); argparse itself is
    not modelled.  [main2] is the [__main__] block of
    task_manager_phase2.py (lines 415-457) on [sys.argv]: [parse2] reads
    the arguments and converts the numbers with [int()], then [run2]
    dispatches.  [reach1] is the relation between worlds of
    any sequence of phase 1 invocations; the store invariant [data_wf]
    holds along it. *)

From S2P Require Import Prelude PyVal PyInt Clock Store Trace Wf Phase1 Velocity Phase2 Health.

Open Scope Z_scope.

(** ** Phase 1 *)

Inductive cmd1 :=
| CMarkProgress (task_id progress : string)
| CMarkBlocked (task_id reason : string)
| CUnblockTask (task_id : string)
| CLogTime (task_id minutes : string)
| CCreateRecurring (goal_id title recurring : string) (priority estimate : option string)
| CNextRecurring (task_id : string)
| CShowVelocity (goal_id : string)
| CNoCommand.

Definition run1 (c : cmd1) : PM unit :=
  match c with
  | CMarkProgress id p => mark_progress id p
  | CMarkBlocked id r => mark_blocked id r
  | CUnblockTask id => unblock_task id
  | CLogTime id m => log_time id m
  | CCreateRecurring g title r pr est => create_recurring g title r pr est
  | CNextRecurring id => next_recurring id
  | CShowVelocity g => show_velocity g
  | CNoCommand => emit (EvStdout OutHelp)
  end.

(** ** Phase 2 *)

(** [task_id] is [""] when the argument is missing ([None] in the source):
    both fail the test [if not task_id]. *)
Inductive cmd2 :=
| C2MarkProgress (task_id : string) (progress : Z) (notes : string)
| C2LogTime (task_id : string) (minutes : Z) (notes : string)
| C2MarkBlocked (task_id reason : string)
| C2HealthCheck
| C2FlushBuffer
| C2Unknown (command : string)
| C2NoCommand.

Definition usage_exit (command : string) : PM unit := fail_with (MsgUsage command).

Definition run2 (c : cmd2) : PM unit :=
  match c with
  | C2NoCommand => emit (EvStdout OutUsage) ;; raise (SystemExit 1)
  | C2MarkProgress id p n =>
      if String.eqb id "" then usage_exit "mark-progress" else mark_progress2 id p n
  | C2LogTime id m n =>
      if String.eqb id "" then usage_exit "log-time" else log_time2 id m n
  | C2MarkBlocked id r =>
      if String.eqb id "" then usage_exit "mark-blocked" else mark_blocked2 id r
  | C2HealthCheck => health_check
  | C2FlushBuffer => flush_working_buffer
  | C2Unknown name => fail_with (MsgUnknownCommand name)
  end.

(** [sys.argv[k] if len(sys.argv) > k else d] *)
Definition argv_or (argv : list string) (k : nat) (d : string) : string := default d (argv !! k).

(** The arguments of lines 421-446: [sys.argv[k]] when present, [int()]
    of the number argument when present and 0 otherwise, in the order of
    the source: the conversion comes before the [if not task_id] test.  A
    missing task id is [""] ([None] in the source; both are falsy). *)
Definition int_arg (argv : list string) (k : nat) : outcome Z :=
  match argv !! k with Some a => py_int a | None => Ret 0 end.

Definition parse2 (argv : list string) : outcome cmd2 :=
  match argv with
  | [] | [_] => Ret C2NoCommand
  | _ :: command :: _ =>
      if String.eqb command "mark-progress" then
        let? p := int_arg argv 3 in
        Ret (C2MarkProgress (argv_or argv 2 "") p (argv_or argv 4 ""))
      else if String.eqb command "log-time" then
        let? m := int_arg argv 3 in
        Ret (C2LogTime (argv_or argv 2 "") m (argv_or argv 4 ""))
      else if String.eqb command "mark-blocked" then
        Ret (C2MarkBlocked (argv_or argv 2 "") (argv_or argv 3 "No reason specified"))
      else if String.eqb command "health-check" then Ret C2HealthCheck
      else if String.eqb command "flush-buffer" then Ret C2FlushBuffer
      else Ret (C2Unknown command)
  end.

(** [if __name__ == "__main__": ...] on [sys.argv]. *)
Definition main2 (argv : list string) : PM unit :=
  let* c := lift (parse2 argv) in run2 c.

(** ** The store invariant along phase 1 runs *)

Lemma show_velocity_wf g : wtriple (show_velocity g) (fun _ => True).
Proof. unfold show_velocity. vcg. Qed.

Lemma run1_wf c : wtriple (run1 c) (fun _ => True).
Proof.
  destruct c; simpl;
    first [ apply mark_progress_wf | apply mark_blocked_wf | apply unblock_task_wf | apply log_time_wf
          | apply create_recurring_wf | apply next_recurring_wf | apply show_velocity_wf
          | apply otriple_emit | by apply triple_ret ].
Qed.

(** The worlds a sequence of phase 1 invocations leads to. *)
Inductive reach1 (w0 : world) : world -> Prop :=
| reach1_refl : reach1 w0 w0
| reach1_step w c : reach1 w0 w -> reach1 w0 (final (run1 c) w).

(** C4: the store invariant is kept by every sequence of phase 1
    commands, whatever their arguments and outcomes (success, exit 1, an
    exception part-way): from a tasks.json whose tasks all have a progress
    in 0..100, a non-empty [completed_at] when completed and a
    [blocked_reason] string when blocked, every reachable tasks.json has
    the same property. *)
Theorem reach1_data_wf w0 w : data_wf w0 -> reach1 w0 w -> data_wf w.
Proof.
  intros H0 Hr. induction Hr as [|w c _ IH]; [done|].
  exact (triple_final data_wf (run1 c) _ w (run1_wf c) IH).
Qed.

Lemma reach1_data_wf_witness :
  data_wf (final (run1 (CMarkBlocked "task_a" "waiting")) (final (run1 (CMarkProgress "task_a" "100")) ex_world)).
Proof.
  apply (reach1_data_wf ex_world); [vm_compute; reflexivity|].
  apply reach1_step, reach1_step, reach1_refl.
Defined.

(** ** Phase 1 never writes the WAL *)

(** No WAL line among the appended events. *)
Definition nowal (l : list event) : Prop := has_wal l = false.

Lemma nowal_snoc l e : is_wal e = false -> nowal l -> nowal (l ++ [e]).
Proof. unfold nowal, has_wal. intros He Hl. by rewrite existsb_app, Hl, orb_false_l; simpl; rewrite He. Qed.

Section NoWal.
Context (tr0 : list event).

Lemma nw_emit e : is_wal e = false -> ttriple tr0 nowal nowal nowal (emit e).
Proof. intros He. apply ttriple_emit. intros. by apply nowal_snoc. Qed.
Lemma nw_save s : ttriple tr0 nowal nowal nowal (save_data s).
Proof. apply ttriple_save. intros. by apply nowal_snoc. Qed.
Lemma nw_fail_with {A} m : ttriple tr0 nowal nowal nowal (fail_with (A:=A) m).
Proof. eapply ttriple_bind; [by apply nw_emit | intros; by apply ttriple_raise]. Qed.

Lemma nw_load_data1 : ttriple tr0 nowal nowal nowal load_data1.
Proof.
  apply ttriple_mget. intros w0. destruct (w_data w0) as [[[]| |]|]; try apply ttriple_ret;
    try (apply ttriple_raise; by intros);
    (eapply ttriple_bind; [by apply nw_emit | intros]); try apply ttriple_ret.
  eapply ttriple_bind; [apply ttriple_backup; intros; by apply nowal_snoc | intros; apply ttriple_ret].
Qed.

Lemma nw_lookup_task data id : ttriple tr0 nowal nowal nowal (lookup_task data id).
Proof.
  unfold lookup_task. eapply ttriple_bind; [by apply ttriple_lift | intros [[]|]];
    [apply ttriple_ret | apply nw_fail_with].
Qed.

Lemma nw_status_is g t s : ttriple tr0 nowal nowal nowal (status_is g t s).
Proof.
  unfold status_is. destruct g; [|apply ttriple_ret].
  eapply ttriple_bind; [by apply ttriple_lift | intros; apply ttriple_ret].
Qed.

End NoWal.

#[local] Hint Resolve nw_save nw_fail_with nw_load_data1 nw_lookup_task nw_status_is
  ttriple_now ttriple_generate_id ttriple_ret : trace.
#[local] Hint Extern 1 (ttriple _ _ _ _ (emit _)) => apply nw_emit; reflexivity : trace.
#[local] Hint Extern 1 (ttriple _ _ _ _ (lift _)) => apply ttriple_lift; done : trace.

Lemma run1_nowal_triple tr0 c : ttriple tr0 nowal nowal nowal (run1 c).
Proof.
  destruct c; simpl;
    unfold mark_progress, mark_blocked, unblock_task, log_time, create_recurring, next_recurring,
      show_velocity;
    repeat match goal with
    | |- ttriple _ _ _ _ _ => solve [eauto with trace]
    | |- ttriple _ _ _ _ (mbind mget _) => apply ttriple_mget; intros ?
    | |- ttriple _ _ _ _ (mbind _ _) => eapply ttriple_bind with (R := nowal); [|intros ?]
    | |- ttriple _ _ _ _ (let _ := _ in _) => cbv zeta
    | |- ttriple _ _ _ _ (if ?b then _ else _) => destruct b
    | |- ttriple _ _ _ _ (match ?o with _ => _ end) => destruct o
    end.
Qed.

(** C21: no phase 1 command writes the write-ahead log, whatever its
    arguments and outcome (spec §4.3 has every operation append to the WAL
    before it persists): the events a run appends contain no WAL line. *)
Theorem run1_never_logs (c : cmd1) (w : world) :
  exists new, w_trace (final (run1 c) w) = w_trace w ++ new /\ has_wal new = false.
Proof.
  apply (ttriple_final (w_trace w) nowal nowal); [apply run1_nowal_triple|].
  exists []. by rewrite app_nil_r.
Qed.

(** ** The phase 2 command line *)

(** C30: [mark-progress] given a task id and no progress argument does not
    stop with a usage message: [progress] defaults to 0 (line 425), so the
    command resets the task's progress to 0 (spec §4.3 SetProgress takes a
    progress argument). *)
Theorem main2_missing_progress prog task_id w :
  task_id <> "" -> main2 [prog; "mark-progress"; task_id] w = mark_progress2 task_id 0 "" w.
Proof.
  intros Hid. unfold main2, parse2. cbn -[mark_progress2].
  unfold mbind, lift. cbn -[mark_progress2]. by rewrite (proj2 (String.eqb_neq task_id "") Hid).
Qed.

(** An empty task id with a progress that is not an int: the [int()] of
    line 425 raises before the usage test of line 427. *)
Lemma main2_int_first prog p w :
  py_int p = Exc ValueError ->
  main2 [prog; "mark-progress"; ""; p] w = (Exc ValueError, w).
Proof. intros Hp. unfold main2, parse2, int_arg. cbn. by rewrite Hp. Qed.

Lemma main2_missing_progress_witness :
  main2 ["task_manager_phase2.py"; "mark-progress"; "task_a"] ex_world =
    mark_progress2 "task_a" 0 "" ex_world.
Proof. apply main2_missing_progress. discriminate. Defined.
