(* ===== verification/Typed.v ===== *)
(** * The field types of the data model, over runs of both scripts

    Section 3 of the data model gives each task field a type: [id],
    [goal_id] and [status] are required strings, [status] one of the four
    lifecycle states, [progress] and the minute counts are ints,
    [time_variance_percent] a number, [blocked_reason] and [recurring] a
    string or null, the timestamps and [notes] strings.  [task_schema]
    lists them; [task_typed] checks a task against it.  The two scripts
    work on the same files: [invoke] runs one invocation of either
    (phase 1 by its command, phase 2 by its [sys.argv]) and [reach] is any
    sequence of invocations.  The theorem: every invocation, whatever its
    outcome, keeps every task of tasks.json well typed, although phase 2
    breaks the range invariant [data_wf] of phase 1. *)

From S2P Require Import Prelude PyVal PyInt Clock Store Trace Wf Phase1 Velocity Phase2 Health Cli.

Open Scope Z_scope.

(** ** The schema *)

Inductive ftype := TStr | TInt | TNum | TStrOrNone | TStatus.

Definition statuses : list string := ["pending"; "in_progress"; "blocked"; "completed"].

Definition has_type (ty : ftype) (v : val) : bool :=
  match ty, v with
  | TStr, VStr _ => true
  | TInt, VInt _ => true
  | TNum, (VInt _ | VFloat _) => true
  | TStrOrNone, (VStr _ | VNone) => true
  | TStatus, VStr s => bool_decide (s ∈ statuses)
  | _, _ => false
  end.

Arguments has_type : simpl never.

(** The fields of a task: key, type, required. *)
Definition task_schema : list (string * ftype * bool) :=
  [("id", TStr, true); ("goal_id", TStr, true); ("status", TStatus, true);
   ("title", TStr, false); ("priority", TStr, false); ("progress", TInt, false);
   ("estimate_minutes", TInt, false); ("actual_minutes", TInt, false);
   ("time_variance_percent", TNum, false); ("blocked_reason", TStrOrNone, false);
   ("recurring", TStrOrNone, false); ("next_due_at", TStr, false);
   ("created_at", TStr, false); ("updated_at", TStr, false); ("completed_at", TStr, false);
   ("notes", TStr, false)].

Definition task_typed (t : obj) : bool :=
  forallb (fun '(k, ty, req) => match t !! k with Some v => has_type ty v | None => negb req end)
          task_schema.

(** [v] has the type the schema gives to the key [k], if any. *)
Definition field_ok (k : string) (v : val) : bool :=
  forallb (fun '(k', ty, _) => negb (String.eqb k k') || has_type ty v) task_schema.

Definition required (k : string) : bool :=
  existsb (fun '(k', _, req) => String.eqb k k' && req) task_schema.

Abbreviation data_typed := (data_ok task_typed).
Abbreviation ytriple := (triple data_typed).

(** ** Editing a typed task *)

Lemma task_typed_insert k v t :
  task_typed t = true -> field_ok k v = true -> task_typed (<[k := v]> t) = true.
Proof.
  unfold task_typed, field_ok. rewrite !forallb_forall. intros Ht Hf [[k' ty] req] Hin.
  specialize (Ht _ Hin). specialize (Hf _ Hin). cbv beta iota in *.
  destruct (decide (k = k')) as [<-|Hne].
  - rewrite lookup_insert_eq. by rewrite String.eqb_refl in Hf.
  - by rewrite lookup_insert_ne.
Qed.

Lemma task_typed_delete k t :
  task_typed t = true -> required k = false -> task_typed (delete k t) = true.
Proof.
  unfold task_typed, required. rewrite !forallb_forall. intros Ht Hr [[k' ty] req] Hin.
  specialize (Ht _ Hin). cbv beta iota in *.
  destruct (decide (k = k')) as [<-|Hne].
  - rewrite lookup_delete_eq. destruct req; [|done].
    assert (existsb (fun '(k', _, req) => String.eqb k k' && req) task_schema = true) as E.
    { apply existsb_exists. exists (k, ty, true). by rewrite String.eqb_refl. }
    by rewrite E in Hr.
  - by rewrite lookup_delete_ne.
Qed.

(** A field of a typed task has its type. *)
Lemma task_typed_field t k ty req v :
  task_typed t = true -> In (k, ty, req) task_schema -> t !! k = Some v -> has_type ty v = true.
Proof. unfold task_typed. rewrite forallb_forall. intros Ht Hin Hv. specialize (Ht _ Hin). cbv beta iota in Ht. by rewrite Hv in Ht. Qed.

(** [In (k, ty, ?req) task_schema] for [k] one of a list of keys. *)
Ltac in_schema :=
  match goal with Hk : _ ∈ _ |- _ => set_unfold in Hk; repeat destruct Hk as [->|Hk]; try done end;
  simpl; repeat first [left; reflexivity | right].

Lemma int_field t k v :
  task_typed t = true -> k ∈ ["progress"; "estimate_minutes"; "actual_minutes"] -> t !! k = Some v ->
  exists z, v = VInt z.
Proof.
  intros Ht Hk Hv. assert (has_type TInt v = true) as H.
  { eapply task_typed_field; [exact Ht| |exact Hv]. in_schema. }
  destruct v; try discriminate. eauto.
Qed.

Lemma str_field t k v :
  task_typed t = true -> k ∈ ["notes"] -> t !! k = Some v -> exists s, v = VStr s.
Proof.
  intros Ht Hk Hv. assert (has_type TStr v = true) as H.
  { eapply task_typed_field; [exact Ht| |exact Hv]. in_schema. }
  destruct v; try discriminate. eauto.
Qed.

(** [d.get(k, 0)] of an int field, and [v + n] on it. *)
Lemma get_int_field t k n v :
  task_typed t = true -> k ∈ ["progress"; "estimate_minutes"; "actual_minutes"] ->
  py_add (get t k (VInt 0)) (VInt n) = Ret v -> has_type TInt v = true.
Proof.
  intros Ht Hk. unfold get. destruct (t !! k) as [x|] eqn:E.
  - destruct (int_field t k x Ht Hk E) as [z ->]. simpl. by intros [= <-].
  - simpl. by intros [= <-].
Qed.

(** Phase 2 notes: a str field stays a str. *)
Lemma append_notes_typed t notes t' :
  task_typed t = true -> append_notes t notes = Ret t' -> task_typed t' = true.
Proof.
  intros Ht. unfold append_notes, getitem, obind.
  destruct (String.eqb notes ""); [by intros [= <-]|].
  destruct (truthy (get t "notes" VNone)); [|intros [= <-]; by apply task_typed_insert].
  destruct (t !! "notes") as [old|] eqn:E; [|discriminate].
  destruct (str_field t "notes" old Ht ltac:(set_solver) E) as [so ->]. simpl.
  intros [= <-]. by apply task_typed_insert.
Qed.

(** Prove [task_typed] of a task a handler edited from the typed task it
    found. *)
Ltac typed_tac :=
  repeat first [ assumption
               | (apply task_typed_insert; [|unfold field_ok; simpl; rewrite ?andb_true_r; first [reflexivity | assumption | idtac]])
               | (apply task_typed_delete; [|reflexivity])
               | (eapply store_ok_lookup; eassumption)
               | (eapply append_notes_typed; [|eassumption])
               | (eapply get_int_field; [| |eassumption]; [|set_solver])
               | match goal with |- context [if ?b then _ else _] => destruct b end ].

(** [task_typed] of a dictionary literal: look every field up. *)
Ltac typed_lit :=
  unfold task_typed; cbn [forallb task_schema]; simpl_lookup;
  rewrite ?lookup_singleton_eq, ?lookup_singleton_ne by discriminate; reflexivity.

Ltac ysave :=
  eapply triple_bind;
  [ apply otriple_save; repeat first [ apply store_ok_put | apply store_ok_append | assumption | typed_tac ]
  | intros ? ?; vcg ].

(** ** Phase 1 handlers keep the types *)

Lemma mark_progress_typed id p : ytriple (mark_progress id p) (fun _ => True).
Proof.
  unfold mark_progress. vcg.
  eapply triple_bind with (R := fun t => task_typed t = true).
  - vcg; typed_tac.
  - intros task Ht. vcg. ysave.
Qed.

Lemma mark_blocked_typed id r : ytriple (mark_blocked id r) (fun _ => True).
Proof. unfold mark_blocked. vcg. ysave. Qed.

Lemma unblock_task_typed id : ytriple (unblock_task id) (fun _ => True).
Proof. unfold unblock_task. vcg. ysave. Qed.

Lemma variance_of_num a e v : variance_of a e = Ret v -> has_type TNum v = true.
Proof.
  unfold variance_of, obind, py_round. intros H. repeat (case_match; simplify_eq/=; unfold obind in *; try done).
Qed.

(** [task["actual_minutes"] += minutes] after the key is set to 0 when
    missing. *)
Lemma actual_total_int t n total :
  task_typed t = true ->
  (let? a := getitem (if contains t "actual_minutes" then t else <["actual_minutes" := VInt 0]> t)
                     "actual_minutes" in py_add a (VInt n)) = Ret total ->
  has_type TInt total = true.
Proof.
  intros Ht. unfold contains, getitem. destruct (t !! "actual_minutes") as [x|] eqn:E; simpl.
  - rewrite E. destruct (int_field t "actual_minutes" x Ht ltac:(set_solver) E) as [z ->].
    simpl. by intros [= <-].
  - simpl_lookup. simpl. by intros [= <-].
Qed.

Lemma log_time_typed id m : ytriple (log_time id m) (fun _ => True).
Proof.
  unfold log_time. vcg.
  eapply triple_bind with (R := fun t => task_typed t = true).
  - vcg; typed_tac.
    + eapply actual_total_int; [|eassumption]. typed_tac.
    + eapply variance_of_num. eassumption.
    + eapply actual_total_int; [|eassumption]. typed_tac.
  - intros task Ht. vcg. ysave.
Qed.

Lemma create_recurring_typed g title r pr est : ytriple (create_recurring g title r pr est) (fun _ => True).
Proof.
  unfold create_recurring. vcg.
  eapply triple_bind with (R := fun t => task_typed t = true).
  - destruct est as [e|]; [destruct (String.eqb e "")|]; vcg; typed_lit.
  - intros task Ht. ysave.
Qed.

Lemma next_recurring_typed id : ytriple (next_recurring id) (fun _ => True).
Proof. unfold next_recurring, cleared_keys. vcg. cbn [foldl]. ysave. Qed.

Lemma show_velocity_typed g : ytriple (show_velocity g) (fun _ => True).
Proof. unfold show_velocity. vcg. Qed.

Lemma run1_typed c : ytriple (run1 c) (fun _ => True).
Proof.
  destruct c; simpl.
  - apply mark_progress_typed.
  - apply mark_blocked_typed.
  - apply unblock_task_typed.
  - apply log_time_typed.
  - apply create_recurring_typed.
  - apply next_recurring_typed.
  - apply show_velocity_typed.
  - first [apply otriple_emit | by apply triple_ret].
Qed.

(** ** Phase 2 *)

Section Phase2Effects.
Context (P : obj -> bool).

Lemma otriple_append_wal f e : triple (data_ok P) (append_wal f e) (fun _ => True).
Proof. by apply otriple_data_only. Qed.
Lemma otriple_append_buffer_line l : triple (data_ok P) (append_buffer_line l) (fun _ => True).
Proof. by apply otriple_data_only. Qed.
Lemma otriple_write_session sn : triple (data_ok P) (write_session sn) (fun _ => True).
Proof. by apply otriple_data_only. Qed.
Lemma otriple_append_daily f ls : triple (data_ok P) (append_daily f ls) (fun _ => True).
Proof. by apply otriple_data_only. Qed.
Lemma otriple_clear_buffer : triple (data_ok P) clear_buffer (fun _ => True).
Proof. by apply otriple_data_only. Qed.

End Phase2Effects.

#[export] Hint Resolve otriple_append_wal otriple_append_buffer_line otriple_write_session
  otriple_append_daily otriple_clear_buffer : pytask.

Section Phase2Helpers.
Context (P : obj -> bool).

Lemma otriple_log_to_wal ev c : triple (data_ok P) (log_to_wal ev c) (fun _ => True).
Proof. unfold log_to_wal. vcg. Qed.
Lemma otriple_append_to_buffer ev d : triple (data_ok P) (append_to_buffer ev d) (fun _ => True).
Proof. unfold append_to_buffer. vcg. Qed.
Lemma otriple_session_for data t a : triple (data_ok P) (session_for data t a) (fun _ => True).
Proof. unfold session_for, update_session_state. vcg; done. Qed.
Lemma otriple_flush : triple (data_ok P) flush_working_buffer (fun _ => True).
Proof. unfold flush_working_buffer. vcg; done. Qed.

End Phase2Helpers.

#[export] Hint Resolve otriple_log_to_wal otriple_append_to_buffer otriple_session_for otriple_flush : pytask.

Lemma mark_progress2_typed id p n : ytriple (mark_progress2 id p n) (fun _ => True).
Proof.
  unfold mark_progress2. vcg. ysave.
Qed.

Lemma log_time2_typed id m n : ytriple (log_time2 id m n) (fun _ => True).
Proof. unfold log_time2. vcg. ysave. Qed.

Lemma mark_blocked2_typed id r : ytriple (mark_blocked2 id r) (fun _ => True).
Proof. unfold mark_blocked2. vcg. ysave. Qed.


(** ** The health check *)

Lemma check_orphaned_typed id t t1 iss fs :
  task_typed t = true -> check_orphaned id t = (t1, iss, fs) -> task_typed t1 = true.
Proof. unfold check_orphaned. intros Ht. destruct (_ && _); intros [= <- _ _]; first [done | by apply task_typed_insert]. Qed.

Lemma check_progress_typed id t t2 iss fs :
  task_typed t = true -> check_progress id t = Ret (t2, iss, fs) -> task_typed t2 = true.
Proof.
  unfold check_progress, obind. intros Ht H. repeat case_match; simplify_eq; first [done | by apply task_typed_insert].
Qed.

Lemma check_completed_at_typed id t w t3 iss fs w' :
  task_typed t = true -> check_completed_at id t w = (Ret (t3, iss, fs), w') -> task_typed t3 = true.
Proof.
  rewrite check_completed_at_run. intros Ht. destruct (_ && _); intros; simplify_eq; first [done | by apply task_typed_insert].
Qed.

Lemma check_future_typed id t w t5 iss fs w' :
  task_typed t = true -> check_future id t w = (Ret (t5, iss, fs), w') -> task_typed t5 = true.
Proof.
  rewrite check_future_run. intros Ht. destruct (is_completed t); [|intros; by simplify_eq].
  destruct (py_gt _ _) as [[]|]; intros; simplify_eq; first [done | by apply task_typed_insert].
Qed.

Lemma check_task_typed t w t' iss fs w' :
  task_typed t = true -> check_task t w = (Ret (t', iss, fs), w') -> task_typed t' = true.
Proof.
  intros Ht H. apply check_task_inv in H as (t1 & ? & ? & t2 & ? & ? & t3 & ? & ? & ? & ? & ? & ? &
                                             E1 & E2 & E3 & _ & E5 & _).
  eapply check_future_typed; [|exact E5]. eapply check_completed_at_typed; [|exact E3].
  eapply check_progress_typed; [|exact E2]. eapply check_orphaned_typed; [exact Ht|exact E1].
Qed.

Lemma check_tasks_typed ts w ts' iss fs w' :
  forallb task_typed ts = true -> check_tasks ts w = (Ret (ts', iss, fs), w') ->
  forallb task_typed ts' = true.
Proof.
  revert w ts' iss fs w'. induction ts as [|t ts IH]; intros w ts' iss fs w' Hts H; cbn [check_tasks] in H.
  - unfold mret in H. by simplify_eq.
  - apply andb_true_iff in Hts as [Ht Hts].
    apply mbind_Ret_inv in H as ([[t1 is1] fs1] & w1 & H1 & H).
    apply mbind_Ret_inv in H as ([[r' is2] fs2] & w2 & H2 & H). unfold mret in H. simplify_eq/=.
    apply andb_true_iff. split; [exact (check_task_typed _ _ _ _ _ _ Ht H1) | exact (IH _ _ _ _ _ Hts H2)].
Qed.

Lemma check_tasks_ytriple ts :
  forallb task_typed ts = true ->
  ytriple (check_tasks ts) (fun '(ts', _, _) => forallb task_typed ts' = true).
Proof.
  intros Hts w Hw. pose proof (ticks_fields _ _ (check_tasks_ticks ts w)) as (_ & _ & Hd & _).
  destruct (check_tasks ts w) as [[[[ts' iss] fs]|e] w'] eqn:E; simpl in Hd; unfold data_ok; rewrite Hd.
  - split; [exact (check_tasks_typed _ _ _ _ _ _ Hts E) | exact Hw].
  - exact Hw.
Qed.

Lemma health_check_typed : ytriple health_check (fun _ => True).
Proof.
  unfold health_check. eapply triple_bind; [apply otriple_load2|]. intros data Hdata.
  eapply triple_bind; [exact (check_tasks_ytriple _ Hdata)|]. intros [[ts iss] fs] Hts.
  cbv zeta. eapply triple_bind with (R := fun _ => True).
  - destruct (bool_decide _); [by apply triple_ret | apply otriple_save; by apply store_ok_set_tasks].
  - intros ? _. vcg.
Qed.

Lemma run2_typed c : ytriple (run2 c) (fun _ => True).
Proof.
  destruct c; simpl; try (destruct (String.eqb _ _); [unfold usage_exit; apply otriple_fail_with|]).
  - apply mark_progress2_typed.
  - apply log_time2_typed.
  - apply mark_blocked2_typed.
  - apply health_check_typed.
  - apply otriple_flush.
  - first [apply otriple_fail_with | vcg].
  - vcg.
Qed.

Lemma main2_typed argv : ytriple (main2 argv) (fun _ => True).
Proof. unfold main2. eapply triple_bind; [apply triple_lift|]. intros c _. apply run2_typed. Qed.

(** ** Runs of both scripts *)

(** One invocation of either script on the shared files. *)
Inductive invocation := Inv1 (c : cmd1) | Inv2 (argv : list string).

Definition invoke (i : invocation) : PM unit :=
  match i with Inv1 c => run1 c | Inv2 argv => main2 argv end.

(** The worlds any sequence of invocations leads to. *)
Inductive reach (w0 : world) : world -> Prop :=
| reach_refl : reach w0 w0
| reach_step w i : reach w0 w -> reach w0 (final (invoke i) w).

Lemma invoke_typed i : ytriple (invoke i) (fun _ => True).
Proof. destruct i; [exact (run1_typed c) | exact (main2_typed argv)]. Qed.

(** C32: the field types of the data model (section 3) hold along any
    sequence of invocations of either script, with any arguments and any
    outcome: from a tasks.json whose tasks all have a string [id],
    [goal_id] and lifecycle [status], int progress and minute counts,
    string timestamps and notes, and a string or null [blocked_reason] and
    [recurring], every reachable tasks.json has the same types. *)
Theorem reach_typed w0 w : data_typed w0 -> reach w0 w -> data_typed w.
Proof.
  intros H0 Hr. induction Hr as [|w i _ IH]; [done|].
  exact (triple_final _ (invoke i) _ w (invoke_typed i) IH).
Qed.

(** ** Witness *)

Lemma reach_typed_witness :
  data_typed (final (invoke (Inv2 ["task_manager_phase2.py"; "mark-progress"; "task_a"; "150"]))
               (final (invoke (Inv1 (CMarkBlocked "task_a" "waiting"))) ex_world)).
Proof.
  apply (reach_typed ex_world); [reflexivity|].
  apply reach_step, reach_step, reach_refl.
Defined.
