(* ===== verification/Lifecycle.v ===== *)
(** * The task lifecycle: every task can still be completed

    Section 3 of the data model: a task "transitions through
    in_progress/blocked any number of times; it terminates at completed".
    [eventually P w]: some sequence of invocations of the scripts leads
    from [w] to a world satisfying [P] (the angelic [eventually] of a
    step relation, one step per invocation).  The theorem: from any world
    whose tasks.json holds a task the lookup finds, whatever its status
    (blocked, pending, in progress, completed), the three phase 1
    commands unblock-task, mark-progress 1 and mark-progress 100 complete
    it (phase 1 mark-progress only completes a task in progress, and only
    unblock-task leaves blocked in phase 1). *)

From S2P Require Import Prelude PyVal PyInt Clock Store Wf Phase1 Cli Typed.

Open Scope Z_scope.

Inductive eventually (P : world -> Prop) (w : world) : Prop :=
| ev_here : P w -> eventually P w
| ev_later i : eventually P (final (invoke i) w) -> eventually P w.

Lemma eventually_reach P w : eventually P w -> exists w', reach w w' /\ P w'.
Proof.
  induction 1 as [w HP|w i _ (w' & Hr & HP)]; [exists w; split; [constructor|done]|].
  exists w'. split; [|done]. clear HP. induction Hr as [|w'' j _ IH]; [apply reach_step, reach_refl|].
  by apply reach_step.
Qed.

(** The lookup finds the task [task_id] completed, at 100%. *)
Definition completed_in (task_id : string) (w : world) : Prop :=
  exists s i t, w_data w = Some (Parsed (DStore s)) /\ find_task_by_id s task_id = Ret (Some (i, t)) /\
    t !! "status" = Some (VStr "completed") /\ t !! "progress" = Some (VInt 100).

(** [task_id] is found in tasks.json, with the status [st]. *)
Definition found_with (task_id : string) (st : val) (w : world) : Prop :=
  exists s i t, w_data w = Some (Parsed (DStore s)) /\ find_task_by_id s task_id = Ret (Some (i, t)) /\
    t !! "status" = Some st.

Section Steps.
Context (task_id : string) (w : world) (s : store) (i : nat) (t : obj).
Hypothesis Hd : w_data w = Some (Parsed (DStore s)).
Hypothesis Hf : find_task_by_id s task_id = Ret (Some (i, t)).

Lemma unblock_step : found_with task_id (VStr "pending") (final (invoke (Inv1 (CUnblockTask task_id))) w).
Proof.
  destruct (unblock_task_resets w s task_id i t Hd Hf) as [_ (t' & D & Hst & _ & Hk)].
  exists (put_task s i t'), i, t'. split; [exact D|]. split; [|exact Hst].
  apply (find_task_by_id_put s task_id i t); [exact Hf|]. apply Hk. set_solver.
Qed.

(** mark-progress with a valid progress [p] on a task of status [st]. *)
Lemma progress_step (arg : string) (p : Z) (st : val) :
  py_int arg = Ret p -> 0 <= p <= 100 -> t !! "status" = Some st ->
  let t' := progress_task w t p st in
  w_data (final (invoke (Inv1 (CMarkProgress task_id arg))) w) = Some (Parsed (DStore (put_task s i t'))) /\
  find_task_by_id (put_task s i t') task_id = Ret (Some (i, t')).
Proof.
  intros Harg Hp Hst t'. split; [exact (mark_progress_data w s task_id i t Hd Hf arg p st Harg Hp Hst)|].
  apply (find_task_by_id_put s task_id i t); [exact Hf|]. unfold t', progress_task. by repeat case_match; simpl_lookup.
Qed.

End Steps.

(** C33: every task the lookup finds can still be completed: from any
    world whose tasks.json holds it, whatever its status and fields, some
    sequence of invocations (unblock-task, then mark-progress 1, then
    mark-progress 100) leads to a tasks.json in which the same lookup finds
    it completed at 100%. *)
Theorem task_can_complete task_id w s i t :
  w_data w = Some (Parsed (DStore s)) -> find_task_by_id s task_id = Ret (Some (i, t)) ->
  eventually (completed_in task_id) w.
Proof.
  intros Hd Hf. apply (ev_later _ _ (Inv1 (CUnblockTask task_id))).
  destruct (unblock_step task_id w s i t Hd Hf) as (s1 & i1 & t1 & D1 & F1 & S1).
  apply (ev_later _ _ (Inv1 (CMarkProgress task_id "1"))).
  destruct (progress_step task_id _ s1 i1 t1 D1 F1 "1" 1 _ eq_refl ltac:(lia) S1) as [D2 F2].
  apply (ev_later _ _ (Inv1 (CMarkProgress task_id "100"))).
  set (w2 := final (invoke (Inv1 (CMarkProgress task_id "1"))) _) in *.
  set (t2 := progress_task _ t1 1 (VStr "pending")) in *.
  assert (S2 : t2 !! "status" = Some (VStr "in_progress")) by (unfold t2, progress_task; cbn -[iso_z isoformat]; by simpl_lookup).
  destruct (progress_step task_id w2 _ i1 t2 D2 F2 "100" 100 _ eq_refl ltac:(lia) S2) as [D3 F3].
  apply ev_here. eexists _, i1, _. split; [exact D3|]. split; [exact F3|].
  unfold progress_task. cbn -[iso_z isoformat]. by simpl_lookup.
Qed.

(** ** Witness *)

Lemma task_can_complete_witness : eventually (completed_in "task_a") ex_world.
Proof. apply (task_can_complete "task_a" ex_world ex_store 0 ex_task); reflexivity. Defined.
