(* ===== verification/HealthTyped.v ===== *)
(** * The health check on a well-typed store

    On a store whose tasks have the field types of the data model
    ([Typed.task_typed]), every comparison of the five checks is between
    two ints or two strings, so none raises TypeError, and every key the
    checks index is read with a default.  The one division, [actual /
    estimate] of the time-anomaly check (task_manager_phase2.py line
    352), raises ZeroDivisionError on a zero estimate, and OverflowError
    when the quotient exceeds the largest float.  The theorem: with no
    zero estimate, a health check on a well-typed store either returns
    normally or raises that OverflowError. *)

From S2P Require Import Prelude PyVal Clock Store Wf Phase2 Health Typed.

Open Scope Z_scope.

(** An outcome that is a value or OverflowError. *)
Definition ok_or_overflow {A} (o : outcome A) : Prop :=
  match o with Ret _ => True | Exc e => e = OverflowError end.

(** No task has a zero [estimate_minutes]. *)
Definition estimate_nonzero (t : obj) : Prop := get t "estimate_minutes" VNone <> VInt 0.

(** [t.get(k, VInt d)] of an int field is an int. *)
Lemma get_int t k d :
  task_typed t = true -> k ∈ ["progress"; "estimate_minutes"; "actual_minutes"] ->
  exists z, get t k (VInt d) = VInt z.
Proof.
  intros Ht Hk. unfold get. destruct (t !! k) as [v|] eqn:E; [|eauto].
  destruct (int_field t k v Ht Hk E) as [z ->]. eauto.
Qed.

Lemma get_completed_at t :
  task_typed t = true -> exists c, get t "completed_at" (VStr "") = VStr c.
Proof.
  intros Ht. unfold get. destruct (t !! "completed_at") as [v|] eqn:E; [|eauto].
  assert (has_type TStr v = true) as H by (eapply task_typed_field; [exact Ht| |exact E]; simpl; tauto).
  destruct v; try discriminate. eauto.
Qed.

Lemma check_progress_total id t : task_typed t = true -> exists r, check_progress id t = Ret r.
Proof.
  intros Ht. unfold check_progress. destruct (get_int t "progress" 100 Ht ltac:(set_solver)) as [p ->].
  destruct (eq_str _ _); simpl; eauto.
Qed.

Lemma check_anomaly_total id t :
  task_typed t = true -> estimate_nonzero t ->
  ok_or_overflow (check_anomaly id t).
Proof.
  intros Ht Hne. unfold check_anomaly.
  destruct (get_int t "estimate_minutes" 1 Ht ltac:(set_solver)) as [e He].
  destruct (get_int t "actual_minutes" 0 Ht ltac:(set_solver)) as [a Ha]. rewrite He, Ha.
  simpl. destruct (bool_decide _); simpl; [|done].
  assert (e <> 0) as He0.
  { intros ->. apply Hne. unfold get in *. by destruct (t !! "estimate_minutes"). }
  unfold py_truediv. simpl. replace (e =? 0) with false by lia.
  unfold int_truediv. replace (e =? 0) with false by lia.
  destruct (a =? 0); simpl; [done|]. by case_match.
Qed.

Lemma check_future_total id t w :
  task_typed t = true -> exists r w', check_future id t w = (Ret r, w').
Proof.
  intros Ht. rewrite check_future_run. destruct (is_completed t); [|eauto].
  destruct (get_completed_at t Ht) as [c ->]. simpl. destruct (bool_decide _); eauto.
Qed.

Lemma check_task_outcome t w :
  task_typed t = true -> estimate_nonzero t -> ok_or_overflow (fst (check_task t w)).
Proof.
  intros Ht He. set (id := get t "id" (VStr "unknown")).
  destruct (check_orphaned id t) as [[t1 is1] fs1] eqn:E1.
  pose proof (check_orphaned_spec id t) as S1. rewrite E1 in S1. destruct S1 as [S1 _].
  pose proof (check_orphaned_typed _ _ _ _ _ Ht E1) as T1.
  destruct (check_progress_total id t1 T1) as [[[t2 is2] fs2] E2].
  destruct (check_progress_spec _ _ _ _ _ E2) as [S2 _].
  pose proof (check_progress_typed _ _ _ _ _ T1 E2) as T2.
  destruct (check_completed_at id t2 w) as [[[[t3 is3] fs3]|e] w3] eqn:E3;
    [|rewrite check_completed_at_run in E3; by destruct (_ && _)].
  destruct (check_completed_at_spec _ _ _ _ _ _ _ E3) as [S3 _].
  pose proof (check_completed_at_typed _ _ _ _ _ _ _ T2 E3) as T3.
  assert (He3 : estimate_nonzero t3).
  { unfold estimate_nonzero in *. edits_rw. exact He. }
  pose proof (check_anomaly_total id t3 T3 He3) as A.
  destruct (check_anomaly id t3) as [is4|e] eqn:E4.
  - destruct (check_future_total id t3 w3 T3) as ([[t5 is5] fs5] & w5 & E5).
    by rewrite (check_task_run t w _ _ _ _ _ _ _ _ _ _ _ _ _ _ _ E1 E2 E3 E4 E5).
  - simpl in A. subst e. unfold check_task. fold id. rewrite E1.
    unfold mbind at 1, lift at 1. rewrite E2. cbv beta iota.
    mstep E3. cbv beta iota. unfold mbind at 1, lift at 1. by rewrite E4.
Qed.

Lemma check_tasks_outcome ts w :
  forallb task_typed ts = true -> Forall estimate_nonzero ts -> ok_or_overflow (fst (check_tasks ts w)).
Proof.
  revert w. induction ts as [|t ts IH]; intros w Hts Hne; [done|].
  apply andb_true_iff in Hts as [Ht Hts]. apply Forall_cons in Hne as [He Hne].
  cbn [check_tasks]. pose proof (check_task_outcome t w Ht He) as H1.
  destruct (check_task t w) as [[[[t' is1] fs1]|e] w1] eqn:E1; simpl in H1.
  - rewrite (mbind_ret_step _ _ _ _ _ E1). specialize (IH w1 Hts Hne).
    destruct (check_tasks ts w1) as [[[[r' is2] fs2]|e] w2] eqn:E2; simpl in IH.
    + by rewrite (mbind_ret_step _ _ _ _ _ E2).
    + by rewrite (mbind_exc_step _ _ _ _ _ E2).
  - by rewrite (mbind_exc_step _ _ _ _ _ E1).
Qed.

(** C35: on a tasks.json whose tasks have the field types of the data
    model and no zero [estimate_minutes], the health check never raises
    TypeError, KeyError or ZeroDivisionError: it returns normally, or
    raises OverflowError when a time anomaly's [actual / estimate] exceeds
    the largest float. *)
Theorem health_check_typed_outcome w s :
  w_data w = Some (Parsed (DStore s)) -> store_ok task_typed s = true ->
  Forall estimate_nonzero (tasks s) -> ok_or_overflow (result health_check w).
Proof.
  intros Hd Ht Hne. unfold result, health_check.
  rewrite (mbind_ret_step _ _ _ _ _ (load_data2_store w s Hd)).
  pose proof (check_tasks_outcome (tasks s) w Ht Hne) as H.
  destruct (check_tasks (tasks s) w) as [[[[ts iss] fs]|e] w1] eqn:E; simpl in H.
  - rewrite (mbind_ret_step _ _ _ _ _ E). cbv beta iota zeta.
    destruct (bool_decide (fs = [])); wred; done.
  - by rewrite (mbind_exc_step _ _ _ _ _ E).
Qed.

(** ** Witness *)

(** A completed task below 100% and a task with a time anomaly. *)
Definition ex_typed_store : store :=
  mkStore (Some [])
    [ {[ "id" := VStr "task_a"; "goal_id" := VStr "goal_1"; "status" := VStr "completed";
         "progress" := VInt 40 ]};
      {[ "id" := VStr "task_b"; "goal_id" := VStr "goal_1"; "status" := VStr "in_progress";
         "estimate_minutes" := VInt 30; "actual_minutes" := VInt 400 ]} ] ∅.
Definition ex_typed_world : world :=
  mkWorld (Some (Parsed (DStore ex_typed_store))) None ∅ None None ∅
          (fun n => 1700000000000000 + Z.of_nat n) 0 (fun _ => "0a1b2c3d") 0 [].

Lemma health_check_typed_outcome_witness : ok_or_overflow (result health_check ex_typed_world).
Proof.
  apply (health_check_typed_outcome ex_typed_world ex_typed_store); [reflexivity | reflexivity |].
  repeat constructor; unfold estimate_nonzero; simpl; discriminate.
Defined.
