(* ===== verification/Files.v ===== *)
(** * The text files of the memory directory, over runs of both scripts

    Phase 2 writes three kinds of text file beside tasks.json: the WAL of
    the day (memory/WAL-<date>.log, appended by [log_to_wal]), the working
    buffer (memory/working-buffer.md, appended by [append_to_buffer],
    emptied by [flush_working_buffer]) and the daily file (memory/<date>.md,
    appended by the flush).  Section [FileInv]: an invariant of the world
    that every primitive effect keeps (the clock, a print, the backup, a
    uuid, a save of any store, and the five file writes) is kept by every
    invocation of either script, whatever its arguments and outcome.
    Instances: every WAL file is a sequence of [json.dumps] records, one
    per line (the JSON Lines format a reader of the WAL expects); the
    buffer is a sequence of buffer entries.  Then what
    [flush_working_buffer] does with such a buffer, read back in text mode
    (a carriage return becomes a line break), and the count of lines it
    reports. *)

From stdpp Require Import pretty.
From S2P Require Import Prelude PyVal PyStr Clock Store Trace Wf Phase1 Velocity Phase2 Health Cli Typed.

Open Scope Z_scope.

(** ** Invariants of the files *)

Section FileInv.
Context (F : world -> Prop).
Hypothesis F_tick : forall w, F w -> F (tick w).
Hypothesis F_log : forall e w, F w -> F (log_event e w).
Hypothesis F_backup : forall w, F w -> F (snd (backup w)).
Hypothesis F_uuid : forall p w, F w -> F (snd (generate_id p w)).
Hypothesis F_save : forall s w, F w -> F (snd (save_data s w)).
Hypothesis F_wal : forall f e w, F w -> F (snd (append_wal f e w)).
Hypothesis F_line : forall l w, F w -> F (snd (append_buffer_line l w)).
Hypothesis F_session : forall sn w, F w -> F (snd (write_session sn w)).
Hypothesis F_daily : forall f t w, F w -> F (snd (append_daily f t w)).
Hypothesis F_clear : forall w, F w -> F (snd (clear_buffer w)).

(** An effect that always returns. *)
Lemma ftriple_prim {A} (m : PM A) :
  (forall w, exists a, fst (m w) = Ret a) -> (forall w, F w -> F (snd (m w))) ->
  triple F m (fun _ => True).
Proof.
  intros Hr HF w Hw. destruct (Hr w) as [a Ha]. specialize (HF w Hw).
  destruct (m w) as [o w']. simpl in *. by subst.
Qed.

Lemma ftriple_save s : triple F (save_data s) (fun _ => True).
Proof. apply ftriple_prim; [by eexists | auto]. Qed.
Lemma ftriple_append_wal f e : triple F (append_wal f e) (fun _ => True).
Proof. apply ftriple_prim; [by eexists | auto]. Qed.
Lemma ftriple_append_buffer_line l : triple F (append_buffer_line l) (fun _ => True).
Proof. apply ftriple_prim; [by eexists | auto]. Qed.
Lemma ftriple_write_session sn : triple F (write_session sn) (fun _ => True).
Proof. apply ftriple_prim; [by eexists | auto]. Qed.
Lemma ftriple_append_daily f t : triple F (append_daily f t) (fun _ => True).
Proof. apply ftriple_prim; [by eexists | auto]. Qed.
Lemma ftriple_clear_buffer : triple F clear_buffer (fun _ => True).
Proof. apply ftriple_prim; [by eexists | auto]. Qed.

Lemma F_ticks w w' : ticks w w' -> F w -> F w'.
Proof. intros [n ->]. induction n as [|n IH]; [done|]. intros Hw. simpl. auto. Qed.

Lemma ftriple_check_tasks ts : triple F (check_tasks ts) (fun _ => True).
Proof.
  intros w Hw. pose proof (F_ticks _ _ (check_tasks_ticks ts w) Hw) as H.
  destruct (check_tasks ts w) as [[a|e] w']; simpl in *; auto.
Qed.

#[local] Hint Resolve ftriple_save ftriple_append_wal ftriple_append_buffer_line ftriple_write_session
  ftriple_append_daily ftriple_clear_buffer ftriple_check_tasks : pytask.

(** [vcg], binding a compound first step with no postcondition. *)
Ltac fvcg :=
  vcg;
  repeat match goal with
  | |- True => exact I
  | |- triple _ (mbind _ _) _ => eapply triple_bind with (R := fun _ => True); [fvcg | intros ? _; fvcg]
  end.

Lemma ftriple_load1 : triple F load_data1 (fun _ => True).
Proof. unfold load_data1. fvcg. Qed.
Lemma ftriple_load2 : triple F load_data2 (fun _ => True).
Proof. unfold load_data2. fvcg. Qed.
Lemma ftriple_lookup_task data id : triple F (lookup_task data id) (fun _ => True).
Proof. unfold lookup_task. fvcg. Qed.
Lemma ftriple_status_is g t s : triple F (status_is g t s) (fun _ => True).
Proof. unfold status_is. fvcg. Qed.

#[local] Hint Resolve ftriple_load1 ftriple_load2 ftriple_lookup_task ftriple_status_is : pytask.

Lemma run1_files c : triple F (run1 c) (fun _ => True).
Proof.
  destruct c; simpl.
  - unfold mark_progress. fvcg.
  - unfold mark_blocked. fvcg.
  - unfold unblock_task. fvcg.
  - unfold log_time. fvcg.
  - unfold create_recurring. fvcg.
  - unfold next_recurring. fvcg.
  - unfold show_velocity. fvcg.
  - fvcg.
Qed.

Lemma run2_files c : triple F (run2 c) (fun _ => True).
Proof.
  destruct c; simpl; unfold usage_exit.
  - unfold mark_progress2, log_to_wal, session_for, update_session_state, append_to_buffer. fvcg.
  - unfold log_time2, log_to_wal, session_for, update_session_state, append_to_buffer. fvcg.
  - unfold mark_blocked2, log_to_wal, session_for, update_session_state, append_to_buffer. fvcg.
  - unfold health_check, log_to_wal. fvcg.
  - unfold flush_working_buffer. fvcg.
  - fvcg.
  - fvcg.
Qed.

Lemma invoke_files i : triple F (invoke i) (fun _ => True).
Proof.
  destruct i as [c|argv]; [apply run1_files|]. unfold invoke, main2.
  eapply triple_bind; [apply triple_lift|]. intros c _. apply run2_files.
Qed.

(** An invariant of the files every effect keeps holds along any sequence
    of invocations of either script. *)
Lemma reach_files w0 w : F w0 -> reach w0 w -> F w.
Proof.
  intros H0 Hr. induction Hr as [|w i _ IH]; [done|].
  exact (triple_final _ (invoke i) _ w (invoke_files i) IH).
Qed.

End FileInv.

(** ** The WAL files are JSON Lines *)

(** A text made of WAL lines. *)
Definition wal_text_ok (txt : string) : Prop := exists es, txt = cat (map wal_line es).

Definition wal_ok (w : world) : Prop := map_Forall (fun _ => wal_text_ok) (w_wal w).

(** The text of an absent file is [""], no line. *)
Lemma wal_text_ok_default (o : option string) :
  (forall txt, o = Some txt -> wal_text_ok txt) -> wal_text_ok (default "" o).
Proof. intros H. destruct o as [txt|]; [by apply H | by exists []]. Qed.

Lemma wal_ok_append_wal f e w : wal_ok w -> wal_ok (snd (append_wal f e w)).
Proof.
  intros Hw. apply map_Forall_insert_2; [|exact Hw].
  destruct (wal_text_ok_default (w_wal w !! f)) as [es ->]; [intros txt Ht; exact (Hw f txt Ht)|].
  exists (es ++ [e]). rewrite map_app; cbn [map]. by rewrite cat_snoc.
Qed.

(** The lines of a WAL text, split on ["\n"] as a reader does: one
    [json.dumps] record per entry, then the [""] after the last break. *)
Lemma wal_text_lines es :
  split_on (Ascii.ascii_of_nat 10) (cat (map wal_line es)) = map wal_record es ++ [""].
Proof.
  change (map wal_line es) with (map (fun e => line (wal_record e)) es).
  rewrite <-(map_map wal_record line). apply split_cat_lines.
  apply Forall_forall. intros x Hx. apply list_elem_of_In, in_map_iff in Hx as (e & <- & _).
  apply json_dumps_not_nl.
Qed.

(** ** The buffer is a sequence of entries *)

Definition buffer_ok (w : world) : Prop :=
  match w_buffer w with
  | None => True
  | Some txt => exists ls, txt = cat (map buffer_line_text ls)
  end.

Lemma buffer_ok_append_line l w : buffer_ok w -> buffer_ok (snd (append_buffer_line l w)).
Proof.
  unfold buffer_ok, append_buffer_line. cbn [snd w_buffer].
  destruct (w_buffer w) as [txt|]; cbn [default].
  - intros [ls ->]. exists (ls ++ [l]). rewrite map_app; cbn [map]. by rewrite cat_snoc.
  - intros _. exists [l]. by rewrite <-(cat_snoc []).
Qed.

Lemma buffer_ok_clear w : buffer_ok (snd (clear_buffer w)).
Proof. by exists []. Qed.

(** The buffer holds the entries [ls], in order. *)
Definition buffer_holds (ls : list buffer_line) (w : world) : Prop :=
  w_buffer w = Some (cat (map buffer_line_text ls)).

(** An entry whose text is one line: its only break is the one that ends
    it, and it holds no ["\r"], which a text-mode read turns into a break. *)
Definition one_line (l : buffer_line) : Prop :=
  newlines (buffer_line_text l) = 1%nat /\ carriage_returns (buffer_line_text l) = 0%nat.

Lemma newlines_entries ls :
  Forall one_line ls -> newlines (cat (map buffer_line_text ls)) = length ls.
Proof.
  rewrite newlines_cat. induction 1 as [|l ls [Hl _] _ IH]; [done|].
  cbn [map sum_list_with length]. lia.
Qed.

Lemma entries_no_cr ls :
  Forall one_line ls -> carriage_returns (cat (map buffer_line_text ls)) = 0%nat.
Proof.
  induction 1 as [|l ls [_ Hl] _ IH]; [done|].
  change (cat (map buffer_line_text (l :: ls))) with (buffer_line_text l +:+ cat (map buffer_line_text ls)).
  rewrite carriage_returns_app. lia.
Qed.

(** ** Invariants along runs *)

Lemma reach_wal_ok w0 w : wal_ok w0 -> reach w0 w -> wal_ok w.
Proof.
  intros H0 Hr. eapply (reach_files wal_ok); [..|exact H0|exact Hr].
  all: first [apply wal_ok_append_wal | intros; assumption].
Qed.


(** ** The theorems *)

(** C36: along any sequence of invocations of either script, from WAL
    files that are sequences of entries (none at all, for one), every WAL
    file is the text of a sequence of entries, each written as
    [json.dumps(wal_entry) + "\n"] (task_manager_phase2.py line 82), and
    splitting it on ["\n"] gives back one [json.dumps] record of a
    [{"timestamp", "event_type", "content"}] dictionary per line and the
    empty text after the last break: [json.dumps] never writes a line
    break, strings with one included, so each record stays on its line. *)
Theorem wal_json_lines w0 w f txt :
  wal_ok w0 -> reach w0 w -> w_wal w !! f = Some txt ->
  exists es, txt = cat (map wal_line es) /\
             split_on (Ascii.ascii_of_nat 10) txt = map wal_record es ++ [""].
Proof.
  intros H0 Hr Hf. destruct (reach_wal_ok w0 w H0 Hr f txt Hf) as [es ->].
  exists es. split; [done | apply wal_text_lines].
Qed.

(** C37: [flush_working_buffer] on a buffer holding the entries [ls]
    appends the section [f"\n## Task Updates\n{buffer_content}\n"] to the
    daily file of the day it reads from the clock, empties the buffer,
    returns, and prints as [lines_flushed] the number of entries plus
    one when each entry is one line without a carriage return (the
    text-mode read of line 397 turns ["\r"] into a break):
    [buffer_content.split('\n')] counts the empty text after the last
    entry's break (line 410). *)
Theorem flush_lines_flushed w ls :
  buffer_holds ls w -> Forall one_line ls ->
  let d := ymd (w_clock w (w_tick w)) +:+ ".md" in
  result flush_working_buffer w = Ret tt /\
  buffer_holds [] (final flush_working_buffer w) /\
  w_daily (final flush_working_buffer w) !! d =
    Some (default "" (w_daily w !! d) +:+ daily_section (cat (map buffer_line_text ls))) /\
  last (w_trace (final flush_working_buffer w)) = Some (EvStdout (OutFlush d (S (length ls)))).
Proof.
  intros Hb Hl d. unfold buffer_holds in *.
  unfold flush_working_buffer, append_daily, clear_buffer. wred. rewrite Hb. wred.
  rewrite (universal_newlines_id _ (entries_no_cr ls Hl)).
  rewrite split_nl_length, newlines_entries by exact Hl.
  split; [done|]. split; [done|]. split; [by rewrite lookup_insert_eq|].
  by rewrite last_snoc.
Qed.

(** C38: along any sequence of invocations of either script, from no
    buffer or a buffer of entries, the working buffer is absent or the
    text of a sequence of entries [f"- {event_type} ({timestamp}):
    {details}\n"] (line 96): [append_to_buffer] adds one at the end and
    the flush empties it. *)
Theorem reach_buffer_entries w0 w : buffer_ok w0 -> reach w0 w -> buffer_ok w.
Proof.
  intros H0 Hr. eapply (reach_files buffer_ok); [..|exact H0|exact Hr].
  all: first [apply buffer_ok_append_line | intros; apply buffer_ok_clear | intros; assumption].
Qed.

(** ** Witnesses *)

Definition ex_mark_progress : invocation :=
  Inv2 ["task_manager_phase2.py"; "mark-progress"; "task_a"; "50"].

Lemma wal_json_lines_witness :
  exists es, default "" (w_wal (final (invoke ex_mark_progress) ex_world) !! "WAL-2023-11-14.log") =
               cat (map wal_line es) /\
             split_on (Ascii.ascii_of_nat 10)
               (default "" (w_wal (final (invoke ex_mark_progress) ex_world) !! "WAL-2023-11-14.log")) =
             map wal_record es ++ [""].
Proof.
  apply (wal_json_lines ex_world (final (invoke ex_mark_progress) ex_world) "WAL-2023-11-14.log");
    [apply map_Forall_empty | apply reach_step, reach_refl |].
  vm_compute. reflexivity.
Defined.

(** Two entries of the buffer, as [append_to_buffer] writes them. *)
Definition ex_lines : list buffer_line :=
  [mkLine "PROGRESS" "2023-11-14T22:13:20+00:00" (DProgress "task_a" (VInt 40) 50);
   mkLine "BLOCKED" "2023-11-14T22:14:00+00:00" (DBlocked "task_a" "waiting on review")].

Definition ex_buffer_world : world :=
  mkWorld (w_data ex_world) None ∅ (Some (cat (map buffer_line_text ex_lines))) None ∅
          (w_clock ex_world) 0 (w_uuid ex_world) 0 [].

(** Two entries, [lines_flushed] 3. *)
Lemma flush_lines_flushed_witness :
  result flush_working_buffer ex_buffer_world = Ret tt /\
  buffer_holds [] (final flush_working_buffer ex_buffer_world) /\
  w_daily (final flush_working_buffer ex_buffer_world) !! "2023-11-14.md" =
    Some (daily_section (cat (map buffer_line_text ex_lines))) /\
  last (w_trace (final flush_working_buffer ex_buffer_world)) =
    Some (EvStdout (OutFlush "2023-11-14.md" 3)).
Proof.
  apply (flush_lines_flushed ex_buffer_world ex_lines); [reflexivity |].
  repeat constructor; vm_compute; reflexivity.
Defined.

(** One entry whose reason holds a ["\r"]: read back in text mode it is
    two lines, the daily file gets a break in its place, and
    [lines_flushed] is 3. *)
Definition ex_cr_world : world :=
  mkWorld (w_data ex_world) None ∅
          (Some (buffer_line_text (mkLine "BLOCKED" "2023-11-14T22:14:00+00:00"
                   (DBlocked "task_a" ("a" +:+ String (Ascii.ascii_of_nat 13) "b"))))) None ∅
          (w_clock ex_world) 0 (w_uuid ex_world) 0 [].

Lemma flush_carriage_return :
  last (w_trace (final flush_working_buffer ex_cr_world)) = Some (EvStdout (OutFlush "2023-11-14.md" 3)).
Proof. vm_compute. reflexivity. Qed.

Lemma reach_buffer_entries_witness :
  buffer_ok (final (invoke (Inv2 ["task_manager_phase2.py"; "flush-buffer"]))
              (final (invoke ex_mark_progress) ex_world)).
Proof.
  apply (reach_buffer_entries ex_world); [exact I |].
  apply reach_step, reach_step, reach_refl.
Defined.
