(* ===== verification/Replay.v ===== *)
(** * What the write-ahead log records of a save

    Spec section 4.2: the WAL record written before a save "is the
    authoritative trace of intended change, enabling manual or
    future-automated replay".  [wal_change] reads a record of
    task_manager_phase2.py ([log_to_wal], lines 170, 220, 286) as the
    change it announces: the task id, and the fields of that task with
    their new values (the new progress, the new total of minutes, the
    new status and reason).  [recorded] holds of a sequence of events
    when every save of tasks.json comes right after a WAL record whose
    announced fields the saved store's task has.  The theorem: every
    phase 2 task command appends such a sequence, whatever its outcome.
    What a record does not announce (the status a progress change
    implies, the notes, [updated_at]) is not recoverable from it. *)

From S2P Require Import Prelude PyVal Clock Store Trace Phase2.

Open Scope Z_scope.

(** [content[k]] of a record's content dictionary. *)
Definition content_get (k : string) (c : list (string * val)) : option val :=
  snd <$> List.find (fun kv => String.eqb k (fst kv)) c.

(** The task and the fields with their new values a record announces. *)
Definition wal_change (e : wal_entry) : option (string * list (string * val)) :=
  let c := we_content e in
  match content_get "task_id" c with
  | Some (VStr id) =>
      if String.eqb (we_type e) "PROGRESS_CHANGE" then
        (fun v => (id, [("progress", v)])) <$> content_get "new_progress" c
      else if String.eqb (we_type e) "TIME_LOG" then
        (fun v => (id, [("actual_minutes", v)])) <$> content_get "new_total" c
      else if String.eqb (we_type e) "STATUS_CHANGE" then
        match content_get "new_status" c, content_get "reason" c with
        | Some st, Some r => Some (id, [("status", st); ("blocked_reason", r)])
        | _, _ => None
        end
      else None
  | _ => None
  end.

(** The store [s] has the change [e] announces: its task with the id
    (the first, as [find_task_by_id] finds it) has the new values. *)
Definition replay_ok (e : wal_entry) (s : store) : Prop :=
  exists id fs i t, wal_change e = Some (id, fs) /\ find_task_by_id s id = Ret (Some (i, t)) /\
                    Forall (fun kv => t !! fst kv = Some (snd kv)) fs.

(** Every save comes right after a WAL record of its change. *)
Fixpoint recorded (l : list event) : Prop :=
  match l with
  | [] => True
  | EvWal _ e :: EvSave s :: r => replay_ok e s /\ recorded r
  | EvSave _ :: _ => False
  | _ :: r => recorded r
  end.

(** ** Lemmas on [recorded] *)

Lemma recorded_cons_nonsave e l : is_save e = false -> recorded l ->
  (forall s, hd_error l <> Some (EvSave s)) -> recorded (e :: l).
Proof.
  intros He Hl Hh. destruct e; try done; destruct l as [|[] r]; try done.
  all: exfalso; eapply Hh; reflexivity.
Qed.

Lemma recorded_nosave l : has_save l = false -> recorded l.
Proof.
  induction l as [|e l IH]; [done|]. cbn [has_save existsb]. intros [He Hl]%orb_false_iff.
  apply recorded_cons_nonsave; [done | by apply IH |].
  intros s Hs. destruct l; simplify_eq/=.
Qed.

Lemma recorded_wal_save f e s l : replay_ok e s -> recorded l -> recorded (EvWal f e :: EvSave s :: l).
Proof. by split. Qed.

Lemma recorded_wal f e : recorded [EvWal f e].
Proof. done. Qed.

(** ** The tail of a phase 2 command writes no save *)

Definition nosave (l : list event) : Prop := has_save l = false.

Lemma stable_nosave : stable nosave.
Proof. intros l e He Hl. unfold nosave, has_save in *. rewrite existsb_app, Hl. simpl. by rewrite He. Qed.

Section Tail.
Context (data : store) (t : obj) (a : detail) (ty : string) (det : detail) (m : PM unit).
Hypothesis Hm : forall tr0, ttriple tr0 nosave nosave nosave m.

Lemma tail_nosave w :
  exists new, w_trace (snd ((session_for data t a ;; append_to_buffer ty det ;; m) w)) = w_trace w ++ new /\
              has_save new = false.
Proof.
  apply (ttriple_final (w_trace w) nosave nosave); [|exists []; by rewrite app_nil_r].
  eapply ttriple_bind; [eapply tt_session_for; first [exact stable_nosave | intros ? H; exact H] | intros].
  eapply ttriple_bind; [eapply tt_append_to_buffer; first [exact stable_nosave | intros ? H; exact H] | intros].
  apply Hm.
Qed.

End Tail.

Lemma tt_print tr0 o : ttriple tr0 nosave nosave nosave (emit (EvStdout o)).
Proof. eapply tt_emit; first [exact stable_nosave | intros ? H; exact H | reflexivity]. Qed.

Lemma tt_print_velocity tr0 o (f : velnote -> output) :
  ttriple tr0 nosave nosave nosave (let* vel := lift o in emit (EvStdout (f vel))).
Proof. eapply ttriple_bind; [by apply ttriple_lift | intros; apply tt_print]. Qed.

(** ** The runs of the three commands *)

Lemma lookup_task_exc w s id ex : find_task_by_id s id = Exc ex -> lookup_task s id w = (Exc ex, w).
Proof. intros H. unfold lookup_task, mbind, lift. by rewrite H. Qed.

(** A WAL record and the save of its change, then events without a save. *)
Lemma wal_save_tail {A} (m : PM A) f e s w w1 :
  (forall w', exists new, w_trace (snd (m w')) = w_trace w' ++ new /\ has_save new = false) ->
  w_trace w1 = w_trace w ++ [EvWal f e; EvSave s] -> replay_ok e s ->
  exists new, w_trace (snd (m w1)) = w_trace w ++ new /\ recorded new.
Proof.
  intros Hm Hw1 He. destruct (Hm w1) as (new & Ht & Hn).
  exists (EvWal f e :: EvSave s :: new). rewrite Ht, Hw1, <-app_assoc. split; [done|].
  apply recorded_wal_save; [done | by apply recorded_nosave].
Qed.

(** The events a run appends before its lookup fails. *)
Ltac no_save_run :=
  cbn [fst snd];
  match goal with
  | |- exists new, w_trace ?w = w_trace ?w ++ new /\ _ => exists []; by rewrite app_nil_r
  | |- exists new, w_trace (log_event ?e ?w) = w_trace ?w ++ new /\ _ => by exists [e]
  end.

Lemma mark_blocked2_recorded id r w :
  exists new, w_trace (final (mark_blocked2 id r) w) = w_trace w ++ new /\ recorded new.
Proof.
  unfold final, mark_blocked2.
  destruct (load_data2_run w) as [[s Hl]|[ex Hl]]; mstep Hl; [|no_save_run].
  destruct (find_task_by_id s id) as [[[i t]|]|ex] eqn:Hf;
    [| rewrite (lookup_task_missing w s id _ Hf); no_save_run
     | rewrite (mbind_exc_step _ _ _ _ _ (lookup_task_exc w s id ex Hf)); no_save_run].
  mstep (lookup_task_found w s id i t Hf). cbn beta iota. mstep (now_run w).
  erewrite (mbind_ret_step _ _ _ _ _ (log_to_wal_run _ _ _)).
  erewrite (mbind_ret_step _ _ _ _ _ (now_run _)). cbv zeta.
  erewrite (mbind_ret_step _ _ _ _ _ (save_data_run _ _)).
  eapply wal_save_tail; [intros; apply tail_nosave; intros; first [apply tt_print | apply tt_print_velocity] | cbn; by rewrite <-app_assoc |].
  exists id; eexists; exists i; eexists. split; [reflexivity|]. split.
  - apply (find_task_by_id_put _ _ _ t); [done|]. by simpl_lookup.
  - repeat constructor; simpl; by simpl_lookup.
Qed.

(** [append_notes] only writes ["notes"]. *)
Lemma append_notes_other t n t' k : append_notes t n = Ret t' -> k <> "notes" -> t' !! k = t !! k.
Proof.
  intros H Hk. unfold append_notes, obind in H.
  repeat case_match; simplify_eq; try done; by rewrite lookup_insert_ne.
Qed.

Lemma mark_progress2_recorded id p n w :
  exists new, w_trace (final (mark_progress2 id p n) w) = w_trace w ++ new /\ recorded new.
Proof.
  unfold final, mark_progress2.
  destruct (load_data2_run w) as [[s Hl]|[ex Hl]]; mstep Hl; [|no_save_run].
  destruct (find_task_by_id s id) as [[[i t]|]|ex] eqn:Hf;
    [| rewrite (lookup_task_missing w s id _ Hf); no_save_run
     | rewrite (mbind_exc_step _ _ _ _ _ (lookup_task_exc w s id ex Hf)); no_save_run].
  mstep (lookup_task_found w s id i t Hf). cbn beta iota. mstep (now_run w).
  erewrite (mbind_ret_step _ _ _ _ _ (log_to_wal_run _ _ _)).
  erewrite (mbind_ret_step _ _ _ _ _ (now_run _)). cbv beta.
  destruct (append_notes _ n) as [t2|ex] eqn:Hn.
  2: { rewrite mbind_lift_exc. cbn [snd]. eexists. split; [by cbn|apply recorded_wal]. }
  rewrite mbind_lift_ret. cbv zeta. erewrite (mbind_ret_step _ _ _ _ _ (save_data_run _ _)).
  eapply wal_save_tail; [intros; apply tail_nosave; intros; first [apply tt_print | apply tt_print_velocity] | cbn; by rewrite <-app_assoc |].
  exists id; eexists; exists i; eexists. split; [reflexivity|].
  pose proof (append_notes_other _ _ _ "id" Hn ltac:(done)) as Hid.
  pose proof (append_notes_other _ _ _ "progress" Hn ltac:(done)) as Hp.
  split.
  - apply (find_task_by_id_put _ _ _ t); [done|]. repeat case_match; simpl_lookup; rewrite Hid; by simpl_lookup.
  - repeat constructor; simpl; repeat case_match; simpl_lookup; rewrite Hp; by simpl_lookup.
Qed.

Lemma log_time2_recorded id m n w :
  exists new, w_trace (final (log_time2 id m n) w) = w_trace w ++ new /\ recorded new.
Proof.
  unfold final, log_time2.
  destruct (load_data2_run w) as [[s Hl]|[ex Hl]]; mstep Hl; [|no_save_run].
  destruct (find_task_by_id s id) as [[[i t]|]|ex] eqn:Hf;
    [| rewrite (lookup_task_missing w s id _ Hf); no_save_run
     | rewrite (mbind_exc_step _ _ _ _ _ (lookup_task_exc w s id ex Hf)); no_save_run].
  mstep (lookup_task_found w s id i t Hf). cbn beta iota.
  destruct (py_add (get t "actual_minutes" (VInt 0)) (VInt m)) as [na|ex]; [rewrite mbind_lift_ret | rewrite mbind_lift_exc; no_save_run].
  mstep (now_run w). erewrite (mbind_ret_step _ _ _ _ _ (log_to_wal_run _ _ _)).
  erewrite (mbind_ret_step _ _ _ _ _ (now_run _)). cbv beta.
  destruct (append_notes _ n) as [t2|ex] eqn:Hn;
    [rewrite mbind_lift_ret | rewrite mbind_lift_exc; cbn [snd]; eexists; split; [by cbn|apply recorded_wal]].
  match goal with |- context [lift (if ?b then ?x else ?y)] => destruct (if b then x else y) as [st|ex] end;
    [rewrite mbind_lift_ret | rewrite mbind_lift_exc; cbn [snd]; eexists; split; [by cbn|apply recorded_wal]].
  cbv zeta. erewrite (mbind_ret_step _ _ _ _ _ (save_data_run _ _)).
  eapply wal_save_tail; [intros; apply tail_nosave; intros; first [apply tt_print | apply tt_print_velocity] | cbn; by rewrite <-app_assoc |].
  exists id; eexists; exists i; eexists. split; [reflexivity|].
  pose proof (append_notes_other _ _ _ "id" Hn ltac:(done)) as Hid.
  pose proof (append_notes_other _ _ _ "actual_minutes" Hn ltac:(done)) as Ha.
  split.
  - apply (find_task_by_id_put _ _ _ t); [done|]. destruct st; simpl_lookup; rewrite Hid; by simpl_lookup.
  - repeat constructor; simpl; destruct st; simpl_lookup; rewrite Ha; by simpl_lookup.
Qed.

(** ** The theorem *)

(** C39: every phase 2 task command (mark-progress, log-time,
    mark-blocked), from any world and whatever its outcome, appends
    events in which every save of tasks.json comes right after the WAL
    record of its change, with no event in between, and the saved store's
    task with the record's [task_id] has the values the record announces:
    the [new_progress], the [new_total] of minutes, or the [new_status]
    and [reason].  A run that stops between the two (an exception in the
    notes update or in the status test) leaves the record without a save,
    as spec section 5 allows. *)
Theorem wal_records_saves (c : task_cmd2) (w : world) :
  exists new, w_trace (final (run_task_cmd2 c) w) = w_trace w ++ new /\ recorded new.
Proof.
  destruct c; simpl; [apply mark_progress2_recorded | apply log_time2_recorded | apply mark_blocked2_recorded].
Qed.

(** ** What a record does not announce *)

Definition ex_pending_task : obj :=
  {[ "id" := VStr "task_p"; "status" := VStr "pending"; "progress" := VInt 0 ]}.
Definition ex_replay_world : world :=
  mkWorld (Some (Parsed (DStore (mkStore (Some []) [ex_pending_task] ∅)))) None ∅ None None ∅
          (fun n => 1700000000000000 + Z.of_nat n) 0 (fun _ => "0a1b2c3d") 0 [].

(** A progress record announces the progress only: the save that follows
    it also moves the pending task to in_progress and stores the notes,
    which the record does not carry, so replaying the WAL cannot restore
    them. *)
Lemma progress_record_omits_status :
  match w_trace (final (mark_progress2 "task_p" 50 "first step") ex_replay_world) with
  | EvWal _ e :: EvSave s :: _ =>
      wal_change e = Some ("task_p", [("progress", VInt 50)]) /\
      (tasks s !! 0%nat ≫= lookup "status") = Some (VStr "in_progress") /\
      (tasks s !! 0%nat ≫= lookup "notes") = Some (VStr "first step")
  | _ => False
  end.
Proof. vm_compute. auto. Qed.
