(* ===== verification/Output.v ===== *)
(** * What the scripts print: stdout and stderr as text

    Every result is printed by [print(json.dumps(result, indent=2))] and
    every error by [print(json.dumps({"success": False, "error": ...}),
    file=sys.stderr)]; the phase 1 warnings and the phase 2 usage lines
    are plain text.  [json_indent] is [json.dumps] with [indent=2]
    (Lib/json/encoder.py, [_make_iterencode]: an item per line, indented
    two spaces per level, separators [","] and [": "], [[]] and [{}] for
    the empty containers).  [render_message] and [render_output] are the
    lines each print writes, [stdout_text] and [stderr_text] the two
    streams of a run.

    Three things the printed text depends on are not in the world, and
    are parameters of Section [Render]: the order of the keys of a task
    dictionary ([items]; a task is a [gmap], which keeps no insertion
    order), the help text argparse prints ([help_text]) and the
    directory the daily file lives in ([memory_dir], which the flush
    result names).

    The theorems: what a run of either script writes on stdout
    ([run1_stdout], [run2_stdout]) and what a phase 1 run writes on
    stderr ([run1_stderr]), by trace triples for runs that append only
    some kinds of events (Section [Only]: [only ok], of which [noout] and
    [only quiet_ev] are the two instances), walked through each handler
    by [out_vcg]; samples compared with CPython's bytes. *)

From stdpp Require Import pretty.
From S2P Require Import Prelude PyVal PyStr FloatRepr Clock Store Trace Phase1 Velocity Phase2 Health Cli.
From Stdlib Require Import Ascii PrimFloat SpecFloat FloatOps.

Open Scope Z_scope.

(** ** [json.dumps(v, indent=2)] *)

Fixpoint spaces (n : nat) : string :=
  match n with O => "" | S n => String (Ascii.ascii_of_nat 32) (spaces n) end.

(** A line break and the indentation of level [lvl]. *)
Definition newline_indent (lvl : nat) : string := nl +:+ spaces (2 * lvl).

Fixpoint json_indent (lvl : nat) (v : val) : string :=
  match v with
  | VList [] => "[]"
  | VList l =>
      "[" +:+ newline_indent (S lvl) +:+
      join ("," +:+ newline_indent (S lvl)) (map (json_indent (S lvl)) l) +:+
      newline_indent lvl +:+ "]"
  | VDict [] => "{}"
  | VDict kv =>
      "{" +:+ newline_indent (S lvl) +:+
      join ("," +:+ newline_indent (S lvl))
           (map (fun '(k, x) => json_str k +:+ ": " +:+ json_indent (S lvl) x) kv) +:+
      newline_indent lvl +:+ "}"
  | _ => json_dumps v
  end.

(** [print(s)] *)
Definition println (s : string) : string := s +:+ nl.

(** ** Messages on stderr *)

(** U+26A0 U+FE0F, the warning sign of lines 34 and 38 of phase 1. *)
Definition warning_sign : string :=
  String (Ascii.ascii_of_nat 226) (String (Ascii.ascii_of_nat 154) (String (Ascii.ascii_of_nat 160)
  (String (Ascii.ascii_of_nat 239) (String (Ascii.ascii_of_nat 184) (String (Ascii.ascii_of_nat 143) ""))))).

(** [json.dumps({"success": False, "error": text})] *)
Definition error_json (text : string) : string :=
  json_dumps (VDict [("success", VBool false); ("error", VStr text)]).

(** The usage line of a phase 2 command (lines 428, 437, 445). *)
Definition usage_line (command : string) : string :=
  "Usage: task_manager_phase2.py " +:+ command +:+
  (if String.eqb command "mark-progress" then " <task_id> <progress> [notes]"
   else if String.eqb command "log-time" then " <task_id> <minutes> [notes]"
   else " <task_id> <reason>").

Definition render_message (m : message) : string :=
  println match m with
  | MsgTaskNotFound id => error_json ("Task not found: " +:+ id)
  | MsgGoalNotFound g => error_json ("Goal not found: " +:+ g)
  | MsgProgressRange => error_json "Progress must be 0-100"
  | MsgNotRecurring => error_json "Task is not recurring"
  | MsgIncomplete p =>
      error_json ("Task must be 100% complete before creating next occurrence (current: " +:+
                  py_str p +:+ "%)")
  | MsgSchemaInvalid => warning_sign +:+ " tasks.json schema invalid, recovering to empty state"
  | MsgCorrupted e =>
      warning_sign +:+ " tasks.json corrupted: " +:+ e +:+ ". Using empty state. Backup at tasks.json.bak"
  | MsgUsage c => usage_line c
  | MsgUnknownCommand c => "Unknown command: " +:+ c
  end.

(** ** The report of the health check *)

(** [x] to the nearest integer, half to even, for [x = m * 2 ^ e]. *)
Definition round_half_even (m e : Z) : Z :=
  if 0 <=? e then m * 2 ^ e
  else
    let d := 2 ^ (- e) in
    let q := m / d in
    let r := m mod d in
    match Z.compare (2 * r) d with
    | Lt => q
    | Gt => q + 1
    | Eq => if Z.even q then q else q + 1
    end.

(** [format(x, ".1f")]: [x] correctly rounded to one decimal. *)
Definition fixed1 (v : val) : string :=
  match v with
  | VInt z => pretty z +:+ ".0"
  | VFloat f =>
      match Prim2SF f with
      | S754_zero s => if s then "-0.0" else "0.0"
      | S754_infinity s => if s then "-inf" else "inf"
      | S754_nan => "nan"
      | S754_finite s m e =>
          let k := round_half_even (Z.pos m * 10) e in
          (if s then "-" else "") +:+ pretty (k / 10) +:+ "." +:+ pretty (k mod 10)
      end
  | _ => py_str v
  end.

(** The f-strings of lines 334, 340, 346, 353 and 359. *)
Definition issue_text (i : issue) : string :=
  match i with
  | IssOrphaned id => "Orphaned recurring task: " +:+ py_str id
  | IssImpossible id p => "Impossible state: " +:+ py_str id +:+ " completed but progress=" +:+ py_str p +:+ "%"
  | IssNoCompletedAt id => "Inconsistent completion: " +:+ py_str id +:+ " status=completed but no completed_at"
  | IssTimeAnomaly id a e r =>
      "Time anomaly: " +:+ py_str id +:+ " actual=" +:+ py_str a +:+ "m vs estimate=" +:+ py_str e +:+
      "m (" +:+ fixed1 r +:+ "x)"
  | IssBadDate id c => "Bad date: " +:+ py_str id +:+ " completed_at=" +:+ py_str c +:+ " is in future"
  end.

(** The f-strings of lines 336, 342, 348 and 361. *)
Definition repair_text (f : repair) : string :=
  match f with
  | FixRecurring id => "Removed recurring flag from " +:+ py_str id
  | FixProgress id => "Set progress=100% for completed task " +:+ py_str id
  | FixCompletedAt id => "Added completed_at timestamp to " +:+ py_str id
  | FixDate id => "Reset completed_at for " +:+ py_str id
  end.

(** [result] of lines 374-380. *)
Definition health_result (iss : list issue) (fs : list repair) : val :=
  VDict [("success", VBool true);
         ("health_status", VStr (if bool_decide (iss = []) then "healthy" else "issues_found"));
         ("issues", VList (map (fun i => VStr (issue_text i)) iss));
         ("auto_fixes", VList (map (fun f => VStr (repair_text f)) fs));
         ("summary", VStr ("Found " +:+ pretty (Z.of_nat (length iss)) +:+ " issues, auto-fixed " +:+
                           pretty (Z.of_nat (length fs))))].

(** ** Results on stdout *)

Section Render.
(** The items of a task dictionary in its insertion order. *)
Context (items : obj -> list (string * val)).
(** [parser.print_help()] of phase 1, and [str(MEMORY_DIR)]. *)
Context (help_text memory_dir : string).

Definition task_val (t : obj) : val := VDict (items t).

Definition success (fields : list (string * val)) : val := VDict (("success", VBool true) :: fields).

(** The result object of each print of a result. *)
Definition result_val (o : output) : option val :=
  match o with
  | OutTask t => Some (success [("task", task_val t)])
  | OutTimeLog1 t m total var =>
      Some (success ([("task", task_val t); ("logged", VStr (pretty m +:+ " minutes"));
                      ("total_actual", total)] ++
                     match var with
                     | Some v => [("variance", VStr (py_str v +:+ "% vs estimate"))]
                     | None => []
                     end))
  | OutNext c n => Some (success [("completed", task_val c); ("next", task_val n)])
  | OutVelocity g c r d v e by_day =>
      Some (success [("goal_id", VStr g); ("completed", VInt (Z.of_nat c));
                     ("remaining", VInt (Z.of_nat r)); ("days_tracked", VInt (Z.of_nat d));
                     ("velocity_tasks_per_day", v); ("estimated_days_to_completion", e);
                     ("completions_by_day", VDict (map (fun '(k, n) => (k, VInt (Z.of_nat n))) by_day))])
  | OutProgress2 t old p =>
      Some (success [("task", task_val t);
                     ("progress_change", VStr (py_str old +:+ "% " +:+ arrow +:+ " " +:+ pretty p +:+ "%"))])
  | OutTimeLog2 t m total est vel =>
      Some (success [("task", task_val t); ("time_logged", VInt m); ("total_actual", total);
                     ("estimate", est); ("velocity", VStr (velocity_text vel))])
  | OutBlocked2 t old reason =>
      Some (success [("task", task_val t); ("status_change", VStr (py_str old +:+ " " +:+ arrow +:+ " blocked"));
                     ("reason", VStr reason)])
  | OutHealth iss fs => Some (health_result iss fs)
  | OutFlush f n =>
      Some (success [("message", VStr ("Buffer flushed to " +:+ memory_dir +:+ "/" +:+ f));
                     ("lines_flushed", VInt (Z.of_nat n))])
  | OutHelp | OutUsage => None
  end.

Definition render_output (o : output) : string :=
  match o with
  | OutHelp => help_text
  | OutUsage =>
      println "Usage: task_manager_phase2.py <command> [args]" +:+
      println "Commands: mark-progress, log-time, mark-blocked, health-check, flush-buffer"
  | _ => match result_val o with Some v => println (json_indent 0 v) | None => "" end
  end.

(** The text a run writes to each stream, in the order of its events. *)
Definition stdout_text (tr : list event) : string :=
  cat (map (fun e => match e with EvStdout o => render_output o | _ => "" end) tr).

Definition stderr_text (tr : list event) : string :=
  cat (map (fun e => match e with EvStderr m => render_message m | _ => "" end) tr).

End Render.

(** ** Trace predicates: runs that append only some kinds of events *)

(** Every appended event is one [ok] accepts. *)
Definition only (ok : event -> bool) (l : list event) : Prop := Forall (fun e => ok e = true) l.

Lemma only_snoc ok l e : ok e = true -> only ok l -> only ok (l ++ [e]).
Proof. intros He Hl. apply Forall_app. split; [done | by constructor]. Qed.

(** An exception: any postcondition, since it does not return. *)
Lemma tt_raise_any {A} tr0 P Q E e : (forall l, P l -> E l) -> ttriple tr0 P Q E (raise (A:=A) e).
Proof. intros HPE w (new & Ht & Hn). exists new. auto. Qed.

Lemma ttriple_weaken {A} tr0 P Q Q' E E' (m : PM A) :
  ttriple tr0 P Q E m -> (forall l, Q l -> Q' l) -> (forall l, E l -> E' l) -> ttriple tr0 P Q' E' m.
Proof.
  intros Hm HQ HE w Hw. specialize (Hm w Hw).
  destruct (m w) as [[a|e] w']; destruct Hm as (new & ? & ?); exists new; auto.
Qed.

Section Only.
Context (tr0 : list event) (ok : event -> bool) (E : list event -> Prop).
Hypothesis HE : forall l, only ok l -> E l.

Lemma on_emit e : ok e = true -> ttriple tr0 (only ok) (only ok) E (emit e).
Proof. intros He. apply ttriple_emit. intros. by apply only_snoc. Qed.
Lemma on_save s : ok (EvSave s) = true -> ttriple tr0 (only ok) (only ok) E (save_data s).
Proof. intros He. apply ttriple_save. intros. by apply only_snoc. Qed.
Lemma on_raise {A} Q e : ttriple tr0 (only ok) Q E (raise (A:=A) e).
Proof. by apply tt_raise_any. Qed.

(** An error message, then the exit: the message is the last event. *)
Lemma on_fail_with {A} Q m :
  (forall l, only ok l -> E (l ++ [EvStderr m])) -> ttriple tr0 (only ok) Q E (fail_with (A:=A) m).
Proof.
  intros Hm. eapply ttriple_bind with (R := fun l => exists l', l = l' ++ [EvStderr m] /\ only ok l').
  - apply ttriple_emit. intros l Hl. by exists l.
  - intros. apply tt_raise_any. intros ? (l' & -> & Hl'). by apply Hm.
Qed.

Lemma on_appends {A} (m : PM A) e : ok e = true -> returns m ->
  (forall w, w_trace (snd (m w)) = w_trace w ++ [e]) -> ttriple tr0 (only ok) (only ok) E m.
Proof. intros He Hr Hm. apply (ttriple_appends _ _ _ _ _ [e]); [done | done | intros; by apply only_snoc]. Qed.

Lemma on_append_wal f e : ok (EvWal f e) = true -> ttriple tr0 (only ok) (only ok) E (append_wal f e).
Proof. intros. apply (on_appends _ (EvWal f e)); [done | by eexists | done]. Qed.
Lemma on_append_line l : ok (EvBuffer l) = true -> ttriple tr0 (only ok) (only ok) E (append_buffer_line l).
Proof. intros. apply (on_appends _ (EvBuffer l)); [done | by eexists | done]. Qed.
Lemma on_write_session sn : ok (EvSession sn) = true -> ttriple tr0 (only ok) (only ok) E (write_session sn).
Proof. intros. apply (on_appends _ (EvSession sn)); [done | by eexists | done]. Qed.
Lemma on_append_daily f t : ok (EvDaily f t) = true -> ttriple tr0 (only ok) (only ok) E (append_daily f t).
Proof. intros. apply (on_appends _ (EvDaily f t)); [done | by eexists | done]. Qed.
Lemma on_clear_buffer : ok EvBufferClear = true -> ttriple tr0 (only ok) (only ok) E clear_buffer.
Proof. intros. apply (on_appends _ EvBufferClear); [done | by eexists | done]. Qed.

(** Phase 1 [load_data]: its warnings and the backup. *)
Lemma on_load_data1 :
  ok (EvStderr MsgSchemaInvalid) = true -> (forall e, ok (EvStderr (MsgCorrupted e)) = true) ->
  ok EvBackup = true -> ttriple tr0 (only ok) (only ok) E load_data1.
Proof.
  intros H1 H2 H3. apply ttriple_mget. intros w0.
  destruct (w_data w0) as [[[]| |]|]; try apply ttriple_ret; try apply on_raise;
    (eapply ttriple_bind; [by apply on_emit | intros]); try apply ttriple_ret.
  eapply ttriple_bind; [apply ttriple_backup; intros; by apply only_snoc | intros; apply ttriple_ret].
Qed.

Lemma on_load_data2 : ttriple tr0 (only ok) (only ok) E load_data2.
Proof.
  apply ttriple_mget. intros w0. destruct (w_data w0) as [[[]| |]|];
    first [apply ttriple_ret | apply on_raise].
Qed.

Lemma on_lookup_task data id :
  (forall l, only ok l -> E (l ++ [EvStderr (MsgTaskNotFound id)])) ->
  ttriple tr0 (only ok) (only ok) E (lookup_task data id).
Proof.
  intros Hm. unfold lookup_task. eapply ttriple_bind; [by apply ttriple_lift | intros [[]|]];
    [apply ttriple_ret | by apply on_fail_with].
Qed.

Lemma on_status_is g t s : ttriple tr0 (only ok) (only ok) E (status_is g t s).
Proof.
  unfold status_is. destruct g; [|apply ttriple_ret].
  eapply ttriple_bind; [by apply ttriple_lift | intros; apply ttriple_ret].
Qed.

End Only.

(** The side conditions: an event [ok] accepts, [only ok] implies the
    exception condition, and an error message ends a run as the
    exception condition allows. *)
Ltac only_side :=
  first [ reflexivity
        | intros; reflexivity
        | intros ? ?; first [ assumption | by left ]
        | intros; apply only_snoc; [reflexivity | assumption]
        | intros; left; apply only_snoc; [reflexivity | assumption]
        | intros; right; eexists _, _; split; [reflexivity | split; [assumption | reflexivity]] ].

Create HintDb out discriminated.
#[export] Hint Resolve ttriple_now ttriple_generate_id ttriple_ret : out.
#[export] Hint Extern 2 (ttriple _ _ _ _ (emit _)) => eapply on_emit; only_side : out.
#[export] Hint Extern 1 (ttriple _ _ _ _ (save_data _)) => eapply on_save; only_side : out.
#[export] Hint Extern 1 (ttriple _ _ _ _ (fail_with _)) => eapply on_fail_with; only_side : out.
#[export] Hint Extern 1 (ttriple _ _ _ _ load_data1) => eapply on_load_data1; only_side : out.
#[export] Hint Extern 1 (ttriple _ _ _ _ load_data2) => eapply on_load_data2; only_side : out.
#[export] Hint Extern 1 (ttriple _ _ _ _ (lookup_task _ _)) => eapply on_lookup_task; only_side : out.
#[export] Hint Extern 1 (ttriple _ _ _ _ (status_is _ _ _)) => eapply on_status_is; only_side : out.
#[export] Hint Extern 1 (ttriple _ _ _ _ (append_wal _ _)) => eapply on_append_wal; only_side : out.
#[export] Hint Extern 1 (ttriple _ _ _ _ (append_buffer_line _)) => eapply on_append_line; only_side : out.
#[export] Hint Extern 1 (ttriple _ _ _ _ (write_session _)) => eapply on_write_session; only_side : out.
#[export] Hint Extern 1 (ttriple _ _ _ _ (append_daily _ _)) => eapply on_append_daily; only_side : out.
#[export] Hint Extern 1 (ttriple _ _ _ _ clear_buffer) => eapply on_clear_buffer; only_side : out.
#[export] Hint Extern 1 (ttriple _ _ _ _ (lift _)) => apply ttriple_lift; only_side : out.

(** Walk a handler: every step but the last keeps the precondition. *)
Ltac out_vcg :=
  repeat match goal with
  | |- ttriple _ _ _ _ _ => solve [eauto with out]
  | |- ttriple _ _ _ _ (mbind mget _) => apply ttriple_mget; intros ?
  | |- ttriple _ ?P _ _ (mbind _ _) => eapply ttriple_bind with (R := P); [|intros ?]
  | |- ttriple _ _ _ _ (let _ := _ in _) => cbv zeta
  | |- ttriple _ _ _ _ (if ?b then _ else _) => destruct b
  | |- ttriple _ _ _ _ (match ?o with _ => _ end) => destruct o
  end.

(** ** What a run prints on stdout *)

(** The results a list of events prints, in order. *)
Definition outs (l : list event) : list output :=
  omap (fun e => match e with EvStdout o => Some o | _ => None end) l.

Definition is_out (e : event) : bool := match e with EvStdout _ => true | _ => false end.

(** Nothing printed on stdout. *)
Notation noout := (only (fun e => negb (is_out e))).

(** Exactly one print, of an output [ok] allows. *)
Definition printed_by (ok : output -> Prop) (l : list event) : Prop := exists o, outs l = [o] /\ ok o.

(** A result object: neither the help text nor the usage lines. *)
Definition result_out (o : output) : Prop := o <> OutHelp /\ o <> OutUsage.

Lemma outs_snoc l e : outs (l ++ [e]) = outs l ++ (if is_out e then outs [e] else []).
Proof. unfold outs. rewrite omap_app. by destruct e. Qed.

Lemma noout_outs l : noout l -> outs l = [].
Proof. induction 1 as [|e l He _ IH]; [done|]. by destruct e. Qed.

Lemma no_print tr0 (ok : output -> Prop) o : ok o -> ttriple tr0 noout (printed_by ok) noout (emit (EvStdout o)).
Proof. intros Ho. apply ttriple_emit. intros l Hl. exists o. by rewrite outs_snoc, (noout_outs _ Hl). Qed.

#[export] Hint Extern 1 (ttriple _ _ _ _ (emit (EvStdout _))) => apply no_print; cbn beta; repeat split; discriminate : out.

Lemma run1_out_triple tr0 c : ttriple tr0 noout (printed_by (fun o => o <> OutUsage)) noout (run1 c).
Proof.
  destruct c; simpl;
    unfold mark_progress, mark_blocked, unblock_task, log_time, create_recurring, next_recurring,
      show_velocity; out_vcg.
Qed.

Lemma stdout_outs items help mdir l :
  stdout_text items help mdir l = cat (map (render_output items help mdir) (outs l)).
Proof. unfold stdout_text. induction l as [|[] l IH]; simpl; rewrite ?IH; done. Qed.

Lemma result_val_success items mdir o :
  o <> OutHelp -> o <> OutUsage -> exists fields, result_val items mdir o = Some (success fields).
Proof. destruct o; intros; try congruence; eexists; reflexivity. Qed.

Lemma render_output_result items help mdir o : o <> OutHelp -> o <> OutUsage ->
  render_output items help mdir o = match result_val items mdir o with Some v => println (json_indent 0 v) | None => "" end.
Proof. by destruct o. Qed.

Lemma printed_result_text items help mdir l : printed_by result_out l ->
  exists fields, stdout_text items help mdir l = println (json_indent 0 (success fields)).
Proof.
  intros (o & Ho & Hh & Hu). rewrite stdout_outs, Ho. cbn [map cat foldr]. rewrite sapp_nil_r.
  destruct (result_val_success items mdir o Hh Hu) as [f Hf]. exists f.
  by rewrite render_output_result, Hf.
Qed.

Lemma printed_text items help mdir l : printed_by (fun o => o <> OutUsage) l ->
  stdout_text items help mdir l = help \/
  exists fields, stdout_text items help mdir l = println (json_indent 0 (success fields)).
Proof.
  intros (o & Ho & Hu).
  assert (o = OutHelp \/ o <> OutHelp) as [->|Hh] by (destruct o; (by left) || (by right)).
  - left. rewrite stdout_outs, Ho. cbn [map cat foldr]. by rewrite sapp_nil_r.
  - right. apply printed_result_text. by exists o.
Qed.

Lemma noout_text items help mdir l : noout l -> stdout_text items help mdir l = "".
Proof. intros Hl. by rewrite stdout_outs, (noout_outs _ Hl). Qed.

(** C20: every phase 1 command, from any world: when it returns it has
    written exactly one thing on stdout, [print(json.dumps(result,
    indent=2))] of an object whose first key is ["success"] with value
    [true], or argparse's help text when no command is given; when it
    stops with an exception (exit 1 after an error message, or an
    uncaught one) it has written nothing on stdout (spec §4: each
    operation prints a structured result object on success). *)
Theorem run1_stdout (c : cmd1) (w : world) items help mdir :
  exists new, w_trace (snd (run1 c w)) = w_trace w ++ new /\
    match fst (run1 c w) with
    | Ret _ => stdout_text items help mdir new = help \/
               exists fields, stdout_text items help mdir new = println (json_indent 0 (success fields))
    | Exc _ => stdout_text items help mdir new = ""
    end.
Proof.
  assert (extends (w_trace w) noout w) as Hw by (exists []; split; [by rewrite app_nil_r | constructor]).
  pose proof (run1_out_triple (w_trace w) c w Hw) as H.
  destruct (run1 c w) as [[u|e] w']; destruct H as (new & Ht & Hn); exists new;
    (split; [done|]); [by apply printed_text | by apply noout_text].
Qed.

(** ** What a phase 2 run prints on stdout *)

Lemma no_phase2_helpers tr0 :
  (forall ty c, ttriple tr0 noout noout noout (log_to_wal ty c)) /\
  (forall ty d, ttriple tr0 noout noout noout (append_to_buffer ty d)) /\
  (forall data t a, ttriple tr0 noout noout noout (session_for data t a)).
Proof.
  split; [|split]; intros;
    unfold log_to_wal, append_to_buffer, session_for, update_session_state; out_vcg.
Qed.

#[export] Hint Extern 1 (ttriple _ _ _ _ (log_to_wal _ _)) => apply no_phase2_helpers : out.
#[export] Hint Extern 1 (ttriple _ _ _ _ (append_to_buffer _ _)) => apply no_phase2_helpers : out.
#[export] Hint Extern 1 (ttriple _ _ _ _ (session_for _ _ _)) => apply no_phase2_helpers : out.

Lemma no_check_tasks tr0 ts : ttriple tr0 noout noout noout (check_tasks ts).
Proof.
  induction ts as [|t ts IH]; simpl; [apply ttriple_ret|].
  unfold check_task, check_orphaned, check_completed_at, check_future; out_vcg.
Qed.

#[export] Hint Resolve no_check_tasks : out.

Lemma task_cmd2_out_triple tr0 c : ttriple tr0 noout (printed_by result_out) noout (run_task_cmd2 c).
Proof. destruct c; simpl; unfold mark_progress2, log_time2, mark_blocked2; out_vcg. Qed.

Lemma health_check_out_triple tr0 : ttriple tr0 noout (printed_by result_out) noout health_check.
Proof. unfold health_check; out_vcg. Qed.

(** Without a buffer file, flush_working_buffer returns at once, silently. *)
Lemma flush_out_triple tr0 :
  ttriple tr0 noout (fun l => printed_by result_out l \/ noout l) noout flush_working_buffer.
Proof.
  unfold flush_working_buffer. apply ttriple_mget. intros w0. destruct (w_buffer w0).
  - eapply (ttriple_post _ _ (printed_by result_out)); [out_vcg | by left].
  - eapply ttriple_post; [apply ttriple_ret | by right].
Qed.

(** [python task_manager_phase2.py] without a command prints the usage on
    stdout, then exits with status 1. *)
Lemma run2_no_command w : run2 C2NoCommand w = (Exc (SystemExit 1), log_event (EvStdout OutUsage) w).
Proof. reflexivity. Qed.

(** Without a buffer file, [flush-buffer] returns at once: exit 0, nothing
    printed. *)
Lemma flush_no_buffer w : w_buffer w = None -> flush_working_buffer w = (Ret tt, w).
Proof. intros Hb. unfold flush_working_buffer, mbind, mget. by rewrite Hb. Qed.

Lemma run2_out_triple tr0 c :
  ttriple tr0 noout (fun l => printed_by result_out l \/ (c = C2FlushBuffer /\ noout l))
    (fun l => noout l \/ (c = C2NoCommand /\ outs l = [OutUsage])) (run2 c).
Proof.
  destruct c as [id p n|id m n|id r| | |name|]; simpl; try destruct (String.eqb id "");
    try (unfold usage_exit; eapply on_fail_with; only_side).
  - eapply ttriple_weaken; [apply (task_cmd2_out_triple _ (CMarkProgress2 id p n)) | by left | by left].
  - eapply ttriple_weaken; [apply (task_cmd2_out_triple _ (CLogTime2 id m n)) | by left | by left].
  - eapply ttriple_weaken; [apply (task_cmd2_out_triple _ (CMarkBlocked2 id r)) | by left | by left].
  - eapply ttriple_weaken; [apply health_check_out_triple | by left | by left].
  - eapply ttriple_weaken; [apply flush_out_triple | intros ? [|]; [by left | by right] | by left].
  - eapply ttriple_bind with (R := fun l => outs l = [OutUsage]).
    + apply ttriple_emit. intros l Hl. by rewrite outs_snoc, (noout_outs _ Hl).
    + intros. apply tt_raise_any. intros l Hl. by right.
Qed.

(** C18: every phase 2 invocation, from any world: when it returns it has
    written on stdout one result object whose first key is ["success"]
    with value [true], except [flush-buffer] without a buffer file, which
    prints nothing (line 390); when it stops with an exception it has
    written nothing on stdout, except without a command, where the usage
    lines go to stdout (lines 417-418) before the exit with status 1
    (spec §4: a failing operation prints a structured error object to
    the error stream). *)
Theorem run2_stdout (c : cmd2) (w : world) items help mdir :
  exists new, w_trace (snd (run2 c w)) = w_trace w ++ new /\
    match fst (run2 c w) with
    | Ret _ => (exists fields, stdout_text items help mdir new = println (json_indent 0 (success fields))) \/
               (c = C2FlushBuffer /\ stdout_text items help mdir new = "")
    | Exc _ => stdout_text items help mdir new = "" \/
               (c = C2NoCommand /\ stdout_text items help mdir new = render_output items help mdir OutUsage)
    end.
Proof.
  assert (extends (w_trace w) noout w) as Hw by (exists []; split; [by rewrite app_nil_r | constructor]).
  pose proof (run2_out_triple (w_trace w) c w Hw) as H.
  destruct (run2 c w) as [[u|e] w']; destruct H as (new & Ht & Hn); exists new; (split; [done|]).
  - destruct Hn as [Hp|[-> Hn]]; [left; by apply printed_result_text | right; split; [done | by apply noout_text]].
  - destruct Hn as [Hn|[-> Hn]]; [left; by apply noout_text | right; split; [done|]].
    rewrite stdout_outs, Hn. cbn [map cat foldr]. by rewrite sapp_nil_r.
Qed.

(** ** What a phase 1 run prints on stderr *)

(** The two warnings of phase 1 [load_data] (lines 34 and 38). *)
Definition is_warning (m : message) : bool :=
  match m with MsgSchemaInvalid | MsgCorrupted _ => true | _ => false end.

(** The errors printed as [json.dumps({"success": False, "error": ...})]. *)
Definition is_error_object (m : message) : bool :=
  match m with
  | MsgTaskNotFound _ | MsgGoalNotFound _ | MsgProgressRange | MsgNotRecurring | MsgIncomplete _ => true
  | _ => false
  end.

(** No stderr line but a warning. *)
Definition quiet_ev (e : event) : bool := match e with EvStderr m => is_warning m | _ => true end.

(** Quiet, or quiet up to one error object that ends the run. *)
Definition err_last (l : list event) : Prop :=
  only quiet_ev l \/ exists pre m, l = pre ++ [EvStderr m] /\ only quiet_ev pre /\ is_error_object m = true.

(** The messages a list of events prints on stderr, in order. *)
Definition errs (l : list event) : list message :=
  omap (fun e => match e with EvStderr m => Some m | _ => None end) l.

Lemma quiet_errs l : only quiet_ev l -> Forall (fun m => is_warning m = true) (errs l).
Proof. induction 1 as [|e l He _ IH]; [constructor|]. destruct e; simpl in *; try constructor; done. Qed.

Lemma error_object_json m : is_error_object m = true -> exists text, render_message m = println (error_json text).
Proof. destruct m; try discriminate; eexists; reflexivity. Qed.

Lemma run1_err_triple tr0 c : ttriple tr0 (only quiet_ev) (only quiet_ev) err_last (run1 c).
Proof.
  destruct c; simpl;
    unfold mark_progress, mark_blocked, unblock_task, log_time, create_recurring, next_recurring,
      show_velocity; out_vcg.
Qed.

(** C28: every phase 1 command, from any world, prints on stderr only the
    warnings of [load_data] and at most one error, the one-line
    [json.dumps({"success": False, "error": text})] of lines 73-213: a
    run that returns prints no error, and a run that raises has either
    printed none (an uncaught exception) or printed one as its very last
    event, with no save or print after it (spec §4 and §6: a failure
    prints a structured error object on the error stream and mutates
    nothing after it). *)
Theorem run1_stderr (c : cmd1) (w : world) :
  exists new, w_trace (snd (run1 c w)) = w_trace w ++ new /\
    match fst (run1 c w) with
    | Ret _ => Forall (fun m => is_warning m = true) (errs new)
    | Exc _ => Forall (fun m => is_warning m = true) (errs new) \/
               exists pre m text, new = pre ++ [EvStderr m] /\
                 Forall (fun m => is_warning m = true) (errs pre) /\
                 render_message m = println (error_json text)
    end.
Proof.
  assert (extends (w_trace w) (only quiet_ev) w) as Hw by (exists []; split; [by rewrite app_nil_r | constructor]).
  pose proof (run1_err_triple (w_trace w) c w Hw) as H.
  destruct (run1 c w) as [[u|e] w']; destruct H as (new & Ht & Hn); exists new; (split; [done|]).
  - by apply quiet_errs.
  - destruct Hn as [Hn|(pre & m & -> & Hpre & Hm)]; [left; by apply quiet_errs | right].
    destruct (error_object_json m Hm) as [text Ht']. exists pre, m, text. split; [done|].
    split; [by apply quiet_errs | exact Ht'].
Qed.

(** ** Samples checked against CPython 3

    The bytes below are those CPython prints for the same results. *)

Definition codes (s : string) : list nat := map Ascii.nat_of_ascii (String.list_ascii_of_string s).

Definition sample_items (_ : obj) : list (string * val) :=
  [("id", VStr "a"); ("tags", VList []); ("meta", VDict [("x", VList [VInt 1; VFloat 2.5%float])]);
   ("e", VDict [])].

Example render_task_sample :
  codes (render_output sample_items "" "/m" (OutTask empty)) =
  [123; 10; 32; 32; 34; 115; 117; 99; 99; 101; 115; 115; 34; 58; 32; 116; 114; 117; 101; 44; 10; 32; 32; 34; 116; 97; 115; 107; 34; 58; 32; 123; 10; 32; 32; 32; 32; 34; 105; 100; 34; 58; 32; 34; 97; 34; 44; 10; 32; 32; 32; 32; 34; 116; 97; 103; 115; 34; 58; 32; 91; 93; 44; 10; 32; 32; 32; 32; 34; 109; 101; 116; 97; 34; 58; 32; 123; 10; 32; 32; 32; 32; 32; 32; 34; 120; 34; 58; 32; 91; 10; 32; 32; 32; 32; 32; 32; 32; 32; 49; 44; 10; 32; 32; 32; 32; 32; 32; 32; 32; 50; 46; 53; 10; 32; 32; 32; 32; 32; 32; 93; 10; 32; 32; 32; 32; 125; 44; 10; 32; 32; 32; 32; 34; 101; 34; 58; 32; 123; 125; 10; 32; 32; 125; 10; 125; 10]%nat.
Proof. vm_compute. reflexivity. Qed.

Example render_not_found_sample :
  codes (render_message (MsgTaskNotFound ("x" +:+ dquote +:+ "y" +:+ char 195 +:+ char 169))) =
  [123; 34; 115; 117; 99; 99; 101; 115; 115; 34; 58; 32; 102; 97; 108; 115; 101; 44; 32; 34; 101; 114; 114; 111; 114; 34; 58; 32; 34; 84; 97; 115; 107; 32; 110; 111; 116; 32; 102; 111; 117; 110; 100; 58; 32; 120; 92; 34; 121; 92; 117; 48; 48; 101; 57; 34; 125; 10]%nat.
Proof. vm_compute. reflexivity. Qed.

Example fixed1_samples :
  map fixed1 [VFloat 2.25; VFloat 0.05; VFloat 13.333333333333334; VFloat 0.15; VFloat 1e20; VFloat (-0.04)]%float =
  ["2.2"; "0.1"; "13.3"; "0.1"; "100000000000000000000.0"; "-0.0"].
Proof. vm_compute. reflexivity. Qed.
